(** * The LVM2 device-identity registry: devices file, matcher, validator,
      rename search and multipath blacklist ingest.

    A shallow embedding of [lib/device/device_id.c] (kept in this tree as the
    second document of [src/tools/vgextend.c]) and of the blacklist reader of
    [src/lib/device/dev-mpath.c], with the properties of the specification
    stated and settled over it. *)

From Stdlib Require Import ZArith Ascii String List Lia Bool.
From stdpp Require Import base option list gmap strings.

Local Open Scope nat_scope.

(** ** C strings and the libc routines the code calls *)

Module CStr.

(** A C string is the list of its bytes before the terminator. *)
Definition cstring := list ascii.

(** A literal of the source. *)
Definition str (s : string) : cstring := list_ascii_of_string s.
#[global] Arguments str : simpl never.

Definition NUL : ascii := "000"%char.
Definition LF : ascii := "010"%char.
Definition SP : ascii := " "%char.
Definition DQUOTE : ascii := ascii_of_nat 34.

Definition ch_eqb (a b : ascii) : bool := Ascii.eqb a b.

(** What the str* functions see of a buffer: the bytes before the first NUL. *)
Fixpoint c_str (buf : list ascii) : cstring :=
  match buf with
  | [] => []
  | c :: r => if ch_eqb c NUL then [] else c :: c_str r
  end.

(** [strcmp(a, b) == 0] *)
Definition streq (a b : cstring) : bool := bool_decide (a = b).

(** [strncmp(s, lit, n) == 0] for [n = strlen(lit)]: [lit] is a prefix of [s]. *)
Fixpoint has_prefix (lit s : cstring) : bool :=
  match lit, s with
  | [], _ => true
  | _ :: _, [] => false
  | a :: lit', b :: s' => ch_eqb a b && has_prefix lit' s'
  end.

(** [strstr(hay, needle)]: the suffix of [hay] at the first occurrence. *)
Fixpoint strstr (hay needle : cstring) : option cstring :=
  if has_prefix needle hay then Some hay
  else match hay with
       | [] => None
       | _ :: r => strstr r needle
       end.

(** [strchr(s, c)]: the suffix of [s] at the first [c]. *)
Fixpoint strchr (s : cstring) (c : ascii) : option cstring :=
  match s with
  | [] => None
  | a :: r => if ch_eqb a c then Some s else strchr r c
  end.

(** [isspace] in the C locale: space, and [\t \n \v \f \r]. *)
Definition isspace (c : ascii) : bool :=
  let n := nat_of_ascii c in (n =? 32) || ((9 <=? n) && (n <=? 13)).

Definition isdigit (c : ascii) : bool :=
  let n := nat_of_ascii c in (48 <=? n) && (n <=? 57).

Definition digit_val (c : ascii) : Z := Z.of_nat (nat_of_ascii c) - 48.

(** The value of the longest run of decimal digits at the head of [s],
    continuing from [acc], and whether a digit was seen. *)
Fixpoint scan_digits (s : cstring) (acc : Z) (seen : bool) : Z * bool * cstring :=
  match s with
  | c :: r => if isdigit c then scan_digits r (acc * 10 + digit_val c) true
              else (acc, seen, s)
  | [] => (acc, seen, [])
  end.

Fixpoint skip_space (s : cstring) : cstring :=
  match s with
  | c :: r => if isspace c then skip_space r else s
  | [] => []
  end.

(** An optional sign: the rest and whether it was a minus. *)
Definition scan_sign (s : cstring) : bool * cstring :=
  match s with
  | c :: r => if ch_eqb c "-" then (true, r)
              else if ch_eqb c "+" then (false, r) else (false, s)
  | [] => (false, [])
  end.

Definition wrap32 (z : Z) : Z := z mod 2 ^ 32.
Definition wrap_int (z : Z) : Z := (z + 2 ^ 31) mod 2 ^ 32 - 2 ^ 31.

(** [atoi(s)] as glibc has it, [(int) strtol(s, NULL, 10)]: white space, a
    sign, digits; the long result saturates and is then cut to an int. *)
Definition atoi (s : cstring) : Z :=
  let '(neg, r) := scan_sign (skip_space s) in
  let '(v, _, _) := scan_digits r 0 false in
  let l := if neg then Z.max (- v) (- 2 ^ 63) else Z.min v (2 ^ 63 - 1) in
  wrap_int l.

(** One [%u] conversion of [sscanf] (glibc, through [strtoul]): white space,
    a sign, at least one digit.  A value over [ULONG_MAX] reads as
    [ULONG_MAX] whatever the sign; any other value is negated after a minus,
    as an unsigned long.  The result is cut to 32 bits. *)
Definition scan_u (s : cstring) : option (Z * cstring) :=
  let '(neg, r) := scan_sign (skip_space s) in
  let '(v, seen, rest) := scan_digits r 0 false in
  if seen then
    Some (wrap32 (if (2 ^ 64 - 1 <? v)%Z then 2 ^ 64 - 1
                  else if neg then - v else v), rest)
  else None.

(** A literal character of a [sscanf] format. *)
Definition scan_lit (c : ascii) (s : cstring) : option cstring :=
  match s with
  | a :: r => if ch_eqb a c then Some r else None
  | [] => None
  end.

(** [sscanf(s, "%u.%u.%u", &a, &b, &c) == 3], with the three values. *)
Definition sscanf_u_u_u (s : cstring) : option (Z * Z * Z) :=
  match scan_u s with
  | Some (a, r1) =>
      match scan_lit "." r1 with
      | Some r2 =>
          match scan_u r2 with
          | Some (b, r3) =>
              match scan_lit "." r3 with
              | Some r4 =>
                  match scan_u r4 with
                  | Some (c, _) => Some (a, b, c)
                  | None => None
                  end
              | None => None
              end
          | None => None
          end
      | None => None
      end
  | None => None
  end.

Definition digit_char (d : Z) : ascii := ascii_of_nat (48 + Z.to_nat d).

(** The decimal digits of a non-negative number, most significant first. *)
Fixpoint print_digits (fuel : nat) (n : Z) (acc : cstring) : cstring :=
  match fuel with
  | O => acc
  | S f =>
      let acc' := digit_char (n mod 10) :: acc in
      if (n <? 10)%Z then acc' else print_digits f (n / 10) acc'
  end.

(** [%u] of a 32-bit value and [%d] of an int; twenty digits are enough. *)
Definition print_u (n : Z) : cstring := print_digits 20 (wrap32 n) [].
Definition print_d (n : Z) : cstring :=
  if (n <? 0)%Z then "-"%char :: print_digits 20 (- n) [] else print_digits 20 n [].

(** [fgets(line, size, fp)] called until the end of the file: each line holds
    at most [size - 1] bytes and ends after a newline; [room] is what is left
    of the buffer for the line being read. *)
Fixpoint fgets_lines (size room : nat) (s : list ascii) : list (list ascii) :=
  match s with
  | [] => []
  | c :: r =>
      if ch_eqb c LF || (room <=? 1) then [c] :: fgets_lines size (size - 1) r
      else match fgets_lines size (room - 1) r with
           | [] => [[c]]
           | l :: ls => (c :: l) :: ls
           end
  end.

Definition file_lines (size : nat) (content : list ascii) : list (list ascii) :=
  fgets_lines size (size - 1) content.

End CStr.
Export CStr.

Definition PATH_MAX : nat := 4096.
Definition VERSION_LINE_MAX : nat := 256.
Definition DEVICES_FILE_MAJOR : Z := 1.
Definition DEVICES_FILE_MINOR : Z := 1.
#[global] Arguments PATH_MAX : simpl never.
#[global] Arguments VERSION_LINE_MAX : simpl never.

(** ** Identity kinds *)

(** Modelled from the spec: the [DEV_ID_TYPE_*] constants are declared in
    [lib/device/device.h], which is not under src/.  The specification gives
    a closed enumeration of eight kinds; [DEV_ID_TYPE_NONE] is the zero of a
    cleared [idtype] field, which [idtype_from_str] returns for an unknown
    tag. *)
Inductive idtype_t : Set :=
  | DEV_ID_TYPE_NONE
  | DEV_ID_TYPE_SYS_WWID
  | DEV_ID_TYPE_SYS_SERIAL
  | DEV_ID_TYPE_MPATH_UUID
  | DEV_ID_TYPE_CRYPT_UUID
  | DEV_ID_TYPE_LVMLV_UUID
  | DEV_ID_TYPE_MD_UUID
  | DEV_ID_TYPE_LOOP_FILE
  | DEV_ID_TYPE_DEVNAME.

#[global] Instance idtype_eq_dec : EqDecision idtype_t.
Proof. solve_decision. Defined.

Definition idtype_is (a b : idtype_t) : bool := bool_decide (a = b).

Definition idtype_to_str (idtype : idtype_t) : cstring :=
  if idtype_is idtype DEV_ID_TYPE_SYS_WWID then str "sys_wwid"
  else if idtype_is idtype DEV_ID_TYPE_SYS_SERIAL then str "sys_serial"
  else if idtype_is idtype DEV_ID_TYPE_DEVNAME then str "devname"
  else if idtype_is idtype DEV_ID_TYPE_MPATH_UUID then str "mpath_uuid"
  else if idtype_is idtype DEV_ID_TYPE_CRYPT_UUID then str "crypt_uuid"
  else if idtype_is idtype DEV_ID_TYPE_LVMLV_UUID then str "lvmlv_uuid"
  else if idtype_is idtype DEV_ID_TYPE_MD_UUID then str "md_uuid"
  else if idtype_is idtype DEV_ID_TYPE_LOOP_FILE then str "loop_file"
  else str "unknown".

Definition idtype_from_str (s : cstring) : idtype_t :=
  if streq s (str "sys_wwid") then DEV_ID_TYPE_SYS_WWID
  else if streq s (str "sys_serial") then DEV_ID_TYPE_SYS_SERIAL
  else if streq s (str "devname") then DEV_ID_TYPE_DEVNAME
  else if streq s (str "mpath_uuid") then DEV_ID_TYPE_MPATH_UUID
  else if streq s (str "crypt_uuid") then DEV_ID_TYPE_CRYPT_UUID
  else if streq s (str "lvmlv_uuid") then DEV_ID_TYPE_LVMLV_UUID
  else if streq s (str "md_uuid") then DEV_ID_TYPE_MD_UUID
  else if streq s (str "loop_file") then DEV_ID_TYPE_LOOP_FILE
  else DEV_ID_TYPE_NONE.

(** ** The data model *)

(** [dev_t] with the [MAJOR] and [MINOR] macros as projections. *)
Record dev_t := mk_dev_t { MAJOR : Z; MINOR : Z }.

#[global] Instance dev_t_eq_dec : EqDecision dev_t.
Proof. solve_decision. Defined.

(** [struct dev_id]: a cached identity of a device; an absent [idname] records
    that the device has no identity of that kind. *)
Record dev_id := mk_dev_id {
  id_idtype : idtype_t;
  id_idname : option cstring
}.

(** Devices are referred to by their handle in the device cache. *)
Definition dev_ref := nat.

(** [struct dev_use]: one entry of the devices file. *)
Record dev_use := mk_du {
  du_idtype : idtype_t;
  du_idname : option cstring;
  du_devname : option cstring;
  du_pvid : option cstring;
  du_part : Z;
  du_dev : option dev_ref
}.

(** [struct device], the fields the registry uses.  [dev_flags] is a bit set
    in the source; each bit the registry tests is a field here.  [dev_id_cur]
    is [dev->id], the position in [dev_ids] of the identity in use. *)
Record device := mk_device {
  dev_dev : dev_t;
  dev_aliases : list cstring;
  DEV_MATCHED_USE_ID : bool;
  DEV_SCAN_NOT_READ : bool;
  dev_filtered_flags : Z;
  dev_pvid : cstring;
  dev_ids : list dev_id;
  dev_id_cur : option nat
}.

(** [dev_name(dev)]: the first alias, or the placeholder of a device that has
    lost all its names. *)
Definition dev_name (d : device) : cstring :=
  match dev_aliases d with
  | a :: _ => a
  | [] => str "unknown"
  end.

Record dev_types_t := mk_dev_types {
  device_mapper_major : Z;
  md_major : Z;
  loop_major : Z
}.

Inductive log_level : Set := LOG_DEBUG | LOG_PRINT | LOG_WARN | LOG_ERROR.

#[global] Instance log_level_eq_dec : EqDecision log_level.
Proof. solve_decision. Defined.

(** A logged message: the level, the format of the call and its arguments. *)
Record log_entry := mk_log {
  log_lvl : log_level;
  log_fmt : string;
  log_args : list cstring
}.

(** [struct cmd_context], the fields the registry reads or writes. *)
Record cmd_context := mk_cmd {
  enable_devices_file : bool;
  enable_devices_list : bool;
  pending_devices_file : bool;
  create_edit_devices_file : bool;
  edit_devices_file : bool;
  devicesfile : option cstring;
  devices_file_path : cstring;
  system_dir : cstring;
  system_id : option cstring;
  cmd_name : cstring;
  use_devices : list dev_use;
  expect_missing_vg_device : bool;
  nolocking : bool;
  sysinit : bool;
  ignorelockingfailure : bool;
  ignore_device_name_mismatch : bool;
  search_for_devnames : cstring;
  dev_types : dev_types_t;
  locking_dir : option cstring;
  config_devicesfile : option cstring
}.

Definition LOCK_SH : Z := 1.
Definition LOCK_EX : Z := 2.

(** The file-scope variables of device_id.c. *)
Record globals := mk_globals {
  _devices_fd : Z;
  _using_devices_file : bool;
  _devices_file_locked : Z;
  _devices_lockfile : cstring;
  _devices_file_systemid : cstring;
  _devices_file_version : cstring
}.

(** The file system as the registry touches it: regular files by path, and
    what decides whether a call on a path succeeds. *)
Record filesys := mk_fs {
  files : gmap cstring (list ascii);
  can_create : cstring -> bool;
  can_open_dir : cstring -> bool;
  can_rename : cstring -> cstring -> bool;
  flock_others : cstring -> Z
}.

(** What the process learns from outside the registry. *)
Record environ := mk_env {
  test_mode : bool;
  lvmcache_vg_info_count : Z;
  getpid : Z;
  ctime_now : cstring;
  (* sysfs and the device nodes *)
  dm_sysfs_dir : cstring;
  get_sysfs_value : cstring -> cstring;
  stat_rdev : cstring -> option dev_t;
  (* the device cache and the device types *)
  dev_cache : list dev_ref;
  dev_cache_get_existing : cstring -> option dev_ref;
  dev_get_primary_dev : dev_ref -> Z * dev_t;
  dev_get_partition_number : dev_ref -> option Z;
  (* the filter chain and the label reader *)
  passes_filter : dev_ref -> option string -> bool;
  label_read_pvid : dev_ref -> option (option cstring);
  run_dir : cstring
}.

Record state := mk_state {
  cmd : cmd_context;
  glob : globals;
  fs : filesys;
  env : environ;
  devs : gmap dev_ref device;
  log : list log_entry
}.

Definition set_cmd (s : state) (c : cmd_context) : state :=
  mk_state c (glob s) (fs s) (env s) (devs s) (log s).
Definition set_glob (s : state) (g : globals) : state :=
  mk_state (cmd s) g (fs s) (env s) (devs s) (log s).
Definition set_fs (s : state) (f : filesys) : state :=
  mk_state (cmd s) (glob s) f (env s) (devs s) (log s).
Definition set_devs (s : state) (d : gmap dev_ref device) : state :=
  mk_state (cmd s) (glob s) (fs s) (env s) d (log s).
Definition add_log (s : state) (l : log_level) (f : string) (a : list cstring) : state :=
  mk_state (cmd s) (glob s) (fs s) (env s) (devs s) (log s ++ [mk_log l f a]).

Definition log_debug (f : string) (a : list cstring) (s : state) : state := add_log s LOG_DEBUG f a.
Definition log_print (f : string) (a : list cstring) (s : state) : state := add_log s LOG_PRINT f a.
Definition log_warn (f : string) (a : list cstring) (s : state) : state := add_log s LOG_WARN f a.
Definition log_error (f : string) (a : list cstring) (s : state) : state := add_log s LOG_ERROR f a.

(** The messages of a call that reads the state and only logs. *)
Definition add_logs (s : state) (es : list log_entry) : state :=
  mk_state (cmd s) (glob s) (fs s) (env s) (devs s) (log s ++ es).

Definition set_use_devices (c : cmd_context) (l : list dev_use) : cmd_context :=
  mk_cmd (enable_devices_file c) (enable_devices_list c) (pending_devices_file c)
    (create_edit_devices_file c) (edit_devices_file c) (devicesfile c)
    (devices_file_path c) (system_dir c) (system_id c) (cmd_name c) l
    (expect_missing_vg_device c) (nolocking c) (sysinit c) (ignorelockingfailure c)
    (ignore_device_name_mismatch c) (search_for_devnames c) (dev_types c)
    (locking_dir c) (config_devicesfile c).

Definition set_enable_devices_file (c : cmd_context) (b : bool) : cmd_context :=
  mk_cmd b (enable_devices_list c) (pending_devices_file c)
    (create_edit_devices_file c) (edit_devices_file c) (devicesfile c)
    (devices_file_path c) (system_dir c) (system_id c) (cmd_name c) (use_devices c)
    (expect_missing_vg_device c) (nolocking c) (sysinit c) (ignorelockingfailure c)
    (ignore_device_name_mismatch c) (search_for_devnames c) (dev_types c)
    (locking_dir c) (config_devicesfile c).

Definition set_systemid (g : globals) (v : cstring) : globals :=
  mk_globals (_devices_fd g) (_using_devices_file g) (_devices_file_locked g)
    (_devices_lockfile g) v (_devices_file_version g).
Definition set_version (g : globals) (v : cstring) : globals :=
  mk_globals (_devices_fd g) (_using_devices_file g) (_devices_file_locked g)
    (_devices_lockfile g) (_devices_file_systemid g) v.

Definition set_files (f : filesys) (m : gmap cstring (list ascii)) : filesys :=
  mk_fs m (can_create f) (can_open_dir f) (can_rename f) (flock_others f).

(** ** Reading the devices file *)

(** The [while] loops of [_copy_idline_str] advance [s] while [s < src + len];
    [room] is the number of bytes left before that bound. *)
Fixpoint skip_blanks (s : cstring) (room : nat) : cstring * nat :=
  match s, room with
  | c :: r, S room' => if ch_eqb c SP then skip_blanks r room' else (s, room)
  | _, _ => (s, room)
  end.

Fixpoint copy_token (s : cstring) (room : nat) : cstring :=
  match s, room with
  | c :: r, S room' =>
      if ch_eqb c SP || ch_eqb c LF then [] else c :: copy_token r room'
  | _, _ => []
  end.

(** [_copy_idline_str(src, dst, len)]: the string left in [dst]. *)
Definition _copy_idline_str (src : cstring) (len : nat) : cstring :=
  match strchr src "=" with
  | None => []
  | Some eq =>
      let off := length src - length eq + 1 in
      let '(s, room) := skip_blanks (drop 1 eq) (len - off) in
      take (len - 1) (copy_token s room)
  end.

(** A field value of an entry line: absent when empty or starting with a dot. *)
Definition field_value (buf : cstring) : option cstring :=
  match buf with
  | [] => None
  | c :: _ => if ch_eqb c "." then None else Some buf
  end.

(** The body of the entry part of the loop of [device_ids_read]: the entry a
    line gives, if it gives one.  Allocation is taken to succeed. *)
Definition read_entry_line (line : cstring) : option dev_use :=
  let idtype := strstr line (str "IDTYPE") in
  let idname := strstr line (str "IDNAME") in
  let devname := strstr line (str "DEVNAME") in
  let pvid := strstr line (str "PVID") in
  let part := strstr line (str "PART") in
  match idtype, idname with
  | Some p_idtype, Some p_idname =>
      let buf := _copy_idline_str p_idtype PATH_MAX in
      let du_idtype := match buf with [] => DEV_ID_TYPE_NONE | _ => idtype_from_str buf end in
      let du_idname := field_value (_copy_idline_str p_idname PATH_MAX) in
      let du_devname :=
        match devname with
        | Some p => field_value (_copy_idline_str p PATH_MAX)
        | None => None
        end in
      let du_pvid :=
        match pvid with
        | Some p => field_value (_copy_idline_str p PATH_MAX)
        | None => None
        end in
      let du_part :=
        match part with
        | Some p =>
            match field_value (_copy_idline_str p PATH_MAX) with
            | Some buf => atoi buf
            | None => 0%Z
            end
        | None => 0%Z
        end in
      Some (mk_du du_idtype du_idname du_devname du_pvid du_part None)
  | _, _ => None
  end.

(** One iteration of the [fgets] loop of [device_ids_read] on the bytes of one
    line. *)
Definition device_ids_read_line (s : state) (raw : list ascii) : state :=
  let line := c_str raw in
  if has_prefix (str "#") line then s
  else if has_prefix (str "SYSTEMID") line then
    let v := _copy_idline_str line PATH_MAX in
    let s := set_glob s (set_systemid (glob s) v) in
    let s := log_debug "read devices file systemid %s" [v] s in
    let unmatching :=
      match system_id (cmd s) with
      | None => negb (bool_decide (v = []))
      | Some id => negb (streq id v)
      end in
    if unmatching then
      log_warn "WARNING: devices file has unmatching system id %s vs local %s."
        [match v with [] => str "none" | _ => v end;
         match system_id (cmd s) with Some id => id | None => str "none" end] s
    else s
  else if has_prefix (str "VERSION") line then
    let v := _copy_idline_str line VERSION_LINE_MAX in
    let s := set_glob s (set_version (glob s) v) in
    log_debug "read devices file version %s" [v] s
  else
    match read_entry_line line with
    | Some du => set_cmd s (set_use_devices (cmd s) (use_devices (cmd s) ++ [du]))
    | None => s
    end.

(** [device_ids_read(cmd)]: the return value and the state it leaves. *)
Definition device_ids_read (s : state) : bool * state :=
  if negb (enable_devices_file (cmd s)) then (true, s)
  else match use_devices (cmd s) with
  | _ :: _ => (true, log_debug "device_ids_read already done" [] s)
  | [] =>
      let s := log_debug "device_ids_read %s" [devices_file_path (cmd s)] s in
      match files (fs s) !! devices_file_path (cmd s) with
      | None => (false, log_warn "Cannot open devices file to read." [] s)
      | Some content => (true, fold_left device_ids_read_line (file_lines PATH_MAX content) s)
      end
  end.

(** ** Writing the devices file *)

(** [dm_snprintf(buf, size, ...) < 0] of libdevmapper: the formatted text must
    fit the buffer with its terminator. *)
Definition dm_snprintf (size : nat) (text : cstring) : option cstring :=
  if length text <? size then Some text else None.

Definition bool_d (b : bool) : cstring := if b then str "1" else str "0".

Definition devices_file_exists (s : state) : bool :=
  match devices_file_path (cmd s) with
  | [] => false
  | _ => bool_decide (is_Some (files (fs s) !! devices_file_path (cmd s)))
  end.

(** [free_dus(&cmd->use_devices)] *)
Definition free_dus (s : state) : state := set_cmd s (set_use_devices (cmd s) []).

(** The device a handle stands for. *)
Definition get_dev (s : state) (h : dev_ref) : option device := devs s !! h.

(** The [DEVNAME] and [PVID] that [device_ids_write] prints for an entry. *)
Definition write_devname (s : state) (du : dev_use) : cstring :=
  let devname :=
    match du_dev du with
    | Some h => dev_name <$> get_dev s h
    | None => du_devname du
    end in
  match devname with
  | Some (c :: r) => if ch_eqb c "/" then c :: r else str "."
  | _ => str "."
  end.

Definition write_pvid (du : dev_use) : cstring :=
  match du_pvid du with
  | Some (c :: r) => if ch_eqb c "." then str "." else c :: r
  | _ => str "."
  end.

(** The line [device_ids_write] prints for an entry. *)
Definition entry_line (s : state) (du : dev_use) : cstring :=
  str "IDTYPE=" ++ idtype_to_str (du_idtype du)
  ++ str " IDNAME=" ++ default (str ".") (du_idname du)
  ++ str " DEVNAME=" ++ write_devname s du
  ++ str " PVID=" ++ write_pvid du
  ++ (if bool_decide (du_part du = 0%Z) then [] else str " PART=" ++ print_d (du_part du))
  ++ [LF].

(** The [VERSION=] text for the counter read, if it fits its buffer. *)
Definition version_text (df_counter : Z) : option cstring :=
  dm_snprintf VERSION_LINE_MAX
    (str "VERSION=" ++ print_u DEVICES_FILE_MAJOR ++ str "." ++ print_u DEVICES_FILE_MINOR
     ++ str "." ++ print_u (df_counter + 1)).

(** Everything [device_ids_write] prints into the temporary file.  [ctime]
    ends its text with a newline. *)
Definition file_text (s : state) (df_counter : Z) : list ascii :=
  str "# LVM uses devices listed in this file." ++ [LF]
  ++ str "# Created by LVM command " ++ cmd_name (cmd s) ++ str " pid "
  ++ print_d (getpid (env s)) ++ str " at " ++ ctime_now (env s) ++ [LF]
  ++ match system_id (cmd s) with
     | Some id => str "SYSTEMID=" ++ id ++ [LF]
     | None => []
     end
  ++ match version_text df_counter with
     | Some v => v ++ [LF]
     | None => []
     end
  ++ concat (map (entry_line s) (use_devices (cmd s))).

(** The outcome of the version check of [device_ids_write]: the counter to
    continue from, or the warning of the refusal. *)
Definition check_version (version : cstring) : Z + string :=
  match version with
  | [] => inl 0%Z
  | _ =>
      match sscanf_u_u_u version with
      | None => inr "WARNING: not updating devices file with unparsed version."%string
      | Some (df_major, _, df_counter) =>
          if (DEVICES_FILE_MAJOR <? df_major)%Z
          then inr "WARNING: not updating devices file with larger major version."%string
          else inl df_counter
      end
  end.

(** [device_ids_write] from [dm_snprintf(dirpath, ...)] on. *)
Definition device_ids_write_file (s : state) (df_counter : Z) : bool * state :=
  match dm_snprintf PATH_MAX (system_dir (cmd s) ++ str "/devices") with
  | None => (false, s)
  | Some dirpath =>
  match dm_snprintf PATH_MAX (devices_file_path (cmd s) ++ str "_new") with
  | None => (false, s)
  | Some tmppath =>
      let s := set_fs s (set_files (fs s) (delete tmppath (files (fs s)))) in
      if negb (can_create (fs s) tmppath) then
        (false, log_warn "Cannot open tmp devices_file to write." [] s)
      else
      let s := set_fs s (set_files (fs s) (<[tmppath := []]> (files (fs s)))) in
      if negb (can_open_dir (fs s) dirpath) then (false, s)
      else
      let text := file_text s df_counter in
      let version_buf := default [] (version_text df_counter) in
      let s := set_glob s (set_version (glob s) (_copy_idline_str version_buf VERSION_LINE_MAX)) in
      let s := set_fs s (set_files (fs s) (<[tmppath := text]> (files (fs s)))) in
      let '(ret, s) :=
        if can_rename (fs s) tmppath (devices_file_path (cmd s)) then
          (true, set_fs s (set_files (fs s)
                   (<[devices_file_path (cmd s) := text]> (delete tmppath (files (fs s))))))
        else
          (false, log_error "Failed to replace devices file errno %d" [] s) in
      (ret, log_debug "Wrote devices file %s" [version_buf] s)
  end
  end.

(** The condition under which [device_ids_write] may create the system
    devices file for the first PVs. *)
Definition implicit_create (s : state) : bool :=
  pending_devices_file (cmd s) && create_edit_devices_file (cmd s)
  && bool_decide (devicesfile (cmd s) = None) && negb (devices_file_exists s)
  && (has_prefix (str "pvcreate") (cmd_name (cmd s))
      || has_prefix (str "vgcreate") (cmd_name (cmd s))).

Definition device_ids_write (s : state) : bool * state :=
  if negb (enable_devices_file (cmd s)) && negb (pending_devices_file (cmd s)) then (true, s)
  else
  let file_exists := devices_file_exists s in
  let creating := implicit_create s in
  let s :=
    log_debug "device_ids_write create %d edit %d pending %d exists %d version %s devicesfile %s"
      [bool_d (create_edit_devices_file (cmd s)); bool_d (edit_devices_file (cmd s));
       bool_d (pending_devices_file (cmd s)); bool_d file_exists;
       match _devices_file_version (glob s) with [] => str "." | v => v end;
       default (str ".") (devicesfile (cmd s))] s in
  if creating && negb (bool_decide (lvmcache_vg_info_count (env s) = 0%Z)) then
    (true, free_dus (log_warn "Not creating system devices file due to existing VGs." [] s))
  else
  let s :=
    if creating then
      let s := log_warn "Creating devices file %s" [devices_file_path (cmd s)] s in
      set_cmd s (set_enable_devices_file (cmd s) true)
    else s in
  if test_mode (env s) then (true, s)
  else
  match check_version (_devices_file_version (glob s)) with
  | inr warning => (false, log_warn warning [] s)
  | inl df_counter => device_ids_write_file s df_counter
  end.

(** ** The lock on the devices file *)

Definition set_lock (g : globals) (fd : Z) (in_use : bool) (locked : Z) (lockfile : cstring)
  : globals :=
  mk_globals fd in_use locked lockfile (_devices_file_systemid g) (_devices_file_version g).

(** [flock(fd, op)] on [lockfile] succeeds at once when the locks other
    processes hold allow [mode]; a blocking call returns once they do. *)
Definition flock_grants (f : filesys) (lockfile : cstring) (mode : Z) (nonblock : bool) : bool :=
  let other := flock_others f lockfile in
  negb nonblock || bool_decide (other = 0%Z)
  || (bool_decide (other = LOCK_SH) && bool_decide (mode = LOCK_SH)).

(** The path of the lock file, when the configuration gives the lock
    directory and the name of the devices file. *)
Definition lock_path (c : cmd_context) : option cstring :=
  match locking_dir c with
  | Some lock_dir =>
      match (match devicesfile c with Some f => Some f | None => config_devicesfile c end) with
      | Some filename => Some (lock_dir ++ str "/D_" ++ filename)
      | None => None
      end
  | None => None
  end.

(** [_lock_devices_file(cmd, mode, nonblock, held)]: the return value, whether
    [*held] is set, and the state.  [open] of the lock file gives descriptor
    [fd]. *)
Definition _lock_devices_file (s : state) (mode : Z) (nonblock : bool) (fd : Z)
  : bool * bool * state :=
  if negb (enable_devices_file (cmd s)) || nolocking (cmd s) then (true, false, s)
  else
  let g := glob s in
  let s := set_glob s (set_lock g (_devices_fd g) true (_devices_file_locked g) (_devices_lockfile g)) in
  let g := glob s in
  if bool_decide (_devices_file_locked g = mode) then (true, true, s)
  else if negb (bool_decide (_devices_file_locked g = 0%Z)) then
    (false, false, log_warn "WARNING: devices file already locked %d" [print_d mode] s)
  else
  match lock_path (cmd s) with
  | None => (false, false, s)
  | Some path =>
  let s := set_glob s (set_lock g (_devices_fd g) true (_devices_file_locked g)
                         (take (PATH_MAX - 1) path)) in
  match dm_snprintf PATH_MAX path with
  | None => (false, false, s)
  | Some lockfile =>
  let g := glob s in
  if negb (bool_decide (_devices_fd g = (-1)%Z)) then
    (false, false, log_warn "WARNING: devices file lock file already open %d" [print_d (_devices_fd g)] s)
  else if negb (bool_decide (is_Some (files (fs s) !! lockfile))) && negb (can_create (fs s) lockfile) then
    (sysinit (cmd s) || ignorelockingfailure (cmd s), false,
     log_debug "lock_devices_file open errno %d" [] s)
  else
  let s :=
    match files (fs s) !! lockfile with
    | Some _ => s
    | None => set_fs s (set_files (fs s) (<[lockfile := []]> (files (fs s))))
    end in
  if flock_grants (fs s) lockfile mode nonblock then
    (true, false, set_glob s (set_lock g fd true mode (_devices_lockfile g)))
  else
    (sysinit (cmd s) || ignorelockingfailure (cmd s), false,
     log_debug "lock_devices_file flock errno %d" [] s)
  end
  end.

Definition lock_devices_file_try (s : state) (mode : Z) (fd : Z) : bool * bool * state :=
  _lock_devices_file s mode true fd.

Definition unlock_devices_file (s : state) : state :=
  let g := glob s in
  if negb (enable_devices_file (cmd s)) || nolocking (cmd s) || negb (_using_devices_file g)
  then s
  else if bool_decide (_devices_file_locked g = 0%Z) && sysinit (cmd s) then s
  else if bool_decide (_devices_fd g = (-1)%Z) then
    log_warn "WARNING: devices file unlock no fd" [] s
  else
  let s :=
    if bool_decide (_devices_file_locked g = 0%Z)
    then log_warn "WARNING: devices file unlock not locked" [] s else s in
  set_glob s (set_lock g (-1)%Z (_using_devices_file g) 0%Z (_devices_lockfile g)).

(** ** The best-effort update *)

(** The loop of [device_ids_version_unchanged] over the lines of the file:
    the first [VERSION] line decides. *)
Fixpoint first_version_line (lines : list (list ascii)) : option cstring :=
  match lines with
  | [] => None
  | raw :: rest =>
      let line := c_str raw in
      if has_prefix (str "#") line then first_version_line rest
      else if has_prefix (str "VERSION") line then Some (_copy_idline_str line VERSION_LINE_MAX)
      else first_version_line rest
  end.

Definition device_ids_version_unchanged (s : state) : bool * state :=
  match files (fs s) !! devices_file_path (cmd s) with
  | None => (false, log_warn "WARNING: cannot open devices file to read." [] s)
  | Some content =>
      match first_version_line (file_lines PATH_MAX content) with
      | Some version_buf =>
          (streq version_buf (_devices_file_version (glob s)),
           log_debug "check devices file version %s prev %s"
             [version_buf; _devices_file_version (glob s)] s)
      | None => (false, s)
      end
  end.

Definition _device_ids_update_try (s : state) (fd : Z) : state :=
  if expect_missing_vg_device (cmd s) then log_print "Devices file update skipped." [] s
  else
  let '(locked, held, s) := lock_devices_file_try s LOCK_EX fd in
  let s :=
    if negb locked then log_debug "Skip devices file update (busy)." [] s
    else
      let '(unchanged, s) := device_ids_version_unchanged s in
      if unchanged then snd (device_ids_write s)
      else log_debug "Skip devices file update (changed)." [] s in
  if negb held then unlock_devices_file s else s.

(** ** Reading an identity from sysfs *)

(** The path [%sdev/block/%d:%d/%s] that [read_sys_block] formats. *)
Definition sys_block_path (s : state) (devt : dev_t) (suffix : cstring) : cstring :=
  dm_sysfs_dir (env s) ++ str "dev/block/" ++ print_d (MAJOR devt) ++ str ":"
  ++ print_d (MINOR devt) ++ str "/" ++ suffix.

(** [read_sys_block(cmd, dev, suffix, sysbuf, sysbufsize)] reads the state
    and writes to the log only.  [read_sys_block] is what it leaves in
    [sysbuf]; the call returns 1 exactly when that is not empty.  A device
    without a value is tried again through its primary device.
    [read_sys_block_log] is what the call logs. *)
Definition read_sys_block (s : state) (h : dev_ref) (d : device) (suffix : cstring) : cstring :=
  match dm_snprintf PATH_MAX (sys_block_path s (dev_dev d) suffix) with
  | None => []
  | Some path =>
      match take (PATH_MAX - 1) (get_sysfs_value (env s) path) with
      | c :: r => c :: r
      | [] =>
          let '(ret, prim) := dev_get_primary_dev (env s) h in
          if bool_decide (ret = 2%Z) then
            match dm_snprintf PATH_MAX (sys_block_path s prim suffix) with
            | None => []
            | Some path => take (PATH_MAX - 1) (get_sysfs_value (env s) path)
            end
          else []
      end
  end.

(** The [log_error] of [read_sys_block] when the path does not fit. *)
Definition sysfs_path_failed (d : device) : log_entry :=
  mk_log LOG_ERROR "Failed to create sysfs path for %s" [dev_name d].

(** The [log_debug] of [read_sys_block] when the value comes from the
    primary device. *)
Definition using_primary (d : device) : log_entry :=
  mk_log LOG_DEBUG "Using primary device_id for partition %s." [dev_name d].

(** What [read_sys_block] logs: the error of a path that does not fit, on
    the first try or on the retry, and the debug line of a value found on the
    retry. *)
Definition read_sys_block_log (s : state) (h : dev_ref) (d : device) (suffix : cstring)
  : list log_entry :=
  match dm_snprintf PATH_MAX (sys_block_path s (dev_dev d) suffix) with
  | None => [sysfs_path_failed d]
  | Some path =>
      match take (PATH_MAX - 1) (get_sysfs_value (env s) path) with
      | _ :: _ => []
      | [] =>
          let '(ret, prim) := dev_get_primary_dev (env s) h in
          if bool_decide (ret = 2%Z) then
            match dm_snprintf PATH_MAX (sys_block_path s prim suffix) with
            | None => [sysfs_path_failed d]
            | Some path =>
                match take (PATH_MAX - 1) (get_sysfs_value (env s) path) with
                | _ :: _ => [using_primary d]
                | [] => []
                end
            end
          else []
      end
  end.

Definition isblank (c : ascii) : bool :=
  let n := nat_of_ascii c in (n =? 32) || (n =? 9).
Definition iscntrl (c : ascii) : bool :=
  let n := nat_of_ascii c in (n <? 32) || (n =? 127).

(** The loop of [device_id_system_read] that replaces blanks, white space and
    control characters by an underscore. *)
Definition underscore_blanks (sysbuf : cstring) : cstring :=
  map (fun c => if isblank c || isspace c || iscntrl c then "_"%char else c) sysbuf.

Definition contains (hay needle : cstring) : bool :=
  bool_decide (is_Some (strstr hay needle)).

(** [device_id_system_read(cmd, dev, idtype)] *)
Definition device_id_system_read (s : state) (h : dev_ref) (d : device) (idtype : idtype_t)
  : option cstring :=
  if idtype_is idtype DEV_ID_TYPE_DEVNAME then
    match dev_aliases d with
    | [] => None
    | _ => Some (dev_name d)
    end
  else
  let sysbuf :=
    if idtype_is idtype DEV_ID_TYPE_SYS_WWID then
      let b := read_sys_block s h d (str "device/wwid") in
      let b := match b with [] => read_sys_block s h d (str "wwid") | _ => b end in
      if contains b (str "QEMU HARDDISK") then [] else b
    else if idtype_is idtype DEV_ID_TYPE_SYS_SERIAL then read_sys_block s h d (str "device/serial")
    else if idtype_is idtype DEV_ID_TYPE_MPATH_UUID then read_sys_block s h d (str "dm/uuid")
    else if idtype_is idtype DEV_ID_TYPE_CRYPT_UUID then read_sys_block s h d (str "dm/uuid")
    else if idtype_is idtype DEV_ID_TYPE_LVMLV_UUID then read_sys_block s h d (str "dm/uuid")
    else if idtype_is idtype DEV_ID_TYPE_MD_UUID then read_sys_block s h d (str "md/uuid")
    else if idtype_is idtype DEV_ID_TYPE_LOOP_FILE then
      let b := read_sys_block s h d (str "loop/backing_file") in
      if contains b (str "(deleted)") then [] else b
    else [] in
  match underscore_blanks sysbuf with
  | [] => None
  | c :: r => Some (c :: r)
  end.

(** What [device_id_system_read] logs, by its calls of [read_sys_block].  The
    backtrace that [goto_bad] logs is left out. *)
Definition device_id_system_read_log (s : state) (h : dev_ref) (d : device) (idtype : idtype_t)
  : list log_entry :=
  if idtype_is idtype DEV_ID_TYPE_DEVNAME then []
  else if idtype_is idtype DEV_ID_TYPE_SYS_WWID then
    read_sys_block_log s h d (str "device/wwid")
    ++ match read_sys_block s h d (str "device/wwid") with
       | [] => read_sys_block_log s h d (str "wwid")
       | _ => []
       end
  else if idtype_is idtype DEV_ID_TYPE_SYS_SERIAL then read_sys_block_log s h d (str "device/serial")
  else if idtype_is idtype DEV_ID_TYPE_MPATH_UUID then read_sys_block_log s h d (str "dm/uuid")
  else if idtype_is idtype DEV_ID_TYPE_CRYPT_UUID then read_sys_block_log s h d (str "dm/uuid")
  else if idtype_is idtype DEV_ID_TYPE_LVMLV_UUID then read_sys_block_log s h d (str "dm/uuid")
  else if idtype_is idtype DEV_ID_TYPE_MD_UUID then read_sys_block_log s h d (str "md/uuid")
  else if idtype_is idtype DEV_ID_TYPE_LOOP_FILE then
    read_sys_block_log s h d (str "loop/backing_file")
  else [].

(** ** The matcher *)

Definition _idtype_compatible_with_major_number (c : cmd_context) (idtype : idtype_t) (major : Z)
  : bool :=
  if idtype_is idtype DEV_ID_TYPE_DEVNAME then true
  else if idtype_is idtype DEV_ID_TYPE_MPATH_UUID || idtype_is idtype DEV_ID_TYPE_CRYPT_UUID
          || idtype_is idtype DEV_ID_TYPE_LVMLV_UUID
  then bool_decide (major = device_mapper_major (dev_types c))
  else if idtype_is idtype DEV_ID_TYPE_MD_UUID then bool_decide (major = md_major (dev_types c))
  else if idtype_is idtype DEV_ID_TYPE_LOOP_FILE then bool_decide (major = loop_major (dev_types c))
  else if bool_decide (major = device_mapper_major (dev_types c)) then
    idtype_is idtype DEV_ID_TYPE_MPATH_UUID || idtype_is idtype DEV_ID_TYPE_CRYPT_UUID
    || idtype_is idtype DEV_ID_TYPE_LVMLV_UUID || idtype_is idtype DEV_ID_TYPE_DEVNAME
  else if bool_decide (major = md_major (dev_types c)) then
    idtype_is idtype DEV_ID_TYPE_MD_UUID || idtype_is idtype DEV_ID_TYPE_DEVNAME
  else if bool_decide (major = loop_major (dev_types c)) then
    idtype_is idtype DEV_ID_TYPE_LOOP_FILE || idtype_is idtype DEV_ID_TYPE_DEVNAME
  else true.

(** [_match_dm_devnames(cmd, dev, id, du)], with the two debug lines it
    logs; an identity without a name is printed as a dot. *)
Definition _match_dm_devnames (s : state) (d : device) (id : dev_id) (du : dev_use)
  : bool * state :=
  if negb (bool_decide (MAJOR (dev_dev d) = device_mapper_major (dev_types (cmd s)))) then (false, s)
  else
  match du_idname du with
  | None => (false, s)
  | Some du_name =>
      if match id_idname id with Some n => streq n du_name | None => false end then (true, s)
      else if streq du_name (dev_name d) then
        (true, log_debug "Match device_id %s %s to %s: ignoring idname %s"
                 [idtype_to_str (du_idtype du); du_name; dev_name d;
                  default (str ".") (id_idname id)] s)
      else if has_prefix (str "/dev/dm-") du_name || has_prefix (str "/dev/mapper/") du_name then
        match stat_rdev (env s) du_name with
        | None => (false, s)
        | Some rdev =>
            if bool_decide (MAJOR rdev = device_mapper_major (dev_types (cmd s)))
               && bool_decide (MINOR rdev = MINOR (dev_dev d))
            then
              (true, log_debug "Match device_id %s %s to %s: using other dm name, ignoring %s"
                       [idtype_to_str (du_idtype du); du_name; dev_name d;
                        default (str ".") (id_idname id)] s)
            else (false, s)
        end
      else (false, s)
  end.

Definition set_du_dev (du : dev_use) (h : option dev_ref) : dev_use :=
  mk_du (du_idtype du) (du_idname du) (du_devname du) (du_pvid du) (du_part du) h.

(** The three assignments of a match: [du->dev = dev], [dev->id = id] and
    [dev->flags |= DEV_MATCHED_USE_ID]; [ids] is the identity list of the
    device and [k] the position of [id] in it. *)
Definition link_du_dev (s : state) (i : nat) (h : dev_ref) (d : device)
    (ids : list dev_id) (k : nat) : state :=
  let d' := mk_device (dev_dev d) (dev_aliases d) true (DEV_SCAN_NOT_READ d)
              (dev_filtered_flags d) (dev_pvid d) ids (Some k) in
  let s := set_devs s (<[h := d']> (devs s)) in
  set_cmd s (set_use_devices (cmd s)
    (alter (fun du => set_du_dev du (Some h)) i (use_devices (cmd s)))).

Definition set_dev_ids (d : device) (ids : list dev_id) : device :=
  mk_device (dev_dev d) (dev_aliases d) (DEV_MATCHED_USE_ID d) (DEV_SCAN_NOT_READ d)
    (dev_filtered_flags d) (dev_pvid d) ids (dev_id_cur d).

(** The first identity of kind [idtype] on [dev->ids], with its position. *)
Fixpoint find_id (ids : list dev_id) (idtype : idtype_t) (k : nat) : option (nat * dev_id) :=
  match ids with
  | [] => None
  | id :: r => if idtype_is (id_idtype id) idtype then Some (k, id) else find_id r idtype (S k)
  end.

(** [_match_du_to_dev(cmd, du, dev)] for the entry at position [i] of
    [cmd->use_devices] and the device [h] of the cache. *)
Definition _match_du_to_dev (s : state) (i : nat) (h : dev_ref) : bool * state :=
  match use_devices (cmd s) !! i, get_dev s h with
  | Some du, Some d =>
      match du_idname du with
      | None => (false, s)
      | Some du_name =>
      if idtype_is (du_idtype du) DEV_ID_TYPE_NONE then (false, s)
      else if negb (_idtype_compatible_with_major_number (cmd s) (du_idtype du) (MAJOR (dev_dev d)))
      then (false, s)
      else
      match dev_get_partition_number (env s) h with
      | None => (false, s)
      | Some part =>
      if negb (bool_decide (part = du_part du)) then (false, s)
      else
      match find_id (dev_ids d) (du_idtype du) 0 with
      | Some (k, id) =>
          let '(dm_names, s) :=
            if idtype_is (id_idtype id) DEV_ID_TYPE_DEVNAME then _match_dm_devnames s d id du
            else (false, s) in
          if dm_names then
            (true, log_debug "Match device_id %s %s to %s: dm names"
                     [idtype_to_str (du_idtype du); du_name; dev_name d]
                     (link_du_dev s i h d (dev_ids d) k))
          else if match id_idname id with Some n => streq n du_name | None => false end then
            (true, log_debug "Match device_id %s %s to %s"
                     [idtype_to_str (du_idtype du); du_name; dev_name d]
                     (link_du_dev s i h d (dev_ids d) k))
          else (false, s)
      | None =>
          let idname := device_id_system_read s h d (du_idtype du) in
          let s := add_logs s (device_id_system_read_log s h d (du_idtype du)) in
          match idname with
          | None =>
              (false, set_devs s (<[h := set_dev_ids d (dev_ids d ++ [mk_dev_id (du_idtype du) None])]>
                                    (devs s)))
          | Some idname =>
              let ids := dev_ids d ++ [mk_dev_id (du_idtype du) (Some idname)] in
              if streq idname du_name then
                (true, log_debug "Match device_id %s %s to %s"
                         [idtype_to_str (du_idtype du); du_name; dev_name d]
                         (link_du_dev s i h d ids (length (dev_ids d))))
              else (false, set_devs s (<[h := set_dev_ids d ids]> (devs s)))
          end
      end
      end
      end
  | _, _ => (false, s)
  end.

(** ** The validator *)

Definition ID_LEN : nat := 32.
#[global] Arguments ID_LEN : simpl never.

(** [memcmp(a, b, ID_LEN) == 0] on two identifier strings.  The bytes after
    the terminator of a string shorter than [ID_LEN] compare as NUL, which is
    what the zero-filled [pvid] array of a device holds there. *)
Definition id_equal (a b : cstring) : bool :=
  bool_decide (take ID_LEN (a ++ replicate ID_LEN NUL) = take ID_LEN (b ++ replicate ID_LEN NUL)).

Definition set_du_pvid (du : dev_use) (p : option cstring) : dev_use :=
  mk_du (du_idtype du) (du_idname du) (du_devname du) p (du_part du) (du_dev du).
Definition set_du_devname (du : dev_use) (n : option cstring) : dev_use :=
  mk_du (du_idtype du) (du_idname du) n (du_pvid du) (du_part du) (du_dev du).

(** The undoing of a match on the entry: [du->idname = NULL; du->dev = NULL],
    with [du->devname] kept. *)
Definition unmatch_du (du : dev_use) : dev_use :=
  mk_du (du_idtype du) None (du_devname du) (du_pvid du) (du_part du) None.

(** ... and on the device: [dev->flags &= ~DEV_MATCHED_USE_ID; dev->id = NULL]. *)
Definition unmatch_dev (d : device) : device :=
  mk_device (dev_dev d) (dev_aliases d) false (DEV_SCAN_NOT_READ d)
    (dev_filtered_flags d) (dev_pvid d) (dev_ids d) None.

Definition update_du (s : state) (i : nat) (f : dev_use -> dev_use) : state :=
  set_cmd s (set_use_devices (cmd s) (alter f i (use_devices (cmd s)))).

(** The locals of [device_ids_validate], with [*device_ids_invalid]. *)
Record validate_acc := mk_vacc {
  v_state : state;
  wrong_devs : list dev_ref;
  checked : Z;
  update_file : bool;
  device_ids_invalid : bool
}.

Definition v_with (a : validate_acc) (s : state) : validate_acc :=
  mk_vacc s (wrong_devs a) (checked a) (update_file a) (device_ids_invalid a).

Definition dev_in_device_list (h : dev_ref) (l : list dev_ref) : bool := bool_decide (h ∈ l).

(** Whether the common checks of both loops let the validation of an entry
    matched to [d] go on: the device was scanned and could be read. *)
Definition was_scanned (scanned_devs : option (list dev_ref)) (h : dev_ref) (d : device) : bool :=
  match scanned_devs with
  | Some l => dev_in_device_list h l
  | None => true
  end && negb (DEV_SCAN_NOT_READ d).

(** The body of the first loop of [device_ids_validate], for the entry at
    position [i]: entries of a stable kind. *)
Definition validate_stable_entry (scanned_devs : option (list dev_ref)) (a : validate_acc)
    (i : nat) : validate_acc :=
  let s := v_state a in
  match use_devices (cmd s) !! i with
  | None => a
  | Some du =>
  match du_dev du with
  | None => a
  | Some h =>
  if idtype_is (du_idtype du) DEV_ID_TYPE_DEVNAME then a
  else
  match get_dev s h with
  | None => a
  | Some dev =>
  if negb (was_scanned scanned_devs h dev) then a
  else if negb (passes_filter (env s) h (Some "persistent"%string)) then
    v_with a (log_warn "Devices file %s is excluded: %s." [dev_name dev] s)
  else
  let a := mk_vacc s (wrong_devs a) (checked a + 1) (update_file a) (device_ids_invalid a) in
  let a :=
    match dev_pvid dev with
    | _ :: _ =>
        if match du_pvid du with Some p => negb (id_equal (dev_pvid dev) p) | None => true end
        then
          let s := log_warn "Device %s has PVID %s (devices file %s)"
                     [dev_name dev; dev_pvid dev; default (str "none") (du_pvid du)] (v_state a) in
          mk_vacc (update_du s i (fun du => set_du_pvid du (Some (dev_pvid dev))))
            (wrong_devs a) (checked a) true true
        else a
    | [] =>
        match du_pvid du with
        | Some p =>
            if has_prefix (str ".") p then a
            else
              let s := log_warn "Device %s has no PVID (devices file %s)" [dev_name dev; p]
                         (v_state a) in
              mk_vacc (update_du s i (fun du => set_du_pvid du None))
                (wrong_devs a) (checked a) true true
        | None => a
        end
    end in
  if ignore_device_name_mismatch (cmd s) then a
  else if match du_devname du with Some n => negb (streq (dev_name dev) n) | None => true end
  then
    let s := log_warn "Device %s has updated name (devices file %s)"
               [dev_name dev; default (str "none") (du_devname du)] (v_state a) in
    mk_vacc (update_du s i (fun du => set_du_devname du (Some (dev_name dev))))
      (wrong_devs a) (checked a) true true
  else a
  end
  end
  end.

(** The body of the second loop, for the entry at position [i]: entries of
    the device-name kind, where the PVID read from the device decides. *)
Definition validate_devname_entry (scanned_devs : option (list dev_ref)) (a : validate_acc)
    (i : nat) : validate_acc :=
  let s := v_state a in
  match use_devices (cmd s) !! i with
  | None => a
  | Some du =>
  match du_dev du with
  | None => a
  | Some h =>
  if negb (idtype_is (du_idtype du) DEV_ID_TYPE_DEVNAME) then a
  else
  match get_dev s h with
  | None => a
  | Some dev =>
  if negb (was_scanned scanned_devs h dev) then a
  else if bool_decide (dev_aliases dev = []) then a
  else if negb (passes_filter (env s) h (Some "persistent"%string)) then
    v_with a (log_warn "Devices file %s is excluded: %s." [dev_name dev] s)
  else
  match du_pvid du with
  | None => a
  | Some pvid =>
  if has_prefix (str ".") pvid then a
  else
  let a := mk_vacc s (wrong_devs a) (checked a + 1) (update_file a) (device_ids_invalid a) in
  if negb (bool_decide (dev_pvid dev = [])) && id_equal (dev_pvid dev) pvid then
    (* a good match based on pvid *)
    let devname := dev_name dev in
    if negb (bool_decide (du_idname du = Some devname)) then
      mk_vacc (log_error "du for pvid %s unexpected idname %s mismatch dev %s"
                 [pvid; default [] (du_idname du); devname] s)
        (wrong_devs a) (checked a) (update_file a) true
    else if match du_devname du with Some n => negb (streq devname n) | None => true end then
      let s := log_warn "Device %s has updated name (devices file %s)"
                 [devname; default (str "none") (du_devname du)] s in
      mk_vacc (update_du s i (fun du => set_du_devname du (Some devname)))
        (wrong_devs a) (checked a) true true
    else a
  else
    (* an incorrect match: undo it *)
    let s :=
      match dev_pvid dev with
      | _ :: _ => log_warn "Devices file PVID %s not found on device %s (device PVID %s)."
                    [pvid; dev_name dev; dev_pvid dev] s
      | [] => log_warn "Devices file PVID %s not found on device %s." [pvid; dev_name dev] s
      end in
    let s := update_du s i unmatch_du in
    let s := set_devs s (<[h := unmatch_dev dev]> (devs s)) in
    mk_vacc s (wrong_devs a ++ [h]) (checked a) true true
  end
  end
  end
  end.

Definition get_du_for_dev (s : state) (h : dev_ref) : option dev_use :=
  list_find (fun du => du_dev du = Some h) (use_devices (cmd s)) ≫= (fun p => Some (snd p)).

Definition searched_file (s : state) : cstring := run_dir (env s) ++ str "/searched_devnames".

Definition unlink_searched_devnames (s : state) : state :=
  match devicesfile (cmd s) with
  | Some _ => s
  | None =>
      match files (fs s) !! searched_file s with
      | None => log_debug "unlink %s errno %d" [searched_file s] s
      | Some _ =>
          log_debug "unlink %s" [searched_file s]
            (set_fs s (set_files (fs s) (delete (searched_file s) (files (fs s)))))
      end
  end.

(** The last loop of [device_ids_validate]: problems that only set
    [*device_ids_invalid]. *)
Definition entry_invalid (du : dev_use) : bool :=
  match du_idname du with
  | None => true
  | Some n => has_prefix (str ".") n
  end
  || (idtype_is (du_idtype du) DEV_ID_TYPE_DEVNAME
      && bool_decide (du_dev du = None) && bool_decide (is_Some (du_pvid du))).

(** The result of [device_ids_validate]: the state, [*device_ids_invalid],
    the devices recorded as wrongly matched, and those of them handed to
    [filter->wipe] and [lvmcache_del_dev]. *)
Record validate_result := mk_vres {
  vr_state : state;
  vr_invalid : bool;
  vr_wrong_devs : list dev_ref;
  vr_dropped : list dev_ref
}.

Definition device_ids_validate (s : state) (scanned_devs : option (list dev_ref))
    (invalid_in : bool) (noupdate : bool) (fd : Z) : validate_result :=
  if negb (enable_devices_file (cmd s)) then mk_vres s invalid_in [] []
  else
  let s := log_debug "validating devices file entries" [] s in
  let idx := seq 0 (length (use_devices (cmd s))) in
  let a := fold_left (validate_stable_entry scanned_devs) idx (mk_vacc s [] 0 false invalid_in) in
  let a := fold_left (validate_devname_entry scanned_devs) idx a in
  let s := v_state a in
  let dropped := filter (fun h => get_du_for_dev s h = None) (wrong_devs a) in
  let s := fold_left (fun s h => log_debug "Drop incorrectly matched %s"
                                   [default [] (dev_name <$> get_dev s h)] s) dropped s in
  let invalid := device_ids_invalid a || existsb entry_invalid (use_devices (cmd s)) in
  let s := if update_file a then unlink_searched_devnames s else s in
  let s :=
    if update_file a && noupdate then
      log_debug "device ids validate checked %d update disabled." [print_d (checked a)] s
    else if update_file a then
      _device_ids_update_try
        (log_debug "device ids validate checked %d trying to update devices file."
           [print_d (checked a)] s) fd
    else
      log_debug "device ids validate checked %d found no update is needed."
        [print_d (checked a)] s in
  mk_vres s invalid (wrong_devs a) dropped.

(** ** The search for renamed devices *)

(** [_dm_uuid_has_prefix(sysbuf, prefix)] *)
Definition _dm_uuid_has_prefix (sysbuf prefix : cstring) : bool :=
  if has_prefix prefix sysbuf then true
  else if has_prefix (str "part") sysbuf then
    match strchr sysbuf "-" with
    | None => false
    | Some dash => has_prefix prefix (drop 1 dash)
    end
  else false.

(** [_dev_has_stable_id(cmd, dev)] reads the state and writes to the log
    only: [_dev_has_stable_id] is what it returns and
    [_dev_has_stable_id_log] what it logs.  The backtrace that [goto_out]
    logs is left out. *)
Definition _dev_has_stable_id (s : state) (h : dev_ref) (d : device) : bool :=
  if existsb (fun id => negb (idtype_is (id_idtype id) DEV_ID_TYPE_DEVNAME)
                        && bool_decide (is_Some (id_idname id))) (dev_ids d) then true
  else if bool_decide (is_Some (device_id_system_read s h d DEV_ID_TYPE_SYS_WWID)) then true
  else if bool_decide (is_Some (device_id_system_read s h d DEV_ID_TYPE_SYS_SERIAL)) then true
  else if bool_decide (MAJOR (dev_dev d) = loop_major (dev_types (cmd s)))
          && bool_decide (is_Some (device_id_system_read s h d DEV_ID_TYPE_LOOP_FILE)) then true
  else
  let dm := bool_decide (MAJOR (dev_dev d) = device_mapper_major (dev_types (cmd s))) in
  let sysbuf := if dm then read_sys_block s h d (str "dm/uuid") else [] in
  if dm && bool_decide (sysbuf = []) then false
  else if dm && (_dm_uuid_has_prefix sysbuf (str "mpath-")
                 || _dm_uuid_has_prefix sysbuf (str "CRYPT-")
                 || _dm_uuid_has_prefix sysbuf (str "LVM-")) then true
  else bool_decide (MAJOR (dev_dev d) = md_major (dev_types (cmd s)))
       && negb (bool_decide (read_sys_block s h d (str "md/uuid") = [])).

(** What [_dev_has_stable_id] logs, by the reads it gets to. *)
Definition _dev_has_stable_id_log (s : state) (h : dev_ref) (d : device) : list log_entry :=
  if existsb (fun id => negb (idtype_is (id_idtype id) DEV_ID_TYPE_DEVNAME)
                        && bool_decide (is_Some (id_idname id))) (dev_ids d) then []
  else
  let l := device_id_system_read_log s h d DEV_ID_TYPE_SYS_WWID in
  if bool_decide (is_Some (device_id_system_read s h d DEV_ID_TYPE_SYS_WWID)) then l
  else
  let l := l ++ device_id_system_read_log s h d DEV_ID_TYPE_SYS_SERIAL in
  if bool_decide (is_Some (device_id_system_read s h d DEV_ID_TYPE_SYS_SERIAL)) then l
  else
  let loop := bool_decide (MAJOR (dev_dev d) = loop_major (dev_types (cmd s))) in
  let l := l ++ (if loop then device_id_system_read_log s h d DEV_ID_TYPE_LOOP_FILE else []) in
  if loop && bool_decide (is_Some (device_id_system_read s h d DEV_ID_TYPE_LOOP_FILE)) then l
  else
  let dm := bool_decide (MAJOR (dev_dev d) = device_mapper_major (dev_types (cmd s))) in
  let sysbuf := if dm then read_sys_block s h d (str "dm/uuid") else [] in
  let l := l ++ (if dm then read_sys_block_log s h d (str "dm/uuid") else []) in
  if dm && bool_decide (sysbuf = []) then l
  else if dm && (_dm_uuid_has_prefix sysbuf (str "mpath-")
                 || _dm_uuid_has_prefix sysbuf (str "CRYPT-")
                 || _dm_uuid_has_prefix sysbuf (str "LVM-")) then l
  else if bool_decide (MAJOR (dev_dev d) = md_major (dev_types (cmd s)))
  then l ++ read_sys_block_log s h d (str "md/uuid")
  else l.

(** [struct device_id_list]: a wanted PVID and the device it was found on. *)
Record device_id_list := mk_dil {
  dil_pvid : cstring;
  dil_dev : option dev_ref
}.

(** The first loop of [device_ids_find_renamed_devs]: the entries to search
    for.  Every one of them counts in [*search_count]; they are wanted unless
    the search mode is ["none"]. *)
Definition wants_search (s : state) (du : dev_use) : bool :=
  bool_decide (is_Some (du_pvid du)) && idtype_is (du_idtype du) DEV_ID_TYPE_DEVNAME
  && match du_dev du with
     | Some h =>
         match get_dev s h with
         | Some d => negb (bool_decide (dev_filtered_flags d = 0%Z))
         | None => false
         end
     | None => true
     end.

Definition build_search_pvids (s : state) (search_none : bool) : list device_id_list :=
  if search_none then []
  else map (fun du => mk_dil (take ID_LEN (default [] (du_pvid du))) None)
         (filter (fun du => wants_search s du = true) (use_devices (cmd s))).

Definition _searched_devnames_exists (s : state) : bool :=
  match devicesfile (cmd s) with
  | Some _ => false
  | None => bool_decide (is_Some (files (fs s) !! searched_file s))
  end.

Definition _touch_searched_devnames (s : state) : state :=
  match devicesfile (cmd s) with
  | Some _ => s
  | None =>
      if can_create (fs s) (searched_file s)
         || bool_decide (is_Some (files (fs s) !! searched_file s))
      then set_fs s (set_files (fs s) (<[searched_file s := []]> (files (fs s))))
      else s
  end.

(** The devices to search: not matched, and passing the filters that do not
    read the device. *)
Definition search_candidate (s : state) (h : dev_ref) : bool :=
  match get_dev s h with
  | None => false
  | Some d =>
      negb (DEV_MATCHED_USE_ID d)
      && passes_filter (env s) h (Some "sysfs"%string)
      && passes_filter (env s) h (Some "type"%string)
      && passes_filter (env s) h (Some "usable"%string)
      && passes_filter (env s) h (Some "mpath"%string)
  end.

Definition build_search_devs (s : state) : list dev_ref :=
  filter (fun h => search_candidate s h = true) (dev_cache (env s)).

Definition set_dev_pvid (d : device) (p : cstring) : device :=
  mk_device (dev_dev d) (dev_aliases d) (DEV_MATCHED_USE_ID d) (DEV_SCAN_NOT_READ d)
    (dev_filtered_flags d) p (dev_ids d) (dev_id_cur d).

(** The locals of the search while the devices are read. *)
Record search_acc := mk_sacc {
  sa_state : state;
  search_pvids : list device_id_list;
  other_idtype : Z;
  other_pvid : Z;
  no_pvid : Z
}.

(** The inner loop over [search_pvids] for a device [h] named [name] that
    holds [pvid]: a wanted PVID seen for the first time takes the device, one
    seen again is reported and leaves the list. *)
Fixpoint check_search_pvids (s : state) (h : dev_ref) (name pvid : cstring)
    (dils : list device_id_list) (others : Z) : state * list device_id_list * Z :=
  match dils with
  | [] => (s, [], others)
  | dil :: rest =>
      if id_equal (dil_pvid dil) pvid then
        match dil_dev dil with
        | Some h0 =>
            let s := log_warn "WARNING: found PVID %s on multiple devices %s %s."
                       [dil_pvid dil; default [] (dev_name <$> get_dev s h0); name] s in
            let s := log_warn "WARNING: duplicate PVIDs should be changed to be unique." [] s in
            let s := log_warn "WARNING: use lvmdevices to select a device for PVID %s."
                       [dil_pvid dil] s in
            check_search_pvids s h name pvid rest others
        | None =>
            let s := log_warn "Devices file PVID %s found on %s." [dil_pvid dil; name] s in
            let '(s, rest', others) := check_search_pvids s h name pvid rest others in
            (s, mk_dil (dil_pvid dil) (Some h) :: rest', others)
        end
      else
        let '(s, rest', others) := check_search_pvids s h name pvid rest (others + 1) in
        (s, dil :: rest', others)
  end.

Definition passes_data_filters (s : state) (h : dev_ref) : bool :=
  passes_filter (env s) h (Some "partitioned"%string)
  && passes_filter (env s) h (Some "signature"%string)
  && passes_filter (env s) h (Some "md"%string)
  && passes_filter (env s) h (Some "fwraid"%string).

(** The body of the loop over [search_devs] for the device [h]. *)
Definition search_dev (search_auto : bool) (a : search_acc) (h : dev_ref) : search_acc :=
  let s := sa_state a in
  match get_dev s h with
  | None => a
  | Some d =>
      let stable := search_auto && _dev_has_stable_id s h d in
      let s := if search_auto then add_logs s (_dev_has_stable_id_log s h d) else s in
      if stable then
        mk_sacc s (search_pvids a) (other_idtype a + 1) (other_pvid a) (no_pvid a)
      else
      match label_read_pvid (env s) h with
      | None | Some None =>
          mk_sacc s (search_pvids a) (other_idtype a) (other_pvid a) (no_pvid a + 1)
      | Some (Some pvid) =>
          let s := set_devs s (<[h := set_dev_pvid d pvid]> (devs s)) in
          if passes_data_filters s h then
            let '(s, dils, others) :=
              check_search_pvids s h (dev_name d) pvid (search_pvids a) (other_pvid a) in
            mk_sacc s dils (other_idtype a) others (no_pvid a)
          else mk_sacc s (search_pvids a) (other_idtype a) (other_pvid a) (no_pvid a)
      end
  end.

(** [get_du_for_pvid(cmd, pvid)]: the position of the first entry with that
    PVID. *)
Definition du_has_pvid (pvid : cstring) (du : dev_use) : bool :=
  match du_pvid du with
  | Some p => id_equal p pvid
  | None => false
  end.

Definition get_du_for_pvid (s : state) (pvid : cstring) : option nat :=
  fst <$> list_find (fun du => du_has_pvid pvid du = true) (use_devices (cmd s)).

(** The locals of the search while the entries are updated; [sr_du] is the
    entry the variable [du] was last set to by [get_du_for_pvid]. *)
Record rename_acc := mk_racc {
  ra_state : state;
  found : Z;
  not_found : Z;
  ra_update_file : bool;
  sr_du : option nat
}.

(** The entry and the device after a new device was found for the PVID of
    the entry. *)
Definition rename_du (du : dev_use) (h : dev_ref) (devname : cstring) (part : option Z)
  : dev_use :=
  mk_du (du_idtype du) (Some devname) (Some devname) (du_pvid du)
    (default (du_part du) part) (Some h).

Definition rename_dev (d : device) (devname : cstring) : device :=
  mk_device (dev_dev d) (dev_aliases d) true (DEV_SCAN_NOT_READ d) (dev_filtered_flags d)
    (dev_pvid d) [mk_dev_id DEV_ID_TYPE_DEVNAME (Some devname)] (Some 0).

(** The body of the loop that updates the entries, for one wanted PVID. *)
Definition rename_entry (noupdate : bool) (a : rename_acc) (dil : device_id_list) : rename_acc :=
  let s := ra_state a in
  match dil_dev dil ≫= (fun h => get_dev s h ≫= (fun d => Some (h, d))) with
  | None => mk_racc s (found a) (not_found a + 1) (ra_update_file a) (sr_du a)
  | Some (h, d) =>
      match dev_aliases d with
      | [] => mk_racc s (found a) (not_found a + 1) (ra_update_file a) (sr_du a)
      | _ =>
          let devname := dev_name d in
          match get_du_for_pvid s (dil_pvid dil) with
          | None => mk_racc s (found a + 1) (not_found a) (ra_update_file a) None
          | Some i =>
              match use_devices (cmd s) !! i with
              | None => mk_racc s (found a + 1) (not_found a) (ra_update_file a) None
              | Some du =>
                  if negb (idtype_is (du_idtype du) DEV_ID_TYPE_DEVNAME) then
                    mk_racc s (found a + 1) (not_found a) (ra_update_file a) (Some i)
                  else
                    let s := if noupdate then s
                             else log_warn "Devices file PVID %s updating IDNAME to %s."
                                    [dev_pvid d; devname] s in
                    let s := update_du s i
                               (fun du => rename_du du h devname (dev_get_partition_number (env s) h)) in
                    let s := set_devs s (<[h := rename_dev d devname]> (devs s)) in
                    mk_racc s (found a + 1) (not_found a) true (Some i)
              end
          end
      end
  end.

Definition clear_matched (d : device) : device :=
  mk_device (dev_dev d) (dev_aliases d) false (DEV_SCAN_NOT_READ d) (dev_filtered_flags d)
    (dev_pvid d) (dev_ids d) (dev_id_cur d).

(** The body of the loop that runs the whole filter chain on the devices
    found; [du] is whatever the loop before left in that variable. *)
Definition recheck_new_dev (du : option nat) (s : state) (dil : device_id_list) : state :=
  match dil_dev dil with
  | None => s
  | Some h =>
      if passes_filter (env s) h None then s
      else
        match get_dev s h with
        | None => s
        | Some d =>
            let s := log_warn "WARNING: new device %s for PVID %s is excluded: %s."
                       [dev_name d; dil_pvid dil] s in
            let s := match du with
                     | Some i => update_du s i (fun du => set_du_dev du None)
                     | None => s
                     end in
            set_devs s (<[h := clear_matched d]> (devs s))
        end
  end.

(** The result of [device_ids_find_renamed_devs]: the state, the devices
    added to [dev_list] and the number added to [*search_count]. *)
Record search_result := mk_sres {
  sr_state : state;
  sr_dev_list : list dev_ref;
  sr_search_count : Z
}.

(** The function up to the end of the loop that reads the devices. *)
Definition search_read_devs (s : state) : search_acc :=
  let search_none := streq (search_for_devnames (cmd s)) (str "none") in
  let search_auto := streq (search_for_devnames (cmd s)) (str "auto") in
  let s := log_debug "Search for PVIDs filtering." [] s in
  let search_devs := build_search_devs s in
  let s := log_debug "Search for PVIDs reading labels on %d devs."
             [print_d (Z.of_nat (length search_devs))] s in
  fold_left (search_dev search_auto) search_devs
    (mk_sacc s (build_search_pvids s search_none) 0 0 0).

Definition device_ids_find_renamed_devs (s : state) (noupdate : bool) (fd : Z) : search_result :=
  if negb (enable_devices_file (cmd s)) then mk_sres s [] 0
  else
  let search_none := streq (search_for_devnames (cmd s)) (str "none") in
  let wanted := filter (fun du => wants_search s du = true) (use_devices (cmd s)) in
  let count := Z.of_nat (length wanted) in
  let s := fold_left (fun s du => log_debug "Search for PVID %s." [default [] (du_pvid du)] s)
             wanted s in
  match build_search_pvids s search_none with
  | [] => mk_sres s [] count
  | _ =>
  if _searched_devnames_exists s then
    mk_sres (log_debug "Search for PVIDs skipped for %s" [searched_file s] s) [] count
  else
  let a := search_read_devs s in
  let s := log_debug "Search for PVIDs other_pvid %d no_pvid %d other_idtype %d."
             [print_d (other_pvid a); print_d (no_pvid a); print_d (other_idtype a)]
             (sa_state a) in
  let dils := search_pvids a in
  let r := fold_left (rename_entry noupdate) dils (mk_racc s 0 0 false None) in
  let s := fold_left (recheck_new_dev (sr_du r)) dils (ra_state r) in
  let s :=
    if ra_update_file r && noupdate then log_debug "Search for PVIDs update disabled" [] s
    else if ra_update_file r then
      _device_ids_update_try (log_debug "Search for PVIDs updating devices file" [] s) fd
    else log_debug "Search for PVIDs found no updates" [] s in
  let dev_list := omap dil_dev dils in
  let s := if negb (bool_decide (not_found r = 0%Z)) && bool_decide (found r = 0%Z)
           then _touch_searched_devnames s else s in
  mk_sres s dev_list count
  end.

(** ** The multipath blacklist (dev-mpath.c) *)

Module Mpath.

Definition MAX_WWID_LINE : nat := 512.

(** The file-scope lists and table of dev-mpath.c that the blacklist reader
    uses, and its debug log. *)
Record mpath_state := mk_mpath {
  _ignored : list cstring;
  _ignored_exceptions : list cstring;
  _wwid_hash_tab : gset cstring;
  mp_log : list log_entry
}.

(** [str_list_add], [str_list_match_item] and [str_list_del] belong to
    lib/datastruct/str_list.c, which is not under src/: a string is added at
    the end unless the list has it, and deleting removes every occurrence. *)
Definition str_list_match_item (l : list cstring) (w : cstring) : bool := bool_decide (w ∈ l).
Definition str_list_add (l : list cstring) (w : cstring) : list cstring :=
  if str_list_match_item l w then l else l ++ [w].
Definition str_list_del (l : list cstring) (w : cstring) : list cstring :=
  filter (fun x => x ≠ w) l.

(** The first loop over a line: the first byte that is not white space,
    unless the line ends before. *)
Fixpoint first_word (line : cstring) : option cstring :=
  match line with
  | [] => None
  | c :: r =>
      if ch_eqb c LF then None
      else if isspace c then first_word r
      else Some line
  end.

(** The loop that copies the value of a [wwid] line into [wwid]; [started]
    is [j != 0].  A line has fewer than [MAX_WWID_LINE] bytes, so the bound
    of the loop on [i] is never what ends it. *)
Fixpoint copy_wwid (s : cstring) (started found_quote found_three : bool) : cstring :=
  match s with
  | [] => []
  | c :: r =>
      if ch_eqb c LF then []
      else if negb started && isspace c then copy_wwid r started found_quote found_three
      else if isspace c then []
      else if ch_eqb c DQUOTE && negb found_quote then copy_wwid r started true found_three
      else if ch_eqb c DQUOTE && found_quote then []
      else if ch_eqb c "3" && negb found_three then copy_wwid r started found_quote true
      else c :: copy_wwid r true found_quote found_three
  end.

(** The locals of [_read_blacklist_file] that live across lines. *)
Record sections := mk_sections {
  section_black : bool;
  section_exceptions : bool
}.

(** What a line is to the reader. *)
Inductive line_kind :=
  | Skip
  | SectionStart (exceptions black : bool)
  | SectionEnd
  | Wwid (value : cstring).

Definition has_char (s : cstring) (c : ascii) : bool := bool_decide (is_Some (strchr s c)).

Definition classify_line (raw : list ascii) : line_kind :=
  match first_word (c_str raw) with
  | None => Skip
  | Some word =>
      if has_prefix (str "#") word then Skip
      else if has_char word "{" then
        if has_prefix (str "blacklist_exceptions") word then SectionStart true false
        else if has_prefix (str "blacklist") word then SectionStart false true
        else SectionStart false false
      else if has_char word "}" then SectionEnd
      else if contains word (str "wwid") then Wwid (copy_wwid (drop 4 word) false false false)
      else Skip
  end.

(** One iteration of the loop of [_read_blacklist_file(path)]. *)
Definition read_blacklist_line (path : cstring) (acc : sections * mpath_state)
    (raw : list ascii) : sections * mpath_state :=
  let '(sec, m) := acc in
  match classify_line raw with
  | Skip => acc
  | SectionStart exceptions black =>
      (mk_sections (section_black sec || black) (section_exceptions sec || exceptions), m)
  | SectionEnd => (mk_sections false false, m)
  | Wwid wwid =>
      if negb (section_black sec) && negb (section_exceptions sec) then acc
      else if length wwid <? 8 then acc
      else
        let l := mk_log LOG_DEBUG "multipath wwid %s in %s %s"
                   [wwid; if section_exceptions sec then str "blacklist_exceptions"
                          else str "blacklist"; path] in
        if section_exceptions sec then
          (sec, mk_mpath (_ignored m) (str_list_add (_ignored_exceptions m) wwid)
                  (_wwid_hash_tab m) (mp_log m ++ [l]))
        else
          (sec, mk_mpath (str_list_add (_ignored m) wwid) (_ignored_exceptions m)
                  (_wwid_hash_tab m) (mp_log m ++ [l]))
  end.

Definition _read_blacklist_file (files : gmap cstring (list ascii)) (path : cstring)
    (m : mpath_state) : mpath_state :=
  match files !! path with
  | None => m
  | Some content =>
      snd (fold_left (read_blacklist_line path) (file_lines MAX_WWID_LINE content)
             (mk_sections false false, m))
  end.

(** The two loops at the end of [_read_wwid_exclusions]: an excepted wwid
    leaves [_ignored], and what stays in [_ignored] leaves the table. *)
Definition prune_ignored (m : mpath_state) : mpath_state :=
  let ignored :=
    fold_left (fun l w => if str_list_match_item (_ignored_exceptions m) w
                          then str_list_del l w else l) (_ignored m) (_ignored m) in
  let tab := fold_left (fun t w => t ∖ {[w]}) ignored (_wwid_hash_tab m) in
  let rem_count := length ignored in
  mk_mpath ignored (_ignored_exceptions m) tab
    (mp_log m ++ (if rem_count =? 0 then []
                  else [mk_log LOG_DEBUG "multipath config ignored %d wwids"
                          [print_d (Z.of_nat rem_count)]])).

(** [_read_wwid_exclusions()]; [conf_d] is what [readdir] gives for
    /etc/multipath/conf.d when the directory can be opened. *)
Definition _read_wwid_exclusions (files : gmap cstring (list ascii))
    (conf_d : option (list cstring)) (m : mpath_state) : mpath_state :=
  let m := _read_blacklist_file files (str "/etc/multipath.conf") m in
  let m :=
    match conf_d with
    | None => m
    | Some names =>
        fold_left (fun m d_name =>
                     if has_prefix (str ".") d_name then m
                     else _read_blacklist_file files
                            (take (PATH_MAX - 2) (str "/etc/multipath/conf.d/" ++ d_name)) m)
          names m
    end in
  prune_ignored m.

End Mpath.

(** ** Sample states *)

Module Sample.

Definition cmd0 : cmd_context :=
  mk_cmd true false false false false None
    (str "/etc/lvm/devices/system.devices") (str "/etc/lvm") (Some (str "hostA"))
    (str "pvs") [] false false false false false (str "auto")
    (mk_dev_types 253 9 7) (Some (str "/run/lock/lvm")) (Some (str "system.devices")).

Definition glob0 : globals := mk_globals (-1) false 0 [] [] [].

Definition fs0 : filesys :=
  mk_fs ∅ (fun _ => true) (fun _ => true) (fun _ _ => true) (fun _ => 0%Z).

Definition env0 : environ :=
  mk_env false 0 4242 (str "Tue Nov  3 02:18:00 2026") (str "/sys/")
    (fun _ => []) (fun _ => None) [] (fun _ => None)
    (fun _ => (0%Z, mk_dev_t 0 0)) (fun _ => Some 0%Z)
    (fun _ _ => true) (fun _ => None) (str "/run/lvm").

Definition state0 : state := mk_state cmd0 glob0 fs0 env0 ∅ [].

(** A registry of one entry. *)
Definition du_sdb : dev_use :=
  mk_du DEV_ID_TYPE_SYS_WWID (Some (str "naa.5000c500a1b2c3d4")) (Some (str "/dev/sdb"))
    (Some (str "P0000000000000000000000000000001")) 0 None.

Definition with_dus (s : state) (l : list dev_use) : state :=
  set_cmd s (set_use_devices (cmd s) l).

Definition with_file (s : state) (path : cstring) (content : list ascii) : state :=
  set_fs s (set_files (fs s) (<[path := content]> (files (fs s)))).

Definition with_version (s : state) (v : cstring) : state :=
  set_glob s (set_version (glob s) v).

End Sample.


Import Sample.
Import Mpath.

(** * The vocabulary of the statements *)

(** ** Statements about the log *)

(** What a call added to the log. *)
Definition new_log (s s' : state) : list log_entry := drop (length (log s)) (log s').

Definition logs_level (l : log_level) (es : list log_entry) : bool :=
  existsb (fun e => bool_decide (log_lvl e = l)) es.

(** A line of the devices file that is neither a comment nor a header. *)
Definition is_entry_line (line : cstring) : bool :=
  negb (has_prefix (str "#") line) && negb (has_prefix (str "SYSTEMID") line)
  && negb (has_prefix (str "VERSION") line).

Definition lacks_key (line : cstring) : Prop :=
  strstr line (str "IDTYPE") = None \/ strstr line (str "IDNAME") = None.

Definition line_no_idtype : list ascii := str "DEVNAME=/dev/sdc PVID=x" ++ [LF].


(** [device_ids_write] gets as far as the version check. *)
Definition reaches_version_check (s : state) : Prop :=
  (enable_devices_file (cmd s) = true \/ pending_devices_file (cmd s) = true)
  /\ (implicit_create s = true -> lvmcache_vg_info_count (env s) = 0%Z)
  /\ test_mode (env s) = false.



(** Another process holds a lock on the lock file, the command does not hold
    the exclusive lock itself, and it is set up to honour a lock it cannot
    get. *)
Definition lock_refused (s : state) : Prop :=
  enable_devices_file (cmd s) = true /\ nolocking (cmd s) = false
  /\ sysinit (cmd s) = false /\ ignorelockingfailure (cmd s) = false
  /\ _devices_file_locked (glob s) <> LOCK_EX
  /\ forall p, lock_path (cmd s) = Some p -> flock_others (fs s) p <> 0%Z.

(** The version of the first [VERSION] line of the devices file differs from
    the one the command recorded. *)
Definition version_changed (s : state) (content : list ascii) : Prop :=
  first_version_line (file_lines PATH_MAX content) <> Some (_devices_file_version (glob s)).

(** What the steps of an abandoned update preserve: the command context, the
    recorded version, every existing file, and a log without errors. *)
Definition quiet_step (s s' : state) : Prop :=
  cmd s' = cmd s
  /\ _devices_file_version (glob s') = _devices_file_version (glob s)
  /\ (forall p c, files (fs s) !! p = Some c -> files (fs s') !! p = Some c)
  /\ exists es, log s' = log s ++ es /\ logs_level LOG_ERROR es = false.

(** A devices file at version 1.1.6. *)
Definition file_v6 : list ascii :=
  str "# LVM uses devices listed in this file." ++ [LF]
  ++ str "VERSION=1.1.6" ++ [LF]
  ++ str "IDTYPE=sys_wwid IDNAME=naa.5000c500a1b2c3d4 DEVNAME=/dev/sdb PVID=P0000000000000000000000000000001" ++ [LF].

(** The command read the file at version 1.1.5, and it has changed since. *)
Definition state_stale : state :=
  with_version (with_file (with_dus state0 [du_sdb]) (devices_file_path cmd0) file_v6)
    (str "1.1.5").

(** The command read the file at the version it still has, another process
    holds the exclusive lock, and the command runs with
    [ignorelockingfailure]. *)
Definition cmd_ignore : cmd_context :=
  mk_cmd true false false false false None
    (str "/etc/lvm/devices/system.devices") (str "/etc/lvm") (Some (str "hostA"))
    (str "pvs") [du_sdb] false false false true false (str "auto")
    (mk_dev_types 253 9 7) (Some (str "/run/lock/lvm")) (Some (str "system.devices")).

Definition fs_busy : filesys :=
  mk_fs {[ devices_file_path cmd0 := file_v6 ]} (fun _ => true) (fun _ => true)
    (fun _ _ => true) (fun _ => LOCK_EX).

Definition state_busy : state :=
  mk_state cmd_ignore (set_version glob0 (str "1.1.6")) fs_busy env0 ∅ [].

(** A string without NUL is what the str* functions see of it. *)
Definition no_nul (l : list ascii) : bool := forallb (fun c => negb (ch_eqb c NUL)) l.

(** The bytes of a value of the devices file: no blank, newline or NUL. *)
Definition plain (c : ascii) : bool :=
  negb (ch_eqb c SP) && negb (ch_eqb c LF) && negb (ch_eqb c NUL).

(** A run of digits whose value is [n]. *)
Definition digits_of (ds : cstring) (n : Z) : Prop :=
  ds <> [] /\ forallb isdigit ds = true
  /\ forall rest a b, scan_digits (ds ++ rest) a b
                      = scan_digits rest (a * 10 ^ Z.of_nat (length ds) + n)%Z true.

(** A byte that ends a run of digits. *)
Definition ends_number (rest : cstring) : Prop :=
  match rest with
  | [] => True
  | c :: _ => isdigit c = false
  end.

(** ** Legal registries *)

(** A value that a field of an entry line can carry: not empty, not starting
    with a dot, and without blank, newline or NUL. *)
Definition value_ok (v : cstring) : bool :=
  forallb plain v && negb (has_prefix (str ".") v) && negb (bool_decide (v = [])).

(** The value contains none of the keys that are looked up after its field. *)
Definition free_of (keys : list string) (v : cstring) : bool :=
  forallb (fun k => negb (contains v (str k))) keys.

Definition opt_ok (keys : list string) (o : option cstring) : bool :=
  match o with
  | Some v => value_ok v && free_of keys v
  | None => true
  end.

(** An entry that the devices file can carry faithfully: its values are
    values of the file and do not contain a later key, the device name
    written for it is the one it stores, its partition index is an int, and
    its line fits the buffer of the reader. *)
Definition legal_du (s : state) (du : dev_use) : bool :=
  opt_ok ["DEVNAME"; "PVID"; "PART"]%string (du_idname du)
  && bool_decide (du_devname du = field_value (write_devname s du))
  && forallb plain (write_devname s du)
  && free_of ["PVID"; "PART"]%string (write_devname s du)
  && opt_ok ["PART"]%string (du_pvid du)
  && (- 2 ^ 31 <=? du_part du)%Z && (du_part du <? 2 ^ 31)%Z
  && (length (entry_line s du) <=? PATH_MAX - 1).

(** The entry as the reader allocates it: without the link to a device. *)
Definition unlinked (du : dev_use) : dev_use := set_du_dev du None.

Definition field (key : string) (v : cstring) : cstring := str key ++ "="%char :: v.

Definition part_tail (part : Z) : cstring :=
  if bool_decide (part = 0%Z) then [LF] else SP :: field "PART" (print_d part) ++ [LF].

(** ** Lines of a written file *)

Definition no_lf (l : list ascii) : bool := forallb (fun c => negb (ch_eqb c LF)) l.

(** A text that, followed by a newline, [fgets] reads as one line. *)
Definition one_line (l : cstring) : bool := no_lf l && (length l + 1 <=? PATH_MAX - 1).

(** ** The header of a written file *)

Definition header_1 : cstring := str "# LVM uses devices listed in this file.".

Definition header_2 (s : state) : cstring :=
  str "# Created by LVM command " ++ cmd_name (cmd s) ++ str " pid "
  ++ print_d (getpid (env s)) ++ str " at " ++ ctime_now (env s).

(** The version that a write records after the counter [c]. *)
Definition version_string (c : Z) : cstring := str "1.1." ++ print_u (c + 1).

(** The comment with the command name and the line of the system id are
    read as one line each. *)
Definition legal_header (s : state) : bool :=
  one_line (header_2 s)
  && match system_id (cmd s) with
     | Some id => one_line (str "SYSTEMID=" ++ id)
     | None => true
     end.

(** A registry that the devices file carries faithfully. *)
Definition legal_registry (s : state) : bool :=
  legal_header s && forallb (legal_du s) (use_devices (cmd s)).

(** The file is read back line by line as it was written: the comment with
    the command name, the line of the system id and the line of every entry
    are one line each for [fgets], with no newline inside and within the
    buffer. *)
Definition read_as_written (s : state) : bool :=
  legal_header s
  && forallb (fun du => one_line (removelast (entry_line s du))) (use_devices (cmd s)).

(** The lines of the header before the entries. *)
Definition header_lines (s : state) (c : Z) : list (list ascii) :=
  [header_1 ++ [LF]; header_2 s ++ [LF]]
  ++ match system_id (cmd s) with
     | Some id => [str "SYSTEMID=" ++ id ++ [LF]]
     | None => []
     end
  ++ [str "VERSION=" ++ version_string c ++ [LF]].

(** A command that starts with an empty registry and the devices file
    enabled, in the state another command left. *)
Definition reader_of (s : state) : state :=
  set_cmd s (set_enable_devices_file (set_use_devices (cmd s) []) true).

(** What the description of an entry asks of it: values that a field can
    carry, a device name that is a path, a partition index that is an int,
    and no device linked yet. *)
Definition spec_legal_du (du : dev_use) : bool :=
  match du_idname du with Some v => value_ok v | None => true end
  && match du_devname du with Some v => value_ok v && has_prefix (str "/") v | None => true end
  && match du_pvid du with Some v => value_ok v && (length v =? ID_LEN) | None => true end
  && (0 <=? du_part du)%Z && (du_part du <? 2 ^ 31)%Z
  && bool_decide (du_dev du = None).

(** A logical volume named PART1 used as a PV, with a PVID that starts with
    a digit. *)
Definition du_part1 : dev_use :=
  mk_du DEV_ID_TYPE_SYS_WWID (Some (str "naa.5000c500a1b2c3d5")) (Some (str "/dev/mapper/vg-PART1"))
    (Some (str "7P00000000000000000000000000001x")) 0 None.

Definition state_sdb : state := with_dus state0 [du_sdb].

Definition state_part1 : state := with_dus state0 [du_part1].


(** ** The pairing predicate *)

(** The rule of the specification for device-mapper names: the stored path
    stats to a device-mapper node with the minor of the device. *)
Definition stat_same_dm (s : state) (d : device) (idname : cstring) : bool :=
  match stat_rdev (env s) idname with
  | Some rdev =>
      bool_decide (MAJOR rdev = device_mapper_major (dev_types (cmd s)))
      && bool_decide (MINOR rdev = MINOR (dev_dev d))
  | None => false
  end.

(** The pairing predicate as the specification words it. *)
Definition spec_pairs (s : state) (du : dev_use) (h : dev_ref) (d : device) : bool :=
  _idtype_compatible_with_major_number (cmd s) (du_idtype du) (MAJOR (dev_dev d))
  && bool_decide (dev_get_partition_number (env s) h = Some (du_part du))
  && match du_idname du with
     | Some n =>
         bool_decide (device_id_system_read s h d (du_idtype du) = Some n)
         || (idtype_is (du_idtype du) DEV_ID_TYPE_DEVNAME && stat_same_dm s d n)
     | None => false
     end.

(** The identity of a kind that the matcher compares: the one the device
    has cached for that kind, read from sysfs when none is cached. *)
Definition dev_identity (s : state) (h : dev_ref) (d : device) (idtype : idtype_t)
  : option cstring :=
  match find_id (dev_ids d) idtype 0 with
  | Some (_, id) => id_idname id
  | None => device_id_system_read s h d idtype
  end.

(** The device-mapper name equivalence as the matcher applies it: to a
    device-mapper device, for an entry that stores the current name of the
    device or a /dev/dm- or /dev/mapper/ path of the same node. *)
Definition dm_equivalent (s : state) (d : device) (idname : cstring) : bool :=
  bool_decide (MAJOR (dev_dev d) = device_mapper_major (dev_types (cmd s)))
  && (streq idname (dev_name d)
      || ((has_prefix (str "/dev/dm-") idname || has_prefix (str "/dev/mapper/") idname)
          && stat_same_dm s d idname)).

(** The pairing predicate of the matcher. *)
Definition pairs (s : state) (du : dev_use) (h : dev_ref) (d : device) : bool :=
  match du_idname du with
  | None => false
  | Some n =>
      negb (idtype_is (du_idtype du) DEV_ID_TYPE_NONE)
      && _idtype_compatible_with_major_number (cmd s) (du_idtype du) (MAJOR (dev_dev d))
      && bool_decide (dev_get_partition_number (env s) h = Some (du_part du))
      && (bool_decide (dev_identity s h d (du_idtype du) = Some n)
          || (idtype_is (du_idtype du) DEV_ID_TYPE_DEVNAME
              && bool_decide (is_Some (find_id (dev_ids d) DEV_ID_TYPE_DEVNAME 0))
              && dm_equivalent s d n))
  end.

(** The device-mapper device 253:3, known as /dev/mapper/foo, with that name
    cached as its device-name identity; an entry that stores the udev link
    /dev/disk/by-id/dm-name-foo of that node, and an entry that stores
    /dev/dm-3. *)
Definition dev_dm_foo : device :=
  mk_device (mk_dev_t 253 3) [str "/dev/mapper/foo"] false false 0 []
    [mk_dev_id DEV_ID_TYPE_DEVNAME (Some (str "/dev/mapper/foo"))] None.

Definition du_dm_link : dev_use :=
  mk_du DEV_ID_TYPE_DEVNAME (Some (str "/dev/disk/by-id/dm-name-foo"))
    (Some (str "/dev/disk/by-id/dm-name-foo"))
    (Some (str "P0000000000000000000000000000003")) 0 None.

Definition du_dm_node : dev_use :=
  mk_du DEV_ID_TYPE_DEVNAME (Some (str "/dev/dm-3")) (Some (str "/dev/dm-3"))
    (Some (str "P0000000000000000000000000000003")) 0 None.

Definition env_dm_foo : environ :=
  mk_env false 0 4242 (ctime_now env0) (str "/sys/") (fun _ => [])
    (fun p => if streq p (str "/dev/disk/by-id/dm-name-foo") || streq p (str "/dev/dm-3")
                 || streq p (str "/dev/mapper/foo")
              then Some (mk_dev_t 253 3) else None)
    [5] (fun _ => None) (fun _ => (0%Z, mk_dev_t 0 0)) (fun _ => Some 0%Z)
    (fun _ _ => true) (fun _ => None) (str "/run/lvm").

Definition state_dm_foo : state :=
  mk_state (set_use_devices cmd0 [du_dm_link; du_dm_node]) glob0 fs0 env_dm_foo
    {[5 := dev_dm_foo]} [].

(** ** Validation of a device-name entry *)

(** The entry at [i] is of the device-name kind, matched to the device [h],
    which was scanned, could be read and passes the downstream filter. *)
Definition validated_devname_entry (scanned_devs : option (list dev_ref)) (s : state)
    (i : nat) (du : dev_use) (h : dev_ref) (d : device) : Prop :=
  use_devices (cmd s) !! i = Some du /\ du_idtype du = DEV_ID_TYPE_DEVNAME
  /\ du_dev du = Some h /\ get_dev s h = Some d
  /\ was_scanned scanned_devs h d = true
  /\ passes_filter (env s) h (Some "persistent"%string) = true.

(** The PVID on the device is the PVID of the entry. *)
Definition same_pvid (d : device) (du : dev_use) : bool :=
  negb (bool_decide (dev_pvid d = []))
  && match du_pvid du with
     | Some p => id_equal (dev_pvid d) p
     | None => false
     end.

(** The outcome the specification describes for the entry. *)
Definition spec_validated (a a' : validate_acc) (i : nat) (du : dev_use) (h : dev_ref)
    (d : device) : Prop :=
  if same_pvid d du then
    exists du', use_devices (cmd (v_state a')) !! i = Some du'
      /\ du_dev du' = Some h /\ du_devname du' = Some (dev_name d)
  else
    use_devices (cmd (v_state a')) !! i = Some (unmatch_du du)
    /\ get_dev (v_state a') h = Some (unmatch_dev d)
    /\ h ∈ wrong_devs a' /\ update_file a' = true.

(** The entry can be checked: the device has a name and the entry a PVID. *)
Definition checkable (d : device) (du : dev_use) : Prop :=
  dev_aliases d <> []
  /\ exists p, du_pvid du = Some p /\ has_prefix (str ".") p = false.

(** The impostor: /dev/sde is matched to an entry by its name, and the PVID
    read from it is another one. *)
Definition dev_sde : device :=
  mk_device (mk_dev_t 8 64) [str "/dev/sde"] true false 0
    (str "PZ000000000000000000000000000002")
    [mk_dev_id DEV_ID_TYPE_DEVNAME (Some (str "/dev/sde"))] (Some 0).

Definition du_sde : dev_use :=
  mk_du DEV_ID_TYPE_DEVNAME (Some (str "/dev/sde")) (Some (str "/dev/sde"))
    (Some (str "PY000000000000000000000000000001")) 0 (Some 7).

(** The same entry without a PVID. *)
Definition du_sde_no_pvid : dev_use :=
  mk_du DEV_ID_TYPE_DEVNAME (Some (str "/dev/sde")) (Some (str "/dev/sde")) None 0 (Some 7).

Definition acc_of (du : dev_use) : validate_acc :=
  mk_vacc (mk_state (set_use_devices cmd0 [du]) glob0 fs0 env0 {[7 := dev_sde]} [])
    [] 0 false false.

(** ** The rename search and duplicate PVIDs *)

(** The PVID that the search reads on a candidate device: the device is not
    passed over for having a stable identity, its label gives a PVID, and it
    passes the filters that use the data read. *)
Definition reads_pvid (search_auto : bool) (s : state) (h : dev_ref) : option cstring :=
  match get_dev s h with
  | None => None
  | Some d =>
      if search_auto && _dev_has_stable_id s h d then None
      else match label_read_pvid (env s) h with
           | Some (Some pvid) => if passes_data_filters s h then Some pvid else None
           | _ => None
           end
  end.



(** The name of a device of the cache. *)
Definition name_of (s : state) (h : dev_ref) : cstring := default [] (dev_name <$> get_dev s h).


(** What of a device the search does not change. *)
Definition dev_core (d : device) : dev_t * list cstring * list dev_id :=
  (dev_dev d, dev_aliases d, dev_ids d).

Definition same_core (s s' : state) : Prop :=
  cmd s' = cmd s /\ env s' = env s
  /\ forall h, dev_core <$> get_dev s' h = dev_core <$> get_dev s h.

Definition log_grows (s s' : state) : Prop := exists es, log s' = log s ++ es.




(** ** What the best-effort update leaves of the registry and of the log *)










(** ** The multipath blacklist *)











(** * More of the registry *)

(** ** What the reader and the writer leave *)

(** A byte at which [_copy_idline_str] stops. *)
Definition ends_token (c : ascii) : bool := ch_eqb c SP || ch_eqb c LF.

(** A field of an entry as the reader stores it: when present it is not
    empty, does not start with a dot and has no blank or newline. *)
Definition parsed_field (o : option cstring) : Prop :=
  match o with
  | Some v => v <> [] /\ has_prefix (str ".") v = false /\ existsb ends_token v = false
  | None => True
  end.

(** An entry as the reader stores it. *)
Definition parsed_entry (du : dev_use) : Prop :=
  du_dev du = None /\ parsed_field (du_idname du) /\ parsed_field (du_devname du)
  /\ parsed_field (du_pvid du) /\ (- 2 ^ 31 <= du_part du < 2 ^ 31)%Z.

(** The path of the temporary file of [device_ids_write]. *)
Definition tmp_path (s : state) : cstring := devices_file_path (cmd s) ++ str "_new".

(** ** The lock *)

(** [lock_devices_file(cmd, mode)]: the blocking call, without [held]. *)
Definition lock_devices_file (s : state) (mode : Z) (fd : Z) : bool * state :=
  let '(ret, _, s) := _lock_devices_file s mode false fd in (ret, s).

(** The part of the globals that describes the lock held. *)
Definition lock_state (s : state) : Z * Z := (_devices_fd (glob s), _devices_file_locked (glob s)).

(** ** Identities read from sysfs *)

(** [dev_has_mpath_uuid(cmd, dev, &idname)] and the two functions like it,
    called with a place for the name: the name when the call returns 1.
    Each of them logs what its call of [read_sys_block] for dm/uuid logs,
    [read_sys_block_log]. *)
Definition dev_has_mpath_uuid (s : state) (h : dev_ref) (d : device) : option cstring :=
  match read_sys_block s h d (str "dm/uuid") with
  | [] => None
  | sysbuf => if _dm_uuid_has_prefix sysbuf (str "mpath-") then Some sysbuf else None
  end.

Definition _dev_has_crypt_uuid (s : state) (h : dev_ref) (d : device) : option cstring :=
  match read_sys_block s h d (str "dm/uuid") with
  | [] => None
  | sysbuf => if _dm_uuid_has_prefix sysbuf (str "CRYPT-") then Some sysbuf else None
  end.

Definition _dev_has_lvmlv_uuid (s : state) (h : dev_ref) (d : device) : option cstring :=
  match read_sys_block s h d (str "dm/uuid") with
  | [] => None
  | sysbuf => if _dm_uuid_has_prefix sysbuf (str "LVM-") then Some sysbuf else None
  end.

(** A byte that [device_id_system_read] replaces by an underscore. *)
Definition replaced (c : ascii) : bool := isblank c || isspace c || iscntrl c.

(** ** Looking entries up *)

(** [get_du_for_dev], [get_du_for_devname] and [get_du_for_device_id]: the
    position of the first entry that fits. *)
Definition get_du_for_dev_pos (s : state) (h : dev_ref) : option nat :=
  fst <$> list_find (fun du => du_dev du = Some h) (use_devices (cmd s)).

Definition get_du_for_devname (s : state) (devname : cstring) : option nat :=
  fst <$> list_find (fun du => du_devname du = Some devname) (use_devices (cmd s)).

Definition get_du_for_device_id (s : state) (idtype : idtype_t) (idname : cstring) : option nat :=
  fst <$> list_find (fun du => du_idname du = Some idname /\ du_idtype du = idtype)
            (use_devices (cmd s)).

(** ** Matching entries to devices *)

(** The loop of [device_ids_match_dev] over the entries at the positions
    [idx]: the first entry that matches ends it. *)
Fixpoint match_any_du (s : state) (idx : list nat) (h : dev_ref) : bool * state :=
  match idx with
  | [] => (false, s)
  | i :: rest =>
      let '(r, s) := _match_du_to_dev s i h in
      if r then (true, s) else match_any_du s rest h
  end.

(** [device_ids_match_dev(cmd, dev)] *)
Definition device_ids_match_dev (s : state) (h : dev_ref) : bool * state :=
  match get_dev s h with
  | None => (false, s)
  | Some d =>
      let '(r, s) :=
        match get_du_for_devname s (dev_name d) with
        | Some i => _match_du_to_dev s i h
        | None => (false, s)
        end in
      if r then (true, s)
      else match_any_du s (seq 0 (length (use_devices (cmd s)))) h
  end.

(** The inner loop of [device_ids_match] for the entry at [i], over the
    devices of the cache: devices already matched are passed over, and the
    first device that matches ends the loop. *)
Fixpoint match_any_dev (s : state) (i : nat) (devices : list dev_ref) : state :=
  match devices with
  | [] => s
  | h :: rest =>
      match get_dev s h with
      | None => match_any_dev s i rest
      | Some d =>
          if DEV_MATCHED_USE_ID d then match_any_dev s i rest
          else
            let '(r, s) := _match_du_to_dev s i h in
            if r then s else match_any_dev s i rest
      end
  end.

(** What [printf] prints for a NULL string (glibc). *)
Definition null_s : cstring := str "(null)".

(** The body of the main loop of [device_ids_match] for the entry at [i]. *)
Definition match_entry (s : state) (i : nat) : state :=
  match use_devices (cmd s) !! i with
  | None => s
  | Some du =>
      match du_dev du with
      | Some h0 =>
          log_debug "devices idname %s previously matched %s"
            [default null_s (du_idname du); default [] (dev_name <$> get_dev s h0)] s
      | None =>
          let '(matched, s) :=
            match du_devname du ≫= dev_cache_get_existing (env s) with
            | Some h =>
                let '(r, s) := _match_du_to_dev s i h in
                if r then (true, s)
                else (false, log_debug "devices entry %s %s devname found but not matched"
                               [default [] (du_devname du); default (str ".") (du_pvid du)] s)
            | None => (false, s)
            end in
          if matched then s else match_any_dev s i (dev_cache (env s))
      end
  end.

(** The last loop of [device_ids_match], for one entry: what is reported
    about an entry without a device. *)
Definition report_not_found (s : state) (du : dev_use) : state :=
  match du_dev du with
  | Some h =>
      match get_dev s h with
      | Some d =>
          if DEV_MATCHED_USE_ID d then s
          else log_error "Device %s not matched to device_id" [dev_name d] s
      | None => s
      end
  | None =>
      let pvid := default (str "none") (du_pvid du) in
      if idtype_is (du_idtype du) DEV_ID_TYPE_DEVNAME then
        match du_devname du with
        | Some n => log_warn "Devices file PVID %s last seen on %s not found." [pvid; n] s
        | None => log_warn "Devices file PVID %s not found." [pvid] s
        end
      else
        match du_devname du with
        | Some n =>
            log_warn "Devices file %s %s PVID %s last seen on %s not found."
              [idtype_to_str (du_idtype du); default (str "none") (du_idname du); pvid; n] s
        | None =>
            log_warn "Devices file %s %s PVID %s not found."
              [idtype_to_str (du_idtype du); default (str "none") (du_idname du); pvid] s
        end
  end.

(** [device_ids_match_device_list(cmd)] for one entry.  An entry without a
    device name hands NULL to [dev_cache_get_existing], which the source
    does not define: the result is [None] then. *)
Definition match_device_list_entry (o : option state) (i : nat) : option state :=
  s ← o;
  match use_devices (cmd s) !! i with
  | None => Some s
  | Some du =>
      match du_dev du with
      | Some _ => Some s
      | None =>
          devname ← du_devname du;
          match dev_cache_get_existing (env s) devname with
          | None => Some (log_warn "Device not found for %s." [devname] s)
          | Some h =>
              let s := update_du s i (fun du => set_du_dev du (Some h)) in
              Some (match get_dev s h with
                    | Some d =>
                        set_devs s (<[h := mk_device (dev_dev d) (dev_aliases d) true
                                             (DEV_SCAN_NOT_READ d) (dev_filtered_flags d)
                                             (dev_pvid d) (dev_ids d) (dev_id_cur d)]> (devs s))
                    | None => s
                    end)
          end
      end
  end.

Definition device_ids_match_device_list (s : state) : option state :=
  fold_left match_device_list_entry (seq 0 (length (use_devices (cmd s)))) (Some s).

(** [device_ids_match(cmd)]; [print_device_id_not_found] is the field of
    that name of [cmd]. *)
Definition device_ids_match (s : state) (print_device_id_not_found : bool) : option state :=
  if enable_devices_list (cmd s) then device_ids_match_device_list s
  else if negb (enable_devices_file (cmd s)) then Some s
  else
    let s := log_debug "compare devices file entries to devices" [] s in
    let s := fold_left match_entry (seq 0 (length (use_devices (cmd s)))) s in
    if negb print_device_id_not_found then Some s
    else Some (fold_left report_not_found (use_devices (cmd s)) s).

(** ** Adding an entry *)

Section DeviceIdAdd.

(** What [device_id_add] takes from outside the registry: the values of the
    [DEV_ID_TYPE_*] constants of device.h, which one debug message prints,
    the major number of DRBD devices ([cmd->dev_types->drbd_major]),
    [cmd->current_settings.yes] and the answer of [yes_no_prompt]. *)
Variable idtype_value : idtype_t -> Z.
Variable drbd_major : Z.
Variable yes : bool.
Variable yes_no_prompt : string -> ascii.

(** The loop at the label [id_name]: the kind is tried, then the serial
    number after the wwid, then the device name, which a device with a name
    always has. *)
Definition id_name (s : state) (h : dev_ref) (d : device) (idtype : idtype_t)
  : idtype_t * cstring :=
  match device_id_system_read s h d idtype with
  | Some n => (idtype, n)
  | None =>
      let next := if idtype_is idtype DEV_ID_TYPE_SYS_WWID then DEV_ID_TYPE_SYS_SERIAL
                  else DEV_ID_TYPE_DEVNAME in
      match device_id_system_read s h d next with
      | Some n => (next, n)
      | None => (DEV_ID_TYPE_DEVNAME, dev_name d)
      end
  end.

(** What the loop at [id_name] logs, by its calls of
    [device_id_system_read]. *)
Definition id_name_log (s : state) (h : dev_ref) (d : device) (idtype : idtype_t)
  : list log_entry :=
  device_id_system_read_log s h d idtype
  ++ match device_id_system_read s h d idtype with
     | Some _ => []
     | None =>
         let next := if idtype_is idtype DEV_ID_TYPE_SYS_WWID then DEV_ID_TYPE_SYS_SERIAL
                     else DEV_ID_TYPE_DEVNAME in
         device_id_system_read_log s h d next
     end.

(** The choice of the kind from the device alone. *)
Definition choose_auto (s : state) (h : dev_ref) (d : device) : state * (idtype_t * cstring) :=
  let major := MAJOR (dev_dev d) in
  let dt := dev_types (cmd s) in
  let dm := bool_decide (major = device_mapper_major dt) in
  let uuid_log := if dm then read_sys_block_log s h d (str "dm/uuid") else [] in
  let s1 := add_logs s uuid_log in
  match (if dm then dev_has_mpath_uuid s h d else None) with
  | Some n => (s1, (DEV_ID_TYPE_MPATH_UUID, n))
  | None =>
  let s2 := add_logs s1 uuid_log in
  match (if dm then _dev_has_crypt_uuid s h d else None) with
  | Some n => (s2, (DEV_ID_TYPE_CRYPT_UUID, n))
  | None =>
  let s3 := add_logs s2 uuid_log in
  match (if dm then _dev_has_lvmlv_uuid s h d else None) with
  | Some n => (s3, (DEV_ID_TYPE_LVMLV_UUID, n))
  | None =>
      if bool_decide (major = loop_major dt) then
        (add_logs s3 (id_name_log s h d DEV_ID_TYPE_LOOP_FILE),
         id_name s h d DEV_ID_TYPE_LOOP_FILE)
      else if bool_decide (major = md_major dt) then
        (add_logs s3 (id_name_log s h d DEV_ID_TYPE_MD_UUID),
         id_name s h d DEV_ID_TYPE_MD_UUID)
      else
        let s4 := if bool_decide (major = drbd_major)
                  then log_warn "Missing support for DRBD idtype" [] s3 else s3 in
        (add_logs s4 (id_name_log s h d DEV_ID_TYPE_SYS_WWID),
         id_name s h d DEV_ID_TYPE_SYS_WWID)
  end
  end
  end.

(** The choice of the kind and the name, up to the label [id_done]. *)
Definition choose_id (s : state) (h : dev_ref) (d : device) (idtype_arg id_arg : option cstring)
  : state * (idtype_t * cstring) :=
  match idtype_arg with
  | None => choose_auto s h d
  | Some a =>
      let t := idtype_from_str a in
      if idtype_is t DEV_ID_TYPE_NONE then
        choose_auto (log_warn "WARNING: ignoring unknown device_id type %s." [a] s) h d
      else
        match id_arg with
        | Some ia => (s, (t, ia))
        | None =>
            let s1 := add_logs s (device_id_system_read_log s h d t) in
            match device_id_system_read s h d t with
            | Some n => (s1, (t, n))
            | None =>
                choose_auto
                  (log_warn "WARNING: ignoring deviceidtype %s which is not available for device."
                     [a] s1) h d
            end
        end
  end.

(** The identity put in [dev->ids] and in [dev->id], with the flag of a
    match.  A cached identity of the kind without a name is handed to
    [strcmp], which the source does not define: the result is [None] then. *)
Definition set_dev_id (d : device) (idtype : idtype_t) (idname : cstring) : option device :=
  let with_ids ids k :=
    mk_device (dev_dev d) (dev_aliases d) true (DEV_SCAN_NOT_READ d) (dev_filtered_flags d)
      (dev_pvid d) ids (Some k) in
  match find_id (dev_ids d) idtype 0 with
  | Some (k, id) =>
      match id_idname id with
      | None => None
      | Some n =>
          if streq n idname then Some (with_ids (dev_ids d) k)
          else Some (with_ids (delete k (dev_ids d) ++ [mk_dev_id idtype (Some idname)])
                       (length (dev_ids d) - 1))
      end
  | None =>
      Some (with_ids (dev_ids d ++ [mk_dev_id idtype (Some idname)]) (length (dev_ids d)))
  end.

(** What is done about the entry. *)
Inductive add_choice :=
  | Update (i : nat) (kind name : cstring)
  | NewEntry
  | NotAdded
  | Undefined.

Definition ask_duplicate : add_choice :=
  if negb yes && ch_eqb (yes_no_prompt "Add device with duplicate PV to devices file?") "n"
  then NotAdded else NewEntry.

(** The name of the device of an entry for a message, or [missing]. *)
Definition du_dev_name (s : state) (du : dev_use) (missing : cstring) : cstring :=
  match du_dev du with
  | Some h => name_of s h
  | None => missing
  end.

(** The entry at a position that a lookup gave. *)
Definition du_at (s : state) (pos : option nat) : option (nat * dev_use) :=
  pos ≫= (fun i => (fun du => (i, du)) <$> use_devices (cmd s) !! i).

(** The pointer that [%p] prints is represented by the position of the
    entry. *)
Definition print_p (i : nat) : cstring := print_d (Z.of_nat i).

(** The entry to update, if one of the entries found is for the device. *)
Definition choose_entry (s : state) (h : dev_ref) (d : device) (pvid : cstring)
    (idtype : idtype_t) (idname : cstring) (found_dev found_pvid found_devid : option (nat * dev_use))
  : add_choice :=
  match found_dev with
  | Some (i, _) => Update i (str "device") (dev_name d)
  | None =>
      match found_pvid with
      | Some (i, du) =>
          let check_idname :=
            if idtype_is (du_idtype du) idtype then Some idname
            else device_id_system_read s h d (du_idtype du) in
          match check_idname with
          | Some c =>
              match du_idname du with
              | None => Undefined
              | Some n => if streq c n then Update i (str "PVID") pvid else ask_duplicate
              end
          | None => ask_duplicate
          end
      | None =>
          match found_devid with
          | Some (i, du) =>
              if bool_decide (du_dev du = Some h) then Update i (str "device_id") idname
              else NewEntry
          | None => NewEntry
          end
      end
  end.

(** What the choice logs: the messages of [device_id_system_read] where the
    entry with the PVID is of another kind. *)
Definition choose_entry_log (s : state) (h : dev_ref) (d : device) (idtype : idtype_t)
    (found_dev found_pvid : option (nat * dev_use)) : list log_entry :=
  match found_dev, found_pvid with
  | None, Some (_, du) =>
      if idtype_is (du_idtype du) idtype then []
      else device_id_system_read_log s h d (du_idtype du)
  | _, _ => []
  end.

(** The messages about the entries found, in the order of the source; the
    names of the devices are those of the state [s] at the start. *)
Definition log_found (s : state) (d : device) (pvid : cstring) (part : Z)
    (h : dev_ref) (idname : cstring)
    (found_dev found_pvid found_devid found_devname : option (nat * dev_use))
  : state :=
  let name := dev_name d in
  let s1 := match found_dev with
            | Some (i, du) =>
                log_debug "device_id_add %s pvid %s matches entry %p dev %s"
                  [name; pvid; print_p i; du_dev_name s du []] s
            | None => s
            end in
  let s2 := match found_pvid with
            | Some (i, du) =>
                log_debug "device_id_add %s pvid %s matches entry %p dev %s with same pvid %s"
                  [name; pvid; print_p i; du_dev_name s du (str "."); default [] (du_pvid du)]
                  s1
            | None => s1
            end in
  let s3 := match found_devid with
            | Some (i, du) =>
                log_debug
                  "device_id_add %s pvid %s matches entry %p dev %s with same device_id %d %s"
                  [name; pvid; print_p i; du_dev_name s du (str ".");
                   print_d (idtype_value (du_idtype du)); default [] (du_idname du)] s2
            | None => s2
            end in
  let s4 := match found_devname with
            | Some (i, du) =>
                log_debug
                  "device_id_add %s pvid %s matches entry %p dev %s with same devname %s"
                  [name; pvid; print_p i; du_dev_name s du (str "."); default [] (du_devname du)]
                  s3
            | None => s3
            end in
  let s5 := match found_pvid with
            | Some (_, du) =>
                if bool_decide (du_dev du = Some h) then s4
                else log_warn
                       "WARNING: adding device %s with PVID %s which is already used for %s."
                       [name; pvid; du_dev_name s du (str "missing device")] s4
            | None => s4
            end in
  match found_devid with
  | Some (_, du) =>
      match du_dev du with
      | None =>
          log_warn
            "WARNING: adding device %s with idname %s which is already used for missing device."
            [name; idname] s5
      | Some h' =>
          if bool_decide (h' = h) then s5
          else
            let '(ret1, devt1) := dev_get_primary_dev (env s) h in
            let '(ret2, devt2) := dev_get_primary_dev (env s) h' in
            if bool_decide (ret1 = 2%Z) && bool_decide (ret2 = 2%Z) && bool_decide (devt1 = devt2)
            then log_debug
                   "Using separate entries for partitions of same device %s part %d %s part %d."
                   [name; print_d part; name_of s h'; print_d (du_part du)] s5
            else log_warn "WARNING: adding device %s with idname %s which is already used for %s."
                   [name; idname; name_of s h'] s5
      end
  | None => s5
  end.

(** [device_id_add(cmd, dev, pvid_arg, idtype_arg, id_arg)]; [pvid_arg] is
    the [ID_LEN] bytes at the pointer.  The result is [None] where the
    source does not define the call: a device that is not in the cache, or
    NULL handed to [strcmp].  Allocation is taken to succeed, and the
    backtrace that [return_0] logs is left out. *)
Definition device_id_add (s : state) (h : dev_ref) (pvid_arg : list ascii)
    (idtype_arg id_arg : option cstring) : option (bool * state) :=
  d ← get_dev s h;
  match dev_get_partition_number (env s) h with
  | None => Some (false, s)
  | Some part =>
  match dev_aliases d with
  | [] => Some (false, s)
  | _ =>
  if negb (enable_devices_file (cmd s)) && negb (pending_devices_file (cmd s)) then Some (true, s)
  else
  let pvid := c_str (take ID_LEN pvid_arg) in
  let '(s, (idtype, idname)) := choose_id s h d idtype_arg id_arg in
  d' ← set_dev_id d idtype idname;
  let s := set_devs s (<[h := d']> (devs s)) in
  let found_dev := du_at s (get_du_for_dev_pos s h) in
  let found_pvid := du_at s (get_du_for_pvid s pvid) in
  let found_devname := du_at s (get_du_for_devname s (dev_name d)) in
  let found_devid := du_at s (get_du_for_device_id s idtype idname) in
  let s := log_found s d pvid part h idname found_dev found_pvid found_devid found_devname in
  let du := mk_du idtype (Some idname) (Some (dev_name d)) (Some pvid) part (Some h) in
  let choice := choose_entry s h d pvid idtype idname found_dev found_pvid found_devid in
  let s := add_logs s (choose_entry_log s h d idtype found_dev found_pvid) in
  match choice with
  | Undefined => None
  | NotAdded => Some (true, log_print "Device not added." [] s)
  | NewEntry =>
      let s := log_debug "Adding new entry to devices file for %s PVID %s %s %s."
                 [dev_name d; pvid; idtype_to_str idtype; idname] s in
      Some (true, set_cmd s (set_use_devices (cmd s) (use_devices (cmd s) ++ [du])))
  | Update i kind name =>
      let s := log_debug "Updating existing entry in devices file for %s that matches %s %s."
                 [dev_name d; kind; name] s in
      Some (true, set_cmd s (set_use_devices (cmd s) (delete i (use_devices (cmd s)) ++ [du])))
  end
  end
  end.

End DeviceIdAdd.

(** [device_id_pvremove(cmd, dev)] *)
Definition device_id_pvremove (s : state) (h : dev_ref) : state :=
  if negb (enable_devices_file (cmd s)) then s
  else
    match get_du_for_dev_pos s h with
    | None => log_warn "WARNING: devices to use does not include %s" [name_of s h] s
    | Some i => update_du s i (fun du => set_du_pvid du None)
    end.


(** * The file of multipath wwids *)

(** What [_read_wwid_file] takes from a line: nothing from a comment, a
    wwid, or bytes behind the end of the line, which hold what an earlier
    line left in the buffer. *)
Inductive wwid_file_line :=
  | NoWwid
  | FileWwid (wwid : cstring)
  | PastLine.

(** The string that [*p = 0] at the first slash leaves. *)
Fixpoint until_slash (s : cstring) : cstring :=
  match s with
  | [] => []
  | c :: r => if ch_eqb c "/" then [] else c :: until_slash r
  end.

(** The body of the loop of [_read_wwid_file] for the bytes [raw] that
    [fgets] has read: a slash at the start is passed over, and then one more
    byte, whatever it is. *)
Definition read_wwid_file_line (raw : list ascii) : wwid_file_line :=
  match raw with
  | [] => PastLine
  | c :: _ =>
      if ch_eqb c "#" then NoWwid
      else
        let skip := if ch_eqb c "/" then 2 else 1 in
        if length raw <? skip then PastLine
        else FileWwid (until_slash (c_str (drop skip raw)))
  end.

(** One iteration of the loop, with the table and [count]. *)
Definition read_wwid_file_step (acc : option (gset cstring * nat)) (raw : list ascii)
  : option (gset cstring * nat) :=
  match acc with
  | None => None
  | Some (tab, count) =>
      match read_wwid_file_line raw with
      | NoWwid => Some (tab, count)
      | FileWwid wwid => Some ({[wwid]} ∪ tab, S count)
      | PastLine => None
      end
  end.

Definition mp_add_log (m : mpath_state) (l : log_level) (f : string) (a : list cstring)
  : mpath_state :=
  mk_mpath (_ignored m) (_ignored_exceptions m) (_wwid_hash_tab m) (mp_log m ++ [mk_log l f a]).

(** [_read_wwid_file(config_wwids_file)].  The result is [None] where the
    source reads behind the end of a line.  [count] is taken not to
    overflow. *)
Definition _read_wwid_file (files : gmap cstring (list ascii)) (config_wwids_file : cstring)
    (m : mpath_state) : option mpath_state :=
  if negb (has_prefix (str "/") config_wwids_file) then
    Some (mp_add_log m LOG_PRINT "Ignoring unknown multipath_wwids_file." [])
  else
    match files !! config_wwids_file with
    | None => Some (mp_add_log m LOG_DEBUG "multipath wwids file not found" [])
    | Some content =>
        match fold_left read_wwid_file_step (file_lines MAX_WWID_LINE content)
                (Some (_wwid_hash_tab m, 0)) with
        | None => None
        | Some (tab, count) =>
            Some (mp_add_log (mk_mpath (_ignored m) (_ignored_exceptions m) tab (mp_log m))
                    LOG_DEBUG "multipath wwids read %d from %s"
                    [print_d (Z.of_nat count); config_wwids_file])
        end
    end.

(** The statics of dev-mpath.c: [wwid_tab_set] tells that [_wwid_hash_tab]
    is not NULL, [_minor_hash_tab] maps the minor number of a dm device to
    2 for a multipath device and to 1 for another one, and [mp] holds the
    lists, the keys of [_wwid_hash_tab] and the log. *)
Record mpath_statics := mk_statics {
  wwid_tab_set : bool;
  _minor_hash_tab : option (gmap Z Z);
  mp : mpath_state
}.

(** [dev_mpath_init(config_wwids_file)]; the pool and the tables are taken
    to be allocated.  The call returns 1 where it is defined. *)
Definition dev_mpath_init (files : gmap cstring (list ascii)) (conf_d : option (list cstring))
    (config_wwids_file : option cstring) (st : mpath_statics) : option mpath_statics :=
  match config_wwids_file with
  | Some [] =>
      Some (mk_statics (wwid_tab_set st) (Some ∅)
              (mp_add_log (mk_mpath [] [] (_wwid_hash_tab (mp st)) (mp_log (mp st)))
                 LOG_DEBUG "multipath wwids file disabled." []))
  | Some file =>
      match _read_wwid_file files file (mk_mpath [] [] ∅ (mp_log (mp st))) with
      | None => None
      | Some m => Some (mk_statics true (Some ∅) (_read_wwid_exclusions files conf_d m))
      end
  | None => Some (mk_statics true (Some ∅) (mk_mpath [] [] ∅ (mp_log (mp st))))
  end.

(** [_dev_in_wwid_file(cmd, dev)] *)
Definition _dev_in_wwid_file (s : state) (st : mpath_statics) (h : dev_ref) (d : device)
  : bool * state :=
  if negb (wwid_tab_set st) then (false, s)
  else
    let sysbuf := read_sys_block s h d (str "device/wwid") in
    let s := add_logs s (read_sys_block_log s h d (str "device/wwid")) in
    match sysbuf with
    | [] => (false, s)
    | _ =>
        match strchr sysbuf "." with
        | None => (false, s)
        | Some p =>
            let wwid := drop 1 p in
            if bool_decide (wwid ∈ _wwid_hash_tab (mp st)) then
              (true, log_debug "dev_is_mpath_component %s multipath wwid %s" [dev_name d; wwid] s)
            else (false, s)
        end
    end.

(** The wwids that the lines of the file give. *)
Definition wwid_file_keys (files : gmap cstring (list ascii)) (file : cstring) (w : cstring)
  : Prop :=
  has_prefix (str "/") file = true
  /\ exists content raw, files !! file = Some content
       /\ raw ∈ file_lines MAX_WWID_LINE content /\ read_wwid_file_line raw = FileWwid w.


(** * The filter of usable devices *)

(** [filter_mode_t] and [struct dev_usable_check_params] of the headers. *)
Inductive filter_mode_t :=
  | FILTER_MODE_NO_LVMETAD
  | FILTER_MODE_PRE_LVMETAD
  | FILTER_MODE_POST_LVMETAD.

Record dev_usable_check_params := mk_ucp {
  check_empty : bool;
  check_blocked : bool;
  check_suspended : bool;
  check_error_target : bool;
  check_reserved : bool;
  check_lv : bool
}.

(** [struct filter_data] *)
Record filter_data := mk_filter_data {
  fd_mode : filter_mode_t;
  skip_lvs : bool
}.

Definition set_filtered_flags (d : device) (flags : Z) : device :=
  mk_device (dev_dev d) (dev_aliases d) (DEV_MATCHED_USE_ID d) (DEV_SCAN_NOT_READ d) flags
    (dev_pvid d) (dev_ids d) (dev_id_cur d).

Section UsableFilter.

(** What the filter takes from outside: the three bits of
    [dev->filtered_flags] that it sets, [dm_is_dm_major],
    [ignore_suspended_devices()], [device_is_usable] with the value it
    leaves in [is_lv], [dev_get_size] and [pv_min_size()]. *)
Variable DEV_FILTERED_MINSIZE : Z.
Variable DEV_FILTERED_UNUSABLE : Z.
Variable DEV_FILTERED_IS_LV : Z.
Variable dm_is_dm_major : Z -> bool.
Variable ignore_suspended_devices : bool.
Variable device_is_usable : dev_ref -> dev_usable_check_params -> bool * bool.
Variable dev_get_size : dev_ref -> option Z.
Variable pv_min_size : Z.

(** [_check_pv_min_size(dev)] *)
Definition _check_pv_min_size (s : state) (h : dev_ref) (d : device) : bool * state :=
  match dev_get_size h with
  | None => (false, log_debug "%s: Skipping: dev_get_size failed" [dev_name d] s)
  | Some size =>
      if (size <? pv_min_size)%Z
      then (false, log_debug "%s: Skipping: %s" [dev_name d; str "Too small to hold a PV"] s)
      else (true, s)
  end.

(** The [switch] on the mode. *)
Definition usable_check_params (data : filter_data) : dev_usable_check_params :=
  match fd_mode data with
  | FILTER_MODE_NO_LVMETAD => mk_ucp true true ignore_suspended_devices true true (skip_lvs data)
  | FILTER_MODE_PRE_LVMETAD => mk_ucp true true false true true (skip_lvs data)
  | FILTER_MODE_POST_LVMETAD =>
      mk_ucp false true ignore_suspended_devices false false (skip_lvs data)
  end.

(** [_passes_usable_filter(cmd, f, dev, use_filter_name)]; [data] is
    [f->private].  The result is [None] for a device that is not in the
    cache. *)
Definition _passes_usable_filter (s : state) (data : filter_data) (h : dev_ref)
  : option (bool * state) :=
  match get_dev s h with
  | None => None
  | Some d =>
      let flags := Z.land (dev_filtered_flags d) (Z.lnot DEV_FILTERED_MINSIZE) in
      let flags := Z.land flags (Z.lnot DEV_FILTERED_UNUSABLE) in
      let '(r, flags, s) :=
        if dm_is_dm_major (MAJOR (dev_dev d)) then
          let '(r, is_lv) := device_is_usable h (usable_check_params data) in
          if r then (true, flags, s)
          else (false,
                Z.lor flags (if is_lv then DEV_FILTERED_IS_LV else DEV_FILTERED_UNUSABLE),
                log_debug "%s: Skipping unusable device." [dev_name d] s)
        else (true, flags, s) in
      let '(r, flags, s) :=
        if r then
          let '(r, s) := _check_pv_min_size s h d in
          (r, if r then flags else Z.lor flags DEV_FILTERED_MINSIZE, s)
        else (r, flags, s) in
      Some (r, set_devs s (<[h := set_filtered_flags d flags]> (devs s)))
  end.

End UsableFilter.


(** * The holders of a multipath component *)

(** [strrchr(s, c)]: the suffix of [s] at the last [c]. *)
Fixpoint strrchr (s : cstring) (c : ascii) : option cstring :=
  match s with
  | [] => None
  | a :: r =>
      match strrchr r c with
      | Some p => Some p
      | None => if ch_eqb a c then Some s else None
      end
  end.

(** [MPATH_PREFIX] *)
Definition MPATH_PREFIX : cstring := str "mpath-".

Section MpathComponent.

(** What the check takes from outside: [major_is_scsi_device] and
    [dev_is_nvme] of the device types, [readlink], whether [stat] finds a
    directory, the names that [readdir] gives, [cmd->dev_dir], [errno]
    after a [stat] that failed, and the entry that [log_sys_error] logs for
    a call and a path.  The backtrace that [return_0] logs is left out. *)
Variable major_is_scsi_device : Z -> bool.
Variable dev_is_nvme : dev_ref -> bool.
Variable readlink : cstring -> option (list ascii).
Variable stat_is_dir : cstring -> option bool.
Variable readdir : cstring -> option (list cstring).
Variable dev_dir : cstring.
Variable stat_errno : cstring -> Z.
Variable log_sys_error : string -> cstring -> log_entry.

Definition add_entry (e : log_entry) (s : state) : state :=
  mk_state (cmd s) (glob s) (fs s) (env s) (devs s) (log s ++ [e]).

(** [_get_sysfs_name(dev)] *)
Definition _get_sysfs_name (s : state) (d : device) : option cstring * state :=
  match strrchr (dev_name d) "/" with
  | None => (None, log_error "Cannot find '/' in device name." [] s)
  | Some p =>
      match drop 1 p with
      | [] => (None, log_error "Device name is not valid." [] s)
      | name => (Some name, s)
      end
  end.

(** [_get_sysfs_name_by_devt(sysfs_dir, devno, buf, buf_size)] with a
    buffer of [PATH_MAX] bytes. *)
Definition _get_sysfs_name_by_devt (s : state) (devno : dev_t) : option cstring * state :=
  match dm_snprintf PATH_MAX
          (dm_sysfs_dir (env s) ++ str "dev/block/" ++ print_d (MAJOR devno) ++ str ":"
           ++ print_d (MINOR devno)) with
  | None => (None, log_error "Sysfs path string is too long." [] s)
  | Some path =>
      match readlink path with
      | None => (None, add_entry (log_sys_error "readlink" path) s)
      | Some target =>
          match strrchr (c_str (take (PATH_MAX - 1) target)) "/" with
          | None => (None, log_error "Cannot find device name in sysfs path." [] s)
          | Some p => (Some (drop 1 p), s)
          end
      end
  end.

(** [_get_sysfs_string(path, buffer, max_size)]: the buffer when the call
    returns 1.  [fclose] is taken to succeed. *)
Definition _get_sysfs_string (s : state) (path : cstring) (max_size : nat)
  : option cstring * state :=
  match files (fs s) !! path with
  | None => (None, add_entry (log_sys_error "fopen" path) s)
  | Some content =>
      match file_lines max_size content with
      | [] => (None, add_entry (log_sys_error "fgets" path) s)
      | line :: _ => (Some (c_str line), s)
      end
  end.

(** [_get_sysfs_dm_mpath(dt, sysfs_dir, holder_name)] *)
Definition _get_sysfs_dm_mpath (s : state) (holder_name : cstring) : bool * state :=
  match dm_snprintf PATH_MAX
          (dm_sysfs_dir (env s) ++ str "block/" ++ holder_name ++ str "/dm/uuid") with
  | None => (false, log_error "Sysfs path string is too long." [] s)
  | Some path =>
      match _get_sysfs_string s path 128 with
      | (None, s) => (false, s)
      | (Some buffer, s) => (has_prefix MPATH_PREFIX buffer, s)
      end
  end.

(** The loop of [_dev_is_mpath_component_sysfs] over the names of the
    holders directory, with [_minor_hash_tab]: the number of the multipath
    device when [is_mpath_component] is set. *)
Fixpoint check_holders (s : state) (tab : option (gmap Z Z)) (d : device)
    (names : list cstring) : option dev_t * state * option (gmap Z Z) :=
  match names with
  | [] => (None, s, tab)
  | holder_name :: rest =>
      if streq holder_name (str ".") || streq holder_name (str "..")
      then check_holders s tab d rest
      else
      match dm_snprintf PATH_MAX (dev_dir ++ str "/" ++ holder_name) with
      | None =>
          check_holders (log_warn "dm device path to check mpath is too long." [] s) tab d rest
      | Some dm_dev_path =>
          match stat_rdev (env s) dm_dev_path with
          | None =>
              check_holders
                (log_debug "dev_is_mpath_component %s holder %s stat result %d"
                   [dev_name d; dm_dev_path; print_d (stat_errno dm_dev_path)] s) tab d rest
          | Some rdev =>
              let dm_dev_major := MAJOR rdev in
              let dm_dev_minor := MINOR rdev in
              if negb (bool_decide (dm_dev_major = device_mapper_major (dev_types (cmd s))))
              then
                check_holders
                  (log_debug "dev_is_mpath_component %s holder %s %d:%d does not have dm major"
                     [dev_name d; dm_dev_path; print_d dm_dev_major; print_d dm_dev_minor] s)
                  tab d rest
              else
              let look := default 0%Z (tab ≫= (fun t => t !! dm_dev_minor)) in
              if (0 <? look)%Z then
                (if (look =? 2)%Z then Some (mk_dev_t dm_dev_major dm_dev_minor) else None,
                 log_debug
                   "dev_is_mpath_component %s holder %s %u:%u already checked as %sbeing mpath."
                   [dev_name d; holder_name; print_u dm_dev_major; print_u dm_dev_minor;
                    if (1 <? look)%Z then [] else str "not "] s,
                 tab)
              else
              let '(is_mpath, s) := _get_sysfs_dm_mpath s holder_name in
              if is_mpath then
                (Some (mk_dev_t dm_dev_major dm_dev_minor),
                 log_debug "dev_is_mpath_component %s holder %s %u:%u ignore mpath component"
                   [dev_name d; holder_name; print_u dm_dev_major; print_u dm_dev_minor] s,
                 (fun t => <[dm_dev_minor := 2%Z]> t) <$> tab)
              else check_holders s ((fun t => <[dm_dev_minor := 1%Z]> t) <$> tab) d rest
          end
      end
  end.

(** [_dev_is_mpath_component_sysfs(cmd, dev, mpath_devno)]: the number
    written to [*mpath_devno] when the call returns 1. *)
Definition _dev_is_mpath_component_sysfs (s : state) (tab : option (gmap Z Z)) (h : dev_ref)
    (d : device) : option dev_t * state * option (gmap Z Z) :=
  let dev_major := MAJOR (dev_dev d) in
  let dev_minor := MINOR (dev_dev d) in
  if negb (major_is_scsi_device dev_major) && negb (dev_is_nvme h) then (None, s, tab)
  else
  let '(ret, primary_dev) := dev_get_primary_dev (env s) h in
  let '(name, s) :=
    if bool_decide (ret = 2%Z) then
      match _get_sysfs_name_by_devt s primary_dev with
      | (None, s) => (None, s)
      | (Some name, s) =>
          (Some name,
           log_debug
             "%s: Device is a partition, using primary device %s for mpath component detection"
             [dev_name d; name] s)
      end
    else if bool_decide (ret = 1%Z) then _get_sysfs_name s d
    else (None, log_warn "Failed to get primary device for %d:%d."
                  [print_d dev_major; print_d dev_minor] s) in
  match name with
  | None => (None, s, tab)
  | Some name =>
      match dm_snprintf PATH_MAX (dm_sysfs_dir (env s) ++ str "block/" ++ name ++ str "/holders")
      with
      | None => (None, log_warn "Sysfs path to check mpath is too long." [] s, tab)
      | Some holders_path =>
          match stat_is_dir holders_path with
          | None => (None, s, tab)
          | Some false => (None, log_warn "Path %s is not a directory." [holders_path] s, tab)
          | Some true =>
              match readdir holders_path with
              | None => (None, log_debug "Device %s has no holders dir" [dev_name d] s, tab)
              | Some names => check_holders s tab d names
              end
          end
      end
  end.

(** [dev_is_mpath_component(cmd, dev, holder_devno)]; [udev] tells that the
    source of external device information is udev and that
    [_dev_is_mpath_component_udev] returns 1 for the device. *)
Definition dev_is_mpath_component (udev : dev_ref -> bool) (s : state) (st : mpath_statics)
    (h : dev_ref) (d : device) : bool * option dev_t * state * mpath_statics :=
  let '(devno, s, tab) := _dev_is_mpath_component_sysfs s (_minor_hash_tab st) h d in
  let st := mk_statics (wwid_tab_set st) tab (mp st) in
  match devno with
  | Some n => (true, Some n, s, st)
  | None =>
      let '(r, s) := _dev_in_wwid_file s st h d in
      if r then (true, None, s, st) else (udev h, None, s, st)
  end.

End MpathComponent.

(** The uuid that the check of a holder reads now starts with the prefix
    of multipath. *)
Definition holder_is_mpath (log_sys_error : string -> cstring -> log_entry) (s : state)
    (holder_name : cstring) : Prop :=
  fst (_get_sysfs_dm_mpath log_sys_error s holder_name) = true.

(** What [_minor_hash_tab] holds is right: a minor number is kept with 1 or
    2, it is the minor number of a holder of the major number of the device
    mapper, and 2 is kept for a holder that is a multipath device. *)
Definition memo_sound (dev_dir : cstring) (log_sys_error : string -> cstring -> log_entry)
    (s : state) (t : gmap Z Z) : Prop :=
  forall minor v, t !! minor = Some v ->
    (v = 1%Z \/ v = 2%Z)
    /\ exists holder_name,
         stat_rdev (env s) (dev_dir ++ str "/" ++ holder_name)
         = Some (mk_dev_t (device_mapper_major (dev_types (cmd s))) minor)
         /\ (v = 2%Z <-> holder_is_mpath log_sys_error s holder_name).


(** * The vocabulary of the further statements *)

(** What a step leaves of the lock and of the settings that decide about
    locking. *)
Definition lock_frame (s s' : state) : Prop :=
  lock_state s' = lock_state s
  /\ _using_devices_file (glob s') = _using_devices_file (glob s)
  /\ nolocking (cmd s') = nolocking (cmd s) /\ sysinit (cmd s') = sysinit (cmd s)
  /\ (enable_devices_file (cmd s) = true -> enable_devices_file (cmd s') = true).

(** The messages of [read_sys_block] about a device. *)
Definition sysfs_messages (d : device) (es : list log_entry) : Prop :=
  Forall (fun e => e = sysfs_path_failed d \/ e = using_primary d) es.

(** The call of [_match_dm_devnames] in [_match_du_to_dev], made for an
    identity of the device-name kind only. *)
Definition dm_names_call (s : state) (d : device) (id : dev_id) (du : dev_use) : bool * state :=
  if idtype_is (id_idtype id) DEV_ID_TYPE_DEVNAME then _match_dm_devnames s d id du
  else (false, s).


(** The entry at [i] is of a stable kind, matched to the device [h], which
    was scanned, could be read and passes the filter. *)
Definition validated_stable_entry (scanned_devs : option (list dev_ref)) (s : state)
    (i : nat) (du : dev_use) (h : dev_ref) (d : device) : Prop :=
  use_devices (cmd s) !! i = Some du /\ du_idtype du <> DEV_ID_TYPE_DEVNAME
  /\ du_dev du = Some h /\ get_dev s h = Some d
  /\ was_scanned scanned_devs h d = true
  /\ passes_filter (env s) h (Some "persistent"%string) = true.

(** The PVID of the entry agrees with what was read from the device: the
    PVID of the device, or none (absent, or written as a dot) when the device
    has none. *)
Definition pvid_agrees (d : device) (du : dev_use) : Prop :=
  match dev_pvid d with
  | _ :: _ => exists p, du_pvid du = Some p /\ id_equal (dev_pvid d) p = true
  | [] => match du_pvid du with
          | Some p => has_prefix (str ".") p = true
          | None => True
          end
  end.

(** What a step leaves of the files and of what names them. *)
Definition fs_frame (s s' : state) : Prop :=
  fs s' = fs s /\ env s' = env s /\ glob s' = glob s
  /\ set_use_devices (cmd s') [] = set_use_devices (cmd s) [].

(** Every entry with a device has one of the cache that carries the flag
    of a match. *)
Definition links_flagged (s : state) : Prop :=
  forall i du h, use_devices (cmd s) !! i = Some du -> du_dev du = Some h ->
    exists d, get_dev s h = Some d /\ DEV_MATCHED_USE_ID d = true.

(** The names of the cache lead to devices of the cache. *)
Definition cache_valid (s : state) : Prop :=
  forall n h, dev_cache_get_existing (env s) n = Some h -> is_Some (get_dev s h).

(** An error of the log is that of [read_sys_block] for a sysfs path that
    does not fit its buffer. *)
Definition sysfs_error_only (e : log_entry) : Prop :=
  log_lvl e = LOG_ERROR -> exists d, e = sysfs_path_failed d.

(** A step adds to the log, and no error but that one. *)
Definition log_quiet (s s' : state) : Prop :=
  exists es, log s' = log s ++ es /\ Forall sysfs_error_only es.

(** What a step of the matching does to the registry: the entries keep all
    but their device, an entry with a device keeps it unless it is the entry
    at one of the positions [on], a flagged device stays flagged, and an entry
    that gets a device gets a flagged one. *)
Definition match_step (on : nat -> Prop) (s s' : state) : Prop :=
  fs_frame s s' /\ log_quiet s s'
  /\ map unlinked (use_devices (cmd s')) = map unlinked (use_devices (cmd s))
  /\ (forall j du, use_devices (cmd s) !! j = Some du -> ~ on j ->
        use_devices (cmd s') !! j = Some du)
  /\ (forall h d, get_dev s h = Some d ->
        exists d', get_dev s' h = Some d'
                   /\ (DEV_MATCHED_USE_ID d = true -> DEV_MATCHED_USE_ID d' = true))
  /\ (forall h, get_dev s h = None -> get_dev s' h = None)
  /\ (forall j du h, use_devices (cmd s') !! j = Some du -> du_dev du = Some h ->
        (exists du0, use_devices (cmd s) !! j = Some du0 /\ du_dev du0 = Some h)
        \/ (on j /\ exists d, get_dev s' h = Some d /\ DEV_MATCHED_USE_ID d = true)).

(** The entry at [j] had no device in [s]. *)
Definition unlinked_at (s : state) (j : nat) : Prop :=
  exists du, use_devices (cmd s) !! j = Some du /\ du_dev du = None.

(** The entry that [device_id_add] makes for a device. *)
Definition added_entry (d : device) (h : dev_ref) (pvid_arg : list ascii) (part : Z)
    (idtype : idtype_t) (idname : cstring) : dev_use :=
  mk_du idtype (Some idname) (Some (dev_name d)) (Some (c_str (take ID_LEN pvid_arg))) part
    (Some h).

(** No device has two entries. *)
Definition one_entry_per_device (l : list dev_use) : Prop :=
  forall i j du1 du2 h, l !! i = Some du1 -> l !! j = Some du2 ->
    du_dev du1 = Some h -> du_dev du2 = Some h -> i = j.

(** The user has not refused a duplicate PV. *)
Definition not_refused (yes : bool) (yes_no_prompt : string -> ascii) : Prop :=
  yes = true \/ yes_no_prompt "Add device with duplicate PV to devices file?" <> "n"%char.

(** The kind and the name that [device_id_add] takes when the caller names
    none and the device is of no special major number. *)
Definition default_id (s : state) (h : dev_ref) (d : device) : idtype_t * option cstring :=
  match device_id_system_read s h d DEV_ID_TYPE_SYS_WWID with
  | Some n => (DEV_ID_TYPE_SYS_WWID, Some n)
  | None =>
      match device_id_system_read s h d DEV_ID_TYPE_SYS_SERIAL with
      | Some n => (DEV_ID_TYPE_SYS_SERIAL, Some n)
      | None => (DEV_ID_TYPE_DEVNAME, Some (dev_name d))
      end
  end.

(** No identity of the kind is cached on the device without a name; the
    name of a cached identity of the kind is handed to [strcmp]. *)
Definition cached_name_ok (d : device) (idtype : idtype_t) : Prop :=
  match find_id (dev_ids d) idtype 0 with
  | Some (_, id) => is_Some (id_idname id)
  | None => True
  end.

(** The entry that has the PVID, if there is one, has an idname, which may
    be handed to [strcmp]. *)
Definition pvid_entry_named (s : state) (pvid : cstring) : Prop :=
  match du_at s (get_du_for_pvid s pvid) with
  | Some (_, du) => is_Some (du_idname du)
  | None => True
  end.

(** A step that only logs. *)
Definition logs_only (s s' : state) : Prop :=
  cmd s' = cmd s /\ env s' = env s /\ fs s' = fs s /\ devs s' = devs s /\ glob s' = glob s.

(** States that differ in the log and in the PVID read from the label of
    a device. *)
Definition same_but_pvid (s s' : state) : Prop :=
  cmd s' = cmd s /\ env s' = env s /\ fs s' = fs s /\ glob s' = glob s
  /\ forall h, (fun d => set_dev_pvid d []) <$> get_dev s' h
               = (fun d => set_dev_pvid d []) <$> get_dev s h.

(** * Further samples *)

(** A devices file with a comment, a dot for the device name, and fields
    in another order. *)
Definition file_mixed : list ascii :=
  str "# LVM uses devices listed in this file." ++ [LF]
  ++ str "VERSION=1.1.3" ++ [LF]
  ++ str "PVID=P0000000000000000000000000000001 IDNAME=naa.5000c500a1b2c3d4 DEVNAME=. IDTYPE=sys_wwid"
  ++ [LF].

(** The sentinel of the rename search next to a devices file. *)
Definition state_sentinel : state :=
  with_file (with_dus state0 [du_sdb]) (str "/run/lvm/searched_devnames") [].

(** A command that holds the shared lock on descriptor 5. *)
Definition state_shared : state :=
  set_glob (with_dus state0 [du_sdb])
    (mk_globals 5 true LOCK_SH (str "/run/lock/lvm/D_system.devices") [] []).

(** The disk /dev/sdb with a wwid in sysfs, not yet matched, and the entry
    that names the wwid. *)
Definition dev_sdb : device :=
  mk_device (mk_dev_t 8 16) [str "/dev/sdb"] false false 0 [] [] None.

Definition env_sdb : environ :=
  mk_env false 0 4242 (ctime_now env0) (str "/sys/")
    (fun p => if streq p (str "/sys/dev/block/8:16/device/wwid")
              then str "naa.5000c500a1b2c3d4" else [])
    (fun _ => None) [1] (fun n => if streq n (str "/dev/sdb") then Some 1 else None)
    (fun _ => (1%Z, mk_dev_t 8 16)) (fun _ => Some 0%Z)
    (fun _ _ => true) (fun _ => None) (str "/run/lvm").

Definition state_sdb1 : state :=
  mk_state (set_use_devices cmd0 [du_sdb]) glob0 fs0 env_sdb {[ 1 := dev_sdb ]} [].



(** The first partition of a multipath device. *)
Definition dev_dm_part : device :=
  mk_device (mk_dev_t 253 3) [str "/dev/dm-3"] false false 0 [] [] None.

Definition env_dm_part : environ :=
  mk_env false 0 4242 (ctime_now env0) (str "/sys/")
    (fun p => if streq p (str "/sys/dev/block/253:3/dm/uuid")
              then str "part1-mpath-3600508b1001c1234" else [])
    (fun _ => None) [3] (fun n => if streq n (str "/dev/dm-3") then Some 3 else None)
    (fun _ => (1%Z, mk_dev_t 253 3)) (fun _ => Some 0%Z)
    (fun _ _ => true) (fun _ => None) (str "/run/lvm").

Definition state_dm_part : state := mk_state cmd0 glob0 fs0 env_dm_part {[ 3 := dev_dm_part ]} [].

(** The disk /dev/sdb matched by its wwid to an entry with an old PVID and
    an old name. *)
Definition dev_sdb_matched : device :=
  mk_device (mk_dev_t 8 16) [str "/dev/sdb"] true false 0
    (str "PZ000000000000000000000000000002")
    [mk_dev_id DEV_ID_TYPE_SYS_WWID (Some (str "naa.5000c500a1b2c3d4"))] (Some 0).

Definition du_sdb_old : dev_use :=
  mk_du DEV_ID_TYPE_SYS_WWID (Some (str "naa.5000c500a1b2c3d4")) (Some (str "/dev/sdq"))
    (Some (str "P0000000000000000000000000000001")) 0 (Some 1).

Definition state_sdb_old : state :=
  mk_state (set_use_devices cmd0 [du_sdb_old]) glob0 fs0 env0 {[ 1 := dev_sdb_matched ]} [].

(** A call on the sample device, with [--yes]. *)
Definition pvid_sample : list ascii := str "abcdefghijklmnopqrstuvwxyz012345".

Definition state_sdb_added : state :=
  default state_sdb1
    (snd <$> device_id_add (fun _ => 0%Z) 147 true (fun _ => "y"%char) state_sdb1 1 pvid_sample
               None None).

(** A wwids file that lists the sample disk and another one, which the
    configuration of multipath blacklists. *)
Definition wwids_path : cstring := str "/etc/multipath/wwids".

Definition files_wwids : gmap cstring (list ascii) :=
  {[ wwids_path :=
       str "# Valid WWIDs:" ++ [LF] ++ str "/35000c500a1b2c3d4/" ++ [LF]
       ++ str "/3600508b1001caaaa/" ++ [LF];
     str "/etc/multipath.conf" :=
       str "blacklist {" ++ [LF] ++ str "  wwid 3600508b1001caaaa" ++ [LF] ++ str "}" ++ [LF] ]}.

Definition statics0 : mpath_statics := mk_statics false None (mk_mpath [] [] ∅ []).

Definition statics_init : mpath_statics :=
  default statics0 (dev_mpath_init files_wwids None (Some wwids_path) statics0).

(** The sample disk with 1000 sectors, under a minimum of 4096. *)
Definition usable_sample (s : state) (h : dev_ref) : option (bool * state) :=
  _passes_usable_filter 512 1024 8192 (fun m => (m =? 253)%Z) false (fun _ _ => (true, false))
    (fun _ => Some 1000%Z) 4096 s (mk_filter_data FILTER_MODE_NO_LVMETAD true) h.

Definition state_sdb_small : state := default state_sdb1 (snd <$> usable_sample state_sdb1 1).

(** A disk that an LV and a multipath device hold, in that order. *)
Definition env_holders : environ :=
  mk_env false 0 4242 (ctime_now env0) (str "/sys/") (fun _ => [])
    (fun p => if streq p (str "/dev/dm-1") then Some (mk_dev_t 253 1)
              else if streq p (str "/dev/dm-2") then Some (mk_dev_t 253 2) else None)
    [1] (fun n => if streq n (str "/dev/sdb") then Some 1 else None)
    (fun _ => (1%Z, mk_dev_t 8 16)) (fun _ => Some 0%Z)
    (fun _ _ => true) (fun _ => None) (str "/run/lvm").

Definition state_holders : state :=
  with_file
    (with_file (mk_state cmd0 glob0 fs0 env_holders {[ 1 := dev_sdb ]} [])
       (str "/sys/block/dm-1/dm/uuid") (str "LVM-Zx2kW9aQ" ++ [LF]))
    (str "/sys/block/dm-2/dm/uuid") (str "mpath-3600508b1001c1234" ++ [LF]).

Definition sys_error_sample (x : string) (y : cstring) : log_entry :=
  mk_log LOG_ERROR "%s%s%s failed: %s" [y; str ": "; str x; str "No such file or directory"].

Definition holders_sample (s : state) (tab : option (gmap Z Z))
  : option dev_t * state * option (gmap Z Z) :=
  _dev_is_mpath_component_sysfs (fun m => (m =? 8)%Z) (fun _ => false) (fun _ => None)
    (fun p => if streq p (str "/sys/block/sdb/holders") then Some true else None)
    (fun _ => Some [str "."; str ".."; str "dm-1"; str "dm-2"])
    (str "/dev") (fun _ => 2%Z) sys_error_sample s tab 1 dev_sdb.

Definition holders_first : option dev_t * state * option (gmap Z Z) :=
  holders_sample state_holders (Some ∅).

Definition loop_sample (s : state) (tab : option (gmap Z Z))
  : option dev_t * state * option (gmap Z Z) :=
  check_holders (str "/dev") (fun _ => 2%Z) sys_error_sample s tab dev_sdb
    [str "dm-1"; str "dm-2"].

Definition loop_first : option dev_t * state * option (gmap Z Z) :=
  loop_sample state_holders (Some ∅).

(** An entry by device name for a PV that no device holds. *)
Definition du_gone : dev_use :=
  mk_du DEV_ID_TYPE_DEVNAME (Some (str "/dev/sdc")) (Some (str "/dev/sdc"))
    (Some (str "P0000000000000000000000000000002")) 0 None.

Definition state_gone : state :=
  mk_state (set_use_devices cmd0 [du_gone]) glob0 fs0 env_sdb {[ 1 := dev_sdb ]} [].

(** * Proofs *)

(** ** Reading the file again, and lines without a key *)

(** Claim C10: when the list of entries is not empty, [device_ids_read]
    returns success and leaves the command context (with the list of
    entries), the globals (with the system id and the version read) and the
    files as they are, whatever the files hold. *)
Theorem device_ids_read_again (s : state) (f : filesys) :
  use_devices (cmd s) <> [] ->
  fst (device_ids_read (set_fs s f)) = true
  /\ cmd (snd (device_ids_read (set_fs s f))) = cmd s
  /\ glob (snd (device_ids_read (set_fs s f))) = glob s
  /\ fs (snd (device_ids_read (set_fs s f))) = f.
Proof.
  intros Hne. unfold device_ids_read. simpl.
  destruct (enable_devices_file (cmd s)); simpl; [|done].
  destruct (use_devices (cmd s)) as [|du l] eqn:E; [done|]. done.
Qed.

Lemma device_ids_read_again_witness :
  use_devices (cmd (with_dus state0 [du_sdb])) <> []
  /\ fst (device_ids_read (set_fs (with_dus state0 [du_sdb]) fs0)) = true.
Proof.
  split; [discriminate|].
  apply (device_ids_read_again (with_dus state0 [du_sdb]) fs0). discriminate.
Defined.

(** Claim C9 (amended): a line of the devices file that is neither a comment
    nor a header and has no [IDTYPE] or no [IDNAME] key gives no entry and
    changes nothing, the log included: it is passed over without a
    message. *)
Theorem read_line_without_key_is_skipped (s : state) (raw : list ascii) :
  is_entry_line (c_str raw) = true -> lacks_key (c_str raw) ->
  device_ids_read_line s raw = s.
Proof.
  unfold is_entry_line, lacks_key, device_ids_read_line. intros H L.
  apply andb_true_iff in H as [H H3]. apply andb_true_iff in H as [H1 H2].
  apply negb_true_iff in H1, H2, H3. rewrite H1, H2, H3.
  unfold read_entry_line. destruct L as [-> | ->]; [done|].
  by destruct (strstr (c_str raw) (str "IDTYPE")).
Qed.

Lemma read_line_without_key_is_skipped_witness :
  is_entry_line (c_str line_no_idtype) = true /\ lacks_key (c_str line_no_idtype)
  /\ device_ids_read_line state0 line_no_idtype = state0.
Proof.
  split; [reflexivity|]. split; [left; reflexivity|].
  apply (read_line_without_key_is_skipped state0 line_no_idtype); [reflexivity|left; reflexivity].
Defined.

Lemma read_line_without_key_no_warning :
  is_entry_line (c_str line_no_idtype) = true /\ lacks_key (c_str line_no_idtype)
  /\ logs_level LOG_WARN (new_log state0 (device_ids_read_line state0 line_no_idtype)) = false.
Proof. split; [reflexivity|]. split; [left; reflexivity|]. vm_compute. reflexivity. Qed.

(** ** The version check of [device_ids_write] *)


Lemma fs_add_log s l f a : fs (add_log s l f a) = fs s. Proof. done. Qed.




(** ** An abandoned update *)

Lemma quiet_refl s : quiet_step s s.
Proof. repeat split; auto. exists []. by rewrite app_nil_r. Qed.

Lemma quiet_trans s1 s2 s3 : quiet_step s1 s2 -> quiet_step s2 s3 -> quiet_step s1 s3.
Proof.
  intros (C1 & V1 & F1 & es1 & L1 & E1) (C2 & V2 & F2 & es2 & L2 & E2).
  repeat split; [congruence|congruence|auto|].
  exists (es1 ++ es2). rewrite L2, L1, app_assoc. split; [done|].
  unfold logs_level in *. rewrite existsb_app, E1, E2. done.
Qed.

Lemma quiet_add_log s l f a : l <> LOG_ERROR -> quiet_step s (add_log s l f a).
Proof.
  intros Hl. repeat split; auto. exists [mk_log l f a]. split; [done|].
  simpl. rewrite bool_decide_eq_false_2; done.
Qed.

Lemma quiet_set_lock s fd u m lf : quiet_step s (set_glob s (set_lock (glob s) fd u m lf)).
Proof. repeat split; auto. exists []. by rewrite app_nil_r. Qed.

Lemma quiet_new_file s p :
  files (fs s) !! p = None ->
  quiet_step s (set_fs s (set_files (fs s) (<[p := []]> (files (fs s))))).
Proof.
  intros Hp. repeat split; auto.
  - intros q c Hq. simpl. rewrite lookup_insert_ne; [done|]. congruence.
  - exists []. by rewrite app_nil_r.
Qed.

Ltac quiet_log :=
  first [ exists []; split; [by rewrite app_nil_r | reflexivity]
        | eexists; split; [reflexivity | reflexivity]
        | eexists; split; [rewrite <- app_assoc; reflexivity | reflexivity] ].

Ltac quiet_direct :=
  unfold quiet_step; simpl;
  split; [reflexivity|]; split; [reflexivity|];
  split; [ let q := fresh "q" in let c := fresh "c" in let Hq := fresh "Hq" in
           intros q c Hq; simpl; first [done | rewrite lookup_insert_ne; [done|congruence]]
         | quiet_log ].

Ltac split_ifs :=
  repeat (match goal with
          | |- context [if ?b then _ else _] => destruct b eqn:?
          | |- context [match ?o with Some _ => _ | None => _ end] => destruct o eqn:?
          end; simpl).

Lemma lock_quiet s mode nb fd : quiet_step s (snd (_lock_devices_file s mode nb fd)).
Proof.
  unfold _lock_devices_file. split_ifs; quiet_direct.
Qed.

Lemma unlock_quiet s : quiet_step s (unlock_devices_file s).
Proof. unfold unlock_devices_file. split_ifs; quiet_direct. Qed.

Lemma version_unchanged_quiet s : quiet_step s (snd (device_ids_version_unchanged s)).
Proof. unfold device_ids_version_unchanged. split_ifs; quiet_direct. Qed.

Lemma version_unchanged_true s content :
  files (fs s) !! devices_file_path (cmd s) = Some content ->
  fst (device_ids_version_unchanged s) = true ->
  first_version_line (file_lines PATH_MAX content) = Some (_devices_file_version (glob s)).
Proof.
  unfold device_ids_version_unchanged. intros ->.
  destruct (first_version_line _) as [v|]; simpl; [|done].
  unfold streq. intros H. apply bool_decide_eq_true in H. by subst.
Qed.

Lemma lock_refused_fails s fd :
  lock_refused s -> fst (fst (lock_devices_file_try s LOCK_EX fd)) = false.
Proof.
  intros (He & Hn & Hs & Hi & Hl & Hb).
  unfold lock_devices_file_try, _lock_devices_file.
  rewrite He, Hn. simpl.
  rewrite (bool_decide_eq_false_2 _ Hl).
  destruct (bool_decide (_devices_file_locked (glob s) = 0%Z)); simpl; [|done].
  destruct (lock_path (cmd s)) as [lp|]; [|done]. simpl.
  specialize (Hb _ eq_refl).
  unfold dm_snprintf. destruct (_ <? PATH_MAX); simpl; [|done].
  destruct (bool_decide (_devices_fd (glob s) = (-1)%Z)); simpl; [|done].
  destruct (negb _ && negb _) eqn:E; [simpl; rewrite ?Hs, ?Hi; done|].
  unfold flock_grants. simpl.
  destruct (files (fs s) !! lp); simpl;
    rewrite (bool_decide_eq_false_2 _ Hb); simpl; rewrite andb_false_r; simpl;
    rewrite ?Hs, ?Hi; done.
Qed.

(** Claim C4 (amended): when the version of the file differs from the one
    the command recorded, or when another process holds the lock and the
    command honours locking (devices file enabled, no [nolocking], [sysinit]
    or [ignorelockingfailure]), [_device_ids_update_try] leaves the devices
    file as it is and logs no error. *)
Theorem update_try_abandoned (s : state) (fd : Z) (content : list ascii) :
  files (fs s) !! devices_file_path (cmd s) = Some content ->
  version_changed s content \/ lock_refused s ->
  files (fs (_device_ids_update_try s fd)) !! devices_file_path (cmd s) = Some content
  /\ logs_level LOG_ERROR (new_log s (_device_ids_update_try s fd)) = false.
Proof.
  intros Hf Hor.
  assert (Q : quiet_step s (_device_ids_update_try s fd)).
  { unfold _device_ids_update_try.
    destruct (expect_missing_vg_device (cmd s)); [quiet_direct|].
    pose proof (lock_quiet s LOCK_EX true fd) as QL.
    pose proof (lock_refused_fails s fd) as RF.
    unfold lock_devices_file_try in *.
    destruct (_lock_devices_file s LOCK_EX true fd) as [[locked held] s1]. simpl in *.
    assert (Q2 : quiet_step s
      (if negb locked then log_debug "Skip devices file update (busy)." [] s1
       else let '(unchanged, s0) := device_ids_version_unchanged s1 in
            if unchanged then snd (device_ids_write s0)
            else log_debug "Skip devices file update (changed)." [] s0)).
    { destruct locked; simpl.
      - pose proof (version_unchanged_quiet s1) as QV.
        pose proof (version_unchanged_true s1 content) as VT.
        destruct (device_ids_version_unchanged s1) as [unchanged s2]. simpl in *.
        destruct unchanged.
        + exfalso. destruct Hor as [Hc | Hr]; [|by specialize (RF Hr)].
          destruct QL as (C1 & V1 & F1 & _). apply Hc.
          rewrite <- V1. apply VT; [|done]. rewrite C1. by apply F1.
        + eapply quiet_trans; [exact QL|]. eapply quiet_trans; [exact QV|]. quiet_direct.
      - eapply quiet_trans; [exact QL|]. quiet_direct. }
    destruct held; simpl; [exact Q2|].
    eapply quiet_trans; [exact Q2|]. apply unlock_quiet. }
  destruct Q as (C & V & F & es & L & E). split; [by apply F|].
  unfold new_log. rewrite L, drop_app_length. exact E.
Qed.

Lemma update_try_abandoned_witness :
  files (fs (_device_ids_update_try state_stale 3)) !! devices_file_path (cmd state_stale)
  = Some file_v6.
Proof.
  apply (update_try_abandoned state_stale 3 file_v6).
  - vm_compute. reflexivity.
  - left. unfold version_changed. vm_compute. discriminate.
Defined.

Lemma update_try_writes_under_busy_lock :
  files (fs state_busy) !! devices_file_path (cmd state_busy) = Some file_v6
  /\ ignorelockingfailure (cmd state_busy) = true
  /\ fst (fst (_lock_devices_file state_busy LOCK_EX true 3)) = true
  /\ _devices_file_locked (glob (snd (_lock_devices_file state_busy LOCK_EX true 3))) = 0%Z
  /\ flock_grants (fs state_busy) (str "/run/lock/lvm/D_system.devices") LOCK_EX true = false
  /\ first_version_line
       (file_lines PATH_MAX
          (default [] (files (fs (_device_ids_update_try state_busy 3))
                         !! devices_file_path (cmd state_busy))))
     = Some (str "1.1.7").
Proof. repeat split; vm_compute; reflexivity. Qed.

(** ** Facts about the string routines *)

Section StringFacts.

Lemma ch_eqb_eq a b : ch_eqb a b = true <-> a = b.
Proof. unfold ch_eqb. apply Ascii.eqb_eq. Qed.

Lemma ch_eqb_neq a b : ch_eqb a b = false <-> a <> b.
Proof. unfold ch_eqb. apply Ascii.eqb_neq. Qed.

Lemma ch_eqb_refl a : ch_eqb a a = true.
Proof. by apply ch_eqb_eq. Qed.

Lemma c_str_no_nul l : no_nul l = true -> c_str l = l.
Proof.
  induction l as [|c l IH]; simpl; [done|].
  intros H. apply andb_true_iff in H as [Hc Hl].
  apply negb_true_iff in Hc. rewrite Hc. by rewrite IH.
Qed.

Lemma has_prefix_app lit rest : has_prefix lit (lit ++ rest) = true.
Proof. induction lit as [|c lit IH]; simpl; [done|]. by rewrite ch_eqb_refl. Qed.

(** A needle that does not contain the separator and is a prefix of
    [u ++ sep :: v] is a prefix of [u]. *)
Lemma has_prefix_before_sep needle u sep v :
  forallb (fun c => negb (ch_eqb c sep)) needle = true ->
  has_prefix needle (u ++ sep :: v) = true -> has_prefix needle u = true.
Proof.
  revert u. induction needle as [|c needle IH]; intros u Hs H; [done|].
  simpl in Hs. apply andb_true_iff in Hs as [Hc Hs].
  destruct u as [|a u]; simpl in *.
  - apply andb_true_iff in H as [H _]. apply ch_eqb_eq in H. subst.
    rewrite ch_eqb_refl in Hc. done.
  - apply andb_true_iff in H as [H1 H2]. rewrite H1. simpl. by apply IH.
Qed.

Lemma strstr_here hay needle : has_prefix needle hay = true -> strstr hay needle = Some hay.
Proof. intros H. destruct hay; simpl; rewrite H; done. Qed.

Lemma contains_cons c u needle :
  contains (c :: u) needle = has_prefix needle (c :: u) || contains u needle.
Proof.
  unfold contains. cbn [strstr]. destruct (has_prefix needle (c :: u)); [|done].
  apply bool_decide_eq_true. eauto.
Qed.

Lemma contains_false_strstr u needle : contains u needle = false -> strstr u needle = None.
Proof.
  unfold contains. intros H. apply bool_decide_eq_false in H.
  destruct (strstr u needle); [|done]. destruct H. eauto.
Qed.

(** [strstr] passes over a field that does not contain the needle. *)
Lemma strstr_skip_field u sep v c needle :
  forallb (fun c => negb (ch_eqb c sep)) (c :: needle) = true ->
  contains u (c :: needle) = false ->
  strstr (u ++ sep :: v) (c :: needle) = strstr v (c :: needle).
Proof.
  intros Hs. induction u as [|a u IH]; intros Hc.
  - cbn [app strstr has_prefix]. simpl in Hs. apply andb_true_iff in Hs as [Hs _].
    apply negb_true_iff in Hs. unfold ch_eqb in *. rewrite Hs. done.
  - rewrite contains_cons in Hc. apply orb_false_iff in Hc as [H1 H2].
    cbn [app strstr].
    destruct (has_prefix (c :: needle) (a :: u ++ sep :: v)) eqn:E.
    + apply (has_prefix_before_sep _ (a :: u)) in E; [|done]. congruence.
    + by apply IH.
Qed.

Lemma strstr_last_field u sep c needle :
  forallb (fun c => negb (ch_eqb c sep)) (c :: needle) = true ->
  contains u (c :: needle) = false ->
  strstr (u ++ [sep]) (c :: needle) = None.
Proof.
  intros Hs Hc. rewrite strstr_skip_field; [|done|done]. done.
Qed.

Lemma strchr_skip key c rest :
  forallb (fun a => negb (ch_eqb a c)) key = true ->
  strchr (key ++ c :: rest) c = Some (c :: rest).
Proof.
  induction key as [|a key IH]; simpl; intros H.
  - by rewrite ch_eqb_refl.
  - apply andb_true_iff in H as [Ha H]. apply negb_true_iff in Ha. rewrite Ha. by apply IH.
Qed.

Lemma copy_token_value val sep rest room :
  forallb plain val = true -> sep = SP \/ sep = LF -> length val <= room ->
  copy_token (val ++ sep :: rest) room = val.
Proof.
  revert room. induction val as [|c val IH]; intros room Hp Hs Hl; simpl.
  - destruct room; [done|]. destruct Hs as [-> | ->]; done.
  - simpl in Hl. destruct room as [|room]; [lia|].
    simpl in Hp. apply andb_true_iff in Hp as [Hc Hp].
    unfold plain in Hc. apply andb_true_iff in Hc as [Hc _].
    apply andb_true_iff in Hc as [H1 H2]. apply negb_true_iff in H1, H2.
    rewrite H1, H2. simpl. f_equal. apply IH; [done|done|lia].
Qed.

Lemma skip_blanks_value c val room :
  ch_eqb c SP = false -> skip_blanks (c :: val) room = (c :: val, room).
Proof. intros H. destruct room; simpl; [done|]. by rewrite H. Qed.

(** [_copy_idline_str] on a field [key=value] followed by a blank or the end
    of the line gives the value. *)
Lemma copy_idline_field key c val sep rest len :
  forallb (fun a => negb (ch_eqb a "=")) key = true ->
  forallb plain (c :: val) = true -> sep = SP \/ sep = LF ->
  length key + 1 + length (c :: val) <= len ->
  _copy_idline_str (key ++ "="%char :: (c :: val) ++ sep :: rest) len = c :: val.
Proof.
  intros Hk Hp Hs Hl. unfold _copy_idline_str.
  rewrite strchr_skip by done.
  cbn [drop]. rewrite drop_0.
  assert (Hc : ch_eqb c SP = false).
  { simpl in Hp. apply andb_true_iff in Hp as [Hc _]. unfold plain in Hc.
    apply andb_true_iff in Hc as [Hc _]. apply andb_true_iff in Hc as [Hc _].
    by apply negb_true_iff in Hc. }
  change ((c :: val) ++ sep :: rest) with (c :: (val ++ sep :: rest)).
  rewrite skip_blanks_value by done.
  change (c :: (val ++ sep :: rest)) with ((c :: val) ++ sep :: rest).
  rewrite copy_token_value; [|done|done|].
  - apply take_ge. lia.
  - rewrite !length_app. cbn [length]. rewrite !length_app. cbn [length]. simpl in Hl. lia.
Qed.

End StringFacts.

(** ** Printing and scanning decimal numbers *)

Section Decimal.

Local Open Scope Z_scope.

Lemma digit_char_spec d :
  0 <= d < 10 -> isdigit (digit_char d) = true /\ digit_val (digit_char d) = d.
Proof.
  intros H.
  assert (d = 0 \/ d = 1 \/ d = 2 \/ d = 3 \/ d = 4 \/ d = 5 \/ d = 6 \/ d = 7 \/ d = 8 \/ d = 9)
    as Hd by lia.
  repeat (destruct Hd as [-> | Hd]; [split; reflexivity|]). subst. split; reflexivity.
Qed.

Lemma print_digits_spec fuel : forall n acc,
  0 <= n < 10 ^ Z.of_nat (S fuel) ->
  exists ds, print_digits (S fuel) n acc = ds ++ acc /\ digits_of ds n.
Proof.
  induction fuel as [|f IH]; intros n acc Hn; cbn [print_digits];
    destruct (n <? 10) eqn:E.
  1,3: apply Z.ltb_lt in E; exists [digit_char (n mod 10)]; (split; [done|]);
       rewrite Z.mod_small by lia;
       destruct (digit_char_spec n) as [D1 D2]; [lia|];
       (split; [done|]); (split; [cbn [forallb]; by rewrite D1|]);
       intros rest a b; cbn [app scan_digits length]; rewrite D1, D2; f_equal;
       change (Z.of_nat 1) with 1; rewrite Z.pow_1_r; reflexivity.
  - apply Z.ltb_ge in E. change (10 ^ Z.of_nat 1) with 10 in Hn. lia.
  - apply Z.ltb_ge in E.
    destruct (IH (n / 10) (digit_char (n mod 10) :: acc)) as (ds & Hds & Hne & Hd & Hs).
    { split; [apply Z.div_pos; lia|].
      apply Z.div_lt_upper_bound; [lia|].
      rewrite (Nat2Z.inj_succ (S f)), Z.pow_succ_r in Hn by lia. lia. }
    exists (ds ++ [digit_char (n mod 10)]). split.
    { cbn [print_digits] in Hds. rewrite Hds, <- app_assoc. done. }
    destruct (digit_char_spec (n mod 10)) as [D1 D2]; [apply Z.mod_pos_bound; lia|].
    split; [by destruct ds|]. split.
    { rewrite forallb_app, Hd. cbn [forallb]. by rewrite D1. }
    intros rest a b. rewrite <- app_assoc, Hs. cbn [app scan_digits].
    rewrite D1, D2. f_equal. rewrite length_app. cbn [length].
    rewrite Nat2Z.inj_add. change (Z.of_nat 1) with 1.
    rewrite Z.pow_add_r by lia. rewrite Z.pow_1_r.
    pose proof (Z.div_mod n 10 ltac:(lia)) as Hdm.
    remember (n / 10) as q eqn:Eq. remember (n mod 10) as r eqn:Er.
    clear Eq Er. rewrite Hdm. ring.
Qed.

Lemma print_digits_20 n :
  0 <= n < 2 ^ 64 -> exists ds, print_digits 20 n [] = ds /\ digits_of ds n.
Proof.
  intros H. destruct (print_digits_spec 19 n []) as (ds & E & D).
  - split; [lia|]. change (10 ^ Z.of_nat 20) with 100000000000000000000. 
    change (2 ^ 64) with 18446744073709551616 in H. lia.
  - exists ds. rewrite E, app_nil_r. done.
Qed.

Lemma scan_digits_stop rest a b : ends_number rest -> scan_digits rest a b = (a, b, rest).
Proof. destruct rest as [|c r]; simpl; [done|]. by intros ->. Qed.

Lemma digit_first_plain c : isdigit c = true ->
  isspace c = false /\ ch_eqb c "-" = false /\ ch_eqb c "+" = false /\ ch_eqb c "." = false
  /\ plain c = true /\ ch_eqb c "=" = false.
Proof.
  unfold isdigit, isspace, plain, ch_eqb. intros H.
  apply andb_true_iff in H as [H1 H2]. apply Nat.leb_le in H1, H2.
  rewrite <- (ascii_nat_embedding c).
  remember (nat_of_ascii c) as n eqn:En. clear En.
  assert (n = 48 \/ n = 49 \/ n = 50 \/ n = 51 \/ n = 52 \/ n = 53 \/ n = 54 \/ n = 55
          \/ n = 56 \/ n = 57)%nat as Hn by lia.
  repeat (destruct Hn as [-> | Hn]; [repeat split; reflexivity|]). subst. repeat split; reflexivity.
Qed.

Lemma digits_plain ds : forallb isdigit ds = true -> forallb plain ds = true.
Proof.
  induction ds as [|c ds IH]; simpl; [done|]. intros H.
  apply andb_true_iff in H as [Hc H]. rewrite IH by done.
  destruct (digit_first_plain c Hc) as (_ & _ & _ & _ & -> & _). done.
Qed.

(** [%u] reads back what [%u] printed. *)
Lemma scan_u_print_u n rest :
  ends_number rest -> scan_u (print_u n ++ rest) = Some (wrap32 n, rest).
Proof.
  intros Hr. unfold print_u.
  assert (0 <= wrap32 n < 2 ^ 32) as Hw by (unfold wrap32; apply Z.mod_pos_bound; lia).
  destruct (print_digits_20 (wrap32 n)) as (ds & -> & Hne & Hd & Hs).
  { change (2 ^ 64) with 18446744073709551616. change (2 ^ 32) with 4294967296 in Hw. lia. }
  unfold scan_u. destruct ds as [|c ds]; [done|].
  simpl in Hd. apply andb_true_iff in Hd as [Hc Hd].
  destruct (digit_first_plain c Hc) as (H1 & H2 & H3 & _).
  cbn [app skip_space]. rewrite H1. unfold scan_sign. rewrite H2, H3.
  change (c :: ds ++ rest) with ((c :: ds) ++ rest). rewrite Hs.
  rewrite scan_digits_stop by done. rewrite Z.mul_0_l, Z.add_0_l.
  replace (2 ^ 64 - 1 <? wrap32 n)%Z with false.
  - unfold wrap32 at 1. rewrite Z.mod_small; [done|]. exact Hw.
  - symmetry. apply Z.ltb_ge.
    change (2 ^ 64) with 18446744073709551616. change (2 ^ 32) with 4294967296 in Hw. lia.
Qed.

(** A number over [ULONG_MAX] scans as 4294967295 also after a minus sign;
    a smaller one is negated. *)
Lemma scan_u_minus :
  scan_u (str "-99999999999999999999") = Some (4294967295, [])
  /\ scan_u (str "-5") = Some (4294967291, [])
  /\ check_version (str "1.1.-99999999999999999999") = inl 4294967295
  /\ exists w, check_version (str "-99999999999999999999.1.5") = inr w.
Proof. repeat split; [vm_compute; reflexivity..|]. eexists. vm_compute. reflexivity. Qed.

(** [atoi] reads back what [%d] printed for an int. *)
Lemma atoi_print_d n rest :
  - 2 ^ 31 <= n < 2 ^ 31 -> ends_number rest -> atoi (print_d n ++ rest) = n.
Proof.
  intros Hn Hr. unfold print_d, atoi.
  change (2 ^ 31) with 2147483648 in *.
  destruct (n <? 0) eqn:E.
  - apply Z.ltb_lt in E.
    destruct (print_digits_20 (- n)) as (ds & -> & Hne & Hd & Hs).
    { change (2 ^ 64) with 18446744073709551616. lia. }
    cbn [app skip_space]. replace (isspace "-") with false by reflexivity.
    unfold scan_sign. replace (ch_eqb "-" "-") with true by reflexivity.
    rewrite Hs, scan_digits_stop by done.
    rewrite Z.mul_0_l, Z.add_0_l, Z.opp_involutive.
    rewrite Z.max_l by (change (2 ^ 63) with 9223372036854775808; lia).
    unfold wrap_int. change (2 ^ 31) with 2147483648. change (2 ^ 32) with 4294967296.
    rewrite Z.mod_small; lia.
  - apply Z.ltb_ge in E.
    destruct (print_digits_20 n) as (ds & -> & Hne & Hd & Hs).
    { change (2 ^ 64) with 18446744073709551616. lia. }
    destruct ds as [|c ds]; [done|].
    simpl in Hd. apply andb_true_iff in Hd as [Hc Hd].
    destruct (digit_first_plain c Hc) as (H1 & H2 & H3 & _).
    cbn [app skip_space]. rewrite H1. unfold scan_sign. rewrite H2, H3.
    change (c :: ds ++ rest) with ((c :: ds) ++ rest). rewrite Hs.
    rewrite scan_digits_stop by done. rewrite Z.mul_0_l, Z.add_0_l.
    rewrite Z.min_l by (change (2 ^ 63) with 9223372036854775808; lia).
    unfold wrap_int. change (2 ^ 31) with 2147483648. change (2 ^ 32) with 4294967296.
    rewrite Z.mod_small; lia.
Qed.

End Decimal.

(** ** The fields of an entry line *)

Lemma entry_line_fields s du :
  entry_line s du =
  field "IDTYPE" (idtype_to_str (du_idtype du)) ++ SP ::
  field "IDNAME" (default (str ".") (du_idname du)) ++ SP ::
  field "DEVNAME" (write_devname s du) ++ SP ::
  field "PVID" (write_pvid du) ++ part_tail (du_part du).
Proof.
  unfold entry_line, field, part_tail.
  destruct (bool_decide (du_part du = 0%Z)); rewrite <- ?app_assoc; cbn [app]; 
    rewrite <- ?app_assoc; reflexivity.
Qed.

(** The keys do not occur in the fixed part of an earlier field. *)
Ltac key_free H :=
  unfold field, str; cbn [list_ascii_of_string app];
  rewrite ?contains_cons; cbn [has_prefix ch_eqb Ascii.eqb Bool.eqb andb orb];
  try exact H; try reflexivity.

Lemma free_idname_devname v :
  contains v (str "DEVNAME") = false -> contains (field "IDNAME" v) (str "DEVNAME") = false.
Proof. intros H. key_free H. Qed.

Lemma free_idname_pvid v :
  contains v (str "PVID") = false -> contains (field "IDNAME" v) (str "PVID") = false.
Proof. intros H. key_free H. Qed.

Lemma free_idname_part v :
  contains v (str "PART") = false -> contains (field "IDNAME" v) (str "PART") = false.
Proof. intros H. key_free H. Qed.

Lemma free_devname_pvid v :
  contains v (str "PVID") = false -> contains (field "DEVNAME" v) (str "PVID") = false.
Proof. intros H. key_free H. Qed.

Lemma free_devname_part v :
  contains v (str "PART") = false -> contains (field "DEVNAME" v) (str "PART") = false.
Proof. intros H. key_free H. Qed.

Lemma free_pvid_part v :
  contains v (str "PART") = false -> contains (field "PVID" v) (str "PART") = false.
Proof. intros H. key_free H. Qed.

Lemma free_idtype idtype key :
  key = "IDNAME"%string \/ key = "DEVNAME"%string \/ key = "PVID"%string \/ key = "PART"%string ->
  contains (field "IDTYPE" (idtype_to_str idtype)) (str key) = false.
Proof. intros [-> | [-> | [-> | ->]]]; destruct idtype; vm_compute; reflexivity. Qed.

Lemma free_of_cons k keys v :
  free_of (k :: keys) v = true -> contains v (str k) = false /\ free_of keys v = true.
Proof.
  unfold free_of. cbn [forallb]. intros H. apply andb_true_iff in H as [H1 H2].
  apply negb_true_iff in H1. done.
Qed.

Lemma value_ok_cons v :
  value_ok v = true ->
  exists c r, v = c :: r /\ forallb plain (c :: r) = true /\ ch_eqb c "." = false.
Proof.
  unfold value_ok. intros H. apply andb_true_iff in H as [H H3].
  apply andb_true_iff in H as [H1 H2].
  destruct v as [|c r]; [done|]. exists c, r. split; [done|]. split; [done|].
  destruct (ch_eqb c ".") eqn:E; [|done].
  apply ch_eqb_eq in E. subst c. discriminate H2.
Qed.

Lemma field_value_ok v : value_ok v = true -> field_value v = Some v.
Proof.
  intros H. destruct (value_ok_cons v H) as (c & r & -> & _ & Hc).
  unfold field_value. by rewrite Hc.
Qed.

(** The written forms of the fields. *)
Lemma idtype_str_shape idtype :
  exists c r, idtype_to_str idtype = c :: r /\ forallb plain (c :: r) = true
              /\ (length (c :: r) <= 10)%nat
              /\ (match c :: r with [] => DEV_ID_TYPE_NONE | b => idtype_from_str b end) = idtype.
Proof.
  destruct idtype; eexists _, _; (split; [reflexivity|]); (split; [reflexivity|]);
    (split; [apply Nat.leb_le; reflexivity | reflexivity]).
Qed.

Lemma dot_plain : forallb plain (str ".") = true.
Proof. reflexivity. Qed.

Lemma idname_written n :
  opt_ok ["DEVNAME"; "PVID"; "PART"]%string n = true ->
  exists c r, default (str ".") n = c :: r /\ forallb plain (c :: r) = true
    /\ field_value (c :: r) = n
    /\ contains (c :: r) (str "DEVNAME") = false /\ contains (c :: r) (str "PVID") = false
    /\ contains (c :: r) (str "PART") = false.
Proof.
  destruct n as [v|]; cbn [opt_ok default].
  - intros H. apply andb_true_iff in H as [H1 H2].
    destruct (value_ok_cons v H1) as (c & r & -> & Hp & Hc).
    apply free_of_cons in H2 as [F1 H2]. apply free_of_cons in H2 as [F2 H2].
    apply free_of_cons in H2 as [F3 _].
    exists c, r. repeat split; try done. unfold field_value. by rewrite Hc.
  - intros _. exists "."%char, []. repeat split; reflexivity.
Qed.

Lemma pvid_written du :
  opt_ok ["PART"]%string (du_pvid du) = true ->
  exists c r, write_pvid du = c :: r
    /\ forallb plain (c :: r) = true /\ field_value (c :: r) = du_pvid du
    /\ contains (c :: r) (str "PART") = false.
Proof.
  unfold write_pvid. destruct (du_pvid du) as [v|]; cbn [opt_ok].
  - intros H. apply andb_true_iff in H as [H1 H2].
    destruct (value_ok_cons v H1) as (c & r & -> & Hp & Hc).
    apply free_of_cons in H2 as [F1 _]. rewrite Hc.
    exists c, r. repeat split; try done. unfold field_value. by rewrite Hc.
  - intros _. exists "."%char, []. repeat split; reflexivity.
Qed.

Lemma write_devname_cons s du : exists c r, write_devname s du = c :: r.
Proof.
  unfold write_devname.
  destruct (match du_dev du with Some h => dev_name <$> get_dev s h | None => du_devname du end)
    as [[|c r]|]; [by eexists _, _| |by eexists _, _].
  destruct (ch_eqb c "/"); by eexists _, _.
Qed.

Lemma has_prefix_field key v rest : has_prefix (str key) (field key v ++ rest) = true.
Proof. unfold field. rewrite <- app_assoc. apply has_prefix_app. Qed.

Lemma copy_field key c val sep rest :
  forallb (fun a => negb (ch_eqb a "=")) (str key) = true ->
  forallb plain (c :: val) = true -> sep = SP \/ sep = LF ->
  length (field key (c :: val)) <= PATH_MAX ->
  _copy_idline_str (field key (c :: val) ++ sep :: rest) PATH_MAX = c :: val.
Proof.
  intros Hk Hp Hs Hl. unfold field in *. rewrite <- app_assoc.
  change (("="%char :: c :: val) ++ sep :: rest) with ("="%char :: (c :: val) ++ sep :: rest).
  apply copy_idline_field; try done.
  rewrite length_app in Hl. cbn [length] in *. lia.
Qed.

Lemma print_d_value n :
  (- 2 ^ 31 <= n < 2 ^ 31)%Z ->
  exists c r, print_d n = c :: r /\ forallb plain (c :: r) = true /\ ch_eqb c "." = false.
Proof.
  intros Hn. unfold print_d. change (2 ^ 31)%Z with 2147483648%Z in Hn.
  destruct (n <? 0)%Z eqn:E.
  - apply Z.ltb_lt in E.
    destruct (print_digits_20 (- n)) as (ds & -> & Hne & Hd & _).
    { change (2 ^ 64)%Z with 18446744073709551616%Z. lia. }
    exists "-"%char, ds. split; [done|]. split; [|done].
    cbn [forallb]. rewrite (digits_plain ds Hd). done.
  - apply Z.ltb_ge in E.
    destruct (print_digits_20 n) as (ds & -> & Hne & Hd & _).
    { change (2 ^ 64)%Z with 18446744073709551616%Z. lia. }
    destruct ds as [|c r]; [done|]. exists c, r. split; [done|].
    split; [by apply digits_plain|].
    cbn [forallb] in Hd. apply andb_true_iff in Hd as [Hc _].
    by destruct (digit_first_plain c Hc) as (_ & _ & _ & ? & _).
Qed.

Lemma forallb_plain_no_nul l : forallb plain l = true -> no_nul l = true.
Proof.
  unfold no_nul. induction l as [|c l IH]; cbn [forallb]; [done|].
  intros H. apply andb_true_iff in H as [Hc H]. rewrite IH by done.
  unfold plain in Hc. apply andb_true_iff in Hc as [_ Hc]. by rewrite Hc.
Qed.

Lemma no_nul_app a b : no_nul (a ++ b) = no_nul a && no_nul b.
Proof. apply forallb_app. Qed.

(** ** Reading an entry line that was written *)

Lemma legal_du_parts s du :
  legal_du s du = true ->
  opt_ok ["DEVNAME"; "PVID"; "PART"]%string (du_idname du) = true
  /\ du_devname du = field_value (write_devname s du)
  /\ forallb plain (write_devname s du) = true
  /\ contains (write_devname s du) (str "PVID") = false
  /\ contains (write_devname s du) (str "PART") = false
  /\ opt_ok ["PART"]%string (du_pvid du) = true
  /\ (- 2 ^ 31 <= du_part du < 2 ^ 31)%Z
  /\ length (entry_line s du) <= PATH_MAX - 1.
Proof.
  unfold legal_du. intros H.
  repeat (apply andb_true_iff in H as [H ?]).
  apply free_of_cons in H4 as [F1 F2]. apply free_of_cons in F2 as [F2 _].
  apply bool_decide_eq_true in H6. apply Z.leb_le in H2. apply Z.ltb_lt in H1.
  apply Nat.leb_le in H0. repeat split; done.
Qed.

Lemma sp_not_in key :
  key = "IDNAME"%string \/ key = "DEVNAME"%string \/ key = "PVID"%string \/ key = "PART"%string ->
  forallb (fun c => negb (ch_eqb c SP)) (str key) = true
  /\ forallb (fun c => negb (ch_eqb c LF)) (str key) = true
  /\ forallb (fun a => negb (ch_eqb a "=")) (str key) = true
  /\ exists c r, str key = c :: r.
Proof. intros [-> | [-> | [-> | ->]]]; repeat split; try reflexivity; by eexists _, _. Qed.

(** [strstr] passes over a field of the line that is free of the key. *)
Lemma strstr_next key f v :
  key = "IDNAME"%string \/ key = "DEVNAME"%string \/ key = "PVID"%string \/ key = "PART"%string ->
  contains f (str key) = false ->
  strstr (f ++ SP :: v) (str key) = strstr v (str key).
Proof.
  intros Hk Hc. destruct (sp_not_in key Hk) as (H1 & _ & _ & c & r & E).
  rewrite E in *. by apply strstr_skip_field.
Qed.

Lemma strstr_end key f :
  key = "IDNAME"%string \/ key = "DEVNAME"%string \/ key = "PVID"%string \/ key = "PART"%string ->
  contains f (str key) = false ->
  strstr (f ++ [LF]) (str key) = None.
Proof.
  intros Hk Hc. destruct (sp_not_in key Hk) as (_ & H1 & _ & c & r & E).
  rewrite E in *. by apply strstr_last_field.
Qed.

Lemma strstr_field key v rest : strstr (field key v ++ rest) (str key) = Some (field key v ++ rest).
Proof. apply strstr_here, has_prefix_field. Qed.

(** The reader gives back the entry that a line was written for. *)
Lemma read_entry_line_written s du :
  legal_du s du = true -> read_entry_line (entry_line s du) = Some (unlinked du).
Proof.
  intros L. destruct (legal_du_parts s du L) as (Lid & Ldev & Lplain & Ld1 & Ld2 & Lpv & Lpart & Llen).
  rewrite entry_line_fields in *.
  destruct (idtype_str_shape (du_idtype du)) as (ct & rt & ET & PT & LT & FT).
  destruct (idname_written _ Lid) as (cn & rn & EN & PN & FN & N1 & N2 & N3).
  destruct (write_devname_cons s du) as (cd & rd & ED).
  destruct (pvid_written du Lpv) as (cp & rp & EP & PP & FP & P1).
  rewrite ET, EN, ED, EP in *.
  pose proof (free_idtype (du_idtype du)) as FI. rewrite ET in FI.
  set (F1 := field "IDTYPE" (ct :: rt)) in *.
  set (F2 := field "IDNAME" (cn :: rn)) in *.
  set (F3 := field "DEVNAME" (cd :: rd)) in *.
  set (F4 := field "PVID" (cp :: rp)) in *.
  assert (C2d : contains F2 (str "DEVNAME") = false) by by apply free_idname_devname.
  assert (C2p : contains F2 (str "PVID") = false) by by apply free_idname_pvid.
  assert (C2t : contains F2 (str "PART") = false) by by apply free_idname_part.
  assert (C3p : contains F3 (str "PVID") = false) by by apply free_devname_pvid.
  assert (C3t : contains F3 (str "PART") = false) by by apply free_devname_part.
  assert (C4t : contains F4 (str "PART") = false) by by apply free_pvid_part.
  set (tail := part_tail (du_part du)) in *.
  assert (Htail : exists t, tail = LF :: t \/ tail = SP :: t).
  { unfold tail, part_tail. destruct (bool_decide _); eauto. }
  unfold read_entry_line.
  (* the five keys *)
  assert (S1 : strstr (F1 ++ SP :: F2 ++ SP :: F3 ++ SP :: F4 ++ tail) (str "IDTYPE")
               = Some (F1 ++ SP :: F2 ++ SP :: F3 ++ SP :: F4 ++ tail)) by apply strstr_field.
  assert (S2 : strstr (F1 ++ SP :: F2 ++ SP :: F3 ++ SP :: F4 ++ tail) (str "IDNAME")
               = Some (F2 ++ SP :: F3 ++ SP :: F4 ++ tail)).
  { rewrite strstr_next by auto. apply strstr_field. }
  assert (S3 : strstr (F1 ++ SP :: F2 ++ SP :: F3 ++ SP :: F4 ++ tail) (str "DEVNAME")
               = Some (F3 ++ SP :: F4 ++ tail)).
  { rewrite !strstr_next by auto 6. apply strstr_field. }
  assert (S4 : strstr (F1 ++ SP :: F2 ++ SP :: F3 ++ SP :: F4 ++ tail) (str "PVID")
               = Some (F4 ++ tail)).
  { rewrite !strstr_next by auto 6. apply strstr_field. }
  rewrite S1, S2, S3, S4.
  assert (Hlen : length F1 + length F2 + length F3 + length F4 + length tail + 3 <= PATH_MAX - 1).
  { rewrite !length_app in Llen. cbn [length] in Llen. rewrite !length_app in Llen.
    cbn [length] in Llen. rewrite !length_app in Llen. cbn [length] in Llen.
    rewrite !length_app in Llen. lia. }
  assert (eqs : forallb (fun a => negb (ch_eqb a "=")) (str "IDTYPE") = true) by reflexivity.
  rewrite (copy_field "IDTYPE" ct rt SP) by (auto; fold F1; lia).
  rewrite (copy_field "IDNAME" cn rn SP) by (auto; fold F2; lia).
  rewrite (copy_field "DEVNAME" cd rd SP) by (auto; fold F3; lia).
  assert (K4 : _copy_idline_str (F4 ++ tail) PATH_MAX = cp :: rp).
  { destruct Htail as [t [-> | ->]]; apply copy_field; auto; fold F4; lia. }
  rewrite K4, FT, FN, FP, <- Ldev.
  assert (KP : match strstr (F1 ++ SP :: F2 ++ SP :: F3 ++ SP :: F4 ++ tail) (str "PART") with
               | Some p => match field_value (_copy_idline_str p PATH_MAX) with
                           | Some buf => atoi buf
                           | None => 0%Z
                           end
               | None => 0%Z
               end = du_part du).
  { rewrite !strstr_next by auto 6.
    subst tail. unfold part_tail in *. destruct (bool_decide (du_part du = 0%Z)) eqn:E0.
    - apply bool_decide_eq_true in E0. rewrite strstr_end by auto 6. done.
    - rewrite strstr_next by auto 6. rewrite strstr_field.
      destruct (print_d_value _ Lpart) as (c & r & EQ & Pl & Hdot).
      rewrite EQ. rewrite (copy_field "PART" c r LF []); auto.
      + unfold field_value. rewrite Hdot. rewrite <- EQ.
        rewrite <- (app_nil_r (print_d (du_part du))). by apply atoi_print_d.
      + rewrite EQ in Hlen. cbn [length] in Hlen. rewrite length_app in Hlen. lia. }
  rewrite KP. destruct du; reflexivity.
Qed.

Lemma entry_line_no_nul s du : legal_du s du = true -> no_nul (entry_line s du) = true.
Proof.
  intros L. destruct (legal_du_parts s du L) as (Lid & Ldev & Lplain & Ld1 & Ld2 & Lpv & Lpart & Llen).
  destruct (idtype_str_shape (du_idtype du)) as (ct & rt & ET & PT & LT & FT).
  destruct (idname_written _ Lid) as (cn & rn & EN & PN & FN & N1 & N2 & N3).
  destruct (pvid_written du Lpv) as (cp & rp & EP & PP & FP & P1).
  destruct (print_d_value _ Lpart) as (c & r & EQ & Pl & Hdot).
  unfold entry_line. rewrite ET, EN, EP, EQ.
  rewrite !no_nul_app.
  rewrite (forallb_plain_no_nul (ct :: rt)), (forallb_plain_no_nul (cn :: rn)),
    (forallb_plain_no_nul (cp :: rp)), (forallb_plain_no_nul (write_devname s du)) by done.
  destruct (bool_decide _); [reflexivity|].
  rewrite !no_nul_app. rewrite (forallb_plain_no_nul (c :: r)) by done. reflexivity.
Qed.

Lemma entry_line_shape s du :
  exists body, entry_line s du = str "IDTYPE=" ++ body.
Proof. unfold entry_line. eauto. Qed.

(** An entry line is read as an entry. *)
Lemma device_ids_read_entry_line s s0 du :
  legal_du s du = true ->
  device_ids_read_line s0 (entry_line s du)
  = set_cmd s0 (set_use_devices (cmd s0) (use_devices (cmd s0) ++ [unlinked du])).
Proof.
  intros L. unfold device_ids_read_line.
  rewrite (c_str_no_nul _ (entry_line_no_nul s du L)).
  rewrite read_entry_line_written by done.
  destruct (entry_line_shape s du) as [body ->]. reflexivity.
Qed.

(** ** Splitting a written file into lines *)

Lemma fgets_lines_line size room l rest :
  no_lf l = true -> length l + 1 <= room ->
  fgets_lines size room (l ++ LF :: rest) = (l ++ [LF]) :: fgets_lines size (size - 1) rest.
Proof.
  revert room. induction l as [|c l IH]; intros room Hl Hr.
  - cbn [app fgets_lines]. rewrite ch_eqb_refl. done.
  - cbn [app fgets_lines]. cbn [no_lf forallb] in Hl. apply andb_true_iff in Hl as [Hc Hl].
    apply negb_true_iff in Hc. rewrite Hc. cbn [length] in Hr.
    replace (room <=? 1) with false by (symmetry; apply Nat.leb_gt; lia).
    cbn [orb]. rewrite IH; [done|done|lia].
Qed.

Lemma file_lines_cons l rest :
  one_line l = true ->
  fgets_lines PATH_MAX (PATH_MAX - 1) (l ++ LF :: rest)
  = (l ++ [LF]) :: fgets_lines PATH_MAX (PATH_MAX - 1) rest.
Proof.
  unfold one_line. intros H. apply andb_true_iff in H as [H1 H2].
  apply Nat.leb_le in H2. by apply fgets_lines_line.
Qed.

Lemma plain_no_lf l : forallb plain l = true -> no_lf l = true.
Proof.
  unfold no_lf. induction l as [|c l IH]; cbn [forallb]; [done|].
  intros H. apply andb_true_iff in H as [Hc H]. rewrite IH by done.
  unfold plain in Hc. apply andb_true_iff in Hc as [Hc _].
  apply andb_true_iff in Hc as [_ Hc]. by rewrite Hc.
Qed.

Lemma no_lf_app a b : no_lf (a ++ b) = no_lf a && no_lf b.
Proof. apply forallb_app. Qed.

(** The line of a legal entry is one line. *)
Lemma entry_line_one_line s du :
  legal_du s du = true ->
  exists body, entry_line s du = body ++ [LF] /\ one_line body = true.
Proof.
  intros L. destruct (legal_du_parts s du L) as (Lid & Ldev & Lplain & Ld1 & Ld2 & Lpv & Lpart & Llen).
  destruct (idtype_str_shape (du_idtype du)) as (ct & rt & ET & PT & LT & FT).
  destruct (idname_written _ Lid) as (cn & rn & EN & PN & FN & N1 & N2 & N3).
  destruct (pvid_written du Lpv) as (cp & rp & EP & PP & FP & P1).
  destruct (print_d_value _ Lpart) as (c & r & EQ & Pl & Hdot).
  unfold entry_line in *. rewrite ET, EN, EP, EQ in *.
  eexists. split.
  { rewrite !app_assoc. reflexivity. }
  unfold one_line. apply andb_true_iff. split.
  - rewrite !no_lf_app.
    rewrite (plain_no_lf (ct :: rt)), (plain_no_lf (cn :: rn)),
      (plain_no_lf (cp :: rp)), (plain_no_lf (write_devname s du)) by done.
    destruct (bool_decide _); [reflexivity|].
    rewrite !no_lf_app. rewrite (plain_no_lf (c :: r)) by done. reflexivity.
  - apply Nat.leb_le. rewrite !app_assoc in Llen.
    rewrite (length_app _ [LF]) in Llen. cbn [length] in Llen. lia.
Qed.

Lemma entry_line_ends s du : entry_line s du = removelast (entry_line s du) ++ [LF].
Proof.
  unfold entry_line. rewrite !app_assoc. rewrite removelast_last. reflexivity.
Qed.

Lemma legal_du_one_line s du :
  legal_du s du = true -> one_line (removelast (entry_line s du)) = true.
Proof.
  intros L. destruct (entry_line_one_line s du L) as (body & E & O).
  rewrite E, removelast_last. exact O.
Qed.

Lemma legal_registry_read_as_written s : legal_registry s = true -> read_as_written s = true.
Proof.
  unfold legal_registry, read_as_written. intros H. apply andb_true_iff in H as [-> H].
  cbn [andb]. apply forallb_forall. intros du Hdu. apply legal_du_one_line.
  rewrite forallb_forall in H. by apply H.
Qed.

Lemma file_lines_entries s dus rest_lines rest :
  forallb (fun du => one_line (removelast (entry_line s du))) dus = true ->
  fgets_lines PATH_MAX (PATH_MAX - 1) rest = rest_lines ->
  fgets_lines PATH_MAX (PATH_MAX - 1) (concat (map (entry_line s) dus) ++ rest)
  = map (entry_line s) dus ++ rest_lines.
Proof.
  intros H Hr. induction dus as [|du dus IH]; [done|].
  cbn [forallb] in H. apply andb_true_iff in H as [Hd H].
  cbn [map concat]. rewrite (entry_line_ends s du) at 1. rewrite <- !app_assoc. cbn [app].
  rewrite file_lines_cons by done. rewrite <- IH by done.
  rewrite <- (entry_line_ends s du). done.
Qed.

(** Reading the lines of the entries adds the entries. *)
Lemma read_entry_lines s dus : forall s0,
  forallb (legal_du s) dus = true ->
  let s1 := fold_left device_ids_read_line (map (entry_line s) dus) s0 in
  use_devices (cmd s1) = use_devices (cmd s0) ++ map unlinked dus
  /\ glob s1 = glob s0 /\ log s1 = log s0.
Proof.
  induction dus as [|du dus IH]; intros s0 H; cbn [map fold_left].
  - rewrite app_nil_r. done.
  - cbn [forallb] in H. apply andb_true_iff in H as [Hd H].
    rewrite device_ids_read_entry_line by done.
    destruct (IH (set_cmd s0 (set_use_devices (cmd s0) (use_devices (cmd s0) ++ [unlinked du]))) H)
      as (I1 & I2 & I3).
    rewrite I1, I2, I3. cbn. rewrite <- app_assoc. done.
Qed.

(** ** Reading the header lines *)

Lemma print_digits_length fuel : forall n acc,
  length (print_digits fuel n acc) <= fuel + length acc.
Proof.
  induction fuel as [|f IH]; intros n acc; cbn [print_digits]; [lia|].
  destruct (n <? 10)%Z.
  - cbn [length]. lia.
  - etransitivity; [apply IH|]. cbn [length]. lia.
Qed.

Lemma print_u_shape n :
  exists c r, print_u n = c :: r /\ forallb isdigit (c :: r) = true /\ length (c :: r) <= 20.
Proof.
  unfold print_u.
  assert (0 <= wrap32 n < 2 ^ 32)%Z as Hw by (unfold wrap32; apply Z.mod_pos_bound; lia).
  destruct (print_digits_20 (wrap32 n)) as (ds & E & Hne & Hd & _).
  { change (2 ^ 64)%Z with 18446744073709551616%Z. change (2 ^ 32)%Z with 4294967296%Z in Hw. lia. }
  pose proof (print_digits_length 20 (wrap32 n) []) as HL. rewrite E in *.
  destruct ds as [|c r]; [done|]. exists c, r. cbn [length] in *. repeat split; [done|lia].
Qed.

Lemma version_string_plain c :
  forallb plain (version_string c) = true /\ length (version_string c) <= 24
  /\ exists a r, version_string c = a :: r.
Proof.
  unfold version_string. destruct (print_u_shape (c + 1)) as (a & r & -> & Hd & Hl).
  split; [|split].
  - rewrite forallb_app. rewrite (digits_plain _ Hd). reflexivity.
  - rewrite length_app. change (length (str "1.1.")) with 4. lia.
  - by eexists _, _.
Qed.

Lemma version_text_eq c : version_text c = Some (str "VERSION=" ++ version_string c).
Proof.
  unfold version_text, dm_snprintf.
  change (print_u DEVICES_FILE_MAJOR) with (str "1").
  change (print_u DEVICES_FILE_MINOR) with (str "1").
  replace (str "VERSION=" ++ str "1" ++ str "." ++ str "1" ++ str "." ++ print_u (c + 1))
    with (str "VERSION=" ++ version_string c) by reflexivity.
  destruct (version_string_plain c) as (_ & Hl & _).
  replace (length (str "VERSION=" ++ version_string c) <? VERSION_LINE_MAX) with true; [done|].
  symmetry. apply Nat.ltb_lt. rewrite length_app. change (length (str "VERSION=")) with 8.
  unfold VERSION_LINE_MAX. lia.
Qed.

Lemma copy_token_end val room :
  forallb plain val = true -> length val <= room -> copy_token val room = val.
Proof.
  revert room. induction val as [|c val IH]; intros room Hp Hl; cbn [copy_token].
  - by destruct room.
  - cbn [length] in Hl. destruct room as [|room]; [lia|].
    cbn [forallb] in Hp. apply andb_true_iff in Hp as [Hc Hp].
    unfold plain in Hc. apply andb_true_iff in Hc as [Hc _].
    apply andb_true_iff in Hc as [H1 H2]. apply negb_true_iff in H1, H2.
    rewrite H1, H2. cbn [orb]. f_equal. apply IH; [done|lia].
Qed.

(** The version the writer records is the one it printed. *)
Lemma copy_version_buf c :
  _copy_idline_str (str "VERSION=" ++ version_string c) VERSION_LINE_MAX = version_string c.
Proof.
  destruct (version_string_plain c) as (Hp & Hl & a & r & E). rewrite E in *.
  unfold _copy_idline_str.
  change (str "VERSION=" ++ a :: r) with (str "VERSION" ++ "="%char :: a :: r).
  rewrite strchr_skip by reflexivity. cbn [drop].
  assert (Ha : ch_eqb a SP = false).
  { cbn [forallb] in Hp. apply andb_true_iff in Hp as [Hc _]. unfold plain in Hc.
    apply andb_true_iff in Hc as [Hc _]. apply andb_true_iff in Hc as [Hc _].
    by apply negb_true_iff in Hc. }
  rewrite skip_blanks_value by done.
  rewrite length_app. change (length (str "VERSION")) with 7. unfold VERSION_LINE_MAX.
  rewrite copy_token_end; [|done|].
  - apply take_ge. cbn [length] in *. lia.
  - cbn [length] in *. lia.
Qed.

(** ... and the one the reader takes from the line. *)
Lemma copy_version_line c :
  _copy_idline_str (str "VERSION=" ++ version_string c ++ [LF]) VERSION_LINE_MAX
  = version_string c.
Proof.
  destruct (version_string_plain c) as (Hp & Hl & a & r & E). rewrite E in *.
  change (str "VERSION=" ++ (a :: r) ++ [LF]) with (str "VERSION" ++ "="%char :: (a :: r) ++ [LF]).
  apply copy_idline_field; [reflexivity|done|by right|].
  change (length (str "VERSION")) with 7. unfold VERSION_LINE_MAX. lia.
Qed.

Lemma version_line_no_nul c : no_nul (str "VERSION=" ++ version_string c ++ [LF]) = true.
Proof.
  destruct (version_string_plain c) as (Hp & _).
  rewrite !no_nul_app, (forallb_plain_no_nul _ Hp). reflexivity.
Qed.

Lemma version_line_one_line c : one_line (str "VERSION=" ++ version_string c) = true.
Proof.
  destruct (version_string_plain c) as (Hp & Hl & _).
  unfold one_line. rewrite no_lf_app, (plain_no_lf _ Hp).
  apply andb_true_iff. split; [reflexivity|]. apply Nat.leb_le.
  rewrite length_app. change (length (str "VERSION=")) with 8. unfold PATH_MAX. lia.
Qed.

Lemma read_version_line s0 c :
  let s1 := device_ids_read_line s0 (str "VERSION=" ++ version_string c ++ [LF]) in
  cmd s1 = cmd s0 /\ _devices_file_version (glob s1) = version_string c.
Proof.
  unfold device_ids_read_line. rewrite (c_str_no_nul _ (version_line_no_nul c)).
  rewrite copy_version_line.
  change (has_prefix (str "#") (str "VERSION=" ++ version_string c ++ [LF])) with false.
  change (has_prefix (str "SYSTEMID") (str "VERSION=" ++ version_string c ++ [LF])) with false.
  change (has_prefix (str "VERSION") (str "VERSION=" ++ version_string c ++ [LF])) with true.
  done.
Qed.

Lemma c_str_cons c l : ch_eqb c NUL = false -> c_str (c :: l) = c :: c_str l.
Proof. intros H. cbn [c_str]. by rewrite H. Qed.

Lemma read_comment_line s0 l : device_ids_read_line s0 ("#"%char :: l) = s0.
Proof. unfold device_ids_read_line. rewrite c_str_cons by reflexivity. reflexivity. Qed.

Lemma read_systemid_line s0 id :
  let s1 := device_ids_read_line s0 (str "SYSTEMID=" ++ id ++ [LF]) in
  cmd s1 = cmd s0 /\ _devices_file_version (glob s1) = _devices_file_version (glob s0).
Proof.
  unfold device_ids_read_line.
  change (str "SYSTEMID=" ++ id ++ [LF])
    with ("S"%char :: "Y"%char :: "S"%char :: "T"%char :: "E"%char :: "M"%char :: "I"%char
          :: "D"%char :: "="%char :: id ++ [LF]).
  rewrite !c_str_cons by reflexivity.
  change (has_prefix (str "#") ?x) with false.
  cbn [has_prefix str list_ascii_of_string ch_eqb Ascii.eqb Bool.eqb andb].
  destruct (match system_id (cmd _) with Some _ => _ | None => _ end); done.
Qed.

(** ** Reading a written file *)

Lemma file_text_shape s c :
  file_text s c =
  header_1 ++ LF :: header_2 s ++ LF ::
  match system_id (cmd s) with
  | Some id => (str "SYSTEMID=" ++ id) ++ LF ::
               (str "VERSION=" ++ version_string c) ++ LF ::
               concat (map (entry_line s) (use_devices (cmd s)))
  | None => (str "VERSION=" ++ version_string c) ++ LF ::
            concat (map (entry_line s) (use_devices (cmd s)))
  end.
Proof.
  unfold file_text, header_1, header_2. rewrite version_text_eq.
  destruct (system_id (cmd s)); rewrite <- !app_assoc; reflexivity.
Qed.

Lemma file_lines_as_written s c :
  read_as_written s = true ->
  file_lines PATH_MAX (file_text s c) = header_lines s c ++ map (entry_line s) (use_devices (cmd s)).
Proof.
  unfold read_as_written, legal_header. intros H.
  apply andb_true_iff in H as [H Hd]. apply andb_true_iff in H as [H2 Hs].
  unfold file_lines, header_lines. rewrite file_text_shape.
  rewrite file_lines_cons by reflexivity.
  rewrite file_lines_cons by done.
  assert (E : fgets_lines PATH_MAX (PATH_MAX - 1)
                ((str "VERSION=" ++ version_string c) ++ LF ::
                 concat (map (entry_line s) (use_devices (cmd s))))
              = (str "VERSION=" ++ version_string c ++ [LF])
                :: map (entry_line s) (use_devices (cmd s))).
  { rewrite file_lines_cons by apply version_line_one_line.
    rewrite <- (app_nil_r (concat _)).
    rewrite (file_lines_entries s _ []) by done. rewrite app_nil_r, <- app_assoc. done. }
  destruct (system_id (cmd s)) as [id|].
  - rewrite file_lines_cons by done. rewrite E. rewrite <- !app_assoc. reflexivity.
  - rewrite E. reflexivity.
Qed.

Lemma file_lines_written s c :
  legal_registry s = true ->
  file_lines PATH_MAX (file_text s c) = header_lines s c ++ map (entry_line s) (use_devices (cmd s)).
Proof. intros L. apply file_lines_as_written. by apply legal_registry_read_as_written. Qed.






(** Reading the lines of a written file gives the entries and the version. *)
Lemma read_written_lines s c s0 :
  legal_registry s = true ->
  let s1 := fold_left device_ids_read_line
              (header_lines s c ++ map (entry_line s) (use_devices (cmd s))) s0 in
  use_devices (cmd s1) = use_devices (cmd s0) ++ map unlinked (use_devices (cmd s))
  /\ _devices_file_version (glob s1) = version_string c.
Proof.
  intros L. unfold legal_registry in L. apply andb_true_iff in L as [_ Ld].
  cbn zeta. rewrite fold_left_app.
  match goal with |- context [fold_left _ (map _ _) ?h] => set (sh := h) end.
  destruct (read_entry_lines s (use_devices (cmd s)) sh Ld) as (E1 & E2 & _).
  rewrite E1, E2.
  assert (H : cmd sh = cmd s0 /\ _devices_file_version (glob sh) = version_string c).
  { subst sh. unfold header_lines. rewrite !fold_left_app. cbn [fold_left app].
    unfold header_1, header_2.
    change (str "# LVM uses devices listed in this file." ++ [LF])
      with ("#"%char :: str " LVM uses devices listed in this file." ++ [LF]).
    rewrite read_comment_line.
    match goal with |- context [device_ids_read_line s0 ?l] =>
      change l with ("#"%char :: (str " Created by LVM command " ++ cmd_name (cmd s) ++ str " pid "
                       ++ print_d (getpid (env s)) ++ str " at " ++ ctime_now (env s)) ++ [LF]) end.
    rewrite read_comment_line.
    destruct (system_id (cmd s)) as [id|]; cbn [fold_left].
    - destruct (read_systemid_line s0 id) as [C1 V1].
      destruct (read_version_line (device_ids_read_line s0 (str "SYSTEMID=" ++ id ++ [LF])) c)
        as [C2 V2].
      split; congruence.
    - apply read_version_line. }
  destruct H as [-> ->]. done.
Qed.

(** ** The round trip and the version counter *)

Lemma write_file_success s c :
  fst (device_ids_write_file s c) = true ->
  let s' := snd (device_ids_write_file s c) in
  files (fs s') !! devices_file_path (cmd s) = Some (file_text s c)
  /\ _devices_file_version (glob s') = version_string c
  /\ cmd s' = cmd s.
Proof.
  unfold device_ids_write_file.
  destruct (dm_snprintf PATH_MAX (system_dir (cmd s) ++ str "/devices")) as [dirpath|]; [|done].
  destruct (dm_snprintf PATH_MAX (devices_file_path (cmd s) ++ str "_new")) as [tmppath|]; [|done].
  cbn [fs set_fs files set_files can_create can_open_dir can_rename cmd].
  destruct (can_create (fs s) tmppath); cbn [negb]; [|done].
  destruct (can_open_dir (fs s) dirpath); cbn [negb]; [|done].
  cbn [fs set_fs set_glob files set_files can_create can_open_dir can_rename cmd].
  destruct (can_rename (fs s) tmppath (devices_file_path (cmd s))); [|done].
  intros _. cbn [snd]. split; [|split].
  - cbn. rewrite lookup_insert_eq. reflexivity.
  - cbn. rewrite version_text_eq. cbn [default]. apply copy_version_buf.
  - reflexivity.
Qed.

(** A write that reached the file and succeeded: the counter it continued
    from, the text it left in the devices file and the version it recorded. *)
Lemma write_success s :
  reaches_version_check s -> fst (device_ids_write s) = true ->
  exists c, check_version (_devices_file_version (glob s)) = inl c
    /\ files (fs (snd (device_ids_write s))) !! devices_file_path (cmd s) = Some (file_text s c)
    /\ _devices_file_version (glob (snd (device_ids_write s))) = version_string c
    /\ devices_file_path (cmd (snd (device_ids_write s))) = devices_file_path (cmd s).
Proof.
  intros (Hen & Hcr & Ht). unfold device_ids_write.
  replace (negb (enable_devices_file (cmd s)) && negb (pending_devices_file (cmd s))) with false
    by (destruct Hen as [-> | ->]; [done|by rewrite andb_false_r]).
  cbn zeta.
  assert (tail_ok : forall s1 : state,
    env s1 = env s -> glob s1 = glob s -> fs s1 = fs s -> devs s1 = devs s ->
    cmd_name (cmd s1) = cmd_name (cmd s) -> system_id (cmd s1) = system_id (cmd s) ->
    use_devices (cmd s1) = use_devices (cmd s) ->
    devices_file_path (cmd s1) = devices_file_path (cmd s) ->
    forall r : bool * state,
    r = (if test_mode (env s1) then (true, s1)
         else match check_version (_devices_file_version (glob s1)) with
              | inr warning => (false, log_warn warning [] s1)
              | inl df_counter => device_ids_write_file s1 df_counter
              end) ->
    fst r = true ->
    exists c, check_version (_devices_file_version (glob s)) = inl c
      /\ files (fs (snd r)) !! devices_file_path (cmd s) = Some (file_text s c)
      /\ _devices_file_version (glob (snd r)) = version_string c
      /\ devices_file_path (cmd (snd r)) = devices_file_path (cmd s)).
  { intros s1 E1 E2 E3 E4 E5 E6 E7 E8 r ->. rewrite E1, Ht, E2.
    destruct (check_version (_devices_file_version (glob s))) as [c|w]; [|discriminate].
    intros Hw. exists c. split; [done|].
    apply write_file_success in Hw. destruct Hw as (F & V & C).
    rewrite C, E8 in *. split; [|done].
    rewrite F. f_equal. unfold file_text, entry_line, write_devname, get_dev.
    rewrite E1, E4, E5, E6, E7. reflexivity. }
  destruct (implicit_create s) eqn:Ec.
  - cbn [env log_debug add_log andb]. rewrite (Hcr eq_refl).
    replace (bool_decide (0%Z = 0%Z)) with true by done. cbn [negb].
    eapply tail_ok; [..|reflexivity]; reflexivity.
  - cbn [andb]. eapply tail_ok; [..|reflexivity]; reflexivity.
Qed.

Lemma read_of_written s' s c :
  legal_registry s = true ->
  files (fs s') !! devices_file_path (cmd s') = Some (file_text s c) ->
  fst (device_ids_read (reader_of s')) = true
  /\ use_devices (cmd (snd (device_ids_read (reader_of s')))) = map unlinked (use_devices (cmd s))
  /\ _devices_file_version (glob (snd (device_ids_read (reader_of s')))) = version_string c.
Proof.
  intros L F. unfold device_ids_read, reader_of.
  cbn [cmd set_cmd enable_devices_file set_enable_devices_file use_devices set_use_devices negb
       log_debug add_log fs files devices_file_path].
  rewrite F. cbn [fst snd]. split; [done|].
  rewrite file_lines_written by done.
  match goal with |- context [fold_left _ _ ?s0] =>
    destruct (read_written_lines s c s0 L) as [E1 E2] end.
  split; [exact E1|exact E2].
Qed.

(** The round trip where the reader finds every key at its own field
    ([legal_registry]): a write that gets to the file and succeeds, followed
    by a read into an empty list, gives the entries back in order, each
    without its link to a device. *)
Lemma write_read_roundtrip (s : state) :
  legal_registry s = true -> reaches_version_check s -> fst (device_ids_write s) = true ->
  fst (device_ids_read (reader_of (snd (device_ids_write s)))) = true
  /\ use_devices (cmd (snd (device_ids_read (reader_of (snd (device_ids_write s))))))
     = map unlinked (use_devices (cmd s)).
Proof.
  intros L R W. destruct (write_success s R W) as (c & _ & F & _ & P).
  rewrite <- P in F. destruct (read_of_written _ s c L F) as (H1 & H2 & _). done.
Qed.


Lemma sscanf_version_string c :
  sscanf_u_u_u (version_string c) = Some (1%Z, 1%Z, wrap32 (c + 1)).
Proof.
  unfold version_string, sscanf_u_u_u.
  change (str "1.1." ++ print_u (c + 1)) with (print_u 1 ++ "."%char :: print_u 1 ++ "."%char :: print_u (c + 1)).
  rewrite scan_u_print_u by reflexivity. cbn [scan_lit]. change (ch_eqb "." ".") with true. cbn iota.
  rewrite scan_u_print_u by reflexivity. cbn [scan_lit]. change (ch_eqb "." ".") with true. cbn iota.
  rewrite <- (app_nil_r (print_u (c + 1))). rewrite scan_u_print_u by reflexivity.
  reflexivity.
Qed.


Lemma reaches_version_check_sample l v :
  reaches_version_check (with_version (with_dus state0 l) v).
Proof. split; [left; reflexivity|]. split; reflexivity. Qed.

Lemma write_read_roundtrip_witness :
  use_devices (cmd (snd (device_ids_read (reader_of (snd (device_ids_write state_sdb))))))
  = [du_sdb].
Proof.
  apply (write_read_roundtrip state_sdb).
  - vm_compute. reflexivity.
  - split; [left; reflexivity|]. split; reflexivity.
  - vm_compute. reflexivity.
Defined.

(** Claim C1 (fails on the code): a registry of one entry that satisfies what
    the description asks of an entry, with the device name
    /dev/mapper/vg-PART1, a PVID that starts with 7 and the partition index
    0, is written by [device_ids_write] and read back by [device_ids_read]
    with the partition index 7: the reader looks for the key PART with
    [strstr] over the whole line, finds it inside the device name, and takes
    the text after the next [=], which is the PVID. *)
Theorem roundtrip_reads_part_from_pvid :
  forallb spec_legal_du (use_devices (cmd state_part1)) = true
  /\ reaches_version_check state_part1
  /\ fst (device_ids_write state_part1) = true
  /\ fst (device_ids_read (reader_of (snd (device_ids_write state_part1)))) = true
  /\ du_part <$> use_devices (cmd (snd (device_ids_read (reader_of (snd (device_ids_write state_part1))))))
     = [7%Z]
  /\ du_part <$> use_devices (cmd state_part1) = [0%Z].
Proof.
  split; [vm_compute; reflexivity|].
  split; [split; [left; reflexivity|]; split; reflexivity|].
  split; [vm_compute; reflexivity|].
  split; [vm_compute; reflexivity|].
  split; vm_compute; reflexivity.
Qed.



(** ** The matcher and the pairing predicate *)

Lemma find_id_type ids idtype k j id :
  find_id ids idtype k = Some (j, id) -> id_idtype id = idtype.
Proof.
  revert k. induction ids as [|x ids IH]; intros k; cbn [find_id]; [done|].
  unfold idtype_is. destruct (bool_decide (id_idtype x = idtype)) eqn:E.
  - intros [= <- <-]. by apply bool_decide_eq_true in E.
  - apply IH.
Qed.

Lemma streq_sym a b : streq a b = streq b a.
Proof. unfold streq. apply bool_decide_ext. split; congruence. Qed.

Lemma some_eq_streq (o : option cstring) n :
  match o with Some x => streq x n | None => false end = bool_decide (o = Some n).
Proof.
  unfold streq. destruct o as [x|].
  - apply bool_decide_ext. split; congruence.
  - symmetry. by apply bool_decide_eq_false.
Qed.

(** Claim C2 (amended): [_match_du_to_dev] pairs an entry with a device
    exactly when [pairs] holds: the entry has a kind and a name, the kind is
    compatible with the major number, the partition number of the device can
    be read and equals that of the entry, and either the identity of that
    kind on the device (the cached one, else the one read from the system)
    equals the name, or the entry is of the device-name kind, the device has
    a cached device-name identity and the device-mapper major, and the name
    of the entry is the current name of the device or is a path under
    /dev/dm- or /dev/mapper/ that stats to a device-mapper node with the
    minor of the device. *)
Theorem match_du_to_dev_pairs (s : state) (i : nat) (h : dev_ref) (du : dev_use) (d : device) :
  use_devices (cmd s) !! i = Some du -> get_dev s h = Some d ->
  fst (_match_du_to_dev s i h) = pairs s du h d.
Proof.
  intros Hdu Hd. unfold _match_du_to_dev, pairs. rewrite Hdu, Hd.
  destruct (du_idname du) as [n|] eqn:En; [|done].
  destruct (idtype_is (du_idtype du) DEV_ID_TYPE_NONE); [done|].
  destruct (_idtype_compatible_with_major_number _ _ _); [|done].
  cbn [negb andb].
  destruct (dev_get_partition_number (env s) h) as [part|]; [|done].
  destruct (bool_decide (part = du_part du)) eqn:Ep.
  2:{ cbn [negb fst]. apply bool_decide_eq_false in Ep.
      rewrite bool_decide_eq_false_2 by congruence. done. }
  apply bool_decide_eq_true in Ep. subst part. rewrite bool_decide_eq_true_2 by done.
  cbn [negb andb]. unfold dev_identity.
  destruct (find_id (dev_ids d) (du_idtype du) 0) as [[k id]|] eqn:Ef.
  - pose proof (find_id_type _ _ _ _ _ Ef) as Ht. rewrite Ht.
    rewrite some_eq_streq.
    destruct (idtype_is (du_idtype du) DEV_ID_TYPE_DEVNAME) eqn:Edn.
    + unfold idtype_is in Edn. apply bool_decide_eq_true in Edn. rewrite Edn in Ef. rewrite Ef.
      rewrite (bool_decide_eq_true_2 (is_Some (Some (k, id)))) by eauto.
      unfold _match_dm_devnames, dm_equivalent. rewrite En.
      destruct (bool_decide (MAJOR (dev_dev d) = _)); cbn [negb andb].
      * rewrite some_eq_streq.
        destruct (bool_decide (id_idname id = Some n)); [done|].
        destruct (streq n (dev_name d)); [done|]. cbn [orb].
        destruct (has_prefix (str "/dev/dm-") n || has_prefix (str "/dev/mapper/") n); [|done].
        cbn [andb]. unfold stat_same_dm.
        destruct (stat_rdev (env s) n) as [rdev|]; [|done].
        destruct (_ && _); done.
      * rewrite orb_false_r. destruct (bool_decide (id_idname id = Some n)); done.
    + cbn [andb]. rewrite orb_false_r.
      destruct (bool_decide (id_idname id = Some n)); done.
  - destruct (device_id_system_read s h d (du_idtype du)) as [idname|] eqn:Er.
    + unfold streq.
      destruct (idtype_is (du_idtype du) DEV_ID_TYPE_DEVNAME) eqn:Edn.
      * unfold idtype_is in Edn. apply bool_decide_eq_true in Edn. rewrite Edn in Ef. rewrite Ef.
        rewrite (bool_decide_eq_false_2 (is_Some None)) by (intros [? ?]; done).
        cbn [andb]. rewrite orb_false_r.
        destruct (bool_decide (idname = n)) eqn:E.
        -- apply bool_decide_eq_true in E. subst. by rewrite bool_decide_eq_true_2.
        -- apply bool_decide_eq_false in E. rewrite bool_decide_eq_false_2 by congruence. done.
      * cbn [andb]. rewrite orb_false_r.
        destruct (bool_decide (idname = n)) eqn:E.
        -- apply bool_decide_eq_true in E. subst. by rewrite bool_decide_eq_true_2.
        -- apply bool_decide_eq_false in E. rewrite bool_decide_eq_false_2 by congruence. done.
    + cbn [fst]. rewrite (bool_decide_eq_false_2 (None = Some n)) by done.
      destruct (idtype_is (du_idtype du) DEV_ID_TYPE_DEVNAME) eqn:Edn; [|done].
      unfold idtype_is in Edn. apply bool_decide_eq_true in Edn. rewrite Edn in Ef. rewrite Ef.
      rewrite (bool_decide_eq_false_2 (is_Some None)) by (intros [? ?]; done). done.
Qed.

Lemma match_du_to_dev_pairs_witness :
  use_devices (cmd state_dm_foo) !! 1 = Some du_dm_node /\ get_dev state_dm_foo 5 = Some dev_dm_foo
  /\ fst (_match_du_to_dev state_dm_foo 1 5) = pairs state_dm_foo du_dm_node 5 dev_dm_foo
  /\ pairs state_dm_foo du_dm_node 5 dev_dm_foo = true.
Proof.
  split; [reflexivity|]. split; [reflexivity|]. split; [|reflexivity].
  apply (match_du_to_dev_pairs state_dm_foo 1 5 du_dm_node dev_dm_foo); reflexivity.
Defined.

Lemma match_needs_dm_path_prefix :
  use_devices (cmd state_dm_foo) !! 0 = Some du_dm_link /\ get_dev state_dm_foo 5 = Some dev_dm_foo
  /\ MAJOR (dev_dev dev_dm_foo) = device_mapper_major (dev_types (cmd state_dm_foo))
  /\ du_idname du_dm_link <> Some (dev_name dev_dm_foo)
  /\ stat_rdev (env state_dm_foo) (str "/dev/disk/by-id/dm-name-foo") = Some (dev_dev dev_dm_foo)
  /\ spec_pairs state_dm_foo du_dm_link 5 dev_dm_foo = true
  /\ fst (_match_du_to_dev state_dm_foo 0 5) = false.
Proof. repeat split; try (vm_compute; reflexivity). discriminate. Qed.

(** ** The validator on an entry of the device-name kind *)

Ltac vsimp :=
  cbn [v_state cmd set_cmd use_devices set_use_devices update_du get_dev devs set_devs
       log_warn log_error add_log wrong_devs update_file] in *.

(** Claim C3 (amended): for a matched entry of the device-name kind whose
    device was scanned, has a name and passes the filter, and which has a
    PVID: if the PVID of the device equals it and the name stored as idname
    is the name of the device, the entry stays matched with the name of the
    device as devname; if the PVID differs, the entry loses its device and
    its idname and keeps its devname, the device loses its matched flag and
    is recorded as wrong, and the file is to be updated. *)
Theorem validate_devname_entry_outcome (scanned_devs : option (list dev_ref))
    (a : validate_acc) (i : nat) (du : dev_use) (h : dev_ref) (d : device) :
  validated_devname_entry scanned_devs (v_state a) i du h d ->
  checkable d du ->
  let a' := validate_devname_entry scanned_devs a i in
  (same_pvid d du = true -> du_idname du = Some (dev_name d) ->
     use_devices (cmd (v_state a')) !! i = Some (set_du_devname du (Some (dev_name d)))
     /\ get_dev (v_state a') h = Some d)
  /\ (same_pvid d du = false ->
     use_devices (cmd (v_state a')) !! i = Some (unmatch_du du)
     /\ du_devname (unmatch_du du) = du_devname du
     /\ get_dev (v_state a') h = Some (unmatch_dev d)
     /\ h ∈ wrong_devs a' /\ update_file a' = true).
Proof.
  intros (Hdu & Hty & Hdev & Hd & Hsc & Hpf) (Hal & p & Hp & Hdot).
  unfold validate_devname_entry. cbn zeta.
  rewrite Hdu, Hdev, Hty, Hd, Hsc, Hpf, Hp, Hdot.
  rewrite (bool_decide_eq_false_2 _ Hal).
  change (idtype_is DEV_ID_TYPE_DEVNAME DEV_ID_TYPE_DEVNAME) with true. cbn [negb].
  unfold same_pvid. rewrite Hp.
  destruct (negb (bool_decide (dev_pvid d = [])) && id_equal (dev_pvid d) p) eqn:E.
  - split; [|done]. intros _ Hid. rewrite Hid. rewrite bool_decide_eq_true_2 by done.
    cbn [negb].
    destruct (du_devname du) as [n|] eqn:En.
    + unfold streq. destruct (bool_decide (dev_name d = n)) eqn:Eq; cbn [negb]; vsimp.
      * apply bool_decide_eq_true in Eq. rewrite Hdu. split; [|done].
        f_equal. unfold set_du_devname. destruct du; cbn in *. congruence.
      * split; [by rewrite list_lookup_alter_eq, Hdu|done].
    + vsimp. split; [by rewrite list_lookup_alter_eq, Hdu|done].
  - split; [done|]. intros _. destruct (dev_pvid d) as [|c0 r0] eqn:Epv; vsimp.
    all: rewrite ?Epv.
    all: (split; [by rewrite list_lookup_alter_eq, Hdu|]); (split; [done|]);
      (split; [unfold get_dev; vsimp; by rewrite lookup_insert_eq|]); (split; [|done]);
      apply elem_of_app; right; by apply list_elem_of_singleton.
Qed.

Lemma validate_devname_entry_outcome_witness :
  validated_devname_entry None (v_state (acc_of du_sde)) 0 du_sde 7 dev_sde
  /\ same_pvid dev_sde du_sde = false
  /\ use_devices (cmd (v_state (validate_devname_entry None (acc_of du_sde) 0))) !! 0
     = Some (unmatch_du du_sde)
  /\ 7 ∈ wrong_devs (validate_devname_entry None (acc_of du_sde) 0).
Proof.
  assert (V : validated_devname_entry None (v_state (acc_of du_sde)) 0 du_sde 7 dev_sde)
    by (repeat split; reflexivity).
  assert (C : checkable dev_sde du_sde).
  { split; [discriminate|]. eexists. split; reflexivity. }
  destruct (validate_devname_entry_outcome None (acc_of du_sde) 0 du_sde 7 dev_sde V C)
    as [_ H].
  destruct (H eq_refl) as (H1 & _ & _ & H4 & _).
  split; [exact V|]. split; [reflexivity|]. split; [exact H1|exact H4].
Defined.

Lemma entry_without_pvid_stays_matched :
  validated_devname_entry None (v_state (acc_of du_sde_no_pvid)) 0 du_sde_no_pvid 7 dev_sde
  /\ same_pvid dev_sde du_sde_no_pvid = false
  /\ validate_devname_entry None (acc_of du_sde_no_pvid) 0 = acc_of du_sde_no_pvid
  /\ ~ spec_validated (acc_of du_sde_no_pvid)
         (validate_devname_entry None (acc_of du_sde_no_pvid) 0) 0 du_sde_no_pvid 7 dev_sde.
Proof.
  split; [repeat split; reflexivity|]. split; [reflexivity|]. split; [reflexivity|].
  unfold spec_validated. change (same_pvid dev_sde du_sde_no_pvid) with false. cbn iota.
  intros (H & _). vm_compute in H. discriminate H.
Qed.

(** ** The rename search on a duplicate PVID *)

Section RenameSearch.

Lemma id_equal_refl a : id_equal a a = true.
Proof. unfold id_equal. by apply bool_decide_eq_true. Qed.



Lemma same_core_refl s : same_core s s.
Proof. done. Qed.





Lemma log_grows_add s l f a : log_grows s (add_log s l f a).
Proof. by eexists. Qed.

Lemma same_core_add s l f a : same_core s (add_log s l f a).
Proof. done. Qed.

Lemma read_sys_block_core s s' h d d' suffix :
  env s' = env s -> dev_dev d' = dev_dev d ->
  read_sys_block s' h d' suffix = read_sys_block s h d suffix.
Proof. intros E D. unfold read_sys_block, sys_block_path. rewrite E, D. done. Qed.

Lemma system_read_core s s' h d d' idtype :
  env s' = env s -> dev_core d' = dev_core d ->
  device_id_system_read s' h d' idtype = device_id_system_read s h d idtype.
Proof.
  intros E C. injection C as C1 C2 C3.
  unfold device_id_system_read, dev_name. rewrite C2.
  rewrite !(read_sys_block_core s s' h d d') by done. done.
Qed.

Lemma stable_id_core s s' h d d' :
  cmd s' = cmd s -> env s' = env s -> dev_core d' = dev_core d ->
  _dev_has_stable_id s' h d' = _dev_has_stable_id s h d.
Proof.
  intros Cm E C. unfold _dev_has_stable_id.
  rewrite !(system_read_core s s' h d d') by done.
  injection C as C1 C2 C3.
  rewrite (read_sys_block_core s s' h d d' (str "dm/uuid")) by done.
  rewrite (read_sys_block_core s s' h d d' (str "md/uuid")) by done.
  rewrite C1, C3, Cm. reflexivity.
Qed.

Lemma reads_pvid_core auto s s' h : same_core s s' -> reads_pvid auto s' h = reads_pvid auto s h.
Proof.
  intros (Cm & E & D). unfold reads_pvid. specialize (D h).
  destruct (get_dev s' h) as [d'|], (get_dev s h) as [d|]; try done.
  assert (C : dev_core d' = dev_core d) by (cbn in D; congruence).
  rewrite (stable_id_core s s' h d d') by done.
  unfold passes_data_filters. rewrite E. done.
Qed.


End RenameSearch.

Section SearchLoop.

Variable pv : cstring.





End SearchLoop.

Section SearchDevs.

Variable pv : cstring.

Variable auto : bool.

Variable s0 : state.







End SearchDevs.

(** ** The registry across the update *)











Section RenameLoop.

Variable pv : cstring.

Variable L0 : list dev_use.








End RenameLoop.

(** ** The result of the search *)








(** ** A wwid line of the blacklist *)

Section Blacklist.









End Blacklist.

(** ** Exceptions to the blacklist *)

Section Exclusions.

Lemma read_line_tab path acc raw :
  _wwid_hash_tab (snd (read_blacklist_line path acc raw)) = _wwid_hash_tab (snd acc).
Proof.
  unfold read_blacklist_line. destruct acc as [sec m].
  destruct (classify_line raw); try done.
  destruct (negb _ && negb _); [done|]. destruct (_ <? 8); [done|].
  by destruct (section_exceptions sec).
Qed.

Lemma read_file_tab files path m :
  _wwid_hash_tab (_read_blacklist_file files path m) = _wwid_hash_tab m.
Proof.
  unfold _read_blacklist_file. destruct (files !! path) as [content|]; [|done].
  generalize (mk_sections false false). generalize (file_lines MAX_WWID_LINE content).
  intros l. revert m. induction l as [|raw l IH]; intros m sec; cbn [fold_left]; [done|].
  pose proof (read_line_tab path (sec, m) raw) as H.
  destruct (read_blacklist_line path (sec, m) raw) as [sec' m']. rewrite IH. exact H.
Qed.

Lemma read_files_tab files (names : list cstring) m :
  _wwid_hash_tab
    (fold_left (fun m d_name =>
                  if has_prefix (str ".") d_name then m
                  else _read_blacklist_file files
                         (take (PATH_MAX - 2) (str "/etc/multipath/conf.d/" ++ d_name)) m)
       names m) = _wwid_hash_tab m.
Proof.
  revert m. induction names as [|n names IH]; intros m; cbn [fold_left]; [done|].
  rewrite IH. destruct (has_prefix (str ".") n); [done|apply read_file_tab].
Qed.

(** The first loop of the pruning removes exactly the excepted wwids. *)
Lemma prune_loop exc (xs : list cstring) : forall l,
  forall w, w ∈ fold_left (fun l x => if str_list_match_item exc x then str_list_del l x else l) xs l
            <-> w ∈ l /\ ~ (w ∈ xs /\ w ∈ exc).
Proof.
  induction xs as [|x xs IH]; intros l w; cbn [fold_left].
  - split; [intros H; split; [done|]; by intros [H1 _]; apply elem_of_nil in H1|by intros [? _]].
  - rewrite IH. unfold str_list_match_item, str_list_del.
    destruct (bool_decide (x ∈ exc)) eqn:E.
    + apply bool_decide_eq_true in E. rewrite list_elem_of_filter.
      split.
      * intros [[Hne Hl] Hn]. split; [done|]. intros [Hx He].
        apply elem_of_cons in Hx as [-> | Hx]; [done|]. apply Hn. done.
      * intros [Hl Hn]. split.
        -- split; [|done]. intros ->. apply Hn. split; [by left|done].
        -- intros [Hx He]. apply Hn. split; [by right|done].
    + apply bool_decide_eq_false in E. split.
      * intros [Hl Hn]. split; [done|]. intros [Hx He].
        apply elem_of_cons in Hx as [-> | Hx]; [done|]. apply Hn. done.
      * intros [Hl Hn]. split; [done|]. intros [Hx He]. apply Hn. split; [by right|done].
Qed.

Lemma remove_loop (xs : list cstring) : forall (t : gset cstring) w,
  w ∈ fold_left (fun t x => t ∖ {[x]}) xs t <-> w ∈ t /\ w ∉ xs.
Proof.
  induction xs as [|x xs IH]; intros t w; cbn [fold_left].
  - split; [intros H; split; [done|apply not_elem_of_nil]|by intros [? _]].
  - rewrite IH. rewrite elem_of_difference, elem_of_singleton, not_elem_of_cons. tauto.
Qed.



End Exclusions.




(** * More properties of the registry *)

(** ** The tags of the identity kinds *)

(** X1: the tag of a kind converts back to the kind, and a tag that names a kind
    is the tag of that kind. *)
Theorem idtype_str_roundtrip (t : idtype_t) (tag : cstring) :
  idtype_from_str (idtype_to_str t) = t
  /\ (idtype_from_str tag <> DEV_ID_TYPE_NONE -> idtype_to_str (idtype_from_str tag) = tag).
Proof.
  split; [by destruct t|].
  unfold idtype_from_str, streq.
  repeat (match goal with |- context [bool_decide (tag = ?x)] =>
            destruct (bool_decide (tag = x)) eqn:E;
            [apply bool_decide_eq_true in E; subst; intros _; reflexivity|clear E] end).
  done.
Qed.

Lemma idtype_str_roundtrip_witness :
  idtype_to_str (idtype_from_str (str "loop_file")) = str "loop_file".
Proof.
  apply (proj2 (idtype_str_roundtrip DEV_ID_TYPE_LOOP_FILE (str "loop_file"))).
  vm_compute. discriminate.
Defined.

(** ** The copy of a field *)

Lemma copy_token_no_end s : forall room, existsb ends_token (copy_token s room) = false.
Proof.
  induction s as [|c r IH]; intros [|room]; cbn [copy_token existsb]; try done.
  fold (ends_token c). destruct (ends_token c) eqn:E; [done|]. cbn [existsb]. by rewrite E, IH.
Qed.

Lemma existsb_take {A} (f : A -> bool) n l : existsb f l = false -> existsb f (take n l) = false.
Proof.
  revert n. induction l as [|x l IH]; intros [|n]; cbn [take existsb]; try done.
  intros H. apply orb_false_iff in H as [-> H]. by rewrite IH.
Qed.

Lemma copy_idline_no_end src len : existsb ends_token (_copy_idline_str src len) = false.
Proof.
  unfold _copy_idline_str. destruct (strchr src "=") as [eq|]; [|done].
  destruct (skip_blanks _ _) as [s room]. apply existsb_take, copy_token_no_end.
Qed.

(** X2: [_copy_idline_str] leaves at most [len - 1] bytes, none of them a
    space or a newline, and leaves the empty string when [src] has no [=]. *)
Theorem copy_idline_str_token (src : cstring) (len : nat) :
  length (_copy_idline_str src len) <= len - 1
  /\ existsb ends_token (_copy_idline_str src len) = false
  /\ (strchr src "=" = None -> _copy_idline_str src len = []).
Proof.
  unfold _copy_idline_str. destruct (strchr src "=") as [eq|]; [|by repeat split; cbn; try lia].
  destruct (skip_blanks _ _) as [s room]. split; [|split; [|done]].
  - rewrite length_take. lia.
  - apply existsb_take, copy_token_no_end.
Qed.

Lemma copy_idline_str_token_witness :
  strchr (str "VERSION 1.1.7") "=" = None /\ _copy_idline_str (str "VERSION 1.1.7") 256 = [].
Proof.
  split; [reflexivity|].
  apply (copy_idline_str_token (str "VERSION 1.1.7") 256). reflexivity.
Defined.


(** ** What the reader stores *)

Lemma field_value_parsed src len : parsed_field (field_value (_copy_idline_str src len)).
Proof.
  pose proof (copy_idline_no_end src len) as H.
  unfold field_value. destruct (_copy_idline_str src len) as [|c r] eqn:E; [done|].
  destruct (ch_eqb c ".") eqn:Ec; [done|]. cbn [parsed_field]. split; [done|]. split; [|done].
  unfold str. cbn [list_ascii_of_string has_prefix].
  destruct (ch_eqb "." c) eqn:Ec'; [|done].
  apply ch_eqb_eq in Ec'. subst c. by rewrite ch_eqb_refl in Ec.
Qed.

Lemma atoi_int s : (- 2 ^ 31 <= atoi s < 2 ^ 31)%Z.
Proof.
  unfold atoi. destruct (scan_sign _) as [neg r]. destruct (scan_digits _ _ _) as [[v seen] rest].
  unfold wrap_int.
  match goal with |- context [(?a mod 2 ^ 32)%Z] =>
    pose proof (Z.mod_pos_bound a (2 ^ 32)%Z ltac:(lia)) end.
  lia.
Qed.

Lemma read_entry_line_parsed line du : read_entry_line line = Some du -> parsed_entry du.
Proof.
  unfold read_entry_line.
  destruct (strstr line (str "IDTYPE")) as [pt|]; [|done].
  destruct (strstr line (str "IDNAME")) as [pn|]; [|done].
  intros [= <-]. unfold parsed_entry. cbn [du_dev du_idname du_devname du_pvid du_part].
  split; [done|]. split; [apply field_value_parsed|].
  split; [destruct (strstr line (str "DEVNAME")); [apply field_value_parsed|done]|].
  split; [destruct (strstr line (str "PVID")); [apply field_value_parsed|done]|].
  destruct (strstr line (str "PART")); [|lia].
  destruct (field_value _); [apply atoi_int|lia].
Qed.

Lemma read_line_parsed s raw :
  Forall parsed_entry (use_devices (cmd s)) ->
  Forall parsed_entry (use_devices (cmd (device_ids_read_line s raw))).
Proof.
  intros H. unfold device_ids_read_line. cbn zeta.
  destruct (has_prefix (str "#") (c_str raw)); [done|].
  destruct (has_prefix (str "SYSTEMID") (c_str raw)).
  { match goal with |- context [if ?b then _ else _] => destruct b end; exact H. }
  destruct (has_prefix (str "VERSION") (c_str raw)); [exact H|].
  destruct (read_entry_line (c_str raw)) as [du|] eqn:E; [|exact H].
  cbn [cmd set_cmd use_devices set_use_devices]. apply Forall_app. split; [exact H|].
  constructor; [|constructor]. by apply read_entry_line_parsed in E.
Qed.

Lemma read_lines_parsed lines : forall s,
  Forall parsed_entry (use_devices (cmd s)) ->
  Forall parsed_entry (use_devices (cmd (fold_left device_ids_read_line lines s))).
Proof.
  induction lines as [|raw lines IH]; intros s H; cbn [fold_left]; [done|].
  apply IH, read_line_parsed, H.
Qed.

(** X3: read into an empty list, every entry that [device_ids_read] stores has
    no device, a part that fits an [int], and an idname, a devname and a PVID
    that are each absent or not empty, not starting with a dot and without
    space or newline. *)
Theorem device_ids_read_entries_parsed (s : state) :
  use_devices (cmd s) = [] ->
  Forall parsed_entry (use_devices (cmd (snd (device_ids_read s)))).
Proof.
  intros He. unfold device_ids_read.
  destruct (enable_devices_file (cmd s)); [|simpl; rewrite He; constructor].
  cbn [negb]. rewrite He. cbn zeta.
  cbn [fs log_debug add_log cmd].
  destruct (files (fs s) !! devices_file_path (cmd s)) as [content|]; cbn [snd].
  - apply read_lines_parsed. unfold log_debug, add_log. cbn [cmd]. rewrite He. constructor.
  - unfold log_warn, log_debug, add_log. cbn [cmd]. rewrite He. constructor.
Qed.

Lemma device_ids_read_entries_parsed_witness :
  use_devices (cmd (snd (device_ids_read
     (with_file state0 (devices_file_path cmd0) file_mixed))))
  = [mk_du DEV_ID_TYPE_SYS_WWID (Some (str "naa.5000c500a1b2c3d4")) None
       (Some (str "P0000000000000000000000000000001")) 0 None]
  /\ Forall parsed_entry (use_devices (cmd (snd (device_ids_read
       (with_file state0 (devices_file_path cmd0) file_mixed))))).
Proof.
  split; [vm_compute; reflexivity|].
  apply (device_ids_read_entries_parsed (with_file state0 (devices_file_path cmd0) file_mixed)).
  reflexivity.
Defined.


(** ** Writing again, and the files a write touches *)

Lemma check_version_string c : check_version (version_string c) = inl (wrap32 (c + 1)).
Proof.
  unfold check_version. rewrite sscanf_version_string.
  destruct (version_string_plain c) as (_ & _ & a & r & ->). reflexivity.
Qed.

(** X4: after a write that gets to the version check and succeeds, the version
    that the process records passes the version check again, with the
    counter of the version before plus one (as an unsigned 32-bit number). *)
Theorem write_then_write (s : state) :
  reaches_version_check s -> fst (device_ids_write s) = true ->
  exists c, check_version (_devices_file_version (glob s)) = inl c
    /\ check_version (_devices_file_version (glob (snd (device_ids_write s))))
       = inl (wrap32 (c + 1)).
Proof.
  intros R W. destruct (write_success s R W) as (c & Hc & _ & V & _).
  exists c. split; [exact Hc|]. rewrite V. apply check_version_string.
Qed.

Lemma write_then_write_witness :
  exists c, check_version (_devices_file_version (glob (with_dus state0 [du_sdb]))) = inl c
    /\ check_version (_devices_file_version
                        (glob (snd (device_ids_write (with_dus state0 [du_sdb])))))
       = inl (wrap32 (c + 1)).
Proof.
  apply (write_then_write (with_dus state0 [du_sdb])).
  - split; [left; reflexivity|]. split; reflexivity.
  - vm_compute. reflexivity.
Defined.

Lemma dm_snprintf_some n t x : dm_snprintf n t = Some x -> x = t.
Proof. unfold dm_snprintf. destruct (_ <? _); [by intros [=]|done]. Qed.

Lemma write_file_frame s c p :
  p <> devices_file_path (cmd s) -> p <> tmp_path s ->
  files (fs (snd (device_ids_write_file s c))) !! p = files (fs s) !! p.
Proof.
  intros Hp Ht. unfold device_ids_write_file.
  destruct (dm_snprintf PATH_MAX (system_dir (cmd s) ++ str "/devices")) as [dirpath|]; [|done].
  destruct (dm_snprintf PATH_MAX (devices_file_path (cmd s) ++ str "_new")) as [tmppath|] eqn:E;
    [|done].
  apply dm_snprintf_some in E. fold (tmp_path s) in E. subst tmppath.
  cbn -[file_text tmp_path version_text _copy_idline_str].
  destruct (can_create (fs s) (tmp_path s)); cbn -[file_text tmp_path version_text _copy_idline_str].
  2: { by rewrite lookup_delete_ne. }
  destruct (can_open_dir (fs s) dirpath); cbn -[file_text tmp_path version_text _copy_idline_str].
  2: { by rewrite lookup_insert_ne, lookup_delete_ne. }
  destruct (can_rename (fs s) (tmp_path s) (devices_file_path (cmd s))); cbn -[file_text tmp_path version_text _copy_idline_str].
  - repeat first [rewrite lookup_insert_ne by done | rewrite lookup_delete_ne by done]. done.
  - repeat first [rewrite lookup_insert_ne by done | rewrite lookup_delete_ne by done]. done.
Qed.

(** X5: [device_ids_write] changes no file but the devices file and its
    temporary file, the path of the devices file followed by [_new]. *)
Theorem write_touches_only_its_files (s : state) (p : cstring) :
  p <> devices_file_path (cmd s) -> p <> tmp_path s ->
  files (fs (snd (device_ids_write s))) !! p = files (fs s) !! p.
Proof.
  intros Hp Ht. unfold device_ids_write. cbn zeta.
  destruct (negb _ && negb _); [done|].
  destruct (implicit_create s && _); [done|].
  assert (tail : forall s1 : state,
    fs s1 = fs s -> devices_file_path (cmd s1) = devices_file_path (cmd s) ->
    files (fs (snd (if test_mode (env s1) then (true, s1)
                    else match check_version (_devices_file_version (glob s1)) with
                         | inl df_counter => device_ids_write_file s1 df_counter
                         | inr warning => (false, log_warn warning [] s1)
                         end))) !! p = files (fs s) !! p).
  { intros s1 Hf Hc. destruct (test_mode (env s1)); [by rewrite <- Hf|].
    destruct (check_version _); [|by rewrite <- Hf].
    rewrite write_file_frame; [by rewrite Hf|by rewrite Hc|unfold tmp_path; by rewrite Hc]. }
  destruct (implicit_create s); apply tail; reflexivity.
Qed.

Lemma write_touches_only_its_files_witness :
  files (fs (snd (device_ids_write state_sentinel))) !! str "/run/lvm/searched_devnames"
  = Some [].
Proof.
  rewrite (write_touches_only_its_files state_sentinel (str "/run/lvm/searched_devnames")).
  - reflexivity.
  - vm_compute. discriminate.
  - vm_compute. discriminate.
Defined.


(** ** The lock across a call *)

Lemma lock_frame_refl s : lock_frame s s.
Proof. by repeat split. Qed.

Lemma lock_frame_trans s1 s2 s3 : lock_frame s1 s2 -> lock_frame s2 s3 -> lock_frame s1 s3.
Proof.
  intros (A1 & A2 & A3 & A4 & A5) (B1 & B2 & B3 & B4 & B5).
  repeat split; try congruence. auto.
Qed.

Lemma write_file_lock_frame s c : lock_frame s (snd (device_ids_write_file s c)).
Proof.
  unfold device_ids_write_file.
  repeat (match goal with
          | |- context [if ?b then _ else _] => destruct b
          | |- context [match ?o with Some _ => _ | None => _ end] => destruct o
          end; cbn [fst snd]); by repeat split.
Qed.

Lemma write_lock_frame s : lock_frame s (snd (device_ids_write s)).
Proof.
  unfold device_ids_write. cbn zeta.
  destruct (negb _ && negb _); [apply lock_frame_refl|].
  destruct (implicit_create s && _); [by repeat split|].
  match goal with |- context [test_mode (env ?s1)] => set (sx := s1) end.
  assert (K : lock_frame s sx) by (subst sx; destruct (implicit_create s); by repeat split).
  destruct (test_mode (env sx)); [exact K|].
  destruct (check_version _); [|by destruct K as (?&?&?&?&?); repeat split].
  eapply lock_frame_trans; [exact K|apply write_file_lock_frame].
Qed.

Lemma version_unchanged_lock_frame s : lock_frame s (snd (device_ids_version_unchanged s)).
Proof.
  unfold device_ids_version_unchanged.
  repeat (match goal with
          | |- context [match ?o with Some _ => _ | None => _ end] => destruct o
          end; cbn [fst snd]); by repeat split.
Qed.

(** The work of the update between taking the lock and giving it back. *)
Lemma update_work_lock_frame (locked : bool) s1 :
  lock_frame s1
    (if negb locked then log_debug "Skip devices file update (busy)." [] s1
     else let '(unchanged, s0) := device_ids_version_unchanged s1 in
          if unchanged then snd (device_ids_write s0)
          else log_debug "Skip devices file update (changed)." [] s0).
Proof.
  destruct locked; cbn [negb]; [|by repeat split].
  pose proof (version_unchanged_lock_frame s1) as K.
  destruct (device_ids_version_unchanged s1) as [unchanged s0]. cbn [snd] in K.
  destruct unchanged.
  - eapply lock_frame_trans; [exact K|apply write_lock_frame].
  - eapply lock_frame_trans; [exact K|by repeat split].
Qed.

(** X6: with the devices file enabled, [_device_ids_update_try] leaves the
    lock as it found it when the process holds the exclusive lock or holds no
    lock: the descriptor and the mode are the same after the call. *)
Theorem update_try_lock_state (s : state) (fd : Z) :
  enable_devices_file (cmd s) = true -> fd <> (-1)%Z ->
  _devices_file_locked (glob s) = LOCK_EX \/ lock_state s = ((-1)%Z, 0%Z) ->
  lock_state (_device_ids_update_try s fd) = lock_state s.
Proof.
  intros He Hfd Hl. unfold _device_ids_update_try.
  destruct (expect_missing_vg_device (cmd s)); [done|].
  unfold lock_devices_file_try.
  destruct (_lock_devices_file s LOCK_EX true fd) as [[locked held] s1] eqn:EL.
  pose proof (update_work_lock_frame locked s1) as K.
  match type of K with lock_frame _ ?x => set (s2 := x) in * end. clearbody s2.
  destruct K as (K1 & K2 & K3 & K4 & K5).
  unfold _lock_devices_file in EL. rewrite He in EL. cbn [negb orb] in EL.
  destruct (nolocking (cmd s)) eqn:En.
  { injection EL as <- <- <-. cbn [negb]. unfold unlock_devices_file.
    rewrite K3, En, orb_true_r. cbn [orb]. exact K1. }
  cbn zeta in EL.
  cbn [glob set_glob set_lock _devices_file_locked _devices_fd cmd fs] in EL.
  destruct Hl as [Hx | Hz].
  { rewrite Hx in EL. rewrite bool_decide_eq_true_2 in EL by done.
    injection EL as <- <- <-. cbn [negb]. rewrite K1. unfold lock_state. cbn. by rewrite Hx. }
  unfold lock_state in Hz. injection Hz as Hfd0 Hl0.
  rewrite Hl0 in EL. rewrite bool_decide_eq_false_2 in EL by done.
  rewrite bool_decide_eq_true_2 in EL by done. cbn [negb] in EL.
  assert (U : forall s1' : state, lock_state s1' = ((-1)%Z, 0%Z) ->
                lock_state (unlock_devices_file s1') = ((-1)%Z, 0%Z)).
  { intros s1' Hs. unfold unlock_devices_file. unfold lock_state in Hs. injection Hs as Hf Hk.
    destruct (_ || _ || _); [by unfold lock_state; rewrite Hf, Hk|].
    rewrite Hk, Hf. rewrite !bool_decide_eq_true_2 by done. cbn [andb].
    destruct (sysinit (cmd s1')); unfold lock_state; cbn; by rewrite ?Hf, ?Hk. }
  assert (Z0 : lock_state s = ((-1)%Z, 0%Z)) by (unfold lock_state; by rewrite Hfd0, Hl0).
  destruct (lock_path (cmd s)) as [lp|].
  2: { injection EL as <- <- <-. cbn [negb]. rewrite Z0. apply U. rewrite K1. unfold lock_state; cbn; by rewrite ?Hfd0, ?Hl0. }
  destruct (dm_snprintf PATH_MAX lp) as [lockfile|].
  2: { injection EL as <- <- <-. cbn [negb]. rewrite Z0. apply U. rewrite K1. unfold lock_state; cbn; by rewrite ?Hfd0, ?Hl0. }
  cbn [glob set_glob set_lock _devices_fd] in EL. rewrite Hfd0 in EL.
  rewrite bool_decide_eq_true_2 in EL by done. cbn [negb] in EL.
  destruct (negb _ && negb _).
  { injection EL as <- <- <-. cbn [negb]. rewrite Z0. apply U. rewrite K1. unfold lock_state; cbn; by rewrite ?Hfd0, ?Hl0. }
  destruct (flock_grants _ _ _ _).
  2: { injection EL as <- <- <-. cbn [negb]. rewrite Z0. apply U. rewrite K1.
       destruct (files (fs s) !! lockfile); unfold lock_state; cbn; by rewrite ?Hfd0, ?Hl0. }
  injection EL as <- <- <-. cbn [negb]. rewrite Z0.
  unfold lock_state in K1. injection K1 as Kf Kl.
  assert (He2 : enable_devices_file (cmd s2) = true)
    by (apply K5; destruct (files (fs s) !! lockfile); exact He).
  assert (Hn2 : nolocking (cmd s2) = false)
    by (rewrite K3; destruct (files (fs s) !! lockfile); exact En).
  cbn in Kf, Kl, K2.
  unfold unlock_devices_file. rewrite He2, Hn2, K2, Kf, Kl. cbn [negb orb].
  rewrite bool_decide_eq_false_2 by done. cbn [andb].
  rewrite bool_decide_eq_false_2 by done. reflexivity.
Qed.

Lemma update_try_lock_state_witness :
  lock_state (_device_ids_update_try (with_dus state0 [du_sdb]) 3) = ((-1)%Z, 0%Z).
Proof.
  apply (update_try_lock_state (with_dus state0 [du_sdb]) 3).
  - reflexivity.
  - discriminate.
  - right. reflexivity.
Defined.

(** X7: when the process holds the shared lock, [_device_ids_update_try]
    warns that the file is already locked, writes nothing, and ends with no
    lock held: the shared lock is given up. *)
Theorem update_try_drops_shared_lock (s : state) (fd : Z) :
  enable_devices_file (cmd s) = true -> nolocking (cmd s) = false ->
  expect_missing_vg_device (cmd s) = false ->
  _devices_file_locked (glob s) = LOCK_SH -> _devices_fd (glob s) <> (-1)%Z ->
  lock_state (_device_ids_update_try s fd) = ((-1)%Z, 0%Z)
  /\ files (fs (_device_ids_update_try s fd)) = files (fs s)
  /\ mk_log LOG_WARN "WARNING: devices file already locked %d" [print_d LOCK_EX]
     ∈ log (_device_ids_update_try s fd).
Proof.
  intros He Hn Hx Hl Hf. unfold _device_ids_update_try, lock_devices_file_try, _lock_devices_file.
  rewrite Hx, He, Hn. cbn [negb orb]. cbn zeta.
  cbn [glob set_glob set_lock _devices_file_locked]. rewrite Hl.
  rewrite bool_decide_eq_false_2 by done. rewrite bool_decide_eq_false_2 by done.
  cbn [negb]. unfold unlock_devices_file.
  cbn [cmd log_debug log_warn add_log set_glob glob set_lock _using_devices_file
       _devices_file_locked _devices_fd].
  rewrite ?He, ?Hn, ?Hl. cbn [negb orb]. rewrite (bool_decide_eq_false_2 (LOCK_SH = 0%Z)) by done.
  cbn [andb]. rewrite (bool_decide_eq_false_2 _ Hf).
  split; [reflexivity|]. split; [reflexivity|].
  cbn [log set_glob]. apply elem_of_app. left. apply elem_of_app. right.
  apply list_elem_of_singleton. reflexivity.
Qed.

Lemma update_try_drops_shared_lock_witness :
  lock_state state_shared = (5%Z, LOCK_SH)
  /\ lock_state (_device_ids_update_try state_shared 6) = ((-1)%Z, 0%Z).
Proof.
  split; [reflexivity|].
  apply (update_try_drops_shared_lock state_shared 6); try reflexivity. discriminate.
Defined.

(** ** Taking the lock and giving it back *)

(** X8: from no lock held, a [lock_devices_file] that succeeds without the
    exemptions of [sysinit] and [ignorelockingfailure] records the descriptor
    and the mode, [unlock_devices_file] then gives no lock held again, and
    neither call logs anything. *)
Theorem lock_then_unlock (s : state) (mode fd : Z) :
  lock_state s = ((-1)%Z, 0%Z) -> fd <> (-1)%Z -> mode <> 0%Z ->
  enable_devices_file (cmd s) = true -> nolocking (cmd s) = false ->
  sysinit (cmd s) = false -> ignorelockingfailure (cmd s) = false ->
  fst (lock_devices_file s mode fd) = true ->
  lock_state (snd (lock_devices_file s mode fd)) = (fd, mode)
  /\ lock_state (unlock_devices_file (snd (lock_devices_file s mode fd))) = ((-1)%Z, 0%Z)
  /\ new_log (snd (lock_devices_file s mode fd))
       (unlock_devices_file (snd (lock_devices_file s mode fd))) = []
  /\ new_log s (snd (lock_devices_file s mode fd)) = [].
Proof.
  intros Hz Hfd Hm He Hn Hs Hi. unfold lock_state in Hz. injection Hz as Hf Hl.
  unfold lock_devices_file, _lock_devices_file. rewrite He, Hn. cbn [negb orb]. cbn zeta.
  cbn [glob set_glob set_lock _devices_file_locked _devices_fd cmd fs]. rewrite Hl, Hf.
  rewrite (bool_decide_eq_false_2 (0%Z = mode)) by congruence.
  rewrite !bool_decide_eq_true_2 by done. cbn [negb].
  destruct (lock_path (cmd s)) as [lp|]; [|by cbn].
  destruct (dm_snprintf PATH_MAX lp) as [lockfile|]; [|by cbn].
  rewrite Hs, Hi. cbn [orb].
  destruct (negb _ && negb _); [by cbn|].
  unfold flock_grants. cbn [negb orb]. intros _. cbn [snd].
  assert (forall s1 : state, cmd s1 = cmd s -> log s1 = log s ->
            let s2 := set_glob s1 (set_lock (set_lock (set_lock (glob s) (-1) true 0
                         (_devices_lockfile (glob s))) (-1) true 0 (take (PATH_MAX - 1) lp))
                         fd true mode (take (PATH_MAX - 1) lp)) in
            lock_state s2 = (fd, mode) /\ lock_state (unlock_devices_file s2) = ((-1)%Z, 0%Z)
            /\ new_log s2 (unlock_devices_file s2) = [] /\ new_log s s2 = []) as T.
  { intros s1 Hc Hg s2. split; [reflexivity|].
    unfold unlock_devices_file. subst s2.
    cbn [cmd set_glob glob set_lock _using_devices_file _devices_file_locked _devices_fd].
    rewrite Hc, He, Hn. cbn [negb orb].
    rewrite (bool_decide_eq_false_2 (mode = 0%Z)) by done. cbn [andb].
    rewrite (bool_decide_eq_false_2 (fd = (-1)%Z)) by done.
    split; [reflexivity|]. unfold new_log. cbn [log set_glob]. rewrite Hg.
    by rewrite drop_all. }
  destruct (files (fs s) !! lockfile); apply T; reflexivity.
Qed.

Lemma lock_then_unlock_witness :
  lock_state (snd (lock_devices_file state0 LOCK_SH 3)) = (3%Z, LOCK_SH)
  /\ lock_state (unlock_devices_file (snd (lock_devices_file state0 LOCK_SH 3)))
     = ((-1)%Z, 0%Z).
Proof.
  destruct (lock_then_unlock state0 LOCK_SH 3) as (H1 & H2 & _); try reflexivity; try discriminate.
  split; [exact H1|exact H2].
Defined.


(** ** What a match links, and what a mismatch leaves *)

Lemma find_id_lookup ids idtype : forall k j id,
  find_id ids idtype k = Some (j, id) ->
  k <= j /\ ids !! (j - k) = Some id /\ id_idtype id = idtype.
Proof.
  induction ids as [|x ids IH]; intros k j id; cbn [find_id]; [done|].
  unfold idtype_is. destruct (bool_decide (id_idtype x = idtype)) eqn:E.
  - intros [= <- <-]. apply bool_decide_eq_true in E. rewrite Nat.sub_diag. by repeat split.
  - intros H. apply IH in H as (H1 & H2 & H3). split; [lia|]. split; [|done].
    replace (j - k) with (S (j - S k)) by lia. exact H2.
Qed.



Lemma sysfs_messages_app d es1 es2 :
  sysfs_messages d es1 -> sysfs_messages d es2 -> sysfs_messages d (es1 ++ es2).
Proof. apply Forall_app_2. Qed.

Lemma read_sys_block_log_messages s h d suffix :
  sysfs_messages d (read_sys_block_log s h d suffix).
Proof.
  unfold read_sys_block_log, sysfs_messages.
  destruct (dm_snprintf _ _); [|apply Forall_singleton; by left].
  destruct (take _ _); [|by constructor].
  destruct (dev_get_primary_dev _ _) as [ret prim].
  destruct (bool_decide _); [|by constructor].
  destruct (dm_snprintf _ _); [|apply Forall_singleton; by left].
  destruct (take _ _); [by constructor|]. apply Forall_singleton. by right.
Qed.

Lemma device_id_system_read_log_messages s h d idtype :
  sysfs_messages d (device_id_system_read_log s h d idtype).
Proof.
  unfold device_id_system_read_log.
  destruct (idtype_is idtype DEV_ID_TYPE_DEVNAME); [by constructor|].
  destruct (idtype_is idtype DEV_ID_TYPE_SYS_WWID).
  { apply sysfs_messages_app; [apply read_sys_block_log_messages|].
    destruct (read_sys_block s h d (str "device/wwid"));
      [apply read_sys_block_log_messages|by constructor]. }
  repeat (match goal with |- context [if ?b then _ else _] => destruct b end);
    try apply read_sys_block_log_messages. by constructor.
Qed.

(** What [_match_dm_devnames] leaves: it only logs, and only when it
    returns 1, which it does for a device-mapper device only. *)
Lemma match_dm_devnames_spec s d id du :
  cmd (snd (_match_dm_devnames s d id du)) = cmd s
  /\ devs (snd (_match_dm_devnames s d id du)) = devs s
  /\ env (snd (_match_dm_devnames s d id du)) = env s
  /\ fs (snd (_match_dm_devnames s d id du)) = fs s
  /\ glob (snd (_match_dm_devnames s d id du)) = glob s
  /\ (exists es, log (snd (_match_dm_devnames s d id du)) = log s ++ es
                 /\ Forall (fun e => log_lvl e = LOG_DEBUG) es)
  /\ (fst (_match_dm_devnames s d id du) = false -> snd (_match_dm_devnames s d id du) = s)
  /\ (fst (_match_dm_devnames s d id du) = true ->
      MAJOR (dev_dev d) = device_mapper_major (dev_types (cmd s))).
Proof.
  unfold _match_dm_devnames.
  assert (Z0 : exists es : list log_entry, log s = log s ++ es
                 /\ Forall (fun e => log_lvl e = LOG_DEBUG) es)
    by (exists []; by rewrite app_nil_r).
  destruct (bool_decide (MAJOR (dev_dev d) = device_mapper_major (dev_types (cmd s)))) eqn:Em;
    cbn [negb]; [apply bool_decide_eq_true in Em|by repeat split].
  destruct (du_idname du) as [du_name|]; [|by repeat split].
  destruct (match id_idname id with Some n => streq n du_name | None => false end);
    [by repeat split|].
  destruct (streq du_name (dev_name d)).
  { cbn [fst snd log_debug add_log cmd devs env fs glob log]. repeat split; try done.
    eexists. split; [reflexivity|]. by apply Forall_singleton. }
  destruct (has_prefix _ _ || has_prefix _ _); [|by repeat split].
  destruct (stat_rdev (env s) du_name) as [rdev|]; [|by repeat split].
  destruct (_ && _); [|by repeat split].
  cbn [fst snd log_debug add_log cmd devs env fs glob log]. repeat split; try done.
  eexists. split; [reflexivity|]. by apply Forall_singleton.
Qed.

Lemma dm_names_call_spec s d id du :
  cmd (snd (dm_names_call s d id du)) = cmd s
  /\ devs (snd (dm_names_call s d id du)) = devs s
  /\ env (snd (dm_names_call s d id du)) = env s
  /\ fs (snd (dm_names_call s d id du)) = fs s
  /\ glob (snd (dm_names_call s d id du)) = glob s
  /\ (exists es, log (snd (dm_names_call s d id du)) = log s ++ es
                 /\ Forall (fun e => log_lvl e = LOG_DEBUG) es)
  /\ (fst (dm_names_call s d id du) = false -> snd (dm_names_call s d id du) = s)
  /\ (fst (dm_names_call s d id du) = true ->
      id_idtype id = DEV_ID_TYPE_DEVNAME
      /\ MAJOR (dev_dev d) = device_mapper_major (dev_types (cmd s))).
Proof.
  unfold dm_names_call. unfold idtype_is.
  destruct (bool_decide (id_idtype id = DEV_ID_TYPE_DEVNAME)) eqn:E.
  - apply bool_decide_eq_true in E.
    destruct (match_dm_devnames_spec s d id du) as (H1 & H2 & H3 & H4 & H5 & H6 & H7 & H8).
    repeat split; try done. by apply H8.
  - repeat split; try done. exists []. by rewrite app_nil_r.
Qed.






(** ** Identities read from sysfs *)

Lemma underscore_blanks_clean b : existsb replaced (underscore_blanks b) = false.
Proof.
  unfold underscore_blanks. induction b as [|c b IH]; cbn [map existsb]; [done|].
  rewrite IH, orb_false_r. fold (replaced c). destruct (replaced c) eqn:E; [reflexivity|exact E].
Qed.

Lemma read_sys_block_length s h d suffix : length (read_sys_block s h d suffix) <= PATH_MAX - 1.
Proof.
  unfold read_sys_block. destruct (dm_snprintf _ _); [|cbn; lia].
  destruct (take (PATH_MAX - 1) (get_sysfs_value (env s) c)) as [|a r] eqn:E.
  - destruct (dev_get_primary_dev (env s) h) as [ret prim].
    destruct (bool_decide (ret = 2%Z)); [|cbn; lia].
    destruct (dm_snprintf _ _); [|cbn; lia]. rewrite length_take. lia.
  - rewrite <- E, length_take. lia.
Qed.

(** X11: for a kind other than the device name, a name that
    [device_id_system_read] returns is not empty, has at most [PATH_MAX - 1]
    bytes, and has no blank, white-space or control character. *)
Theorem device_id_system_read_clean (s : state) (h : dev_ref) (d : device)
    (idtype : idtype_t) (idname : cstring) :
  idtype <> DEV_ID_TYPE_DEVNAME ->
  device_id_system_read s h d idtype = Some idname ->
  idname <> [] /\ existsb replaced idname = false /\ length idname <= PATH_MAX - 1.
Proof.
  intros Ht. unfold device_id_system_read. unfold idtype_is at 1.
  rewrite bool_decide_eq_false_2 by done.
  match goal with |- context [underscore_blanks ?b] => set (sysbuf := b) end.
  assert (L : length sysbuf <= PATH_MAX - 1).
  { subst sysbuf.
    destruct (idtype_is idtype DEV_ID_TYPE_SYS_WWID).
    { cbn zeta. destruct (contains _ _); [cbn; lia|].
      destruct (read_sys_block s h d (str "device/wwid")) eqn:E;
        [apply read_sys_block_length|rewrite <- E; apply read_sys_block_length]. }
    repeat (destruct (idtype_is _ _); [apply read_sys_block_length|]).
    destruct (idtype_is idtype DEV_ID_TYPE_LOOP_FILE); [|cbn; lia].
    cbn zeta. destruct (contains _ _); [cbn; lia|apply read_sys_block_length]. }
  pose proof (underscore_blanks_clean sysbuf) as C.
  assert (Len : length (underscore_blanks sysbuf) = length sysbuf)
    by (unfold underscore_blanks; apply length_map).
  destruct (underscore_blanks sysbuf) as [|c r]; [done|].
  intros [= <-]. split; [done|]. split; [exact C|]. rewrite Len. exact L.
Qed.

Lemma device_id_system_read_clean_witness :
  device_id_system_read state_sdb1 1 dev_sdb DEV_ID_TYPE_SYS_WWID
  = Some (str "naa.5000c500a1b2c3d4")
  /\ existsb replaced (str "naa.5000c500a1b2c3d4") = false.
Proof.
  split; [vm_compute; reflexivity|].
  apply (device_id_system_read_clean state_sdb1 1 dev_sdb DEV_ID_TYPE_SYS_WWID);
    [discriminate|vm_compute; reflexivity].
Defined.

(** ** The kinds of a device-mapper uuid *)

Lemma has_prefix_head c lit a u : has_prefix (c :: lit) (a :: u) = true -> a = c.
Proof.
  cbn [has_prefix]. intros H. apply andb_true_iff in H as [H _]. apply ch_eqb_eq in H. done.
Qed.

(** Two literals with different first bytes are not both a prefix. *)
Lemma has_prefix_apart c1 l1 c2 l2 u :
  c1 <> c2 -> has_prefix (c1 :: l1) u = true -> has_prefix (c2 :: l2) u = false.
Proof.
  intros Hc H. destruct u as [|a u]; [done|]. apply has_prefix_head in H. subst a.
  cbn [has_prefix]. destruct (ch_eqb c2 c1) eqn:E; [|done]. apply ch_eqb_eq in E. congruence.
Qed.

Lemma dm_uuid_prefix_apart c1 l1 c2 l2 u :
  c1 <> c2 -> c1 <> "p"%char -> c2 <> "p"%char ->
  _dm_uuid_has_prefix u (c1 :: l1) = true -> _dm_uuid_has_prefix u (c2 :: l2) = false.
Proof.
  intros Hc Hp1 Hp2. unfold _dm_uuid_has_prefix.
  destruct (has_prefix (c1 :: l1) u) eqn:E1.
  - intros _. rewrite (has_prefix_apart c1 l1 c2 l2 u Hc E1).
    replace (has_prefix (str "part") u) with false; [done|].
    symmetry. apply (has_prefix_apart c1 l1); [exact Hp1|exact E1].
  - destruct (has_prefix (str "part") u) eqn:Ep; [|done].
    destruct (strchr u "-") as [dash|]; [|done]. intros H.
    rewrite (has_prefix_apart c1 l1 c2 l2 _ Hc H).
    replace (has_prefix (c2 :: l2) u) with false; [done|].
    symmetry. apply (has_prefix_apart "p" (str "art")); [congruence|exact Ep].
Qed.

(** X12: at most one of [dev_has_mpath_uuid], [_dev_has_crypt_uuid] and
    [_dev_has_lvmlv_uuid] gives a name for a device. *)
Theorem dm_uuid_kinds (s : state) (h : dev_ref) (d : device) (n : cstring) :
  (dev_has_mpath_uuid s h d = Some n ->
     _dev_has_crypt_uuid s h d = None /\ _dev_has_lvmlv_uuid s h d = None)
  /\ (_dev_has_crypt_uuid s h d = Some n ->
     dev_has_mpath_uuid s h d = None /\ _dev_has_lvmlv_uuid s h d = None)
  /\ (_dev_has_lvmlv_uuid s h d = Some n ->
     dev_has_mpath_uuid s h d = None /\ _dev_has_crypt_uuid s h d = None).
Proof.
  unfold dev_has_mpath_uuid, _dev_has_crypt_uuid, _dev_has_lvmlv_uuid.
  destruct (read_sys_block s h d (str "dm/uuid")) as [|c r]; [done|].
  set (u := c :: r).
  pose proof (dm_uuid_prefix_apart "m" (str "path-") "C" (str "RYPT-") u) as MC.
  pose proof (dm_uuid_prefix_apart "m" (str "path-") "L" (str "VM-") u) as ML.
  pose proof (dm_uuid_prefix_apart "C" (str "RYPT-") "m" (str "path-") u) as CM.
  pose proof (dm_uuid_prefix_apart "C" (str "RYPT-") "L" (str "VM-") u) as CL.
  pose proof (dm_uuid_prefix_apart "L" (str "VM-") "m" (str "path-") u) as LM.
  pose proof (dm_uuid_prefix_apart "L" (str "VM-") "C" (str "RYPT-") u) as LC.
  change ("m"%char :: str "path-") with (str "mpath-") in *.
  change ("C"%char :: str "RYPT-") with (str "CRYPT-") in *.
  change ("L"%char :: str "VM-") with (str "LVM-") in *.
  destruct (_dm_uuid_has_prefix u (str "mpath-")) eqn:Em.
  - rewrite MC, ML by done. done.
  - destruct (_dm_uuid_has_prefix u (str "CRYPT-")) eqn:Ec.
    + rewrite CL by done. done.
    + done.
Qed.

Lemma dm_uuid_kinds_witness :
  dev_has_mpath_uuid state_dm_part 3 dev_dm_part = Some (str "part1-mpath-3600508b1001c1234")
  /\ _dev_has_crypt_uuid state_dm_part 3 dev_dm_part = None
  /\ _dev_has_lvmlv_uuid state_dm_part 3 dev_dm_part = None.
Proof.
  split; [vm_compute; reflexivity|].
  apply (proj1 (dm_uuid_kinds state_dm_part 3 dev_dm_part (str "part1-mpath-3600508b1001c1234"))).
  vm_compute. reflexivity.
Defined.

(** X13: [_dm_uuid_has_prefix] accepts a uuid that starts with the prefix, and
    a uuid in which the prefix follows [part<N>-], the form kpartx gives to a
    partition, for every [<N>] without a dash. *)
Theorem dm_uuid_has_prefix_forms prefix rest num :
  _dm_uuid_has_prefix (prefix ++ rest) prefix = true
  /\ (forallb (fun c => negb (ch_eqb c "-")) num = true ->
      _dm_uuid_has_prefix (str "part" ++ num ++ "-"%char :: prefix ++ rest) prefix = true).
Proof.
  unfold _dm_uuid_has_prefix. split; [by rewrite has_prefix_app|].
  intros Hn. destruct (has_prefix prefix _); [done|].
  rewrite has_prefix_app.
  rewrite app_assoc, strchr_skip.
  - cbn [drop]. apply has_prefix_app.
  - rewrite forallb_app, Hn. reflexivity.
Qed.

Lemma dm_uuid_has_prefix_forms_witness :
  _dm_uuid_has_prefix (str "part" ++ str "1" ++ "-"%char :: str "mpath-" ++ str "3600508b")
    (str "mpath-") = true.
Proof.
  apply (proj2 (dm_uuid_has_prefix_forms (str "mpath-") (str "3600508b") (str "1"))).
  reflexivity.
Defined.


(** ** Validation of an entry of a stable kind *)

(** X14: for an entry of a stable kind whose device was scanned and passes the
    filter, the first loop of [device_ids_validate] leaves the entry with a
    PVID that agrees with the device, with the name of the device as devname
    unless name mismatches are ignored, and with its kind, idname, part and
    device as they were; the devices are untouched, and a changed entry marks
    the file for update and the registry as invalid. *)
Theorem validate_stable_entry_outcome (scanned_devs : option (list dev_ref))
    (a : validate_acc) (i : nat) (du : dev_use) (h : dev_ref) (d : device) :
  validated_stable_entry scanned_devs (v_state a) i du h d ->
  let a' := validate_stable_entry scanned_devs a i in
  exists du',
    use_devices (cmd (v_state a')) !! i = Some du'
    /\ pvid_agrees d du'
    /\ (ignore_device_name_mismatch (cmd (v_state a)) = false ->
        du_devname du' = Some (dev_name d))
    /\ du_idtype du' = du_idtype du /\ du_idname du' = du_idname du
    /\ du_part du' = du_part du /\ du_dev du' = Some h
    /\ devs (v_state a') = devs (v_state a)
    /\ (du' <> du -> update_file a' = true /\ device_ids_invalid a' = true).
Proof.
  intros (Hdu & Hty & Hdev & Hd & Hsc & Hpf).
  unfold validate_stable_entry. cbn zeta. rewrite Hdu, Hdev, Hd, Hsc, Hpf.
  unfold idtype_is. rewrite bool_decide_eq_false_2 by done. cbn [negb].
  (* the PVID *)
  set (a0 := mk_vacc (v_state a) (wrong_devs a) (checked a + 1) (update_file a)
               (device_ids_invalid a)).
  match goal with |- context [if ignore_device_name_mismatch _ then ?x else _] =>
    set (a1 := x) end.
  assert (P : exists du1, use_devices (cmd (v_state a1)) !! i = Some du1
            /\ pvid_agrees d du1 /\ du_devname du1 = du_devname du
            /\ du_idtype du1 = du_idtype du /\ du_idname du1 = du_idname du
            /\ du_part du1 = du_part du /\ du_dev du1 = Some h
            /\ devs (v_state a1) = devs (v_state a)
            /\ cmd (v_state a1) = set_use_devices (cmd (v_state a))
                                    (use_devices (cmd (v_state a1)))
            /\ (du1 <> du -> update_file a1 = true /\ device_ids_invalid a1 = true)).
  { subst a1 a0. unfold pvid_agrees. destruct (dev_pvid d) as [|c r] eqn:Epv.
    - destruct (du_pvid du) as [p|] eqn:Ep.
      + destruct (has_prefix (str ".") p) eqn:Edot.
        * exists du. cbn [v_state]. rewrite Hdu, Ep, Edot.
          repeat split; try done; try congruence; try by destruct (cmd (v_state a)).
        * eexists. unfold update_du.
          cbn [v_state cmd set_cmd use_devices set_use_devices log_warn add_log devs
               update_file device_ids_invalid].
          rewrite list_lookup_alter_eq, Hdu. cbn [fmap option_fmap option_map].
          split; [reflexivity|]. cbn [set_du_pvid du_pvid du_devname du_idtype du_idname
                                      du_part du_dev].
          repeat split; done.
      + exists du. cbn [v_state]. rewrite Hdu, Ep.
        repeat split; try done; try congruence; try by destruct (cmd (v_state a)).
    - destruct (match du_pvid du with Some p => negb (id_equal (c :: r) p) | None => true end)
        eqn:Ene.
      + eexists. unfold update_du.
        cbn [v_state cmd set_cmd use_devices set_use_devices log_warn add_log devs
             update_file device_ids_invalid].
        rewrite list_lookup_alter_eq, Hdu. cbn [fmap option_fmap option_map].
        split; [reflexivity|]. cbn [set_du_pvid du_pvid du_devname du_idtype du_idname
                                    du_part du_dev].
        split; [exists (c :: r); split; [done|apply id_equal_refl]|]. repeat split; done.
      + exists du. cbn [v_state]. rewrite Hdu.
        split; [done|]. split.
        { destruct (du_pvid du) as [p|]; [|done]. exists p. split; [done|].
          by apply negb_false_iff in Ene. }
        repeat split; try done; try congruence; try by destruct (cmd (v_state a)). }
  clearbody a1. destruct P as (du1 & L1 & Pv & Dn & Ty & Nm & Pt & Dv & Ds & Cm & Up).
  destruct (ignore_device_name_mismatch (cmd (v_state a))) eqn:Eig.
  { exists du1. repeat split; try done; by apply Up. }
  destruct (match du_devname du with Some n => negb (streq (dev_name d) n) | None => true end)
    eqn:Ename.
  - eexists. unfold update_du.
    cbn [v_state cmd set_cmd use_devices set_use_devices log_warn add_log devs
         update_file device_ids_invalid].
    rewrite list_lookup_alter_eq, L1. cbn [fmap option_fmap option_map].
    split; [reflexivity|]. unfold pvid_agrees in *.
    cbn [set_du_devname du_pvid du_devname du_idtype du_idname du_part du_dev].
    repeat split; done.
  - exists du1. split; [exact L1|]. split; [exact Pv|]. split.
    { intros _. rewrite Dn. destruct (du_devname du) as [n|]; [|done].
      apply negb_false_iff, bool_decide_eq_true in Ename. by subst. }
    repeat split; try done; by apply Up.
Qed.

Lemma validate_stable_entry_outcome_witness :
  use_devices (cmd (v_state (validate_stable_entry None
                               (mk_vacc state_sdb_old [] 0 false false) 0))) !! 0
  = Some (mk_du DEV_ID_TYPE_SYS_WWID (Some (str "naa.5000c500a1b2c3d4")) (Some (str "/dev/sdb"))
            (Some (str "PZ000000000000000000000000000002")) 0 (Some 1))
  /\ exists du', use_devices (cmd (v_state (validate_stable_entry None
                               (mk_vacc state_sdb_old [] 0 false false) 0))) !! 0 = Some du'
       /\ pvid_agrees dev_sdb_matched du'.
Proof.
  split; [vm_compute; reflexivity|].
  destruct (validate_stable_entry_outcome None (mk_vacc state_sdb_old [] 0 false false) 0
              du_sdb_old 1 dev_sdb_matched) as (du' & H1 & H2 & _).
  - repeat split; try reflexivity. discriminate.
  - exists du'. split; [exact H1|exact H2].
Defined.

(** ** Validation without update *)

Lemma fs_frame_refl s : fs_frame s s.
Proof. by repeat split. Qed.

Lemma fs_frame_trans s1 s2 s3 : fs_frame s1 s2 -> fs_frame s2 s3 -> fs_frame s1 s3.
Proof. intros (A1 & A2 & A3 & A4) (B1 & B2 & B3 & B4). repeat split; congruence. Qed.

Ltac frame_cases :=
  repeat (match goal with
          | |- context [if ?b then _ else _] => destruct b
          | |- context [match ?o with Some _ => _ | None => _ end] => destruct o
          | |- context [match ?l with [] => _ | _ :: _ => _ end] => destruct l
          end; cbn [v_state v_with]).

Lemma validate_stable_frame sc a i :
  fs_frame (v_state a) (v_state (validate_stable_entry sc a i)).
Proof.
  unfold validate_stable_entry. cbn zeta. frame_cases; by repeat split.
Qed.

Lemma validate_devname_frame sc a i :
  fs_frame (v_state a) (v_state (validate_devname_entry sc a i)).
Proof.
  unfold validate_devname_entry. cbn zeta. frame_cases; by repeat split.
Qed.

Lemma validate_fold_frame (f : validate_acc -> nat -> validate_acc) idx :
  (forall a i, fs_frame (v_state a) (v_state (f a i))) ->
  forall a, fs_frame (v_state a) (v_state (fold_left f idx a)).
Proof.
  intros Hf. induction idx as [|i idx IH]; intros a; cbn [fold_left]; [apply fs_frame_refl|].
  eapply fs_frame_trans; [apply Hf|apply IH].
Qed.

Lemma fold_log_frame {A} (f : state -> A -> state) (l : list A) :
  (forall s x, fs_frame s (f s x)) -> forall s, fs_frame s (fold_left f l s).
Proof.
  intros Hf. induction l as [|x l IH]; intros s; cbn [fold_left]; [apply fs_frame_refl|].
  eapply fs_frame_trans; [apply Hf|apply IH].
Qed.

Lemma frame_cmd_fields s s' :
  fs_frame s s' ->
  devicesfile (cmd s') = devicesfile (cmd s)
  /\ devices_file_path (cmd s') = devices_file_path (cmd s)
  /\ searched_file s' = searched_file s.
Proof.
  intros (F1 & F2 & F3 & F4). unfold searched_file. rewrite F2.
  assert (devicesfile (set_use_devices (cmd s') []) = devicesfile (set_use_devices (cmd s) []))
    as H1 by (by rewrite F4).
  assert (devices_file_path (set_use_devices (cmd s') [])
          = devices_file_path (set_use_devices (cmd s) [])) as H2 by (by rewrite F4).
  done.
Qed.

(** X15: called with [noupdate], [device_ids_validate] writes no file: the
    files are as before, but for the file of searched device names, which
    may have been removed when the system devices file is in use. *)
Theorem validate_noupdate_keeps_files (s : state) (scanned_devs : option (list dev_ref))
    (invalid_in : bool) (fd : Z) :
  let r := device_ids_validate s scanned_devs invalid_in true fd in
  files (fs (vr_state r)) = files (fs s)
  \/ (devicesfile (cmd s) = None
      /\ files (fs (vr_state r)) = delete (searched_file s) (files (fs s))).
Proof.
  unfold device_ids_validate. destruct (negb (enable_devices_file (cmd s))); [by left|].
  cbn zeta.
  set (s0 := log_debug "validating devices file entries" [] s).
  set (idx := seq 0 (length (use_devices (cmd s0)))).
  set (a1 := fold_left (validate_stable_entry scanned_devs) idx _).
  set (a2 := fold_left (validate_devname_entry scanned_devs) idx a1).
  assert (F2 : fs_frame s (v_state a2)).
  { eapply fs_frame_trans; [|apply validate_fold_frame, validate_devname_frame].
    eapply fs_frame_trans; [|apply validate_fold_frame, validate_stable_frame].
    by repeat split. }
  clearbody a2. clear a1.
  match goal with |- context [fold_left ?f ?l (v_state a2)] => set (s3 := fold_left f l (v_state a2)) end.
  assert (F3 : fs_frame s s3).
  { eapply fs_frame_trans; [exact F2|]. apply fold_log_frame. intros; by repeat split. }
  clearbody s3.
  destruct (frame_cmd_fields _ _ F3) as (D1 & D2 & D3). destruct F3 as (G1 & G2 & G3 & G4).
  destruct (update_file a2); cbn [andb vr_state].
  - cbn [log_debug add_log fs]. unfold unlink_searched_devnames. rewrite D1, D3.
    destruct (devicesfile (cmd s)); [left; by rewrite G1|].
    destruct (files (fs s3) !! searched_file s);
      cbn [fs log_debug add_log set_fs files set_files]; rewrite G1;
      [right; split; reflexivity|left; reflexivity].
  - cbn [log_debug add_log fs]. left. by rewrite G1.
Qed.


(** ** Matching all entries *)

Lemma log_quiet_same s s' : log s' = log s -> log_quiet s s'.
Proof. intros E. exists []. rewrite app_nil_r. split; [done|constructor]. Qed.

Lemma log_quiet_refl s : log_quiet s s.
Proof. by apply log_quiet_same. Qed.

Lemma log_quiet_trans s1 s2 s3 : log_quiet s1 s2 -> log_quiet s2 s3 -> log_quiet s1 s3.
Proof.
  intros (e1 & L1 & Q1) (e2 & L2 & Q2). exists (e1 ++ e2). rewrite L2, L1, app_assoc.
  split; [done|]. by apply Forall_app_2.
Qed.

Lemma log_quiet_one s l fmt args : l <> LOG_ERROR -> log_quiet s (add_log s l fmt args).
Proof.
  intros Hl. eexists. split; [reflexivity|]. apply Forall_singleton. intros E. done.
Qed.

Lemma log_quiet_sysfs s d es : sysfs_messages d es -> log_quiet s (add_logs s es).
Proof.
  intros H. exists es. split; [done|]. eapply Forall_impl; [exact H|].
  intros e [-> | ->] E; [by exists d|done].
Qed.

Lemma log_quiet_debug s s' es :
  log s' = log s ++ es -> Forall (fun e => log_lvl e = LOG_DEBUG) es -> log_quiet s s'.
Proof.
  intros E H. exists es. split; [done|]. eapply Forall_impl; [exact H|].
  intros e He E'. congruence.
Qed.

Lemma match_step_refl on s : match_step on s s.
Proof.
  split; [apply fs_frame_refl|]. split; [apply log_quiet_refl|]. split; [done|].
  split; [done|]. split; [by eauto|]. split; [done|]. intros j du h H1 H2. left. eauto.
Qed.

Lemma match_step_weaken (on on' : nat -> Prop) s s' :
  (forall j, on j -> on' j) -> match_step on s s' -> match_step on' s s'.
Proof.
  intros W (A & B & C & D & E & F & G). repeat (split; [done|]). split.
  - intros j du H1 H2. apply D; [done|]. intros ?. apply H2. by apply W.
  - split; [done|]. split; [done|]. intros j du h H1 H2.
    destruct (G j du h H1 H2) as [?|[? ?]]; [by left|right]. split; [by apply W|done].
Qed.

Lemma match_step_trans on s1 s2 s3 :
  match_step on s1 s2 -> match_step on s2 s3 -> match_step on s1 s3.
Proof.
  intros (A1 & B1 & C1 & D1 & E1 & F1 & G1) (A2 & B2 & C2 & D2 & E2 & F2 & G2).
  split; [eapply fs_frame_trans; eauto|]. split; [eapply log_quiet_trans; eauto|].
  split; [congruence|]. split; [by auto|]. split.
  { intros h d Hd. destruct (E1 h d Hd) as (d' & Hd' & M1).
    destruct (E2 h d' Hd') as (d'' & Hd'' & M2). exists d''. split; [done|auto]. }
  split; [by auto|].
  intros j du h H1 H2. destruct (G2 j du h H1 H2) as [(du0 & L0 & Dv0)|[On Fl]]; [|by right].
  destruct (G1 j du0 h L0 Dv0) as [?|[On (d & Hd & M)]]; [by left|right].
  split; [done|]. destruct (E2 h d Hd) as (d' & Hd' & M'). exists d'. split; [done|auto].
Qed.

Lemma unlinked_alter f i (l : list dev_use) :
  (forall du, unlinked (f du) = unlinked du) -> map unlinked (alter f i l) = map unlinked l.
Proof.
  intros Hf. revert i. induction l as [|x l IH]; intros [|i]; cbn; [done|done| |].
  - by rewrite Hf.
  - f_equal. apply (IH i).
Qed.

(** A step that only logs. *)
Lemma logs_step on s s' :
  cmd s' = cmd s -> devs s' = devs s -> env s' = env s -> fs s' = fs s -> glob s' = glob s ->
  log_quiet s s' -> match_step on s s'.
Proof.
  intros Hc Hd He Hf Hg Hl. unfold match_step, get_dev. rewrite Hc, Hd.
  split; [by repeat split; congruence|]. split; [done|]. split; [done|]. split; [done|].
  split; [by eauto|]. split; [done|]. intros j du h H1 H2. left. eauto.
Qed.

(** The three assignments of a match, and their message. *)
Lemma link_step s i h d du ids k fmt args :
  use_devices (cmd s) !! i = Some du -> get_dev s h = Some d ->
  match_step (fun j => j = i) s (log_debug fmt args (link_du_dev s i h d ids k)).
Proof.
  intros Hdu Hd. unfold link_du_dev, log_debug, match_step, get_dev.
  cbn [add_log cmd set_cmd set_devs use_devices set_use_devices devs fs env glob log].
  split; [by repeat split|]. split; [by apply (log_quiet_one s LOG_DEBUG)|].
  split; [by apply unlinked_alter|].
  split; [intros j du0 H1 H2; by rewrite list_lookup_alter_ne|].
  split.
  { intros h' d' Hd'. destruct (decide (h' = h)) as [->|Hne].
    - rewrite lookup_insert_eq. eexists. split; [reflexivity|done].
    - rewrite lookup_insert_ne by done. eauto. }
  split.
  { intros h' Hn. rewrite lookup_insert_ne; [done|]. intros <-. unfold get_dev in Hd. congruence. }
  intros j du0 h' H1 H2. destruct (decide (j = i)) as [->|Hne].
  - right. split; [done|]. rewrite list_lookup_alter_eq, Hdu in H1. injection H1 as <-.
    cbn in H2. injection H2 as <-. rewrite lookup_insert_eq. eexists. split; [reflexivity|done].
  - left. rewrite list_lookup_alter_ne in H1 by done. eauto.
Qed.

(** An identity cached on the device. *)
Lemma ids_step on s h d ids :
  get_dev s h = Some d ->
  match_step on s (set_devs s (<[h := set_dev_ids d ids]> (devs s))).
Proof.
  intros Hd. unfold match_step, get_dev. cbn [cmd set_devs devs fs env glob log].
  split; [by repeat split|]. split; [by apply log_quiet_same|]. split; [done|]. split; [done|].
  split.
  { intros h' d' Hd'. destruct (decide (h' = h)) as [->|Hne].
    - rewrite lookup_insert_eq. eexists. split; [reflexivity|].
      unfold get_dev in Hd. rewrite Hd in Hd'. injection Hd' as <-. done.
    - rewrite lookup_insert_ne by done. eauto. }
  split.
  { intros h' Hn. rewrite lookup_insert_ne; [done|]. intros <-. unfold get_dev in Hd. congruence. }
  intros j du0 h' H1 H2. left. eauto.
Qed.

(** One call of the matcher on the entry at [i]. *)
Lemma match_du_step s i h : match_step (fun j => j = i) s (snd (_match_du_to_dev s i h)).
Proof.
  unfold _match_du_to_dev.
  destruct (use_devices (cmd s) !! i) as [du|] eqn:Hdu; [|apply match_step_refl].
  destruct (get_dev s h) as [d|] eqn:Hd; [|apply match_step_refl].
  destruct (du_idname du) as [du_name|]; [|apply match_step_refl].
  destruct (idtype_is _ _); [apply match_step_refl|].
  destruct (negb _); [apply match_step_refl|].
  destruct (dev_get_partition_number _ _); [|apply match_step_refl].
  destruct (negb _); [apply match_step_refl|].
  destruct (find_id _ _ _) as [[k id]|].
  - change (if idtype_is (id_idtype id) DEV_ID_TYPE_DEVNAME then _match_dm_devnames s d id du
            else (false, s)) with (dm_names_call s d id du).
    destruct (dm_names_call_spec s d id du)
      as (Pc & Pd & Pe & Pf & Pg & (es & Pl & Pq) & _ & _).
    destruct (dm_names_call s d id du) as [dm_names s1]. cbn [fst snd] in *.
    assert (M1 : match_step (fun j => j = i) s s1).
    { apply logs_step; try done. by eapply log_quiet_debug. }
    assert (Hdu1 : use_devices (cmd s1) !! i = Some du) by (by rewrite Pc).
    assert (Hd1 : get_dev s1 h = Some d) by (unfold get_dev; by rewrite Pd).
    assert (Link : forall fmt args,
              match_step (fun j => j = i) s
                (log_debug fmt args (link_du_dev s1 i h d (dev_ids d) k))).
    { intros fmt args. eapply match_step_trans; [exact M1|].
      apply (link_step s1 i h d du); [exact Hdu1|exact Hd1]. }
    destruct dm_names; [apply Link|].
    destruct (id_idname id) as [n|]; [|exact M1].
    destruct (streq n du_name); [apply Link|exact M1].
  - cbn zeta.
    set (s1 := add_logs s (device_id_system_read_log s h d (du_idtype du))).
    assert (M1 : match_step (fun j => j = i) s s1).
    { apply logs_step; try done. apply (log_quiet_sysfs s d).
      apply device_id_system_read_log_messages. }
    assert (Ids : forall ids, match_step (fun j => j = i) s
                                (set_devs s1 (<[h := set_dev_ids d ids]> (devs s)))).
    { intros ids. eapply match_step_trans; [exact M1|].
      apply (ids_step _ s1 h d ids). exact Hd. }
    destruct (device_id_system_read _ _ _ _); [|apply Ids].
    destruct (streq _ _); [|apply Ids].
    eapply match_step_trans; [exact M1|].
    apply (link_step s1 i h d du); [exact Hdu|exact Hd].
Qed.

Lemma match_step_lookup on s s' j :
  match_step on s s' -> ~ on j -> use_devices (cmd s') !! j = use_devices (cmd s) !! j.
Proof.
  intros (_ & _ & C & D & _) Hn.
  destruct (use_devices (cmd s) !! j) as [du|] eqn:E; [by apply D|].
  apply lookup_ge_None in E. apply lookup_ge_None.
  apply (f_equal length) in C. rewrite !length_map in C. lia.
Qed.

Lemma match_step_flagged on s s' : match_step on s s' -> links_flagged s -> links_flagged s'.
Proof.
  intros (_ & _ & _ & _ & E & _ & G) L j du h H1 H2.
  destruct (G j du h H1 H2) as [(du0 & L0 & D0)|[_ ?]]; [|done].
  destruct (L j du0 h L0 D0) as (d & Hd & M). destruct (E h d Hd) as (d' & Hd' & M').
  exists d'. split; [done|auto].
Qed.

Lemma match_step_cache on s s' : match_step on s s' -> cache_valid s -> cache_valid s'.
Proof.
  intros ((_ & Ev & _) & _ & _ & _ & E & _) C n h Hn. rewrite Ev in Hn.
  destruct (C n h Hn) as [d Hd]. destruct (E h d Hd) as (d' & Hd' & _). by exists d'.
Qed.

Lemma match_any_dev_step devices : forall s i,
  match_step (fun j => j = i) s (match_any_dev s i devices).
Proof.
  induction devices as [|h rest IH]; intros s i; cbn [match_any_dev]; [apply match_step_refl|].
  destruct (get_dev s h) as [d|]; [|apply IH].
  destruct (DEV_MATCHED_USE_ID d); [apply IH|].
  pose proof (match_du_step s i h) as M.
  destruct (_match_du_to_dev s i h) as [r s1]. cbn [snd] in M.
  destruct r; [exact M|]. eapply match_step_trans; [exact M|apply IH].
Qed.

Lemma log_debug_step on s fmt args : match_step on s (log_debug fmt args s).
Proof.
  split; [by repeat split|]. split; [by apply log_quiet_one|]. split; [done|]. split; [done|].
  split; [by eauto|]. split; [done|]. intros j du h H1 H2. left. eauto.
Qed.

Lemma log_warn_step on s fmt args : match_step on s (log_warn fmt args s).
Proof.
  split; [by repeat split|]. split; [by apply log_quiet_one|]. split; [done|]. split; [done|].
  split; [by eauto|]. split; [done|]. intros j du h H1 H2. left. eauto.
Qed.

Lemma match_entry_step s i :
  match_step (fun j => j = i /\ unlinked_at s i) s (match_entry s i).
Proof.
  unfold match_entry. destruct (use_devices (cmd s) !! i) as [du|] eqn:Hdu; [|apply match_step_refl].
  destruct (du_dev du) as [h0|] eqn:Hdev; [apply log_debug_step|].
  apply (match_step_weaken (fun j => j = i)).
  { intros j ->. split; [done|]. by exists du. }
  destruct (du_devname du ≫= dev_cache_get_existing (env s)) as [h|].
  - pose proof (match_du_step s i h) as M.
    destruct (_match_du_to_dev s i h) as [r s1]. cbn [snd] in M.
    destruct r; [exact M|].
    eapply match_step_trans; [exact M|].
    eapply match_step_trans; [apply log_debug_step|apply match_any_dev_step].
  - apply match_any_dev_step.
Qed.

Lemma match_entries_step idx : forall s0 s,
  NoDup idx -> match_step (unlinked_at s0) s0 s ->
  (forall j, j ∈ idx -> use_devices (cmd s) !! j = use_devices (cmd s0) !! j) ->
  match_step (unlinked_at s0) s0 (fold_left match_entry idx s).
Proof.
  induction idx as [|i idx IH]; intros s0 s Hnd M Hsame; cbn [fold_left]; [exact M|].
  apply NoDup_cons in Hnd as [Hi Hnd].
  pose proof (match_entry_step s i) as M1.
  apply IH; [exact Hnd| |].
  - eapply match_step_trans; [exact M|]. eapply match_step_weaken; [|exact M1].
    intros j [-> (du & L & D)]. exists du. split; [|done]. rewrite <- Hsame; [done|by left].
  - intros j Hj. rewrite <- Hsame by (by right).
    eapply match_step_lookup; [exact M1|]. intros [-> _]. done.
Qed.

Lemma report_not_found_step on s du :
  links_flagged s -> du ∈ use_devices (cmd s) ->
  match_step on s (report_not_found s du) /\ links_flagged (report_not_found s du)
  /\ use_devices (cmd (report_not_found s du)) = use_devices (cmd s).
Proof.
  intros L Hin. unfold report_not_found.
  apply list_elem_of_lookup in Hin as [j Hj].
  destruct (du_dev du) as [h|] eqn:Hdev.
  - destruct (L j du h Hj Hdev) as (d & -> & ->). split; [apply match_step_refl|done].
  - assert (W : forall fmt args, match_step on s (log_warn fmt args s)
                /\ links_flagged (log_warn fmt args s)
                /\ use_devices (cmd (log_warn fmt args s)) = use_devices (cmd s)).
    { intros fmt args. split; [apply log_warn_step|]. split; [exact L|done]. }
    destruct (idtype_is _ _); destruct (du_devname du); apply W.
Qed.

Lemma report_fold on (l : list dev_use) : forall s,
  links_flagged s -> (forall du, du ∈ l -> du ∈ use_devices (cmd s)) ->
  match_step on s (fold_left report_not_found l s).
Proof.
  induction l as [|du l IH]; intros s L Hin; cbn [fold_left]; [apply match_step_refl|].
  destruct (report_not_found_step on s du L) as (M & L' & U); [apply Hin; by left|].
  eapply match_step_trans; [exact M|]. apply IH; [exact L'|].
  intros du' H'. rewrite U. apply Hin. by right.
Qed.

Lemma device_list_entry_step s i s' :
  cache_valid s -> match_device_list_entry (Some s) i = Some s' ->
  match_step (fun j => j = i /\ unlinked_at s i) s s'.
Proof.
  intros C. unfold match_device_list_entry. cbn [mbind option_bind].
  destruct (use_devices (cmd s) !! i) as [du|] eqn:Hdu; [|intros [= <-]; apply match_step_refl].
  destruct (du_dev du) as [h0|] eqn:Hdev; [intros [= <-]; apply match_step_refl|].
  destruct (du_devname du) as [devname|]; [|done]. cbn [mbind option_bind].
  destruct (dev_cache_get_existing (env s) devname) as [h|] eqn:Eh;
    [|intros [= <-]; apply log_warn_step].
  destruct (C devname h Eh) as [d Hd].
  unfold update_du. unfold get_dev in *. cbn [devs set_cmd]. rewrite Hd. intros [= <-].
  unfold match_step, get_dev.
  cbn [cmd set_cmd set_devs use_devices set_use_devices devs fs env glob log].
  split; [by repeat split|]. split; [by apply log_quiet_same|].
  split; [by apply unlinked_alter|].
  split.
  { intros j du0 H1 H2. rewrite list_lookup_alter_ne; [done|]. intros <-. apply H2.
    split; [done|]. by exists du. }
  split.
  { intros h' d' Hd'. destruct (decide (h' = h)) as [->|Hne].
    - rewrite lookup_insert_eq. eexists. split; [reflexivity|done].
    - rewrite lookup_insert_ne by done. eauto. }
  split.
  { intros h' Hn. rewrite lookup_insert_ne; [done|]. intros <-. congruence. }
  intros j du0 h' H1 H2. destruct (decide (j = i)) as [->|Hne].
  - right. split; [split; [done|by exists du]|].
    rewrite list_lookup_alter_eq, Hdu in H1. injection H1 as <-.
    cbn in H2. injection H2 as <-. rewrite lookup_insert_eq. eexists. split; [reflexivity|done].
  - left. rewrite list_lookup_alter_ne in H1 by done. eauto.
Qed.

Lemma device_list_none idx : fold_left match_device_list_entry idx None = None.
Proof. induction idx as [|i idx IH]; cbn; [done|exact IH]. Qed.

Lemma device_list_step idx : forall s0 s s',
  NoDup idx -> cache_valid s -> match_step (unlinked_at s0) s0 s ->
  (forall j, j ∈ idx -> use_devices (cmd s) !! j = use_devices (cmd s0) !! j) ->
  fold_left match_device_list_entry idx (Some s) = Some s' ->
  match_step (unlinked_at s0) s0 s'.
Proof.
  induction idx as [|i idx IH]; intros s0 s s' Hnd C M Hsame; cbn [fold_left].
  { by intros [= <-]. }
  apply NoDup_cons in Hnd as [Hi Hnd].
  destruct (match_device_list_entry (Some s) i) as [s1|] eqn:E1;
    [|by rewrite device_list_none].
  pose proof (device_list_entry_step s i s1 C E1) as M1.
  apply IH; [exact Hnd|by eapply match_step_cache| |].
  - eapply match_step_trans; [exact M|]. eapply match_step_weaken; [|exact M1].
    intros j [-> (du & L & D)]. exists du. split; [|done]. rewrite <- Hsame; [done|by left].
  - intros j Hj. rewrite <- Hsame by (by right).
    eapply match_step_lookup; [exact M1|]. intros [-> _]. done.
Qed.

(** The whole of [device_ids_match]. *)
Lemma device_ids_match_step s p s' :
  cache_valid s -> links_flagged s -> device_ids_match s p = Some s' ->
  match_step (unlinked_at s) s s'.
Proof.
  intros C L. unfold device_ids_match.
  destruct (enable_devices_list (cmd s)).
  { apply device_list_step; [apply NoDup_seq|exact C|apply match_step_refl|done]. }
  destruct (negb (enable_devices_file (cmd s))); [intros [= <-]; apply match_step_refl|].
  cbn zeta.
  set (s1 := log_debug "compare devices file entries to devices" [] s).
  assert (M1 : match_step (unlinked_at s) s s1) by apply log_debug_step.
  change (use_devices (cmd s1)) with (use_devices (cmd s)).
  pose proof (match_entries_step (seq 0 (length (use_devices (cmd s)))) s s1
                (NoDup_seq _ _) M1 (fun _ _ => eq_refl)) as M2.
  set (s2 := fold_left match_entry _ s1) in *. clearbody s2.
  destruct (negb p); intros [= <-]; [exact M2|].
  eapply match_step_trans; [exact M2|]. apply report_fold; [|done].
  eapply match_step_flagged; [exact M2|exact L].
Qed.

(** X16: [device_ids_match] changes nothing of an entry but its device: the
    list keeps its entries in order with every other field, an entry that
    has a device keeps it, and the files and the globals are untouched. *)
Theorem device_ids_match_keeps_entries (s s' : state) (print_device_id_not_found : bool) :
  cache_valid s -> links_flagged s ->
  device_ids_match s print_device_id_not_found = Some s' ->
  map unlinked (use_devices (cmd s')) = map unlinked (use_devices (cmd s))
  /\ (forall i du, use_devices (cmd s) !! i = Some du -> du_dev du <> None ->
        use_devices (cmd s') !! i = Some du)
  /\ fs s' = fs s /\ glob s' = glob s.
Proof.
  intros C L E. destruct (device_ids_match_step s _ s' C L E) as ((F & _ & G & _) & _ & U & D & _).
  split; [exact U|]. split; [|done].
  intros i du Hi Hd. apply D; [done|]. intros (du0 & L0 & D0). congruence.
Qed.

(** X17: [device_ids_match] keeps every device of an entry flagged as matched;
    the only errors it logs are those of [read_sys_block] for a sysfs path
    that does not fit, so it does not report a device as not matched. *)
Theorem device_ids_match_links_flagged (s s' : state) (print_device_id_not_found : bool) :
  cache_valid s -> links_flagged s ->
  device_ids_match s print_device_id_not_found = Some s' ->
  links_flagged s'
  /\ (forall e, e ∈ new_log s s' -> log_lvl e = LOG_ERROR -> exists d, e = sysfs_path_failed d)
  /\ (forall name, mk_log LOG_ERROR "Device %s not matched to device_id" [name] ∉ new_log s s').
Proof.
  intros C L E. pose proof (device_ids_match_step s _ s' C L E) as M.
  split; [by eapply match_step_flagged|].
  destruct M as (_ & (es & Hl & Hq) & _). unfold new_log. rewrite Hl, drop_app_length.
  rewrite Forall_forall in Hq.
  split; [intros e He; by apply Hq|].
  intros name Hin. destruct (Hq _ Hin eq_refl) as [d Hd]. discriminate Hd.
Qed.

Lemma state_sdb1_cache_valid : cache_valid state_sdb1.
Proof.
  intros n h. cbn. destruct (streq n (str "/dev/sdb")); [|done]. intros [= <-]. by eexists.
Qed.

Lemma state_sdb1_links_flagged : links_flagged state_sdb1.
Proof. intros [|[|i]] du h; cbn; [intros [= <-]; done|done|done]. Qed.

Lemma device_ids_match_keeps_entries_witness :
  exists s', device_ids_match state_sdb1 true = Some s'
    /\ use_devices (cmd s') = [set_du_dev du_sdb (Some 1)]
    /\ map unlinked (use_devices (cmd s')) = map unlinked (use_devices (cmd state_sdb1)).
Proof.
  eexists. split; [vm_compute; reflexivity|]. split; [vm_compute; reflexivity|].
  refine (proj1 (device_ids_match_keeps_entries state_sdb1 _ true
                   state_sdb1_cache_valid state_sdb1_links_flagged _)).
  vm_compute. reflexivity.
Defined.

Lemma device_ids_match_links_flagged_witness :
  exists s', device_ids_match state_sdb1 true = Some s' /\ links_flagged s'.
Proof.
  eexists. split; [vm_compute; reflexivity|].
  refine (proj1 (device_ids_match_links_flagged state_sdb1 _ true
                   state_sdb1_cache_valid state_sdb1_links_flagged _)).
  vm_compute. reflexivity.
Defined.


(** ** Adding a device *)

Section AddDevice.

Variable idtype_value : idtype_t -> Z.
Variable drbd_major : Z.
Variable yes : bool.
Variable yes_no_prompt : string -> ascii.

Lemma log_found_frame s d pvid part h idname e1 e2 e3 e4 :
  cmd (log_found idtype_value s d pvid part h idname e1 e2 e3 e4) = cmd s
  /\ devs (log_found idtype_value s d pvid part h idname e1 e2 e3 e4) = devs s
  /\ env (log_found idtype_value s d pvid part h idname e1 e2 e3 e4) = env s
  /\ fs (log_found idtype_value s d pvid part h idname e1 e2 e3 e4) = fs s
  /\ glob (log_found idtype_value s d pvid part h idname e1 e2 e3 e4) = glob s.
Proof.
  assert (T : (fun x => (cmd x, devs x, env x, fs x, glob x))
                (log_found idtype_value s d pvid part h idname e1 e2 e3 e4)
              = (cmd s, devs s, env s, fs s, glob s)).
  { unfold log_found. cbv zeta.
    destruct e1 as [[i1 du1]|], e2 as [[i2 du2]|], e3 as [[i3 du3]|], e4 as [[i4 du4]|];
      repeat (match goal with
              | |- context [match ?o with Some _ => _ | None => _ end] => destruct o
              | |- context [if ?b then _ else _] => destruct b
              | |- context [let '(_, _) := ?p in _] => destruct p
              end); reflexivity. }
  cbv beta in T. by injection T.
Qed.

Lemma set_dev_id_spec d idtype idname d' :
  set_dev_id d idtype idname = Some d' ->
  DEV_MATCHED_USE_ID d' = true /\ dev_dev d' = dev_dev d /\ dev_aliases d' = dev_aliases d
  /\ dev_pvid d' = dev_pvid d
  /\ exists k, dev_id_cur d' = Some k /\ dev_ids d' !! k = Some (mk_dev_id idtype (Some idname)).
Proof.
  unfold set_dev_id. cbn zeta.
  destruct (find_id (dev_ids d) idtype 0) as [[k id]|] eqn:Ef.
  - apply find_id_lookup in Ef as (_ & Hk & Ht). rewrite Nat.sub_0_r in Hk.
    destruct (id_idname id) as [n|] eqn:En; [|done].
    destruct (streq n idname) eqn:Es; intros [= <-]; cbn; repeat split.
    + exists k. split; [done|]. rewrite Hk. apply bool_decide_eq_true in Es. subst.
      by destruct id; cbn in *; subst.
    + eexists. split; [reflexivity|].
      assert (k < length (dev_ids d)) by (by apply lookup_lt_Some in Hk).
      rewrite lookup_app_r by (rewrite length_delete by (by eexists); lia).
      rewrite length_delete by (by eexists).
      replace (length (dev_ids d) - 1 - (length (dev_ids d) - 1)) with 0 by lia. done.
  - intros [= <-]. cbn. repeat split. eexists. split; [reflexivity|].
    by rewrite lookup_app_r, Nat.sub_diag.
Qed.

(** The entries that [choose_entry] can name. *)
Lemma choose_entry_cases s h d pvid idtype idname f1 f2 f3 :
  match choose_entry yes yes_no_prompt s h d pvid idtype idname f1 f2 f3 with
  | Update i _ _ => match f1 with Some (j, _) => j = i | None => True end
  | NewEntry => f1 = None
  | NotAdded =>
      f1 = None /\ yes = false
      /\ yes_no_prompt "Add device with duplicate PV to devices file?" = "n"%char
  | Undefined => True
  end.
Proof.
  unfold choose_entry, ask_duplicate.
  destruct f1 as [[j ?]|]; [done|].
  destruct f2 as [[i2 du2]|].
  - cbn zeta.
    destruct (if idtype_is (du_idtype du2) idtype then _ else _); [destruct (du_idname du2); [|done];
      destruct (streq _ _); [done|]|];
      (destruct yes; [done|]; cbn [negb andb];
       destruct (ch_eqb _ _) eqn:Ec; [|done];
       repeat split; by apply Ascii.eqb_eq in Ec).
  - destruct f3 as [[i3 du3]|]; [|done]. by destruct (bool_decide _).
Qed.

Lemma du_at_dev_pos s0 s h :
  cmd s0 = cmd s ->
  match du_at s0 (get_du_for_dev_pos s0 h) with
  | Some (j, _) => get_du_for_dev_pos s h = Some j
  | None => get_du_for_dev_pos s h = None
  end.
Proof.
  intros C. unfold du_at, get_du_for_dev_pos. rewrite C.
  destruct (list_find _ (use_devices (cmd s))) as [[j du]|] eqn:Ef; [|done].
  apply list_find_Some in Ef as (Hj & _). cbn. by rewrite Hj.
Qed.

(** The choice of the kind and the name only logs. *)
Lemma choose_auto_frame s h d :
  cmd (fst (choose_auto drbd_major s h d)) = cmd s
  /\ devs (fst (choose_auto drbd_major s h d)) = devs s
  /\ fs (fst (choose_auto drbd_major s h d)) = fs s
  /\ glob (fst (choose_auto drbd_major s h d)) = glob s.
Proof.
  unfold choose_auto. cbn zeta.
  destruct (if bool_decide _ then dev_has_mpath_uuid s h d else None); [by repeat split|].
  destruct (if bool_decide _ then _dev_has_crypt_uuid s h d else None); [by repeat split|].
  destruct (if bool_decide _ then _dev_has_lvmlv_uuid s h d else None); [by repeat split|].
  destruct (bool_decide (_ = loop_major _)); [by repeat split|].
  destruct (bool_decide (_ = md_major _)); [by repeat split|].
  destruct (bool_decide (_ = drbd_major)); by repeat split.
Qed.

Lemma choose_id_frame s h d idtype_arg id_arg :
  cmd (fst (choose_id drbd_major s h d idtype_arg id_arg)) = cmd s
  /\ devs (fst (choose_id drbd_major s h d idtype_arg id_arg)) = devs s
  /\ fs (fst (choose_id drbd_major s h d idtype_arg id_arg)) = fs s
  /\ glob (fst (choose_id drbd_major s h d idtype_arg id_arg)) = glob s.
Proof.
  unfold choose_id. destruct idtype_arg as [a|]; [|apply choose_auto_frame].
  destruct (idtype_is _ _).
  { match goal with |- context [choose_auto _ ?s1 _ _] =>
      destruct (choose_auto_frame s1 h d) as (A & B & C & D) end.
    by rewrite A, B, C, D. }
  destruct id_arg as [ia|]; [by repeat split|]. cbn zeta.
  destruct (device_id_system_read s h d (idtype_from_str a)); [by repeat split|].
  match goal with |- context [choose_auto _ ?s1 _ _] =>
    destruct (choose_auto_frame s1 h d) as (A & B & C & D) end.
  by rewrite A, B, C, D.
Qed.

(** What a call that returns 1 with the devices file in use leaves. *)
Lemma device_id_add_result s h pvid_arg idtype_arg id_arg s' :
  device_id_add idtype_value drbd_major yes yes_no_prompt s h pvid_arg idtype_arg id_arg
    = Some (true, s') ->
  enable_devices_file (cmd s) = true \/ pending_devices_file (cmd s) = true ->
  exists d part s1 idtype idname d',
    get_dev s h = Some d /\ dev_get_partition_number (env s) h = Some part
    /\ dev_aliases d <> []
    /\ choose_id drbd_major s h d idtype_arg id_arg = (s1, (idtype, idname))
    /\ set_dev_id d idtype idname = Some d'
    /\ get_dev s' h = Some d'
    /\ (forall h', h' <> h -> get_dev s' h' = get_dev s h')
    /\ fs s' = fs s /\ glob s' = glob s
    /\ cmd s' = set_use_devices (cmd s) (use_devices (cmd s'))
    /\ ((use_devices (cmd s') = use_devices (cmd s) /\ get_du_for_dev_pos s h = None
          /\ yes = false
          /\ yes_no_prompt "Add device with duplicate PV to devices file?" = "n"%char)
        \/ exists l', use_devices (cmd s') = l' ++ [added_entry d h pvid_arg part idtype idname]
             /\ match get_du_for_dev_pos s h with
                | Some i => l' = delete i (use_devices (cmd s))
                | None => l' = use_devices (cmd s)
                          \/ exists i, l' = delete i (use_devices (cmd s))
                end).
Proof.
  intros E Hen. unfold device_id_add in E.
  destruct (get_dev s h) as [d|] eqn:Hd; [|done]. cbn [mbind option_bind] in E.
  destruct (dev_get_partition_number (env s) h) as [part|] eqn:Hp; [|done].
  destruct (dev_aliases d) as [|al als] eqn:Hal; [done|].
  replace (negb (enable_devices_file (cmd s)) && negb (pending_devices_file (cmd s))) with false
    in E by (destruct Hen as [-> | ->]; [done|by rewrite andb_false_r]).
  destruct (choose_id drbd_major s h d idtype_arg id_arg) as [s1 [idtype idname]] eqn:Ech.
  assert (C1 : cmd s1 = cmd s /\ devs s1 = devs s /\ fs s1 = fs s /\ glob s1 = glob s).
  { pose proof (choose_id_frame s h d idtype_arg id_arg) as F. by rewrite Ech in F. }
  destruct C1 as (Cc & Cd & Cf & Cg).
  destruct (set_dev_id d idtype idname) as [d'|] eqn:Es; [|done]. cbn [mbind option_bind] in E.
  cbn zeta in E.
  match type of E with context [log_found _ ?sx ?a ?b ?c ?e ?f ?g1 ?g2 ?g3 ?g4] =>
    destruct (log_found_frame sx a b c e f g1 g2 g3 g4) as (Lc & Ld & _ & Lf & Lg);
    set (s2 := log_found idtype_value sx a b c e f g1 g2 g3 g4) in * end.
  clearbody s2. cbn [cmd devs fs glob set_devs] in Lc, Ld, Lf, Lg.
  exists d, part, s1, idtype, idname, d'.
  split; [done|]. split; [done|]. split; [by rewrite Hal|]. split; [done|]. split; [done|].
  assert (Frame : forall s3, devs s3 = devs s2 -> fs s3 = fs s2 -> glob s3 = glob s2 ->
            get_dev s3 h = Some d' /\ (forall h', h' <> h -> get_dev s3 h' = get_dev s h')
            /\ fs s3 = fs s /\ glob s3 = glob s).
  { intros s3 H3d H3f H3g. unfold get_dev. rewrite H3d, Ld, Cd, H3f, H3g, Lf, Lg.
    split; [by rewrite lookup_insert_eq|].
    split; [intros h' Hh; by rewrite lookup_insert_ne|done]. }
  pose proof (choose_entry_cases s2 h d (c_str (take ID_LEN pvid_arg)) idtype idname
    (du_at (set_devs s1 (<[h:=d']> (devs s1)))
       (get_du_for_dev_pos (set_devs s1 (<[h:=d']> (devs s1))) h))
    (du_at (set_devs s1 (<[h:=d']> (devs s1)))
       (get_du_for_pvid (set_devs s1 (<[h:=d']> (devs s1))) (c_str (take ID_LEN pvid_arg))))
    (du_at (set_devs s1 (<[h:=d']> (devs s1)))
       (get_du_for_device_id (set_devs s1 (<[h:=d']> (devs s1))) idtype idname))) as Cases.
  pose proof (du_at_dev_pos (set_devs s1 (<[h:=d']> (devs s1))) s h Cc) as Pos.
  destruct (du_at _ (get_du_for_dev_pos _ h)) as [[j0 du0]|] eqn:Ef1;
  destruct (choose_entry _ _ _ _ _ _ _ _ _ _ _) as [i kind name| | |] eqn:Ece;
    try done; try (by destruct Cases); injection E as <-;
    (destruct (Frame _ eq_refl eq_refl eq_refl) as (F1 & F2 & F3 & F4);
     split; [exact F1|]; split; [exact F2|]; split; [exact F3|]; split; [exact F4|]);
    cbn [cmd use_devices set_cmd set_use_devices log_debug log_print add_log add_logs]; rewrite ?Lc, ?Cc;
    (split; [by destruct (cmd s)|]).
  - right. eexists. split; [reflexivity|]. rewrite Pos. by subst.
  - right. eexists. split; [reflexivity|]. rewrite Pos. right. by exists i.
  - right. eexists. split; [reflexivity|]. rewrite Pos. by left.
  - left. by destruct Cases as (_ & ? & ?).
Qed.

Lemma delete_lookup_some {A} (l : list A) i j x :
  delete i l !! j = Some x ->
  exists j', l !! j' = Some x /\ j' <> i /\ ((j < i /\ j' = j) \/ (i <= j /\ j' = S j)).
Proof.
  intros H. destruct (decide (j < i)%nat).
  - rewrite list_lookup_delete_lt in H by done. exists j. repeat split; [done|lia|left; lia].
  - rewrite list_lookup_delete_ge in H by lia. exists (S j). repeat split; [done|lia|right; lia].
Qed.

Lemma one_entry_delete l i :
  one_entry_per_device l -> one_entry_per_device (delete i l).
Proof.
  intros U a b du1 du2 h Ha Hb H1 H2.
  apply delete_lookup_some in Ha as (a' & Ha & Na & Ea).
  apply delete_lookup_some in Hb as (b' & Hb & Nb & Eb).
  pose proof (U a' b' du1 du2 h Ha Hb H1 H2). lia.
Qed.

Lemma one_entry_snoc l du h :
  one_entry_per_device l -> du_dev du = Some h ->
  (forall du', du' ∈ l -> du_dev du' <> Some h) ->
  one_entry_per_device (l ++ [du]).
Proof.
  intros U Hh No a b du1 du2 h' Ha Hb H1 H2.
  apply lookup_snoc_Some in Ha as [[La Ha]|[-> <-]];
  apply lookup_snoc_Some in Hb as [[Lb Hb]|[-> <-]].
  - by eapply U.
  - exfalso. apply (No du1); [by eapply list_elem_of_lookup_2|congruence].
  - exfalso. apply (No du2); [by eapply list_elem_of_lookup_2|congruence].
  - done.
Qed.

Lemma no_entry_of_device s h :
  get_du_for_dev_pos s h = None ->
  forall du, du ∈ use_devices (cmd s) -> du_dev du <> Some h.
Proof.
  unfold get_du_for_dev_pos. intros H du Hin Hd.
  destruct (list_find _ _) eqn:E; [done|].
  apply list_find_None in E. rewrite Forall_forall in E. by apply (E du).
Qed.

Lemma no_entry_after_delete s h i :
  one_entry_per_device (use_devices (cmd s)) ->
  get_du_for_dev_pos s h = Some i ->
  forall du, du ∈ delete i (use_devices (cmd s)) -> du_dev du <> Some h.
Proof.
  unfold get_du_for_dev_pos. intros U H du Hin Hd.
  destruct (list_find _ _) as [[i' du0]|] eqn:E; [|done]. injection H as ->.
  apply list_find_Some in E as (Hi & H0 & _).
  apply list_elem_of_lookup in Hin as [j Hj].
  apply delete_lookup_some in Hj as (j' & Hj & Nj & _).
  apply Nj. by eapply U.
Qed.

Lemma elem_of_delete {A} (l : list A) i x : x ∈ delete i l -> x ∈ l.
Proof.
  intros H. apply list_elem_of_lookup in H as [j Hj].
  apply delete_lookup_some in Hj as (j' & Hj & _). by eapply list_elem_of_lookup_2.
Qed.

Lemma device_id_system_read_env s s0 h d t :
  env s0 = env s -> device_id_system_read s0 h d t = device_id_system_read s h d t.
Proof.
  intros E. unfold device_id_system_read, read_sys_block, sys_block_path. by rewrite E.
Qed.

(** X18: when [device_id_add] returns 1 with the devices file in use and the
    user has not refused a duplicate PV, the last entry of the list is the
    entry of the device: it has the device, its name, the PVID given, its
    partition number, and the kind and the name of the identity that the
    device now has in use, with the flag of a match.  The entries before it
    are the old list, or the old list without one entry; the other devices,
    the files and the globals are as before. *)
Theorem device_id_add_entry s h pvid_arg idtype_arg id_arg s' :
  device_id_add idtype_value drbd_major yes yes_no_prompt s h pvid_arg idtype_arg id_arg
    = Some (true, s') ->
  enable_devices_file (cmd s) = true \/ pending_devices_file (cmd s) = true ->
  not_refused yes yes_no_prompt ->
  exists d d' du l',
    get_dev s h = Some d /\ get_dev s' h = Some d'
    /\ use_devices (cmd s') = l' ++ [du]
    /\ (l' = use_devices (cmd s) \/ exists i, l' = delete i (use_devices (cmd s)))
    /\ du_dev du = Some h /\ du_devname du = Some (dev_name d)
    /\ du_pvid du = Some (c_str (take ID_LEN pvid_arg))
    /\ dev_get_partition_number (env s) h = Some (du_part du)
    /\ DEV_MATCHED_USE_ID d' = true
    /\ (exists k, dev_id_cur d' = Some k
          /\ dev_ids d' !! k = Some (mk_dev_id (du_idtype du) (du_idname du)))
    /\ is_Some (du_idname du)
    /\ (forall h', h' <> h -> get_dev s' h' = get_dev s h')
    /\ fs s' = fs s /\ glob s' = glob s.
Proof.
  intros E Hen Hy.
  destruct (device_id_add_result _ _ _ _ _ _ E Hen)
    as (d & part & s1 & idtype & idname & d' & Hd & Hp & _ & _ & Hs & Hd' & Ho & Hf & Hg & _ & R).
  apply set_dev_id_spec in Hs as (Fl & _ & _ & _ & k & Hk1 & Hk2).
  destruct R as [(_ & _ & Y1 & Y2)|(l' & Hl & Hpos)].
  { exfalso. destruct Hy as [Hy|Hy]; congruence. }
  exists d, d', (added_entry d h pvid_arg part idtype idname), l'.
  repeat (split; [done|]). split.
  { destruct (get_du_for_dev_pos s h) as [i|]; [right; by exists i|done]. }
  cbn [added_entry du_dev du_devname du_pvid du_part du_idtype du_idname].
  repeat (split; [done|]). split; [by exists k|]. done.
Qed.

(** X19: [device_id_add] keeps two invariants of the list, whatever it
    returns: no device has two entries, and the device of an entry carries
    the flag of a match. *)
Theorem device_id_add_one_entry_per_device s h pvid_arg idtype_arg id_arg r s' :
  device_id_add idtype_value drbd_major yes yes_no_prompt s h pvid_arg idtype_arg id_arg
    = Some (r, s') ->
  links_flagged s -> one_entry_per_device (use_devices (cmd s)) ->
  links_flagged s' /\ one_entry_per_device (use_devices (cmd s')).
Proof.
  intros E Lf U.
  destruct (decide (r = true /\ (enable_devices_file (cmd s) = true
                                 \/ pending_devices_file (cmd s) = true))) as [[-> Hen]|Hn].
  - destruct (device_id_add_result _ _ _ _ _ _ E Hen)
      as (d & part & s1 & idtype & idname & d' & Hd & Hp & _ & _ & Hs & Hd' & Ho & _ & _ & _ & R).
    apply set_dev_id_spec in Hs as (Fl & _).
    assert (Fl' : forall (l : list dev_use) (du : dev_use) h', du ∈ l -> (forall x, x ∈ l -> x ∈ use_devices (cmd s)) ->
              du_dev du = Some h' -> exists d, get_dev s' h' = Some d /\ DEV_MATCHED_USE_ID d = true).
    { intros l du h' Hin Sub Hh. destruct (decide (h' = h)) as [->|Ne]; [by exists d'|].
      rewrite (Ho h' Ne). apply Sub in Hin. apply list_elem_of_lookup in Hin as [i Hi].
      by eapply Lf. }
    destruct R as [(Same & _)|(l' & Hl & Hpos)].
    + split; [|by rewrite Same]. intros i du h' Hi Hh. rewrite Same in Hi.
      eapply (Fl' (use_devices (cmd s))); [by eapply list_elem_of_lookup_2|done|done].
    + assert (Sub : forall x, x ∈ l' -> x ∈ use_devices (cmd s)).
      { destruct (get_du_for_dev_pos s h) as [i|]; [subst l'; apply elem_of_delete|].
        destruct Hpos as [->|[i ->]]; [done|apply elem_of_delete]. }
      split.
      * intros i du h' Hi Hh. rewrite Hl in Hi.
        apply lookup_snoc_Some in Hi as [[_ Hi]|[_ <-]].
        -- eapply (Fl' l'); [by eapply list_elem_of_lookup_2|done|done].
        -- cbn in Hh. injection Hh as <-. by exists d'.
      * rewrite Hl. apply (one_entry_snoc _ _ h); [|done|].
        -- destruct (get_du_for_dev_pos s h) as [i|]; [subst l'; by apply one_entry_delete|].
           destruct Hpos as [->|[i ->]]; [done|by apply one_entry_delete].
        -- destruct (get_du_for_dev_pos s h) as [i|] eqn:Hi.
           ++ subst l'. by apply no_entry_after_delete.
           ++ intros du Hin. apply (no_entry_of_device s h Hi). by apply Sub.
  - assert (s' = s) as ->; [|done].
    unfold device_id_add in E.
    destruct (get_dev s h) as [d|]; [|done]. cbn [mbind option_bind] in E.
    destruct (dev_get_partition_number (env s) h); [|by injection E].
    destruct (dev_aliases d); [by injection E|].
    destruct (negb (enable_devices_file (cmd s)) && negb (pending_devices_file (cmd s))) eqn:En;
      [by injection E|].
    destruct r.
    { exfalso. apply Hn. split; [done|].
      destruct (enable_devices_file (cmd s)); [by left|].
      destruct (pending_devices_file (cmd s)); [by right|done]. }
    exfalso. revert E. cbn zeta.
    destruct (choose_id _ _ _ _ _ _) as [? [? ?]].
    destruct (set_dev_id _ _ _); [|done]. cbn [mbind option_bind].
    by destruct (choose_entry _ _ _ _ _ _ _ _ _ _ _).
Qed.

(** With an answer that does not refuse and a named entry for the PVID,
    the choice is an entry to update or a new entry. *)
Lemma choose_entry_defined s h d pvid idtype idname f1 f2 f3 :
  not_refused yes yes_no_prompt ->
  match f2 with Some (_, du) => is_Some (du_idname du) | None => True end ->
  match choose_entry yes yes_no_prompt s h d pvid idtype idname f1 f2 f3 with
  | Update _ _ _ | NewEntry => True
  | NotAdded | Undefined => False
  end.
Proof.
  intros Hy Hn. unfold choose_entry.
  assert (A : ask_duplicate yes yes_no_prompt = NewEntry).
  { unfold ask_duplicate. destruct Hy as [-> | Hy]; [done|]. destruct yes; [done|].
    cbn [negb andb]. destruct (ch_eqb _ _) eqn:E; [|done]. by apply Ascii.eqb_eq in E. }
  destruct f1 as [[j ?]|]; [done|].
  destruct f2 as [[i2 du2]|].
  - destruct Hn as [n Hn]. cbn zeta. rewrite Hn.
    destruct (if idtype_is (du_idtype du2) idtype then _ else _); [|by rewrite A].
    destruct (streq _ _); [done|by rewrite A].
  - destruct f3 as [[i3 du3]|]; [|done]. by destruct (bool_decide _).
Qed.

(** A call that the source defines returns 1. *)
Lemma device_id_add_returns s h d pvid_arg idtype_arg id_arg :
  get_dev s h = Some d ->
  is_Some (dev_get_partition_number (env s) h) -> dev_aliases d <> [] ->
  enable_devices_file (cmd s) = true \/ pending_devices_file (cmd s) = true ->
  not_refused yes yes_no_prompt ->
  cached_name_ok d (fst (snd (choose_id drbd_major s h d idtype_arg id_arg))) ->
  pvid_entry_named s (c_str (take ID_LEN pvid_arg)) ->
  exists s',
    device_id_add idtype_value drbd_major yes yes_no_prompt s h pvid_arg idtype_arg id_arg
    = Some (true, s').
Proof.
  intros Hd [part Hp] Hal Hen Hy Hc Hn. unfold device_id_add.
  rewrite Hd. cbn [mbind option_bind]. rewrite Hp.
  destruct (dev_aliases d) as [|al als] eqn:Eal; [done|].
  replace (negb (enable_devices_file (cmd s)) && negb (pending_devices_file (cmd s))) with false
    by (destruct Hen as [-> | ->]; [done|by rewrite andb_false_r]).
  destruct (choose_id_frame s h d idtype_arg id_arg) as (Cc & _).
  destruct (choose_id drbd_major s h d idtype_arg id_arg) as [s1 [idtype idname]].
  cbn [fst snd] in Hc, Cc.
  assert (Es : exists d', set_dev_id d idtype idname = Some d').
  { unfold set_dev_id, cached_name_ok in *. cbn zeta.
    destruct (find_id (dev_ids d) idtype 0) as [[k id]|]; [|by eexists].
    destruct Hc as [n ->]. destruct (streq n idname); by eexists. }
  destruct Es as [d' ->]. cbn [mbind option_bind]. cbn zeta.
  match goal with |- context [choose_entry _ _ _ _ _ _ _ _ _ ?f2 _] =>
    replace f2 with (du_at s (get_du_for_pvid s (c_str (take ID_LEN pvid_arg))))
      by (unfold du_at, get_du_for_pvid; cbn [cmd set_devs]; by rewrite Cc) end.
  match goal with |- context [choose_entry _ _ ?sx ?hx ?dx ?px ?tx ?nx ?f1 ?f2 ?f3] =>
    pose proof (choose_entry_defined sx hx dx px tx nx f1 f2 f3 Hy Hn) as D;
    destruct (choose_entry yes yes_no_prompt sx hx dx px tx nx f1 f2 f3) end;
    [by eexists|by eexists|done|done].
Qed.

Lemma choose_id_default s h d :
  MAJOR (dev_dev d) <> device_mapper_major (dev_types (cmd s)) ->
  MAJOR (dev_dev d) <> loop_major (dev_types (cmd s)) ->
  MAJOR (dev_dev d) <> md_major (dev_types (cmd s)) ->
  exists n, snd (choose_id drbd_major s h d None None) = (fst (default_id s h d), n)
            /\ snd (default_id s h d) = Some n.
Proof.
  intros M1 M2 M3. unfold choose_id, choose_auto. cbn zeta.
  rewrite !bool_decide_eq_false_2 by done. cbn [snd].
  unfold id_name, default_id. cbn [idtype_is].
  destruct (device_id_system_read s h d DEV_ID_TYPE_SYS_WWID); [by eexists|].
  replace (idtype_is DEV_ID_TYPE_SYS_WWID DEV_ID_TYPE_SYS_WWID) with true by done.
  destruct (device_id_system_read s h d DEV_ID_TYPE_SYS_SERIAL); by eexists.
Qed.

(** X20: for a device of the cache that has a name and a partition number and
    is not of the device-mapper, loop or md major, with the devices file in
    use and a user who does not refuse a duplicate PV, when no identity of
    the kind to use is cached without a name and the entry with the PVID, if
    there is one, has an idname, [device_id_add] called with no kind and no
    name returns 1, and the last entry of the list, which is the one added,
    is of the kind sys_wwid when the wwid can be read, else sys_serial when
    the serial number can be read, else of the device-name kind with the name
    of the device. *)
Theorem device_id_add_default_kind s h pvid_arg d :
  get_dev s h = Some d ->
  is_Some (dev_get_partition_number (env s) h) -> dev_aliases d <> [] ->
  enable_devices_file (cmd s) = true \/ pending_devices_file (cmd s) = true ->
  not_refused yes yes_no_prompt ->
  MAJOR (dev_dev d) <> device_mapper_major (dev_types (cmd s)) ->
  MAJOR (dev_dev d) <> loop_major (dev_types (cmd s)) ->
  MAJOR (dev_dev d) <> md_major (dev_types (cmd s)) ->
  cached_name_ok d (fst (default_id s h d)) ->
  pvid_entry_named s (c_str (take ID_LEN pvid_arg)) ->
  exists s' du,
    device_id_add idtype_value drbd_major yes yes_no_prompt s h pvid_arg None None
    = Some (true, s')
    /\ last (use_devices (cmd s')) = Some du
    /\ (du_idtype du, du_idname du) = default_id s h d.
Proof.
  intros Hd Hp Hal Hen Hy M1 M2 M3 Hc Hn.
  destruct (choose_id_default s h d M1 M2 M3) as (n & Echo & Edef).
  destruct (device_id_add_returns s h d pvid_arg None None Hd Hp Hal Hen Hy) as [s' E];
    [by rewrite Echo|exact Hn|].
  exists s'.
  destruct (device_id_add_result _ _ _ _ _ _ E Hen)
    as (d0 & part & s1 & idtype & idname & d' & Hd0 & _ & _ & Hch & _ & _ & _ & _ & _ & _ & R).
  destruct R as [(_ & _ & Y1 & Y2)|(l' & Hl & _)].
  { exfalso. destruct Hy as [Hy|Hy]; congruence. }
  eexists. split; [exact E|]. split; [rewrite Hl; apply last_snoc|].
  cbn [added_entry du_idtype du_idname].
  rewrite Hd in Hd0. injection Hd0 as <-.
  rewrite Hch in Echo. cbn [snd] in Echo. injection Echo as -> ->.
  rewrite <- Edef. by destruct (default_id s h d).
Qed.

(** X21: for a device of the cache that has a name and a partition number,
    with the devices file in use and a user who does not refuse a duplicate
    PV, when no identity of the kind asked for is cached without a name and
    the entry with the PVID, if there is one, has an idname, [device_id_add]
    called with a known kind and a name returns 1, and the last entry of the
    list, which is the one added, has that kind and that name. *)
Theorem device_id_add_given_id s h pvid_arg d kind name :
  get_dev s h = Some d ->
  is_Some (dev_get_partition_number (env s) h) -> dev_aliases d <> [] ->
  enable_devices_file (cmd s) = true \/ pending_devices_file (cmd s) = true ->
  not_refused yes yes_no_prompt ->
  idtype_from_str kind <> DEV_ID_TYPE_NONE ->
  cached_name_ok d (idtype_from_str kind) ->
  pvid_entry_named s (c_str (take ID_LEN pvid_arg)) ->
  exists s' du,
    device_id_add idtype_value drbd_major yes yes_no_prompt s h pvid_arg (Some kind) (Some name)
    = Some (true, s')
    /\ last (use_devices (cmd s')) = Some du
    /\ du_idtype du = idtype_from_str kind /\ du_idname du = Some name.
Proof.
  intros Hd Hp Hal Hen Hy Hk Hc Hn.
  assert (Echo : choose_id drbd_major s h d (Some kind) (Some name)
                 = (s, (idtype_from_str kind, name))).
  { unfold choose_id. cbn zeta.
    destruct (idtype_is (idtype_from_str kind) DEV_ID_TYPE_NONE) eqn:Ei; [|done].
    exfalso. apply Hk. by destruct (idtype_from_str kind). }
  destruct (device_id_add_returns s h d pvid_arg (Some kind) (Some name) Hd Hp Hal Hen Hy)
    as [s' E]; [by rewrite Echo|exact Hn|].
  exists s'.
  destruct (device_id_add_result _ _ _ _ _ _ E Hen)
    as (d0 & part & s1 & idtype & idname & d' & Hd0 & _ & _ & Hch & _ & _ & _ & _ & _ & _ & R).
  destruct R as [(_ & _ & Y1 & Y2)|(l' & Hl & _)].
  { exfalso. destruct Hy as [Hy|Hy]; congruence. }
  eexists. split; [exact E|]. split; [rewrite Hl; apply last_snoc|].
  cbn [added_entry du_idtype du_idname].
  rewrite Hd in Hd0. injection Hd0 as <-.
  rewrite Hch in Echo. by injection Echo as _ -> ->.
Qed.

(** X22: after [device_id_add] has added a device to a list in which no device
    has two entries, [device_id_pvremove] for the device clears the PVID of
    the entry added, and changes nothing else, the log included. *)
Theorem device_id_add_then_pvremove s h pvid_arg idtype_arg id_arg s' :
  device_id_add idtype_value drbd_major yes yes_no_prompt s h pvid_arg idtype_arg id_arg
    = Some (true, s') ->
  enable_devices_file (cmd s) = true ->
  not_refused yes yes_no_prompt ->
  one_entry_per_device (use_devices (cmd s)) ->
  exists l' du,
    use_devices (cmd s') = l' ++ [du] /\ du_dev du = Some h
    /\ du_pvid du = Some (c_str (take ID_LEN pvid_arg))
    /\ device_id_pvremove s' h
       = set_cmd s' (set_use_devices (cmd s') (l' ++ [set_du_pvid du None])).
Proof.
  intros E Hen Hy U.
  destruct (device_id_add_result _ _ _ _ _ _ E (or_introl Hen))
    as (d & part & s1 & idtype & idname & d' & Hd & Hp & _ & _ & Hs & Hd' & Ho & _ & _ & Hc & R).
  destruct R as [(_ & _ & Y1 & Y2)|(l' & Hl & Hpos)].
  { exfalso. destruct Hy as [Hy|Hy]; congruence. }
  exists l', (added_entry d h pvid_arg part idtype idname).
  split; [done|]. split; [done|]. split; [done|].
  assert (No : forall du, du ∈ l' -> du_dev du <> Some h).
  { destruct (get_du_for_dev_pos s h) as [i|] eqn:Hi.
    - subst l'. by apply no_entry_after_delete.
    - intros du Hin. apply (no_entry_of_device s h Hi).
      destruct Hpos as [->|[i ->]]; [done|by eapply elem_of_delete]. }
  unfold device_id_pvremove, get_du_for_dev_pos, update_du.
  rewrite Hc at 1. cbn [enable_devices_file set_use_devices]. rewrite Hen. cbn [negb].
  rewrite Hl.
  assert (Find : list_find (fun du => du_dev du = Some h)
                   (l' ++ [added_entry d h pvid_arg part idtype idname])
                 = Some (length l', added_entry d h pvid_arg part idtype idname)).
  { apply list_find_Some. split; [by rewrite lookup_app_r, Nat.sub_diag|]. split; [done|].
    intros j y Hj Hlt. rewrite lookup_app_l in Hj by done.
    apply No. by eapply list_elem_of_lookup_2. }
  rewrite Find. cbn [fmap option_fmap option_map fst].
  f_equal. f_equal. rewrite alter_app_r_alt by done. by rewrite Nat.sub_diag.
Qed.

End AddDevice.

Lemma state_sdb1_one_entry : one_entry_per_device (use_devices (cmd state_sdb1)).
Proof.
  intros i j du1 du2 h Hi Hj H1 H2. destruct i as [|i]; [|done].
  cbn in Hi. injection Hi as <-. done.
Qed.

Lemma device_id_add_entry_witness :
  exists d d' du l',
    get_dev state_sdb1 1 = Some d /\ get_dev state_sdb_added 1 = Some d'
    /\ use_devices (cmd state_sdb_added) = l' ++ [du]
    /\ (l' = use_devices (cmd state_sdb1) \/ exists i, l' = delete i (use_devices (cmd state_sdb1)))
    /\ du_dev du = Some 1 /\ du_devname du = Some (dev_name d)
    /\ du_pvid du = Some (c_str (take ID_LEN pvid_sample))
    /\ dev_get_partition_number (env state_sdb1) 1 = Some (du_part du)
    /\ DEV_MATCHED_USE_ID d' = true
    /\ (exists k, dev_id_cur d' = Some k
          /\ dev_ids d' !! k = Some (mk_dev_id (du_idtype du) (du_idname du)))
    /\ is_Some (du_idname du)
    /\ (forall h', h' <> 1 -> get_dev state_sdb_added h' = get_dev state_sdb1 h')
    /\ fs state_sdb_added = fs state_sdb1 /\ glob state_sdb_added = glob state_sdb1.
Proof.
  apply (device_id_add_entry (fun _ => 0%Z) 147 true (fun _ => "y"%char) state_sdb1 1 pvid_sample
           None None state_sdb_added).
  - vm_compute. reflexivity.
  - left. vm_compute. reflexivity.
  - left. reflexivity.
Defined.

Lemma device_id_add_one_entry_per_device_witness :
  links_flagged state_sdb_added /\ one_entry_per_device (use_devices (cmd state_sdb_added)).
Proof.
  apply (device_id_add_one_entry_per_device (fun _ => 0%Z) 147 true (fun _ => "y"%char)
           state_sdb1 1 pvid_sample None None true state_sdb_added).
  - vm_compute. reflexivity.
  - exact state_sdb1_links_flagged.
  - exact state_sdb1_one_entry.
Defined.

Lemma device_id_add_default_kind_witness :
  exists s' du,
    device_id_add (fun _ => 0%Z) 147 true (fun _ => "y"%char) state_sdb1 1 pvid_sample None None
    = Some (true, s')
    /\ last (use_devices (cmd s')) = Some du
    /\ (du_idtype du, du_idname du)
       = (DEV_ID_TYPE_SYS_WWID, Some (str "naa.5000c500a1b2c3d4")).
Proof.
  apply (device_id_add_default_kind (fun _ => 0%Z) 147 true (fun _ => "y"%char) state_sdb1 1
           pvid_sample dev_sdb).
  - reflexivity.
  - by eexists.
  - discriminate.
  - left. reflexivity.
  - left. reflexivity.
  - vm_compute. discriminate.
  - vm_compute. discriminate.
  - vm_compute. discriminate.
  - exact I.
  - exact I.
Defined.

Lemma device_id_add_given_id_witness :
  exists s' du,
    device_id_add (fun _ => 0%Z) 147 false (fun _ => "y"%char) state_sdb1 1 pvid_sample
      (Some (str "sys_serial")) (Some (str "S3Z8NB0K"))
    = Some (true, s')
    /\ last (use_devices (cmd s')) = Some du
    /\ du_idtype du = idtype_from_str (str "sys_serial")
    /\ du_idname du = Some (str "S3Z8NB0K").
Proof.
  apply (device_id_add_given_id (fun _ => 0%Z) 147 false (fun _ => "y"%char) state_sdb1 1
           pvid_sample dev_sdb (str "sys_serial") (str "S3Z8NB0K")).
  - reflexivity.
  - by eexists.
  - discriminate.
  - left. reflexivity.
  - right. discriminate.
  - vm_compute. discriminate.
  - exact I.
  - exact I.
Defined.

Lemma device_id_add_then_pvremove_witness :
  exists l' du,
    use_devices (cmd state_sdb_added) = l' ++ [du] /\ du_dev du = Some 1
    /\ du_pvid du = Some (c_str (take ID_LEN pvid_sample))
    /\ device_id_pvremove state_sdb_added 1
       = set_cmd state_sdb_added
           (set_use_devices (cmd state_sdb_added) (l' ++ [set_du_pvid du None])).
Proof.
  apply (device_id_add_then_pvremove (fun _ => 0%Z) 147 true (fun _ => "y"%char) state_sdb1 1
           pvid_sample None None state_sdb_added).
  - vm_compute. reflexivity.
  - vm_compute. reflexivity.
  - left. reflexivity.
  - exact state_sdb1_one_entry.
Defined.


(** ** The file of multipath wwids *)

Lemma until_slash_app v rest :
  forallb (fun a => negb (ch_eqb a "/") && negb (ch_eqb a NUL)) v = true ->
  until_slash (c_str (v ++ "/"%char :: rest)) = v.
Proof.
  induction v as [|a v IH]; cbn [forallb app c_str until_slash]; [done|].
  intros H. apply andb_true_iff in H as [Ha Hv]. apply andb_true_iff in Ha as [H1 H2].
  apply negb_true_iff in H1, H2. rewrite H2. cbn [until_slash]. rewrite H1. by rewrite IH.
Qed.

(** X23: from a line of the wwids file that holds a wwid between an optional
    slash with one more byte and a closing slash, [_read_wwid_file] takes the
    wwid: the byte after the optional slash is passed over whatever it is. *)
Theorem read_wwid_file_line_format (slash : bool) (c : ascii) (v rest : list ascii) :
  (slash = false -> c <> "#"%char /\ c <> "/"%char) ->
  forallb (fun a => negb (ch_eqb a "/") && negb (ch_eqb a NUL)) v = true ->
  read_wwid_file_line ((if slash then ["/"%char] else []) ++ c :: v ++ "/"%char :: rest)
  = FileWwid v.
Proof.
  intros Hc Hv. unfold read_wwid_file_line. destruct slash; cbn [app].
  - replace (ch_eqb "/" "#") with false by done. replace (ch_eqb "/" "/") with true by done.
    simpl. by rewrite drop_0, until_slash_app.
  - destruct (Hc eq_refl) as [H1 H2].
    replace (ch_eqb c "#") with false by (symmetry; by apply Ascii.eqb_neq).
    replace (ch_eqb c "/") with false by (symmetry; by apply Ascii.eqb_neq).
    simpl. by rewrite drop_0, until_slash_app.
Qed.

Lemma read_wwid_file_none lines : fold_left read_wwid_file_step lines None = None.
Proof. by induction lines. Qed.

Lemma read_wwid_file_fold lines : forall tab n tab' n',
  fold_left read_wwid_file_step lines (Some (tab, n)) = Some (tab', n') ->
  forall w, w ∈ tab' <-> w ∈ tab \/ exists raw, raw ∈ lines /\ read_wwid_file_line raw = FileWwid w.
Proof.
  induction lines as [|raw lines IH]; intros tab n tab' n'; cbn [fold_left].
  - intros [= <- <-] w. split; [by left|]. intros [?|(raw & Hin & _)]; [done|].
    by apply elem_of_nil in Hin.
  - unfold read_wwid_file_step at 2. destruct (read_wwid_file_line raw) as [|k|] eqn:E.
    + intros H w. rewrite (IH _ _ _ _ H w). split.
      * intros [?|(r & Hin & Hr)]; [by left|]. right. exists r. split; [by right|done].
      * intros [?|(r & Hin & Hr)]; [by left|]. right. exists r. split; [|done].
        apply elem_of_cons in Hin as [->|Hin]; [congruence|done].
    + intros H w. rewrite (IH _ _ _ _ H w). rewrite elem_of_union, elem_of_singleton. split.
      * intros [[->|?]|(r & Hin & Hr)]; [right; exists raw; split; [by left|done]|by left|].
        right. exists r. split; [by right|done].
      * intros [?|(r & Hin & Hr)]; [left; by right|].
        apply elem_of_cons in Hin as [->|Hin]; [left; left; congruence|].
        right. by exists r.
    + by rewrite read_wwid_file_none.
Qed.

Lemma read_wwid_file_table files file m m' :
  _read_wwid_file files file m = Some m' ->
  (forall w, w ∈ _wwid_hash_tab m' <-> w ∈ _wwid_hash_tab m \/ wwid_file_keys files file w)
  /\ _ignored m' = _ignored m /\ _ignored_exceptions m' = _ignored_exceptions m.
Proof.
  unfold _read_wwid_file, wwid_file_keys.
  destruct (has_prefix (str "/") file) eqn:Hp; cbn [negb].
  - destruct (files !! file) as [content|] eqn:Hf.
    + destruct (fold_left _ _ _) as [[tab count]|] eqn:Ef; [|done].
      intros [= <-]. cbn. split; [|done]. intros w.
      rewrite (read_wwid_file_fold _ _ _ _ _ Ef w). split.
      * intros [?|(raw & ? & ?)]; [by left|]. right. split; [done|]. by exists content, raw.
      * intros [?|(_ & c & raw & [= <-] & ? & ?)]; [by left|]. right. by exists raw.
    + intros [= <-]. cbn. split; [|done]. intros w. split; [by left|].
      intros [?|(_ & c & raw & ? & _)]; done.
  - intros [= <-]. cbn. split; [|done]. intros w. split; [by left|].
    intros [?|(? & _)]; done.
Qed.

Lemma read_blacklist_tab files conf_d m :
  let m1 :=
    match conf_d with
    | None => _read_blacklist_file files (str "/etc/multipath.conf") m
    | Some names =>
        fold_left (fun m d_name =>
                     if has_prefix (str ".") d_name then m
                     else _read_blacklist_file files
                            (take (PATH_MAX - 2) (str "/etc/multipath/conf.d/" ++ d_name)) m)
          names (_read_blacklist_file files (str "/etc/multipath.conf") m)
    end in
  _read_wwid_exclusions files conf_d m = prune_ignored m1 /\ _wwid_hash_tab m1 = _wwid_hash_tab m.
Proof.
  cbn zeta. unfold _read_wwid_exclusions. destruct conf_d as [names|]; (split; [done|]).
  - rewrite read_files_tab. apply read_file_tab.
  - apply read_file_tab.
Qed.

(** What [_read_wwid_exclusions] leaves of the table and of the lists. *)
Lemma read_wwid_exclusions_spec files conf_d m :
  let m' := _read_wwid_exclusions files conf_d m in
  (forall w, w ∈ _wwid_hash_tab m' <-> w ∈ _wwid_hash_tab m /\ w ∉ _ignored m')
  /\ (forall w, w ∈ _ignored m' -> w ∉ _ignored_exceptions m').
Proof.
  cbn zeta. destruct (read_blacklist_tab files conf_d m) as [-> T]. cbn zeta in T.
  match goal with |- context [prune_ignored ?x] => set (m1 := x) in * end.
  clearbody m1. unfold prune_ignored. cbn [_wwid_hash_tab _ignored _ignored_exceptions].
  split.
  - intros w. rewrite remove_loop, T. done.
  - intros w Hw He. apply prune_loop in Hw as [Hi Hn]. apply Hn. split; [done|].
    done.
Qed.

Lemma dev_mpath_init_spec files conf_d file st st' :
  dev_mpath_init files conf_d (Some file) st = Some st' -> file <> [] ->
  wwid_tab_set st' = true /\ _minor_hash_tab st' = Some (∅ : gmap Z Z)
  /\ (forall w, w ∈ _wwid_hash_tab (mp st')
                <-> wwid_file_keys files file w /\ w ∉ _ignored (mp st'))
  /\ (forall w, w ∈ _ignored (mp st') -> w ∉ _ignored_exceptions (mp st')).
Proof.
  intros E Hn. unfold dev_mpath_init in E. destruct file as [|c r]; [done|].
  destruct (_read_wwid_file _ _ _) as [m|] eqn:Er; [|done]. injection E as <-.
  cbn [wwid_tab_set _minor_hash_tab mp]. split; [done|]. split; [done|].
  apply read_wwid_file_table in Er as (Ht & _ & _). cbn [_wwid_hash_tab] in Ht.
  destruct (read_wwid_exclusions_spec files conf_d m) as [H1 H2]. cbn zeta in H1, H2.
  split; [|exact H2]. intros w. rewrite H1, Ht. split.
  - intros [[Hw|Hw] Hi]; [by apply elem_of_empty in Hw|done].
  - intros [Hw Hi]. split; [by right|done].
Qed.

(** X24: after [dev_mpath_init] with the name of a wwids file, the table of
    wwids is in use and holds the wwids of the file that are not on the final
    list of ignored wwids, the table of minor numbers is empty, and no ignored
    wwid is an excepted one. *)
Theorem dev_mpath_init_table files conf_d file st st' :
  dev_mpath_init files conf_d (Some file) st = Some st' -> file <> [] ->
  wwid_tab_set st' = true /\ _minor_hash_tab st' = Some (∅ : gmap Z Z)
  /\ (forall w, w ∈ _wwid_hash_tab (mp st')
                <-> wwid_file_keys files file w /\ w ∉ _ignored (mp st'))
  /\ (forall w, w ∈ _ignored (mp st') -> w ∉ _ignored_exceptions (mp st')).
Proof. apply dev_mpath_init_spec. Qed.

Lemma strchr_split s c p :
  strchr s c = Some p -> exists t, s = t ++ p /\ (c ∉ t) /\ exists v, p = c :: v.
Proof.
  revert p. induction s as [|a s IH]; intros p; cbn [strchr]; [done|].
  destruct (ch_eqb a c) eqn:E.
  - intros [= <-]. exists []. split; [done|]. split; [apply not_elem_of_nil|].
    apply Ascii.eqb_eq in E as ->. by exists s.
  - intros H. apply IH in H as (t & -> & Ht & v & ->). exists (a :: t). split; [done|].
    split; [|by exists v]. apply not_elem_of_cons. split; [|done].
    intros ->. apply Ascii.eqb_neq in E. done.
Qed.

Lemma strchr_found t c v : c ∉ t -> strchr (t ++ c :: v) c = Some (c :: v).
Proof.
  induction t as [|a t IH]; intros Ht; cbn [app strchr].
  - replace (ch_eqb c c) with true by (symmetry; apply Ascii.eqb_refl). done.
  - apply not_elem_of_cons in Ht as [Hne Ht].
    replace (ch_eqb a c) with false by (symmetry; apply Ascii.eqb_neq; congruence). by apply IH.
Qed.

(** X25: after [dev_mpath_init] with the name of a wwids file,
    [_dev_in_wwid_file] returns 1 for a device exactly when its [device/wwid]
    in sysfs has a dot and what follows the first dot is a wwid of the file
    that is not ignored. *)
Theorem dev_in_wwid_file_after_init files conf_d file st st' s h d :
  dev_mpath_init files conf_d (Some file) st = Some st' -> file <> [] ->
  (fst (_dev_in_wwid_file s st' h d) = true
   <-> exists t v, read_sys_block s h d (str "device/wwid") = t ++ "."%char :: v
         /\ ("."%char ∉ t) /\ wwid_file_keys files file v /\ v ∉ _ignored (mp st')).
Proof.
  intros E Hn. destruct (dev_mpath_init_spec _ _ _ _ _ E Hn) as (Hs & _ & Ht & _).
  unfold _dev_in_wwid_file. rewrite Hs. cbn [negb].
  destruct (read_sys_block s h d (str "device/wwid")) as [|c0 r0] eqn:Hr.
  { split; [done|]. intros (t & v & Hv & _). by destruct t. }
  destruct (strchr (c0 :: r0) ".") as [p|] eqn:Hc.
  - apply strchr_split in Hc as (t & Hsp & Hnt & v & ->). cbn [skipn]. rewrite drop_0.
    destruct (bool_decide (v ∈ _wwid_hash_tab (mp st'))) eqn:Hb; cbn [fst].
    + apply bool_decide_eq_true in Hb. apply Ht in Hb as [Hk Hi]. split; [|done].
      intros _. by exists t, v.
    + apply bool_decide_eq_false in Hb. split; [done|].
      intros (t' & v' & Hv & Hnt' & Hk & Hi). exfalso. apply Hb.
      assert (Some ("."%char :: v) = Some ("."%char :: v')) as [= ->].
      { rewrite <- (strchr_found t "." v Hnt), <- (strchr_found t' "." v' Hnt'). congruence. }
      apply Ht. done.
  - split; [done|]. intros (t & v & Hv & Hnt & _). rewrite Hv, strchr_found in Hc; done.
Qed.

Lemma read_wwid_file_line_format_witness :
  read_wwid_file_line
    ((if true then ["/"%char] else []) ++ "3"%char :: str "5000c500a1b2c3d4" ++ "/"%char :: [LF])
  = FileWwid (str "5000c500a1b2c3d4").
Proof.
  apply (read_wwid_file_line_format true "3" (str "5000c500a1b2c3d4") [LF]).
  - discriminate.
  - vm_compute. reflexivity.
Defined.

Lemma dev_mpath_init_table_witness :
  wwid_tab_set statics_init = true /\ _minor_hash_tab statics_init = Some (∅ : gmap Z Z)
  /\ (forall w, w ∈ _wwid_hash_tab (mp statics_init)
                <-> wwid_file_keys files_wwids wwids_path w /\ w ∉ _ignored (mp statics_init))
  /\ (forall w, w ∈ _ignored (mp statics_init) -> w ∉ _ignored_exceptions (mp statics_init)).
Proof.
  apply (dev_mpath_init_table files_wwids None wwids_path statics0 statics_init).
  - vm_compute. reflexivity.
  - discriminate.
Defined.

Lemma dev_in_wwid_file_after_init_witness :
  fst (_dev_in_wwid_file state_sdb1 statics_init 1 dev_sdb) = true
  <-> exists t v, read_sys_block state_sdb1 1 dev_sdb (str "device/wwid") = t ++ "."%char :: v
        /\ ("."%char ∉ t) /\ wwid_file_keys files_wwids wwids_path v
        /\ v ∉ _ignored (mp statics_init).
Proof.
  apply (dev_in_wwid_file_after_init files_wwids None wwids_path statics0 statics_init
           state_sdb1 1 dev_sdb).
  - vm_compute. reflexivity.
  - discriminate.
Defined.


(** ** The filter of usable devices *)

Section UsableFilterFacts.

Variable DEV_FILTERED_MINSIZE : Z.
Variable DEV_FILTERED_UNUSABLE : Z.
Variable DEV_FILTERED_IS_LV : Z.
Variable dm_is_dm_major : Z -> bool.
Variable ignore_suspended_devices : bool.
Variable device_is_usable : dev_ref -> dev_usable_check_params -> bool * bool.
Variable dev_get_size : dev_ref -> option Z.
Variable pv_min_size : Z.

(** X26: [_passes_usable_filter] passes a device exactly when it is usable,
    which is asked of a device of the device-mapper major only, and its size
    is known and not below [pv_min_size()].  A device that passes is passed
    without a message, the messages about another one are debug messages, and
    the command, the files, the globals and the environment are untouched. *)
Theorem passes_usable_filter_verdict s data h d r s' :
  get_dev s h = Some d ->
  _passes_usable_filter DEV_FILTERED_MINSIZE DEV_FILTERED_UNUSABLE DEV_FILTERED_IS_LV
    dm_is_dm_major ignore_suspended_devices device_is_usable dev_get_size pv_min_size s data h
    = Some (r, s') ->
  (r = true <->
     (dm_is_dm_major (MAJOR (dev_dev d)) = true ->
      fst (device_is_usable h (usable_check_params ignore_suspended_devices data)) = true)
     /\ exists size, dev_get_size h = Some size /\ (pv_min_size <= size)%Z)
  /\ (r = true -> log s' = log s)
  /\ (exists es, log s' = log s ++ es /\ forallb (fun e => bool_decide (log_lvl e = LOG_DEBUG)) es = true)
  /\ cmd s' = cmd s /\ fs s' = fs s /\ glob s' = glob s /\ env s' = env s.
Proof.
  intros Hd. unfold _passes_usable_filter, _check_pv_min_size. rewrite Hd. cbn zeta.
  assert (Size : forall flags,
    (let '(r0, flags0, s0) :=
       let '(r1, s1) :=
         match dev_get_size h with
         | Some size =>
             if (size <? pv_min_size)%Z
             then (false, log_debug "%s: Skipping: %s"
                            [dev_name d; str "Too small to hold a PV"] s)
             else (true, s)
         | None => (false, log_debug "%s: Skipping: dev_get_size failed" [dev_name d] s)
         end in
       (r1, if r1 then flags else Z.lor flags DEV_FILTERED_MINSIZE, s1) in
     Some (r0, set_devs s0 (<[h:=set_filtered_flags d flags0]> (devs s0)))) = Some (r, s') ->
    (r = true <-> exists size, dev_get_size h = Some size /\ (pv_min_size <= size)%Z)
    /\ (r = true -> log s' = log s)
    /\ (exists es, log s' = log s ++ es
          /\ forallb (fun e => bool_decide (log_lvl e = LOG_DEBUG)) es = true)
    /\ cmd s' = cmd s /\ fs s' = fs s /\ glob s' = glob s /\ env s' = env s).
  { intros flags. destruct (dev_get_size h) as [size|].
    - destruct (size <? pv_min_size)%Z eqn:Hs; intros [= <- <-];
        cbn [cmd fs glob env log set_devs log_debug add_log].
      + apply Z.ltb_lt in Hs. split; [split; [done|intros (sz & [= <-] & Hsz); lia]|].
        split; [done|]. split; [by eexists|done].
      + apply Z.ltb_ge in Hs. split; [split; [by exists size|done]|].
        split; [done|]. split; [by exists []; rewrite app_nil_r|done].
    - intros [= <- <-]. cbn [cmd fs glob env log set_devs log_debug add_log].
      split; [split; [done|by intros (sz & [=] & _)]|].
      split; [done|]. split; [by eexists|done]. }
  destruct (dm_is_dm_major (MAJOR (dev_dev d))).
  - destruct (device_is_usable h _) as [[|] is_lv]; cbn [fst].
    + intros E. apply Size in E as (H1 & H2). split; [|exact H2].
      rewrite H1. split; [by intros ?|by intros [_ ?]].
    + intros [= <- <-]. cbn [cmd fs glob env log set_devs log_debug add_log].
      split; [split; [done|intros [Hu _]; by specialize (Hu eq_refl)]|].
      split; [done|]. split; [by eexists|done].
  - intros E. apply Size in E as (H1 & H2). split; [|exact H2].
    rewrite H1. split; [by intros ?|by intros [_ ?]].
Qed.

(** The three flags are bits, each its own. *)
Variable a b c : Z.
Hypothesis minsize_bit : DEV_FILTERED_MINSIZE = (2 ^ a)%Z.
Hypothesis unusable_bit : DEV_FILTERED_UNUSABLE = (2 ^ b)%Z.
Hypothesis is_lv_bit : DEV_FILTERED_IS_LV = (2 ^ c)%Z.
Hypothesis bits_apart : (0 <= a /\ 0 <= b /\ 0 <= c /\ a <> b /\ a <> c /\ b <> c)%Z.

Lemma clear_bit f k n :
  (0 <= k)%Z -> (0 <= n)%Z ->
  Z.testbit (Z.land f (Z.lnot (2 ^ k))) n = Z.testbit f n && negb (k =? n)%Z.
Proof.
  intros Hk Hn. rewrite Z.land_spec, Z.lnot_spec by done. by rewrite Z.pow2_bits_eqb.
Qed.

Lemma set_bit f k n :
  (0 <= k)%Z -> Z.testbit (Z.lor f (2 ^ k)) n = Z.testbit f n || (k =? n)%Z.
Proof. intros Hk. rewrite Z.lor_spec. by rewrite Z.pow2_bits_eqb. Qed.

(** X27: [_passes_usable_filter] changes three bits of the filtered flags of
    the device and nothing else of the devices: after a pass the bits of
    MINSIZE and UNUSABLE are clear, after a failure one of the bits of
    MINSIZE, UNUSABLE and IS_LV is set, and the bit of IS_LV is never
    cleared. *)
Theorem passes_usable_filter_flags s data h d r s' :
  get_dev s h = Some d ->
  _passes_usable_filter DEV_FILTERED_MINSIZE DEV_FILTERED_UNUSABLE DEV_FILTERED_IS_LV
    dm_is_dm_major ignore_suspended_devices device_is_usable dev_get_size pv_min_size s data h
    = Some (r, s') ->
  exists f', get_dev s' h = Some (set_filtered_flags d f')
    /\ (r = true -> Z.testbit f' a = false /\ Z.testbit f' b = false)
    /\ (r = false -> Z.testbit f' a = true \/ Z.testbit f' b = true \/ Z.testbit f' c = true)
    /\ (Z.testbit (dev_filtered_flags d) c = true -> Z.testbit f' c = true)
    /\ (forall n, (0 <= n)%Z -> n <> a -> n <> b -> n <> c ->
          Z.testbit f' n = Z.testbit (dev_filtered_flags d) n)
    /\ (forall h', h' <> h -> get_dev s' h' = get_dev s h').
Proof.
  destruct bits_apart as (Ha & Hb & Hc & Hab & Hac & Hbc).
  intros Hd. unfold _passes_usable_filter, _check_pv_min_size. rewrite Hd.
  rewrite minsize_bit, unusable_bit, is_lv_bit. cbn zeta.
  assert (Out : forall (r0 : bool) s0 f0,
    (r0 = true -> Z.testbit f0 a = false /\ Z.testbit f0 b = false) ->
    (r0 = false -> Z.testbit f0 a = true \/ Z.testbit f0 b = true \/ Z.testbit f0 c = true) ->
    (Z.testbit (dev_filtered_flags d) c = true -> Z.testbit f0 c = true) ->
    (forall n, (0 <= n)%Z -> n <> a -> n <> b -> n <> c ->
          Z.testbit f0 n = Z.testbit (dev_filtered_flags d) n) ->
    devs s0 = devs s ->
    Some (r0, set_devs s0 (<[h := set_filtered_flags d f0]> (devs s0))) = Some (r, s') ->
    exists f', get_dev s' h = Some (set_filtered_flags d f')
    /\ (r = true -> Z.testbit f' a = false /\ Z.testbit f' b = false)
    /\ (r = false -> Z.testbit f' a = true \/ Z.testbit f' b = true \/ Z.testbit f' c = true)
    /\ (Z.testbit (dev_filtered_flags d) c = true -> Z.testbit f' c = true)
    /\ (forall n, (0 <= n)%Z -> n <> a -> n <> b -> n <> c ->
          Z.testbit f' n = Z.testbit (dev_filtered_flags d) n)
    /\ (forall h', h' <> h -> get_dev s' h' = get_dev s h')).
  { intros r0 s0 f0 H1 H2 H3 H4 Hs [= <- <-]. exists f0. unfold get_dev. cbn [devs set_devs].
    rewrite Hs. split; [by rewrite lookup_insert_eq|]. repeat (split; [done|]).
    intros h' Hh. by rewrite lookup_insert_ne. }
  assert (Eq : forall x y : Z, x <> y -> (x =? y)%Z = false) by (intros; by apply Z.eqb_neq).
  assert (Er : forall x : Z, (x =? x)%Z = true) by (intros; apply Z.eqb_refl).
  destruct (dm_is_dm_major (MAJOR (dev_dev d)));
    [destruct (device_is_usable h _) as [[|] [|]]|];
    try destruct (dev_get_size h) as [size|]; try destruct (size <? pv_min_size)%Z;
    apply Out; try done; try (intros [=]);
    rewrite ?set_bit, ?clear_bit, ?Er, ?Eq by (done || lia);
    rewrite ?andb_false_r, ?orb_true_r, ?andb_true_r, ?orb_false_r; try done; auto.
  all: try (intros n Hn N1 N2 N3;
    rewrite ?set_bit, ?clear_bit, ?Er, ?Eq by (done || lia || congruence);
    by rewrite ?andb_false_r, ?orb_true_r, ?andb_true_r, ?orb_false_r).
Qed.

End UsableFilterFacts.

Lemma passes_usable_filter_flags_witness :
  exists f', get_dev state_sdb_small 1 = Some (set_filtered_flags dev_sdb f')
    /\ (false = true -> Z.testbit f' 9 = false /\ Z.testbit f' 10 = false)
    /\ (false = false -> Z.testbit f' 9 = true \/ Z.testbit f' 10 = true \/ Z.testbit f' 13 = true)
    /\ (Z.testbit (dev_filtered_flags dev_sdb) 13 = true -> Z.testbit f' 13 = true)
    /\ (forall n, (0 <= n)%Z -> n <> 9%Z -> n <> 10%Z -> n <> 13%Z ->
          Z.testbit f' n = Z.testbit (dev_filtered_flags dev_sdb) n)
    /\ (forall h', h' <> 1 -> get_dev state_sdb_small h' = get_dev state_sdb1 h').
Proof.
  apply (passes_usable_filter_flags 512 1024 8192 (fun m => (m =? 253)%Z) false
           (fun _ _ => (true, false)) (fun _ => Some 1000%Z) 4096 9 10 13
           eq_refl eq_refl eq_refl ltac:(lia) state_sdb1
           (mk_filter_data FILTER_MODE_NO_LVMETAD true) 1 dev_sdb false state_sdb_small).
  - reflexivity.
  - vm_compute. reflexivity.
Defined.

Lemma passes_usable_filter_verdict_witness :
  (false = true <->
     ((8 =? 253)%Z = true -> fst (true, false) = true)
     /\ exists size, Some 1000%Z = Some size /\ (4096 <= size)%Z)
  /\ (false = true -> log state_sdb_small = log state_sdb1)
  /\ (exists es, log state_sdb_small = log state_sdb1 ++ es
        /\ forallb (fun e => bool_decide (log_lvl e = LOG_DEBUG)) es = true)
  /\ cmd state_sdb_small = cmd state_sdb1 /\ fs state_sdb_small = fs state_sdb1
  /\ glob state_sdb_small = glob state_sdb1 /\ env state_sdb_small = env state_sdb1.
Proof.
  apply (passes_usable_filter_verdict 512 1024 8192 (fun m => (m =? 253)%Z) false
           (fun _ _ => (true, false)) (fun _ => Some 1000%Z) 4096 state_sdb1
           (mk_filter_data FILTER_MODE_NO_LVMETAD true) 1 dev_sdb false state_sdb_small).
  - reflexivity.
  - vm_compute. reflexivity.
Defined.


(** ** The holders of a multipath component *)

Section MpathComponentFacts.

Variable major_is_scsi_device : Z -> bool.
Variable dev_is_nvme : dev_ref -> bool.
Variable readlink : cstring -> option (list ascii).
Variable stat_is_dir : cstring -> option bool.
Variable readdir : cstring -> option (list cstring).
Variable dev_dir : cstring.
Variable stat_errno : cstring -> Z.
Variable log_sys_error : string -> cstring -> log_entry.

Lemma logs_only_refl s : logs_only s s.
Proof. by repeat split. Qed.

Lemma logs_only_trans s1 s2 s3 : logs_only s1 s2 -> logs_only s2 s3 -> logs_only s1 s3.
Proof.
  intros (A1 & A2 & A3 & A4 & A5) (B1 & B2 & B3 & B4 & B5).
  repeat split; congruence.
Qed.

Lemma get_sysfs_dm_mpath_logs s holder_name :
  logs_only s (snd (_get_sysfs_dm_mpath log_sys_error s holder_name)).
Proof.
  unfold _get_sysfs_dm_mpath, _get_sysfs_string.
  destruct (dm_snprintf _ _) as [path|]; [|by repeat split].
  destruct (files (fs s) !! path) as [content|]; [|by repeat split].
  destruct (file_lines 128 content); by repeat split.
Qed.

Lemma get_sysfs_dm_mpath_frame s s' holder_name :
  logs_only s s' ->
  fst (_get_sysfs_dm_mpath log_sys_error s' holder_name)
  = fst (_get_sysfs_dm_mpath log_sys_error s holder_name).
Proof.
  intros (_ & He & Hf & _). unfold _get_sysfs_dm_mpath, _get_sysfs_string. rewrite He, Hf.
  destruct (dm_snprintf _ _) as [path|]; [|done].
  destruct (files (fs s) !! path) as [content|]; [|done].
  by destruct (file_lines 128 content).
Qed.

Lemma memo_sound_frame s s' t :
  logs_only s s' -> memo_sound dev_dir log_sys_error s t -> memo_sound dev_dir log_sys_error s' t.
Proof.
  intros L M minor v Hv. destruct (M minor v Hv) as (Hv12 & holder & Hst & Hmp).
  split; [done|]. exists holder. pose proof L as (Hc & He & Hf & Hd & Hg).
  rewrite He, Hc. split; [done|]. unfold holder_is_mpath in *.
  by rewrite (get_sysfs_dm_mpath_frame s s' holder).
Qed.

(** What the loop over the holders keeps and what it answers. *)
Lemma check_holders_sound d names : forall s t devno s' tab',
  memo_sound dev_dir log_sys_error s t ->
  check_holders dev_dir stat_errno log_sys_error s (Some t) d names = (devno, s', tab') ->
  exists t', tab' = Some t' /\ memo_sound dev_dir log_sys_error s' t'
    /\ (forall m v, t !! m = Some v -> t' !! m = Some v)
    /\ (forall n, devno = Some n ->
          MAJOR n = device_mapper_major (dev_types (cmd s)) /\ t' !! MINOR n = Some 2%Z
          /\ exists holder_name, holder_is_mpath log_sys_error s holder_name
               /\ stat_rdev (env s) (dev_dir ++ str "/" ++ holder_name) = Some n)
    /\ logs_only s s'.
Proof.
  induction names as [|holder_name rest IH]; intros s t devno s' tab' M; cbn [check_holders].
  { intros [= <- <- <-]. exists t. split; [done|]. split; [done|]. split; [done|].
    split; [done|apply logs_only_refl]. }
  assert (Step : forall s1, logs_only s s1 ->
    check_holders dev_dir stat_errno log_sys_error s1 (Some t) d rest = (devno, s', tab') ->
    exists t', tab' = Some t' /\ memo_sound dev_dir log_sys_error s' t'
    /\ (forall m v, t !! m = Some v -> t' !! m = Some v)
    /\ (forall n, devno = Some n ->
          MAJOR n = device_mapper_major (dev_types (cmd s)) /\ t' !! MINOR n = Some 2%Z
          /\ exists holder_name, holder_is_mpath log_sys_error s holder_name
               /\ stat_rdev (env s) (dev_dir ++ str "/" ++ holder_name) = Some n)
    /\ logs_only s s').
  { intros s1 L E. apply IH in E; [|by eapply memo_sound_frame].
    destruct E as (t' & -> & M' & K & R & L'). exists t'. split; [done|]. split; [done|].
    split; [done|]. split; [|by eapply logs_only_trans].
    intros n Hn. destruct (R n Hn) as (R1 & R2 & hn & R3 & R4).
    pose proof L as (Hc & He & Hf & _). rewrite <- Hc, <- He. split; [done|]. split; [done|].
    exists hn. split; [|done]. unfold holder_is_mpath in *.
    by rewrite <- (get_sysfs_dm_mpath_frame s s1 hn). }
  destruct (streq holder_name (str ".") || streq holder_name (str ".."));
    [apply Step, logs_only_refl|].
  destruct (dm_snprintf PATH_MAX (dev_dir ++ str "/" ++ holder_name)) as [dm_dev_path|] eqn:Ep;
    [|apply Step; by repeat split].
  assert (dm_dev_path = dev_dir ++ str "/" ++ holder_name) as ->.
  { unfold dm_snprintf in Ep. destruct (_ <? _); by inversion Ep. }
  destruct (stat_rdev (env s) _) as [rdev|] eqn:Est; [|apply Step; by repeat split].
  cbn zeta.
  destruct (bool_decide (MAJOR rdev = device_mapper_major (dev_types (cmd s)))) eqn:Emaj;
    cbn [negb]; [|apply Step; by repeat split].
  apply bool_decide_eq_true in Emaj. cbn [mbind option_bind].
  destruct (t !! MINOR rdev) as [v|] eqn:Ev; cbn [default from_option]; unfold id.
  - destruct (M _ _ Ev) as (Hv12 & hn & Hst & Hmp).
    replace (0 <? v)%Z with true by (destruct Hv12 as [-> | ->]; done).
    intros [= <- <- <-]. exists t. split; [done|].
    split; [eapply memo_sound_frame; [|exact M]; by repeat split|].
    split; [done|]. split; [|by repeat split].
    intros n Hn. destruct (v =? 2)%Z eqn:E2; [|done]. injection Hn as <-.
    apply Z.eqb_eq in E2. subst v. cbn [MAJOR MINOR]. split; [done|]. split; [done|].
    exists hn. split; [by apply Hmp|]. rewrite Hst. by destruct rdev; cbn in *; subst.
  - replace (0 <? 0)%Z with false by done.
    pose proof (get_sysfs_dm_mpath_logs s holder_name) as L1.
    destruct (_get_sysfs_dm_mpath log_sys_error s holder_name) as [is_mpath s1] eqn:Eg.
    cbn [snd] in L1. cbn [fmap option_fmap option_map].
    assert (Hn : Some rdev
                 = Some (mk_dev_t (device_mapper_major (dev_types (cmd s))) (MINOR rdev)))
      by (by destruct rdev; cbn in *; subst).
    assert (M1 : forall v, (v = 2%Z <-> is_mpath = true) -> v = 1%Z \/ v = 2%Z ->
              memo_sound dev_dir log_sys_error s (<[MINOR rdev := v]> t)).
    { intros v Hv Hv12 minor w Hw. destruct (decide (minor = MINOR rdev)) as [->|Hne].
      - rewrite lookup_insert_eq in Hw. injection Hw as <-. split; [done|].
        exists holder_name. split; [by rewrite Est|]. unfold holder_is_mpath. by rewrite Eg.
      - rewrite lookup_insert_ne in Hw by done. by apply M. }
    assert (K1 : forall v m w, t !! m = Some w -> <[MINOR rdev := v]> t !! m = Some w).
    { intros v m w Hw. rewrite lookup_insert_ne; [done|]. intros <-. congruence. }
    destruct is_mpath.
    + intros [= <- <- <-]. eexists. split; [reflexivity|].
      split; [eapply memo_sound_frame;
               [eapply logs_only_trans; [exact L1|by repeat split]|apply M1; [done|by right]]|].
      split; [apply K1|]. split.
      * intros n [= <-]. split; [done|]. split; [by rewrite lookup_insert_eq|].
        exists holder_name. split; [|rewrite Est; by destruct rdev].
        unfold holder_is_mpath. by rewrite Eg.
      * eapply logs_only_trans; [exact L1|]. by repeat split.
    + intros E. apply IH in E.
      2:{ eapply memo_sound_frame; [exact L1|]. apply M1; [done|by left]. }
      destruct E as (t' & -> & M' & K & R & L'). exists t'. split; [done|]. split; [done|].
      split; [intros m w Hw; apply K; by apply K1|].
      split; [|by eapply logs_only_trans].
      intros n Hn'. destruct (R n Hn') as (R1 & R2 & hn & R3 & R4).
      pose proof L1 as (Hc & He & Hf & Hd & Hg). rewrite <- Hc, <- He.
      split; [done|]. split; [done|]. exists hn. split; [|done]. unfold holder_is_mpath in *.
      by rewrite <- (get_sysfs_dm_mpath_frame s s1 hn).
Qed.

Lemma sysfs_name_logs s d : logs_only s (snd (_get_sysfs_name s d)).
Proof.
  unfold _get_sysfs_name. destruct (strrchr _ _) as [p|]; [|by repeat split].
  destruct (drop 1 p); by repeat split.
Qed.

Lemma sysfs_name_by_devt_logs s devno :
  logs_only s (snd (_get_sysfs_name_by_devt readlink log_sys_error s devno)).
Proof.
  unfold _get_sysfs_name_by_devt. destruct (dm_snprintf _ _) as [path|]; [|by repeat split].
  destruct (readlink path) as [target|]; [|by repeat split].
  destruct (strrchr _ _); by repeat split.
Qed.

(** X28: with a table of minor numbers that is right, [_dev_is_mpath_component_sysfs]
    keeps it right and keeps what it holds; when the call returns 1, the number
    it reports has the major number of the device mapper, its minor number is
    kept with 2, and it is the number of the node of a holder whose dm uuid
    starts with [mpath-].  The call changes nothing else but the log. *)
Theorem mpath_component_sysfs_sound s t h d devno s' tab' :
  memo_sound dev_dir log_sys_error s t ->
  _dev_is_mpath_component_sysfs major_is_scsi_device dev_is_nvme readlink stat_is_dir readdir
    dev_dir stat_errno log_sys_error s (Some t) h d = (devno, s', tab') ->
  exists t', tab' = Some t' /\ memo_sound dev_dir log_sys_error s' t'
    /\ (forall m v, t !! m = Some v -> t' !! m = Some v)
    /\ (forall n, devno = Some n ->
          MAJOR n = device_mapper_major (dev_types (cmd s)) /\ t' !! MINOR n = Some 2%Z
          /\ exists holder_name, holder_is_mpath log_sys_error s holder_name
               /\ stat_rdev (env s) (dev_dir ++ str "/" ++ holder_name) = Some n)
    /\ cmd s' = cmd s /\ env s' = env s /\ fs s' = fs s /\ devs s' = devs s /\ glob s' = glob s.
Proof.
  intros M. unfold _dev_is_mpath_component_sysfs. cbn zeta.
  assert (Stop : forall s1, logs_only s s1 ->
    (None, s1, Some t) = (devno, s', tab') ->
    exists t', tab' = Some t' /\ memo_sound dev_dir log_sys_error s' t'
    /\ (forall m v, t !! m = Some v -> t' !! m = Some v)
    /\ (forall n, devno = Some n ->
          MAJOR n = device_mapper_major (dev_types (cmd s)) /\ t' !! MINOR n = Some 2%Z
          /\ exists holder_name, holder_is_mpath log_sys_error s holder_name
               /\ stat_rdev (env s) (dev_dir ++ str "/" ++ holder_name) = Some n)
    /\ logs_only s s').
  { intros s1 L [= <- <- <-]. exists t. split; [done|].
    split; [by eapply memo_sound_frame|]. split; [done|]. split; [done|done]. }
  destruct (negb (major_is_scsi_device _) && negb (dev_is_nvme h)); [apply Stop, logs_only_refl|].
  destruct (dev_get_primary_dev (env s) h) as [ret primary_dev].
  set (named := if bool_decide (ret = 2%Z) then _ else _).
  assert (L : logs_only s (snd named)).
  { subst named. destruct (bool_decide (ret = 2%Z)).
    - pose proof (sysfs_name_by_devt_logs s primary_dev) as L.
      destruct (_get_sysfs_name_by_devt readlink log_sys_error s primary_dev) as [[name|] s1];
        [|exact L]. cbn [snd] in *. eapply logs_only_trans; [exact L|]. by repeat split.
    - destruct (bool_decide (ret = 1%Z)); [apply sysfs_name_logs|by repeat split]. }
  destruct named as [[name|] s1]; cbn [snd] in L; [|by apply Stop].
  pose proof L as (Hc & He & Hf & Hd & Hg).
  destruct (dm_snprintf _ _) as [holders_path|];
    [|apply Stop; eapply logs_only_trans; [exact L|by repeat split]].
  destruct (stat_is_dir holders_path) as [[|]|];
    [|apply Stop; eapply logs_only_trans; [exact L|by repeat split]|by apply Stop].
  destruct (readdir holders_path) as [names|];
    [|apply Stop; eapply logs_only_trans; [exact L|by repeat split]].
  intros E. apply check_holders_sound in E; [|by eapply memo_sound_frame].
  destruct E as (t' & -> & M' & K & R & L'). exists t'. split; [done|]. split; [done|].
  split; [done|]. split; [|by eapply logs_only_trans].
  intros n Hn. destruct (R n Hn) as (R1 & R2 & hn & R3 & R4). rewrite <- Hc, <- He.
  split; [done|]. split; [done|]. exists hn. split; [|done]. unfold holder_is_mpath in *.
  by rewrite <- (get_sysfs_dm_mpath_frame s s1 hn).
Qed.

(** A verdict that is kept stays, and the loop only logs. *)
Lemma check_holders_keeps d names : forall s tab r s' tab',
  check_holders dev_dir stat_errno log_sys_error s tab d names = (r, s', tab') ->
  logs_only s s'
  /\ forall t, tab = Some t ->
       exists t', tab' = Some t' /\ forall m v, t !! m = Some v -> (0 < v)%Z -> t' !! m = Some v.
Proof.
  induction names as [|holder_name rest IH]; intros s tab r s' tab'; cbn [check_holders].
  { intros [= <- <- <-]. split; [apply logs_only_refl|]. intros t ->. by exists t. }
  assert (Step : forall s1, logs_only s s1 ->
    check_holders dev_dir stat_errno log_sys_error s1 tab d rest = (r, s', tab') ->
    logs_only s s'
    /\ forall t, tab = Some t ->
         exists t', tab' = Some t'
           /\ forall m v, t !! m = Some v -> (0 < v)%Z -> t' !! m = Some v).
  { intros s1 L E. apply IH in E as (L' & K). split; [by eapply logs_only_trans|done]. }
  destruct (streq holder_name (str ".") || streq holder_name (str ".."));
    [apply Step, logs_only_refl|].
  destruct (dm_snprintf PATH_MAX (dev_dir ++ str "/" ++ holder_name)) as [dm_dev_path|];
    [|apply Step; by repeat split].
  destruct (stat_rdev (env s) _) as [rdev|]; [|apply Step; by repeat split].
  cbn zeta.
  destruct (negb (bool_decide _)); [apply Step; by repeat split|].
  destruct (0 <? _)%Z eqn:Elook.
  { intros [= <- <- <-]. split; [by repeat split|]. intros t ->. by exists t. }
  pose proof (get_sysfs_dm_mpath_logs s holder_name) as L1.
  destruct (_get_sysfs_dm_mpath log_sys_error s holder_name) as [is_mpath s1]. cbn [snd] in L1.
  assert (K1 : forall v t m w, tab = Some t -> t !! m = Some w -> (0 < w)%Z ->
            <[MINOR rdev := v]> t !! m = Some w).
  { intros v t m w -> Hw Hpos. rewrite lookup_insert_ne; [done|]. intros <-.
    cbn [mbind option_bind] in Elook. rewrite Hw in Elook. cbn in Elook.
    apply Z.ltb_ge in Elook. unfold id in Elook. lia. }
  destruct is_mpath.
  - intros [= <- <- <-]. split; [eapply logs_only_trans; [exact L1|by repeat split]|].
    intros t ->. eexists. split; [reflexivity|]. intros m v. by apply K1.
  - intros E. apply IH in E as (L' & K). split; [by eapply logs_only_trans|].
    intros t ->. destruct (K _ eq_refl) as (t' & -> & K'). exists t'. split; [done|].
    intros m v Hv Hpos. apply K'; [|done]. by apply (K1 1%Z t).
Qed.

(** X29: the loop of [_dev_is_mpath_component_sysfs] over the holders ends at
    the first holder of the device-mapper major with a kept verdict.  So when
    the first holder is such a device, not kept yet and not a multipath
    device, a second run over the same holders returns 0 whatever the first
    run returned, and changes the log only. *)
Theorem check_holders_again s t d holder_name rest rdev r1 s1 tab1 :
  streq holder_name (str ".") || streq holder_name (str "..") = false ->
  length (dev_dir ++ str "/" ++ holder_name) < PATH_MAX ->
  stat_rdev (env s) (dev_dir ++ str "/" ++ holder_name) = Some rdev ->
  MAJOR rdev = device_mapper_major (dev_types (cmd s)) ->
  t !! MINOR rdev = None ->
  ~ holder_is_mpath log_sys_error s holder_name ->
  check_holders dev_dir stat_errno log_sys_error s (Some t) d (holder_name :: rest)
  = (r1, s1, tab1) ->
  exists s2,
    check_holders dev_dir stat_errno log_sys_error s1 tab1 d (holder_name :: rest)
    = (None, s2, tab1)
    /\ cmd s2 = cmd s /\ env s2 = env s /\ fs s2 = fs s /\ devs s2 = devs s
    /\ glob s2 = glob s.
Proof.
  intros Hdot Hlen Hst Hmaj Hnew Hno. cbn [check_holders]. rewrite Hdot.
  assert (Hp : dm_snprintf PATH_MAX (dev_dir ++ str "/" ++ holder_name)
               = Some (dev_dir ++ str "/" ++ holder_name)).
  { unfold dm_snprintf. by apply Nat.ltb_lt in Hlen as ->. }
  rewrite Hp, Hst. cbn zeta. rewrite Hmaj, bool_decide_eq_true_2 by done. cbn [negb].
  cbn [mbind option_bind]. rewrite Hnew. cbn [default from_option].
  replace (0 <? 0)%Z with false by done.
  pose proof (get_sysfs_dm_mpath_logs s holder_name) as L1.
  unfold holder_is_mpath in Hno.
  destruct (_get_sysfs_dm_mpath log_sys_error s holder_name) as [is_mpath s0].
  cbn [fst snd] in *. destruct is_mpath; [done|]. cbn [fmap option_fmap option_map].
  intros E. apply check_holders_keeps in E as (L2 & K).
  destruct (K _ eq_refl) as (t1 & -> & K1).
  pose proof (logs_only_trans _ _ _ L1 L2) as (Hc & He & Hf & Hd & Hg).
  rewrite He, Hst, Hc, bool_decide_eq_true_2 by done. cbn [negb].
  cbn [mbind option_bind]. rewrite (K1 (MINOR rdev) 1%Z) by (by rewrite ?lookup_insert_eq).
  cbn [default from_option]. unfold id. replace (0 <? 1)%Z with true by done.
  replace (1 =? 2)%Z with false by done.
  eexists. split; [reflexivity|]. cbn [cmd env fs devs glob log_debug add_log]. done.
Qed.

End MpathComponentFacts.

Lemma mpath_component_sysfs_sound_witness :
  fst (fst holders_first) = Some (mk_dev_t 253 2)
  /\ exists t', snd holders_first = Some t'
    /\ memo_sound (str "/dev") sys_error_sample (snd (fst holders_first)) t'
    /\ (forall m v, (∅ : gmap Z Z) !! m = Some v -> t' !! m = Some v)
    /\ (forall n, fst (fst holders_first) = Some n ->
          MAJOR n = device_mapper_major (dev_types (cmd state_holders))
          /\ t' !! MINOR n = Some 2%Z
          /\ exists holder_name, holder_is_mpath sys_error_sample state_holders holder_name
               /\ stat_rdev (env state_holders) (str "/dev" ++ str "/" ++ holder_name) = Some n)
    /\ cmd (snd (fst holders_first)) = cmd state_holders
    /\ env (snd (fst holders_first)) = env state_holders
    /\ fs (snd (fst holders_first)) = fs state_holders
    /\ devs (snd (fst holders_first)) = devs state_holders
    /\ glob (snd (fst holders_first)) = glob state_holders.
Proof.
  split; [vm_compute; reflexivity|].
  apply (mpath_component_sysfs_sound (fun m => (m =? 8)%Z) (fun _ => false) (fun _ => None)
    (fun p => if streq p (str "/sys/block/sdb/holders") then Some true else None)
    (fun _ => Some [str "."; str ".."; str "dm-1"; str "dm-2"])
    (str "/dev") (fun _ => 2%Z) sys_error_sample state_holders ∅ 1 dev_sdb).
  - intros minor v Hv. by rewrite lookup_empty in Hv.
  - change (holders_first
            = (fst (fst holders_first), snd (fst holders_first), snd holders_first)).
    by destruct holders_first as [[? ?] ?].
Defined.

Lemma check_holders_again_witness :
  fst (fst loop_first) = Some (mk_dev_t 253 2)
  /\ exists s2,
       loop_sample (snd (fst loop_first)) (snd loop_first) = (None, s2, snd loop_first)
       /\ cmd s2 = cmd state_holders /\ env s2 = env state_holders /\ fs s2 = fs state_holders
       /\ devs s2 = devs state_holders /\ glob s2 = glob state_holders.
Proof.
  split; [vm_compute; reflexivity|].
  apply (check_holders_again (str "/dev") (fun _ => 2%Z) sys_error_sample state_holders ∅
           dev_sdb (str "dm-1") [str "dm-2"] (mk_dev_t 253 1)
           (fst (fst loop_first)) (snd (fst loop_first)) (snd loop_first)).
  - reflexivity.
  - vm_compute. lia.
  - reflexivity.
  - reflexivity.
  - apply lookup_empty.
  - unfold holder_is_mpath. vm_compute. discriminate.
  - change (loop_first = (fst (fst loop_first), snd (fst loop_first), snd loop_first)).
    by destruct loop_first as [[? ?] ?].
Defined.


(** ** A search that finds nothing *)

Lemma same_but_pvid_refl s : same_but_pvid s s.
Proof. by repeat split. Qed.

Lemma same_but_pvid_trans s1 s2 s3 :
  same_but_pvid s1 s2 -> same_but_pvid s2 s3 -> same_but_pvid s1 s3.
Proof.
  intros (A1 & A2 & A3 & A4 & A5) (B1 & B2 & B3 & B4 & B5).
  split; [congruence|]. split; [congruence|]. split; [congruence|]. split; [congruence|].
  intros h. by rewrite B5, A5.
Qed.

Lemma same_but_pvid_core s s' : same_but_pvid s s' -> same_core s s'.
Proof.
  intros (A1 & A2 & A3 & A4 & A5). split; [done|]. split; [done|]. intros h. specialize (A5 h).
  destruct (get_dev s' h) as [d'|], (get_dev s h) as [d|]; try done.
  cbn in *. injection A5 as ?. unfold dev_core. congruence.
Qed.

Lemma same_but_pvid_add s l f a : same_but_pvid s (add_log s l f a).
Proof. by repeat split. Qed.

Lemma wants_search_same s s' du : same_but_pvid s s' -> wants_search s' du = wants_search s du.
Proof.
  intros (A1 & A2 & A3 & A4 & A5). unfold wants_search. destruct (du_dev du) as [h|]; [|done].
  specialize (A5 h). destruct (get_dev s' h) as [d'|], (get_dev s h) as [d|]; try done.
  cbn in A5. inversion A5 as [[E1 E2 E3 E4 E5 E6 E7]]. by rewrite E5.
Qed.

Lemma wanted_same s s' :
  same_but_pvid s s' ->
  filter (fun du => wants_search s' du = true) (use_devices (cmd s'))
  = filter (fun du => wants_search s du = true) (use_devices (cmd s)).
Proof.
  intros H. pose proof H as (-> & _). apply list_filter_iff. intros du.
  by rewrite (wants_search_same s s' du H).
Qed.

Lemma search_pvids_same s s' none :
  same_but_pvid s s' -> build_search_pvids s' none = build_search_pvids s none.
Proof. intros H. unfold build_search_pvids. by rewrite (wanted_same s s' H). Qed.

Lemma search_candidate_add s l f a h : search_candidate (add_log s l f a) h = search_candidate s h.
Proof. reflexivity. Qed.

Lemma fold_search_log (l : list dev_use) : forall s,
  same_but_pvid s
    (fold_left (fun s du => log_debug "Search for PVID %s." [default [] (du_pvid du)] s) l s)
  /\ devs (fold_left (fun s du => log_debug "Search for PVID %s." [default [] (du_pvid du)] s) l s)
     = devs s.
Proof.
  induction l as [|du l IH]; intros s; cbn [fold_left]; [split; [apply same_but_pvid_refl|done]|].
  destruct (IH (log_debug "Search for PVID %s." [default [] (du_pvid du)] s)) as [H1 H2].
  split; [|by rewrite H2]. eapply same_but_pvid_trans; [|exact H1]. apply same_but_pvid_add.
Qed.

Lemma same_but_pvid_logs s es : same_but_pvid s (add_logs s es).
Proof. by repeat split. Qed.

(** A device that gives no PVID leaves the wanted PVIDs. *)
Lemma search_dev_fruitless auto s0 a h :
  same_but_pvid s0 (sa_state a) ->
  reads_pvid auto s0 h = None ->
  same_but_pvid s0 (sa_state (search_dev auto a h))
  /\ search_pvids (search_dev auto a h) = search_pvids a.
Proof.
  intros SB Hr. rewrite <- (reads_pvid_core auto s0 (sa_state a) h) in Hr
    by (by apply same_but_pvid_core).
  unfold search_dev. unfold reads_pvid in Hr.
  destruct (get_dev (sa_state a) h) as [d|] eqn:Hd; [|done].
  cbn zeta.
  set (sl := if auto then add_logs (sa_state a) (_dev_has_stable_id_log (sa_state a) h d)
             else sa_state a).
  assert (SL : same_but_pvid (sa_state a) sl /\ env sl = env (sa_state a)
               /\ devs sl = devs (sa_state a)).
  { subst sl. destruct auto; [|by repeat split]. split; [apply same_but_pvid_logs|done]. }
  destruct SL as (SBl & El & Dl).
  pose proof (same_but_pvid_trans _ _ _ SB SBl) as SB0.
  destruct (auto && _dev_has_stable_id (sa_state a) h d); [done|].
  rewrite El.
  destruct (label_read_pvid (env (sa_state a)) h) as [[pvid|]|]; [|done|done].
  replace (passes_data_filters (set_devs sl (<[h:=set_dev_pvid d pvid]> (devs sl))) h)
    with (passes_data_filters (sa_state a) h)
    by (unfold passes_data_filters; cbn [env set_devs]; by rewrite El).
  destruct (passes_data_filters (sa_state a) h); [done|]. cbn [sa_state search_pvids].
  split; [|done]. eapply same_but_pvid_trans; [exact SB0|].
  repeat split. intros h'. unfold get_dev. cbn [devs set_devs].
  destruct (decide (h = h')) as [<-|Hne].
  - rewrite lookup_insert_eq, Dl. unfold get_dev in Hd. rewrite Hd. done.
  - by rewrite lookup_insert_ne.
Qed.

Lemma search_devs_fruitless auto s0 l : forall a,
  same_but_pvid s0 (sa_state a) ->
  (forall h, h ∈ l -> reads_pvid auto s0 h = None) ->
  same_but_pvid s0 (sa_state (fold_left (search_dev auto) l a))
  /\ search_pvids (fold_left (search_dev auto) l a) = search_pvids a.
Proof.
  induction l as [|h l IH]; intros a SB Hn; cbn [fold_left]; [done|].
  destruct (search_dev_fruitless auto s0 a h SB) as (S1 & P1); [apply Hn; by left|].
  destruct (IH (search_dev auto a h) S1) as (S2 & P2); [intros h' Hh; apply Hn; by right|].
  split; [done|]. congruence.
Qed.

Lemma rename_none noupdate dils : forall s f nf u du,
  Forall (fun dil => dil_dev dil = None) dils ->
  fold_left (rename_entry noupdate) dils (mk_racc s f nf u du)
  = mk_racc s f (nf + Z.of_nat (length dils)) u du.
Proof.
  induction dils as [|dil dils IH]; intros s f nf u du H; cbn [fold_left length].
  - by rewrite Z.add_0_r.
  - inversion H as [|? ? Hd Hr]; subst. unfold rename_entry at 2.
    cbn [ra_state found not_found ra_update_file sr_du]. rewrite Hd. cbn [mbind option_bind].
    rewrite IH by done. f_equal. lia.
Qed.

Lemma recheck_none du dils : forall s,
  Forall (fun dil => dil_dev dil = None) dils ->
  fold_left (recheck_new_dev du) dils s = s.
Proof.
  induction dils as [|dil dils IH]; intros s H; cbn [fold_left]; [done|].
  inversion H as [|? ? Hd Hr]; subst. unfold recheck_new_dev at 2. rewrite Hd. by apply IH.
Qed.

Lemma omap_none dils :
  Forall (fun dil => dil_dev dil = None) dils -> omap dil_dev dils = [].
Proof.
  induction dils as [|dil dils IH]; intros H; [done|].
  inversion H as [|? ? Hd Hr]; subst. cbn [omap list_omap]. rewrite Hd. by apply IH.
Qed.

Lemma build_search_pvids_none s none :
  Forall (fun dil => dil_dev dil = None) (build_search_pvids s none).
Proof.
  unfold build_search_pvids. destruct none; [constructor|].
  apply Forall_map. by apply Forall_true.
Qed.

(** A call that is not skipped, on devices that give no wanted PVID. *)
Lemma fruitless_search s noupdate fd :
  enable_devices_file (cmd s) = true ->
  devicesfile (cmd s) = None ->
  files (fs s) !! searched_file s = None ->
  can_create (fs s) (searched_file s) = true ->
  build_search_pvids s (streq (search_for_devnames (cmd s)) (str "none")) <> [] ->
  (forall h, search_candidate s h = true ->
     reads_pvid (streq (search_for_devnames (cmd s)) (str "auto")) s h = None) ->
  let r := device_ids_find_renamed_devs s noupdate fd in
  sr_dev_list r = []
  /\ sr_search_count r
     = Z.of_nat (length (filter (fun du => wants_search s du = true) (use_devices (cmd s))))
  /\ cmd (sr_state r) = cmd s /\ env (sr_state r) = env s /\ glob (sr_state r) = glob s
  /\ files (fs (sr_state r)) = <[searched_file s := []]> (files (fs s))
  /\ (forall h, (fun d => set_dev_pvid d []) <$> get_dev (sr_state r) h
                = (fun d => set_dev_pvid d []) <$> get_dev s h).
Proof.
  intros Hen Hdf Hnone Hcreate Hwant Hread. unfold device_ids_find_renamed_devs.
  rewrite Hen. cbn [negb]. cbn zeta.
  set (wanted := filter (fun du => wants_search s du = true) (use_devices (cmd s))).
  destruct (fold_search_log wanted s) as [SB0 _].
  set (s0 := fold_left _ wanted s) in *. clearbody s0.
  rewrite (search_pvids_same s s0 _ SB0).
  destruct (build_search_pvids s _) as [|dil0 dils0] eqn:Eb; [done|].
  pose proof (build_search_pvids_none s (streq (search_for_devnames (cmd s)) (str "none")))
    as Hall. rewrite Eb in Hall.
  pose proof SB0 as (C0 & E0 & F0 & G0 & D0).
  assert (Ex0 : _searched_devnames_exists s0 = false).
  { unfold _searched_devnames_exists, searched_file. rewrite C0, Hdf, F0, E0.
    unfold searched_file in Hnone. rewrite Hnone. by apply bool_decide_eq_false_2; intros [? ?]. }
  rewrite Ex0.
  unfold search_read_devs. cbn zeta.
  set (s1 := log_debug "Search for PVIDs filtering." [] s0).
  assert (SB1 : same_but_pvid s s1)
    by (eapply same_but_pvid_trans; [exact SB0|apply same_but_pvid_add]).
  set (cands := build_search_devs s1).
  set (s2 := log_debug "Search for PVIDs reading labels on %d devs." _ s1).
  assert (SB2 : same_but_pvid s s2)
    by (eapply same_but_pvid_trans; [exact SB1|apply same_but_pvid_add]).
  rewrite (search_pvids_same s s2 _ SB2), C0, Eb.
  assert (Hc : forall h, h ∈ cands ->
            reads_pvid (streq (search_for_devnames (cmd s)) (str "auto")) s h = None).
  { intros h Hin. subst cands. unfold build_search_devs in Hin.
    apply list_elem_of_filter in Hin as [Hin _]. apply Hread.
    revert Hin. unfold search_candidate. pose proof SB1 as (_ & E1 & _ & _ & D1).
    specialize (D1 h). rewrite E1.
    destruct (get_dev s1 h) as [d1|], (get_dev s h) as [d|]; try done.
    cbn in D1. inversion D1 as [[X1 X2 X3 X4 X5 X6 X7]]. by rewrite X3. }
  destruct (search_devs_fruitless (streq (search_for_devnames (cmd s)) (str "auto")) s cands
              (mk_sacc s2 (dil0 :: dils0) 0 0 0) SB2 Hc) as (SB3 & P3).
  set (a := fold_left _ cands _) in *. clearbody a. cbn [sa_state search_pvids] in *.
  rewrite P3.
  set (s4 := log_debug "Search for PVIDs other_pvid %d no_pvid %d other_idtype %d." _ _).
  assert (SB4 : same_but_pvid s s4)
    by (eapply same_but_pvid_trans; [exact SB3|apply same_but_pvid_add]).
  rewrite rename_none by done.
  cbn [ra_state found not_found ra_update_file sr_du andb].
  rewrite recheck_none by done. rewrite omap_none by done.
  replace (negb (bool_decide (0 + Z.of_nat (length (dil0 :: dils0)) = 0)%Z)) with true
    by (symmetry; apply negb_true_iff, bool_decide_eq_false_2; cbn [length]; lia).
  rewrite bool_decide_eq_true_2 by done. cbn [andb].
  set (s5 := log_debug "Search for PVIDs found no updates" [] s4).
  assert (SB5 : same_but_pvid s s5)
    by (eapply same_but_pvid_trans; [exact SB4|apply same_but_pvid_add]).
  pose proof SB5 as (C5 & E5 & F5 & G5 & D5).
  unfold _touch_searched_devnames, searched_file. rewrite C5, Hdf, F5, E5.
  unfold searched_file in Hcreate. rewrite Hcreate. cbn [orb sr_dev_list sr_search_count sr_state].
  split; [done|]. split; [done|]. cbn [cmd env glob fs set_fs set_files files].
  split; [done|]. split; [done|]. split; [done|]. split; [done|]. exact D5.
Qed.

(** A call that finds the file of an earlier search. *)
Lemma skipped_search s noupdate fd :
  enable_devices_file (cmd s) = true ->
  devicesfile (cmd s) = None ->
  is_Some (files (fs s) !! searched_file s) ->
  build_search_pvids s (streq (search_for_devnames (cmd s)) (str "none")) <> [] ->
  let r := device_ids_find_renamed_devs s noupdate fd in
  sr_dev_list r = []
  /\ sr_search_count r
     = Z.of_nat (length (filter (fun du => wants_search s du = true) (use_devices (cmd s))))
  /\ cmd (sr_state r) = cmd s /\ fs (sr_state r) = fs s /\ devs (sr_state r) = devs s
  /\ last (log (sr_state r))
     = Some (mk_log LOG_DEBUG "Search for PVIDs skipped for %s" [searched_file s]).
Proof.
  intros Hen Hdf Hex Hwant. unfold device_ids_find_renamed_devs.
  rewrite Hen. cbn [negb]. cbn zeta.
  set (wanted := filter (fun du => wants_search s du = true) (use_devices (cmd s))).
  destruct (fold_search_log wanted s) as [SB0 D0].
  set (s0 := fold_left _ wanted s) in *. clearbody s0.
  rewrite (search_pvids_same s s0 _ SB0).
  destruct (build_search_pvids s _) as [|dil0 dils0] eqn:Eb; [done|].
  pose proof SB0 as (C0 & E0 & F0 & G0 & _).
  assert (Ex0 : _searched_devnames_exists s0 = true).
  { unfold _searched_devnames_exists, searched_file. rewrite C0, Hdf, F0, E0.
    by apply bool_decide_eq_true_2. }
  rewrite Ex0. cbn [sr_dev_list sr_search_count sr_state cmd fs devs log log_debug add_log].
  split; [done|]. split; [done|]. split; [done|]. split; [done|]. split; [done|].
  rewrite last_snoc. unfold searched_file. by rewrite E0.
Qed.

(** X30: when [device_ids_find_renamed_devs] searches and no candidate device
    gives a PVID, it returns no device, leaves the command context as it is
    and creates the empty file of searched device names; the next call is
    then skipped: it returns no device and the same count, changes neither
    the devices nor the files, and its last message says that the search was
    skipped. *)
Theorem fruitless_search_is_not_repeated (s : state) (noupdate : bool) (fd : Z) :
  enable_devices_file (cmd s) = true ->
  devicesfile (cmd s) = None ->
  files (fs s) !! searched_file s = None ->
  can_create (fs s) (searched_file s) = true ->
  build_search_pvids s (streq (search_for_devnames (cmd s)) (str "none")) <> [] ->
  (forall h, search_candidate s h = true ->
     reads_pvid (streq (search_for_devnames (cmd s)) (str "auto")) s h = None) ->
  let r1 := device_ids_find_renamed_devs s noupdate fd in
  let r2 := device_ids_find_renamed_devs (sr_state r1) noupdate fd in
  sr_dev_list r1 = []
  /\ cmd (sr_state r1) = cmd s
  /\ files (fs (sr_state r1)) = <[searched_file s := []]> (files (fs s))
  /\ sr_dev_list r2 = []
  /\ sr_search_count r2 = sr_search_count r1
  /\ cmd (sr_state r2) = cmd s
  /\ fs (sr_state r2) = fs (sr_state r1)
  /\ devs (sr_state r2) = devs (sr_state r1)
  /\ last (log (sr_state r2))
     = Some (mk_log LOG_DEBUG "Search for PVIDs skipped for %s" [searched_file s]).
Proof.
  intros Hen Hdf Hnone Hcreate Hwant Hread. cbn zeta.
  destruct (fruitless_search s noupdate fd Hen Hdf Hnone Hcreate Hwant Hread)
    as (R1 & R2 & R3 & R4 & R5 & R6 & R7).
  cbn zeta in *. set (s1 := sr_state (device_ids_find_renamed_devs s noupdate fd)) in *.
  assert (SB : same_but_pvid s (set_fs s1 (fs s))).
  { split; [done|]. split; [done|]. split; [done|]. split; [done|]. exact R7. }
  assert (W : filter (fun du => wants_search s1 du = true) (use_devices (cmd s1))
              = filter (fun du => wants_search s du = true) (use_devices (cmd s)))
    by exact (wanted_same s _ SB).
  assert (Sf : searched_file s1 = searched_file s) by (unfold searched_file; by rewrite R4).
  destruct (skipped_search s1 noupdate fd) as (Q1 & Q2 & Q3 & Q4 & Q5 & Q6).
  - by rewrite R3.
  - by rewrite R3.
  - rewrite R6, Sf, lookup_insert_eq. by eexists.
  - rewrite R3. change (build_search_pvids s1 ?n) with (build_search_pvids (set_fs s1 (fs s)) n).
    by rewrite (search_pvids_same s _ _ SB).
  - cbn zeta in *. rewrite Sf in Q6. rewrite W in Q2.
    split; [done|]. split; [done|]. split; [done|]. split; [done|].
    split; [congruence|]. split; [congruence|]. done.
Qed.

Lemma fruitless_search_is_not_repeated_witness :
  let r1 := device_ids_find_renamed_devs state_gone false 5 in
  let r2 := device_ids_find_renamed_devs (sr_state r1) false 5 in
  sr_dev_list r1 = []
  /\ cmd (sr_state r1) = cmd state_gone
  /\ files (fs (sr_state r1)) = <[searched_file state_gone := []]> (files (fs state_gone))
  /\ sr_dev_list r2 = []
  /\ sr_search_count r2 = sr_search_count r1
  /\ cmd (sr_state r2) = cmd state_gone
  /\ fs (sr_state r2) = fs (sr_state r1)
  /\ devs (sr_state r2) = devs (sr_state r1)
  /\ last (log (sr_state r2))
     = Some (mk_log LOG_DEBUG "Search for PVIDs skipped for %s" [searched_file state_gone]).
Proof.
  apply (fruitless_search_is_not_repeated state_gone false 5).
  - reflexivity.
  - reflexivity.
  - reflexivity.
  - reflexivity.
  - vm_compute. discriminate.
  - intros h Hh. unfold reads_pvid, get_dev. cbn [devs state_gone].
    destruct (decide (h = 1)) as [->|Hne]; [vm_compute; reflexivity|].
    by rewrite lookup_singleton_ne.
Defined.

